(** * Digi NS9xxx I2C master driver: command/interrupt protocol engine

    A shallow embedding of [drivers/i2c/busses/i2c-ns9xxx.c].  The driver is
    sequential code that talks to a stateful peripheral, so every driver
    function becomes a computation in a state monad over a [machine]: the
    fields of [struct ns9xxx_i2c], the controller registers, the memory the
    message buffers live in, the kernel clock, and a chronological [trace] of
    everything the driver does to the outside (register accesses, GPIO
    operations, sleeps, wake-ups, log messages) together with its stores to
    the completion state.

    What the hardware answers is not decided by the driver.  It is supplied
    by three oracles that are part of the machine: the value of each
    successive read of the status register, the outcome of each successive
    blocking wait, and the level seen by each successive GPIO read.  Theorems
    are quantified over all machines, hence over all hardware behaviours.

    Choices of the model:
    - The interrupt handler [ns9xxx_i2c_irq] runs when the oracle lets a
      blocking wait end with an interrupt, and at no other time.
    - Spin locks are not modelled (the embedding is sequential); the stores
      they protect are.
    - The kernel clock is [jiffies], a 32-bit counter.  [msleep] moves it on
      by the ticks the kernel rounds the sleep up to, a timed-out wait by
      its timeout; [mdelay] spins and is only recorded (no deadline of the
      driver spans an [mdelay]).
    - Buffers live in a byte-addressed memory; a cell that was never written
      reads as 0.
    - Loops that C bounds by time or by its loop variable are recursive
      functions on a number of rounds that is computed from the same bound;
      lemmas [busy_window_fuel_enough] and [xfer_fuel_enough] show that the
      number is never what ends them. *)

From Stdlib Require Import ZArith Lia List Bool.
From stdpp Require Import base gmap list.
Import ListNotations.
Local Open Scope Z_scope.

(** ** Machine integers *)

Definition u32 (x : Z) : Z := x mod 2 ^ 32.

(** The value of a 32-bit pattern read as a [long]. *)
Definition s32 (x : Z) : Z := if u32 x <? 2 ^ 31 then u32 x else u32 x - 2 ^ 32.

(** [unsigned char] on ARM: a buffer cell holds 8 bits. *)
Definition u8 (x : Z) : Z := x mod 2 ^ 8.

(** ** Constants of the driver *)

(* registers *)
Definition I2C_CMD : Z := 0x00.
Definition I2C_STATUS : Z := 0x00.
Definition I2C_MASTERADDR : Z := 0x04.
Definition I2C_SLAVEADDR : Z := 0x08.
Definition I2C_CONFIG : Z := 0x0c.

(* command bit fields *)
Definition I2C_CMD_TXVAL : Z := Z.shiftl 1 13.
Definition I2C_MASTERADDR_7BIT : Z := 0.
Definition I2C_MASTERADDR_10BIT : Z := 1.

(* configuration masks *)
Definition I2C_CONFIG_CLREFMASK : Z := 0x000001ff.
Definition I2C_MASTERADDR_ADDRMASK : Z := 0x000007ff.

(* configuration bitfields *)
Definition I2C_CONFIG_IRQD : Z := Z.shiftl 1 15.
Definition I2C_CONFIG_TMDE : Z := Z.shiftl 1 14.
Definition I2C_CONFIG_VSCD : Z := Z.shiftl 1 13.

(* configuration shifts *)
Definition I2C_MASTERADDR_ADDRSHIFT : Z := 1.
Definition I2C_CONFIG_SFW_SHIFT : Z := 9.

(* shifted i2c commands *)
Definition I2C_CMD_NOP : Z := 0.
Definition I2C_CMD_READ : Z := Z.shiftl 4 8.
Definition I2C_CMD_WRITE : Z := Z.shiftl 5 8.
Definition I2C_CMD_STOP : Z := Z.shiftl 6 8.

(* interrupt causes *)
Definition I2C_IRQ_MASK : Z := Z.shiftl 0xf 8.
Definition I2C_IRQ_ARBITLOST : Z := Z.shiftl 1 8.
Definition I2C_IRQ_NOACK : Z := Z.shiftl 2 8.
Definition I2C_IRQ_TXDATA : Z := Z.shiftl 3 8.
Definition I2C_IRQ_RXDATA : Z := Z.shiftl 4 8.
Definition I2C_IRQ_CMDACK : Z := Z.shiftl 5 8.

Definition I2C_NORMALSPEED : Z := 100000.
Definition I2C_HIGHSPEED : Z := 400000.

(* status bits *)
Definition I2C_STATUS_BSTS : Z := 0x8000.
Definition I2C_STATUS_RDE : Z := 0x4000.
Definition I2C_STATUS_MCMDL : Z := 0x1000.
Definition I2C_STATUS_IRQCD_MASK : Z := 0x0f00.
Definition I2C_STATUS_RXDATA_MASK : Z := 0x00ff.

Definition BUSY_RELEASE_ATTEMPTS : Z := 10.

(** Kernel constants the driver uses ([linux/errno.h], [linux/i2c.h]). *)
Definition EIO : Z := 5.
Definition ENODEV : Z := 19.
Definition EINVAL : Z := 22.
Definition ETIMEDOUT : Z := 110.
Definition ERESTARTSYS : Z := 512.

Definition I2C_M_RD : Z := 0x0001.
Definition I2C_M_TEN : Z := 0x0010.
Definition I2C_M_NOSTART : Z := 0x4000.

Definition NULL : Z := 0.

(** ** Data model *)

Inductive i2c_int_state : Type :=
  | I2C_INT_AWAITING
  | I2C_INT_OK
  | I2C_INT_RETRY
  | I2C_INT_ERROR
  | I2C_INT_ABORT.

Definition state_eqb (a b : i2c_int_state) : bool :=
  match a, b with
  | I2C_INT_AWAITING, I2C_INT_AWAITING
  | I2C_INT_OK, I2C_INT_OK
  | I2C_INT_RETRY, I2C_INT_RETRY
  | I2C_INT_ERROR, I2C_INT_ERROR
  | I2C_INT_ABORT, I2C_INT_ABORT => true
  | _, _ => false
  end.

(** [struct i2c_msg]: [msg_buf] is the address of the caller's buffer. *)
Record i2c_msg : Type := {
  msg_addr : Z;
  msg_flags : Z;
  msg_len : Z;
  msg_buf : Z
}.

(** [struct plat_ns9xxx_i2c]; its callback [gpio_configuration_func] has no
    data and shows up as an event when it is invoked. *)
Record plat_ns9xxx_i2c : Type := {
  gpio_scl : Z;
  gpio_sda : Z;
  speed : Z
}.

(** How a blocking wait on the wait queue ends. *)
Inductive wait_outcome : Type :=
  | WaitIrq        (* the controller raised its interrupt *)
  | WaitTimeout    (* the timeout elapsed, no interrupt *)
  | WaitSignal.    (* the sleeping task was interrupted by a signal *)

(** The log lines of the driver, one constructor per [printk] site. *)
Inductive kmsg : Type :=
  | MsgUnlockTimeout
  | MsgIrqTimeout (cmd timeout : Z)
  | MsgNotRetrying
  | MsgStateNotOk (st : i2c_int_state)
  | MsgBitbangBits (nr_bits : Z)
  | MsgResetNotNeeded
  | MsgSdaLowBefore
  | MsgSclLowAtStart (cycle : Z)
  | MsgSdaChanged (prev_sda sda cycle : Z)
  | MsgSclLowAtEnd (cycle : Z)
  | MsgSclHeldLow
  | MsgSdaHeldLow
  | MsgResetSuccessful
  | MsgResetUnsuccessful (effective_cycles : Z)
  | MsgRegisters (status masteraddr config : Z) (st : i2c_int_state)
  | MsgStillLocked (status : Z)
  | MsgClockError
  | MsgModuleIdle (status : Z)
  | MsgBusyAttempt (attempt : Z)
  | MsgGivingUp (attempts : Z)
  | MsgStuck (st : i2c_int_state)
  | MsgStillStuck
  | MsgWrongClock
  | MsgClockSet (freq rate delay config : Z).

Inductive event : Type :=
  | EvReadl (off val : Z)
  | EvWritel (val off : Z)
  | EvSetState (st : i2c_int_state)
  | EvWake
  | EvWait (o : wait_outcome)
  | EvDisableIrq (irq : Z)
  | EvEnableIrq (irq : Z)
  | EvGpioDirectionOutput (pin val : Z)
  | EvGpioDirectionInput (pin : Z)
  | EvGpioSetValue (pin val : Z)
  | EvGpioGetValue (pin val : Z)
  | EvGpioConfigurationFunc
  | EvMdelay (ms : Z)
  | EvMsleep (ms : Z)
  | EvPrintk (msg : kmsg).

(** What the driver does not decide: build and platform parameters, and the
    answers of the hardware. *)
Record environment : Type := {
  HZ : Z;                         (* kernel tick rate *)
  clk_rate : Z;                   (* what clk_get_rate reports *)
  scl_delay : Z;                  (* the module parameter, an int *)
  CONFIG_MACH_CME9210JS : bool;   (* build option: fast mode compiled out *)
  hw_status : nat -> Z;           (* k-th read of the status register *)
  hw_wait : nat -> wait_outcome;  (* k-th blocking wait *)
  hw_gpio : nat -> Z              (* k-th gpio_get_value *)
}.

Record machine : Type := {
  env : environment;
  (* struct ns9xxx_i2c *)
  pdata : plat_ns9xxx_i2c;
  buf : Z;
  irq : Z;
  state : i2c_int_state;
  adap_timeout : Z;
  (* controller registers with plain read/write behaviour *)
  reg_masteraddr : Z;
  reg_config : Z;
  (* memory holding the message buffers, one byte per address *)
  mem : gmap Z Z;
  (* kernel clock *)
  jiffies : Z;
  (* how far the oracles have been consumed *)
  n_status : nat;
  n_wait : nat;
  n_gpio : nat;
  trace : list event
}.

Definition set_buf (p : Z) (m : machine) : machine :=
  {| env := env m; pdata := pdata m; buf := p; irq := irq m; state := state m;
     adap_timeout := adap_timeout m; reg_masteraddr := reg_masteraddr m;
     reg_config := reg_config m; mem := mem m; jiffies := jiffies m;
     n_status := n_status m; n_wait := n_wait m; n_gpio := n_gpio m;
     trace := trace m |}.

Definition set_state (s : i2c_int_state) (m : machine) : machine :=
  {| env := env m; pdata := pdata m; buf := buf m; irq := irq m; state := s;
     adap_timeout := adap_timeout m; reg_masteraddr := reg_masteraddr m;
     reg_config := reg_config m; mem := mem m; jiffies := jiffies m;
     n_status := n_status m; n_wait := n_wait m; n_gpio := n_gpio m;
     trace := trace m |}.

Definition set_reg_masteraddr (v : Z) (m : machine) : machine :=
  {| env := env m; pdata := pdata m; buf := buf m; irq := irq m; state := state m;
     adap_timeout := adap_timeout m; reg_masteraddr := v;
     reg_config := reg_config m; mem := mem m; jiffies := jiffies m;
     n_status := n_status m; n_wait := n_wait m; n_gpio := n_gpio m;
     trace := trace m |}.

Definition set_reg_config (v : Z) (m : machine) : machine :=
  {| env := env m; pdata := pdata m; buf := buf m; irq := irq m; state := state m;
     adap_timeout := adap_timeout m; reg_masteraddr := reg_masteraddr m;
     reg_config := v; mem := mem m; jiffies := jiffies m;
     n_status := n_status m; n_wait := n_wait m; n_gpio := n_gpio m;
     trace := trace m |}.

Definition set_mem (h : gmap Z Z) (m : machine) : machine :=
  {| env := env m; pdata := pdata m; buf := buf m; irq := irq m; state := state m;
     adap_timeout := adap_timeout m; reg_masteraddr := reg_masteraddr m;
     reg_config := reg_config m; mem := h; jiffies := jiffies m;
     n_status := n_status m; n_wait := n_wait m; n_gpio := n_gpio m;
     trace := trace m |}.

Definition set_jiffies (j : Z) (m : machine) : machine :=
  {| env := env m; pdata := pdata m; buf := buf m; irq := irq m; state := state m;
     adap_timeout := adap_timeout m; reg_masteraddr := reg_masteraddr m;
     reg_config := reg_config m; mem := mem m; jiffies := j;
     n_status := n_status m; n_wait := n_wait m; n_gpio := n_gpio m;
     trace := trace m |}.

Definition set_n_status (n : nat) (m : machine) : machine :=
  {| env := env m; pdata := pdata m; buf := buf m; irq := irq m; state := state m;
     adap_timeout := adap_timeout m; reg_masteraddr := reg_masteraddr m;
     reg_config := reg_config m; mem := mem m; jiffies := jiffies m;
     n_status := n; n_wait := n_wait m; n_gpio := n_gpio m;
     trace := trace m |}.

Definition set_n_wait (n : nat) (m : machine) : machine :=
  {| env := env m; pdata := pdata m; buf := buf m; irq := irq m; state := state m;
     adap_timeout := adap_timeout m; reg_masteraddr := reg_masteraddr m;
     reg_config := reg_config m; mem := mem m; jiffies := jiffies m;
     n_status := n_status m; n_wait := n; n_gpio := n_gpio m;
     trace := trace m |}.

Definition set_n_gpio (n : nat) (m : machine) : machine :=
  {| env := env m; pdata := pdata m; buf := buf m; irq := irq m; state := state m;
     adap_timeout := adap_timeout m; reg_masteraddr := reg_masteraddr m;
     reg_config := reg_config m; mem := mem m; jiffies := jiffies m;
     n_status := n_status m; n_wait := n_wait m; n_gpio := n;
     trace := trace m |}.

Definition set_trace (t : list event) (m : machine) : machine :=
  {| env := env m; pdata := pdata m; buf := buf m; irq := irq m; state := state m;
     adap_timeout := adap_timeout m; reg_masteraddr := reg_masteraddr m;
     reg_config := reg_config m; mem := mem m; jiffies := jiffies m;
     n_status := n_status m; n_wait := n_wait m; n_gpio := n_gpio m;
     trace := t |}.

(** ** The state monad of driver code *)

Definition M (A : Type) : Type := machine -> A * machine.

Definition ret {A : Type} (a : A) : M A := fun m => (a, m).

Definition bind {A B : Type} (c : M A) (k : A -> M B) : M B :=
  fun m => let (a, m') := c m in k a m'.

Notation "x <- c ;; k" := (bind c (fun x => k))
  (at level 100, c at next level, right associativity).
Notation "c ;; k" := (bind c (fun _ => k))
  (at level 100, right associativity).

Definition gets {A : Type} (f : machine -> A) : M A := fun m => (f m, m).
Definition modify (f : machine -> machine) : M unit := fun m => (tt, f m).
Definition emit (e : event) : M unit :=
  modify (fun m => set_trace (trace m ++ [e]) m).

(** ** Kernel and hardware primitives *)

(** [readl]: the status register answers from the oracle (reading it also
    acknowledges the pending interrupt); the master address and the
    configuration registers read back what was written last. *)
Definition readl (off : Z) : M Z :=
  fun m =>
    if off =? I2C_STATUS then
      let v := u32 (hw_status (env m) (n_status m)) in
      (v, set_trace (trace m ++ [EvReadl off v]) (set_n_status (S (n_status m)) m))
    else
      let v := if off =? I2C_MASTERADDR then reg_masteraddr m
               else if off =? I2C_CONFIG then reg_config m
               else 0 in
      (v, set_trace (trace m ++ [EvReadl off v]) m).

(** [writel]: a write to offset 0 is a command for the controller. *)
Definition writel (val off : Z) : M unit :=
  fun m =>
    let m1 := if off =? I2C_MASTERADDR then set_reg_masteraddr val m
              else if off =? I2C_CONFIG then set_reg_config val m
              else m in
    (tt, set_trace (trace m1 ++ [EvWritel val off]) m1).

Definition store_state (s : i2c_int_state) : M unit :=
  modify (set_state s) ;; emit (EvSetState s).

Definition printk (msg : kmsg) : M unit := emit (EvPrintk msg).

Definition disable_irq (n : Z) : M unit := emit (EvDisableIrq n).
Definition enable_irq (n : Z) : M unit := emit (EvEnableIrq n).

Definition gpio_direction_output (pin val : Z) : M unit :=
  emit (EvGpioDirectionOutput pin val).
Definition gpio_direction_input (pin : Z) : M unit :=
  emit (EvGpioDirectionInput pin).
Definition gpio_set_value (pin val : Z) : M unit :=
  emit (EvGpioSetValue pin val).

Definition gpio_get_value (pin : Z) : M Z :=
  fun m =>
    let v := hw_gpio (env m) (n_gpio m) in
    (v, set_trace (trace m ++ [EvGpioGetValue pin v]) (set_n_gpio (S (n_gpio m)) m)).

Definition gpio_configuration_func : M unit := emit EvGpioConfigurationFunc.

Definition clk_get_rate : M Z := gets (fun m => u32 (clk_rate (env m))).

(** [msecs_to_jiffies] rounds up to whole ticks (tick rates up to 1000). *)
Definition msecs_to_jiffies (hz ms : Z) : Z := (ms * hz + 999) / 1000.

(** [time_after(a, b)]: [(long)(b) - (long)(a) < 0]. *)
Definition time_after (a b : Z) : bool := s32 (b - a) <? 0.

(** [mdelay] spins; [msleep] gives up the processor and comes back after
    [msecs_to_jiffies(ms) + 1] ticks. *)
Definition mdelay (ms : Z) : M unit := emit (EvMdelay ms).

Definition msleep (ms : Z) : M unit :=
  modify (fun m =>
    set_jiffies (u32 (jiffies m + msecs_to_jiffies (HZ (env m)) ms + 1)) m) ;;
  emit (EvMsleep ms).

Definition wake_up_interruptible : M unit := emit EvWake.

(** ** Interrupt classifier *)

Definition IRQ_HANDLED : Z := 1.

Definition ns9xxx_i2c_irq : M Z :=
  (* acknowledge IRQ by reading the status register *)
  status <- readl I2C_STATUS ;;
  st <- gets state ;;
  if negb (state_eqb st I2C_INT_AWAITING) then ret IRQ_HANDLED
  else
    let cause := Z.land status I2C_STATUS_IRQCD_MASK in
    (if cause =? I2C_IRQ_RXDATA then
       p <- gets buf ;;
       (if negb (p =? NULL) then
          modify (fun m =>
            set_mem (<[p := u8 (Z.land status I2C_STATUS_RXDATA_MASK)]> (mem m)) m)
        else ret tt) ;;
       store_state I2C_INT_OK
     else if (cause =? I2C_IRQ_CMDACK) || (cause =? I2C_IRQ_TXDATA) then
       store_state I2C_INT_OK
     else if cause =? I2C_IRQ_NOACK then
       writel I2C_CMD_STOP I2C_CMD ;;
       store_state I2C_INT_ABORT
     else if cause =? I2C_IRQ_ARBITLOST then
       store_state I2C_INT_RETRY
     else
       store_state I2C_INT_ERROR) ;;
    wake_up_interruptible ;;
    ret IRQ_HANDLED.

(** [wait_event_interruptible_timeout(wait_q, state != I2C_INT_AWAITING, timeout)]:
    the result is 0 after a timeout, negative after a signal, and the
    remaining ticks (at least one) when the condition came true. *)
Definition next_wait_outcome : M wait_outcome :=
  fun m => (hw_wait (env m) (n_wait m), set_n_wait (S (n_wait m)) m).

Definition wait_event_interruptible_timeout (timeout : Z) : M Z :=
  st <- gets state ;;
  if negb (state_eqb st I2C_INT_AWAITING) then ret timeout
  else
    o <- next_wait_outcome ;;
    emit (EvWait o) ;;
    match o with
    | WaitIrq => ns9xxx_i2c_irq ;; ret 1
    | WaitTimeout =>
        modify (fun m => set_jiffies (u32 (jiffies m + timeout)) m) ;; ret 0
    | WaitSignal => ret (- ERESTARTSYS)
    end.

(** ** Clock divider *)

Definition ns9xxx_i2c_set_clock (freq : Z) : M Z :=
  v <- readl I2C_CONFIG ;;
  let config := Z.land v (Z.lnot I2C_CONFIG_CLREFMASK) in
  cme9210 <- gets (fun m => CONFIG_MACH_CME9210JS (env m)) ;;
  delay <- gets (fun m => scl_delay (env m)) ;;
  if freq =? I2C_NORMALSPEED then
    (* Set standard mode *)
    let config := Z.land config (Z.lnot I2C_CONFIG_TMDE) in
    (* Clear VSCD divider *)
    let config := Z.land config (Z.lnot I2C_CONFIG_VSCD) in
    (* Calculate CLKREF *)
    rate <- clk_get_rate ;;
    let config :=
      Z.lor config
        (Z.land (u32 (u32 (rate / u32 (4 * freq) - 4) - delay) / 2)
                I2C_CONFIG_CLREFMASK) in
    writel config I2C_CONFIG ;;
    rate' <- clk_get_rate ;;
    printk (MsgClockSet freq rate' (u32 delay) config) ;;
    ret 0
  else if negb cme9210 && (freq =? I2C_HIGHSPEED) then
    (* Set fast mode *)
    let config := Z.lor config I2C_CONFIG_TMDE in
    (* Clear VSCD divider *)
    let config := Z.land config (Z.lnot I2C_CONFIG_VSCD) in
    (* Calculate CLKREF *)
    rate <- clk_get_rate ;;
    let config :=
      Z.lor config
        (Z.land (u32 (u32 (u32 (rate / u32 (4 * freq) - 4) - delay) * 2) / 3)
                I2C_CONFIG_CLREFMASK) in
    writel config I2C_CONFIG ;;
    rate' <- clk_get_rate ;;
    printk (MsgClockSet freq rate' (u32 delay) config) ;;
    ret 0
  else
    printk MsgWrongClock ;;
    ret (- EINVAL).

(** ** Bus reset by bit-banging *)

(** The body of [for (i = 0; i < 9; i++)] in the bus reset, run [n] times
    from cycle [i]; the loop carries [effective_cycles] and [prev_sda]. *)
Fixpoint reset_clock_cycles (n : nat) (i effective_cycles prev_sda : Z)
  : M (Z * Z) :=
  match n with
  | O => ret (effective_cycles, prev_sda)
  | S n' =>
      scl_pin <- gets (fun m => gpio_scl (pdata m)) ;;
      sda_pin <- gets (fun m => gpio_sda (pdata m)) ;;
      (* toggle clock *)
      scl <- gpio_get_value scl_pin ;;
      effective_cycles' <-
        (if scl =? 0 then printk (MsgSclLowAtStart i) ;; ret effective_cycles
         else ret (effective_cycles + 1)) ;;
      gpio_direction_output scl_pin 0 ;;
      mdelay 1 ;;
      gpio_direction_input scl_pin ;;
      sda <- gpio_get_value sda_pin ;;
      scl <- gpio_get_value scl_pin ;;
      prev_sda' <-
        (if negb (sda =? prev_sda) then
           printk (MsgSdaChanged prev_sda sda i) ;; ret sda
         else ret prev_sda) ;;
      (if scl =? 0 then printk (MsgSclLowAtEnd i) ;; mdelay 1 else ret tt) ;;
      reset_clock_cycles n' (i + 1) effective_cycles' prev_sda'
  end.

Definition ns9xxx_i2c_reset_bitbang : M unit :=
  scl_pin <- gets (fun m => gpio_scl (pdata m)) ;;
  sda_pin <- gets (fun m => gpio_sda (pdata m)) ;;
  irqn <- gets irq ;;
  disable_irq irqn ;;
  gpio_direction_input scl_pin ;;
  gpio_direction_input sda_pin ;;
  mdelay 1 ;;
  scl <- gpio_get_value scl_pin ;;
  sda <- gpio_get_value sda_pin ;;
  (if negb (sda =? 0) && negb (scl =? 0) then printk MsgResetNotNeeded
   else ret tt) ;;
  (if sda =? 0 then printk MsgSdaLowBefore else ret tt) ;;
  r <- reset_clock_cycles 9 0 0 sda ;;
  let effective_cycles := fst r in
  (* Send a STOP *)
  mdelay 1 ;;
  gpio_direction_input sda_pin ;;
  mdelay 1 ;;
  scl <- gpio_get_value scl_pin ;;
  sda <- gpio_get_value sda_pin ;;
  (if scl =? 0 then printk MsgSclHeldLow else ret tt) ;;
  (if sda =? 0 then printk MsgSdaHeldLow else ret tt) ;;
  (if negb (scl =? 0) && negb (sda =? 0) then printk MsgResetSuccessful
   else printk (MsgResetUnsuccessful effective_cycles)) ;;
  (* reset gpios to hardware i2c *)
  gpio_configuration_func ;;
  status <- readl I2C_STATUS ;;
  masteraddr <- readl I2C_MASTERADDR ;;
  config <- readl I2C_CONFIG ;;
  st <- gets state ;;
  printk (MsgRegisters status masteraddr config st) ;;
  enable_irq irqn.

(** ** Controller reinitialisation *)

Definition ns9xxx_reinit_i2c : M unit :=
  ns9xxx_i2c_reset_bitbang ;;
  status <- readl I2C_STATUS ;;
  if negb (Z.land status I2C_STATUS_MCMDL =? 0) then
    (* Master module still locked, try to reinitialise the I2C hardware *)
    printk (MsgStillLocked status) ;;
    irqn <- gets irq ;;
    disable_irq irqn ;;
    writel (Z.lor I2C_CONFIG_IRQD (Z.shiftl 0xf I2C_CONFIG_SFW_SHIFT)) I2C_CONFIG ;;
    sp <- gets (fun m => speed (pdata m)) ;;
    r <- (if negb (sp =? 0) then ns9xxx_i2c_set_clock sp
          else ns9xxx_i2c_set_clock I2C_NORMALSPEED) ;;
    (if negb (r =? 0) then printk MsgClockError else ret tt) ;;
    enable_irq irqn ;;
    c <- readl I2C_CONFIG ;;
    writel (Z.land c (Z.lnot I2C_CONFIG_IRQD)) I2C_CONFIG
  else
    printk (MsgModuleIdle status).

(** ** Busy/lock recovery *)

Definition NS9XXX_TIMEOUT (hz : Z) : Z := msecs_to_jiffies hz 1000.

(** [while (!time_after(jiffies, timeout))]: [true] when the lock bit was
    seen clear (the function returns 0 from inside the loop), [false] when
    the loop ran to its end.  Every round sleeps, so the clock moves on and
    [fuel] rounds are more than the window can hold. *)
Fixpoint busy_poll (fuel : nat) (timeout : Z) : M bool :=
  match fuel with
  | O => ret false
  | S fuel' =>
      j <- gets (fun m => u32 (jiffies m)) ;;
      if time_after j timeout then ret false
      else
        (* Is not busy? *)
        status <- readl I2C_STATUS ;;
        if Z.land status I2C_STATUS_MCMDL =? 0 then
          msleep 1 ;;
          status' <- readl I2C_STATUS ;;
          printk (MsgModuleIdle status') ;;
          ret true
        else
          msleep 1 ;;
          busy_poll fuel' timeout
  end.

Definition busy_poll_fuel (hz : Z) : nat := S (S (Z.to_nat (NS9XXX_TIMEOUT hz))).

(** [for (i = 0; i < BUSY_RELEASE_ATTEMPTS; i++)], with [n] rounds left. *)
Fixpoint busy_attempts (n : nat) (i : Z) : M Z :=
  match n with
  | O =>
      printk (MsgGivingUp BUSY_RELEASE_ATTEMPTS) ;;
      ret (- ETIMEDOUT)
  | S n' =>
      hz <- gets (fun m => HZ (env m)) ;;
      j <- gets (fun m => u32 (jiffies m)) ;;
      let timeout := u32 (j + NS9XXX_TIMEOUT hz) in
      idle <- busy_poll (busy_poll_fuel hz) timeout ;;
      if idle : bool then ret 0
      else
        printk (MsgBusyAttempt (i + 1)) ;;
        ns9xxx_reinit_i2c ;;
        busy_attempts n' (i + 1)
  end.

Definition ns9xxx_wait_while_busy : M Z :=
  status <- readl I2C_STATUS ;;
  if Z.land status I2C_STATUS_MCMDL =? 0 then
    ret 0   (* Module is free to receive commands *)
  else
    (* Module seems to be locked *)
    busy_attempts (Z.to_nat BUSY_RELEASE_ATTEMPTS) 0.

(** ** Command/wait protocol *)

Definition ns9xxx_i2c_send_cmd (cmd : Z) : M Z :=
  status <- readl I2C_STATUS ;;
  locked <-
    (if negb (Z.land status I2C_STATUS_MCMDL =? 0) then
       (* Wait for previous command to finish *)
       r <- ns9xxx_wait_while_busy ;;
       ret (negb (r =? 0))
     else ret false) ;;
  if locked : bool then
    printk MsgUnlockTimeout ;;
    ret (- ETIMEDOUT)
  else
    store_state I2C_INT_AWAITING ;;
    writel cmd I2C_CMD ;;
    timeout <- gets adap_timeout ;;
    w <- wait_event_interruptible_timeout timeout ;;
    if w =? 0 then
      printk (MsgIrqTimeout cmd timeout) ;;
      r <- ns9xxx_wait_while_busy ;;
      (if r =? 0 then printk MsgNotRetrying else ret tt) ;;
      ret (- ETIMEDOUT)
    else
      st <- gets state ;;
      if negb (state_eqb st I2C_INT_OK) then
        printk (MsgStateNotOk st) ;;
        ret (- EIO)
      else ret 0.

(** ** Byte transfer driver *)

(** [while (count-- > 1)] with [n] rounds left. *)
Fixpoint i2c_read_loop (n : nat) : M Z :=
  match n with
  | O => ret 0
  | S n' =>
      modify (fun m => set_buf (buf m + 1) m) ;;
      r <- ns9xxx_i2c_send_cmd I2C_CMD_NOP ;;
      if negb (r =? 0) then ret r else i2c_read_loop n'
  end.

Definition ns9xxx_i2c_read (count : Z) : M Z :=
  i2c_read_loop (Z.to_nat (count - 1)).

(** [*buf] for a [const char *buf]. *)
Definition load_char (p : Z) : M Z :=
  gets (fun m => u8 (default 0 (mem m !! p))).

(** [while (count--)] with [n] rounds left. *)
Fixpoint i2c_write_loop (n : nat) (p : Z) : M Z :=
  match n with
  | O => ret 0
  | S n' =>
      b <- load_char p ;;
      r <- ns9xxx_i2c_send_cmd (Z.lor (Z.lor I2C_CMD_NOP I2C_CMD_TXVAL) b) ;;
      if negb (r =? 0) then ret r else i2c_write_loop n' (p + 1)
  end.

(** The driver calls this with [0 <= count] only. *)
Definition ns9xxx_i2c_write (p : Z) (count : Z) : M Z :=
  i2c_write_loop (Z.to_nat count) p.

(** ** Bit-bang address probe *)

(** [for (i = 0; i < nr_bits; i++)] with [n] rounds left. *)
Fixpoint bitbang_address_bits (n : nat) (i nr_bits addr : Z) : M unit :=
  match n with
  | O => ret tt
  | S n' =>
      scl_pin <- gets (fun m => gpio_scl (pdata m)) ;;
      sda_pin <- gets (fun m => gpio_sda (pdata m)) ;;
      (* set data *)
      (if negb (Z.land addr (Z.shiftl 1 (nr_bits - i - 1)) =? 0) then
         gpio_set_value sda_pin 1
       else
         gpio_set_value sda_pin 1) ;;
      mdelay 1 ;;
      (* toggle clock *)
      gpio_set_value scl_pin 1 ;;
      mdelay 1 ;;
      gpio_set_value scl_pin 0 ;;
      mdelay 1 ;;
      bitbang_address_bits n' (i + 1) nr_bits addr
  end.

Definition ns9xxx_i2c_bitbang (msg : i2c_msg) : M Z :=
  scl_pin <- gets (fun m => gpio_scl (pdata m)) ;;
  sda_pin <- gets (fun m => gpio_sda (pdata m)) ;;
  irqn <- gets irq ;;
  disable_irq irqn ;;
  gpio_direction_output sda_pin 1 ;;
  gpio_direction_output scl_pin 1 ;;
  mdelay 10 ;;
  (* start *)
  gpio_set_value sda_pin 0 ;;
  mdelay 1 ;;
  gpio_set_value scl_pin 0 ;;
  mdelay 1 ;;
  let nr_bits := if negb (Z.land (msg_flags msg) I2C_M_TEN =? 0) then 10 else 7 in
  printk (MsgBitbangBits nr_bits) ;;
  bitbang_address_bits (Z.to_nat nr_bits) 0 nr_bits (msg_addr msg) ;;
  (* read ack *)
  gpio_direction_input sda_pin ;;
  gpio_set_value scl_pin 1 ;;
  mdelay 1 ;;
  r <- gpio_get_value sda_pin ;;
  (* stop *)
  gpio_direction_output sda_pin 1 ;;
  (* reset gpios to hardware i2c *)
  gpio_configuration_func ;;
  enable_irq irqn ;;
  ret (if negb (r =? 0) then 0 else - ENODEV).

(** ** Transfer orchestrator *)

(** The locals of [ns9xxx_i2c_xfer] that live across loop rounds. *)
Record xfer_vars : Type := {
  x_i : nat;
  x_ret : Z;
  x_retry : Z
}.

Definition with_i (i : nat) (v : xfer_vars) : xfer_vars :=
  {| x_i := i; x_ret := x_ret v; x_retry := x_retry v |}.
Definition with_ret (r : Z) (v : xfer_vars) : xfer_vars :=
  {| x_i := x_i v; x_ret := r; x_retry := x_retry v |}.
Definition with_retry (n : Z) (v : xfer_vars) : xfer_vars :=
  {| x_i := x_i v; x_ret := x_ret v; x_retry := n |}.

(** How one round of the [for] body ends. *)
Inductive flow : Type :=
  | Continue (v : xfer_vars)   (* end of body or [continue]: next is [i++] *)
  | Break (v : xfer_vars)      (* [break], or the loop condition failed *)
  | Return (r : Z).            (* [return r] from inside the loop *)

(** [if (dev_data->state == I2C_INT_RETRY) { ... }] at the top of the body. *)
Definition xfer_retry_check (v : xfer_vars) : M (xfer_vars + Z) :=
  st <- gets state ;;
  if state_eqb st I2C_INT_RETRY then
    r <- ns9xxx_i2c_send_cmd I2C_CMD_STOP ;;
    let retry := x_retry v - 1 in
    if negb (r =? 0) || (retry =? 0) then ret (inr (- EIO))
    else ret (inl (with_retry retry (with_ret r v)))
  else ret (inl v).

(** [if (ret) { if (state == I2C_INT_RETRY) { i = 0; continue; } break; }] *)
Definition xfer_failed (r : Z) (v : xfer_vars) : M flow :=
  st <- gets state ;;
  if state_eqb st I2C_INT_RETRY then ret (Continue (with_i 0%nat (with_ret r v)))
  else ret (Break (with_ret r v)).

Definition xfer_payload (msg : i2c_msg) (p len : Z) (v : xfer_vars) : M flow :=
  r <- (if negb (Z.land (msg_flags msg) I2C_M_RD =? 0) then ns9xxx_i2c_read len
        else ns9xxx_i2c_write p len) ;;
  if negb (r =? 0) then xfer_failed r v
  else ret (Continue (with_ret r v)).

Definition xfer_message (msg : i2c_msg) (v : xfer_vars) : M flow :=
  let len := msg_len msg in
  let p := msg_buf msg in
  modify (set_buf p) ;;
  if msg_len msg =? 0 then
    (* send using use bitbang mode *)
    r <- ns9xxx_i2c_bitbang msg ;;
    ret (Continue (with_ret r v))
  else if negb (Z.land (msg_flags msg) I2C_M_NOSTART =? 0) then
    xfer_payload msg p len v
  else
    (* set device address *)
    let reg := Z.shiftl (Z.land (msg_addr msg) I2C_MASTERADDR_ADDRMASK)
                        I2C_MASTERADDR_ADDRSHIFT in
    let reg := if negb (Z.land (msg_flags msg) I2C_M_TEN =? 0)
               then Z.lor reg I2C_MASTERADDR_10BIT
               else Z.lor reg I2C_MASTERADDR_7BIT in
    writel reg I2C_MASTERADDR ;;
    if negb (Z.land (msg_flags msg) I2C_M_RD =? 0) then
      r <- ns9xxx_i2c_send_cmd I2C_CMD_READ ;;
      if negb (r =? 0) then xfer_failed r v
      else xfer_payload msg p len (with_ret r v)
    else
      b <- load_char p ;;
      r <- ns9xxx_i2c_send_cmd (Z.lor (Z.lor I2C_CMD_WRITE I2C_CMD_TXVAL) b) ;;
      if negb (r =? 0) then xfer_failed r v
      else xfer_payload msg (p + 1) (len - 1) (with_ret r v).

Definition xfer_body (msg : i2c_msg) (v : xfer_vars) : M flow :=
  c <- xfer_retry_check v ;;
  match c with
  | inr e => ret (Return e)
  | inl v' => xfer_message msg v'
  end.

(** [for (i = 0; i < num; i++)] from the loop test on, [num] being the
    length of [msgs].  A transfer makes fewer than [xfer_fuel] rounds. *)
Fixpoint xfer_loop (fuel : nat) (msgs : list i2c_msg) (v : xfer_vars) : M flow :=
  match fuel with
  | O => ret (Break v)
  | S fuel' =>
      match msgs !! x_i v with
      | None => ret (Break v)
      | Some msg =>
          o <- xfer_body msg v ;;
          match o with
          | Continue v' => xfer_loop fuel' msgs (with_i (S (x_i v')) v')
          | _ => ret o
          end
      end
  end.

Definition xfer_fuel (msgs : list i2c_msg) : nat := S (11 * length msgs).

(** What follows the loop: the final STOP and its escalation, then the
    cursor is cleared. *)
Definition xfer_finish (v : xfer_vars) : M Z :=
  r <- ns9xxx_i2c_send_cmd I2C_CMD_STOP ;;
  (if negb (r =? 0) then
     st <- gets state ;;
     printk (MsgStuck st) ;;
     (* sometimes interface gets stucked
        try to fix this by send "start, nop, start" *)
     ns9xxx_i2c_send_cmd I2C_CMD_NOP ;;
     r' <- ns9xxx_i2c_send_cmd I2C_CMD_STOP ;;
     if negb (r' =? 0) then
       printk MsgStillStuck ;;
       ns9xxx_i2c_reset_bitbang
     else ret tt
   else ret tt) ;;
  modify (set_buf NULL) ;;
  (* return ERROR or number of transmits *)
  ret (if x_ret v <? 0 then x_ret v else Z.of_nat (x_i v)).

(** [int len, i, ret = 0, retry = 10;] *)
Definition xfer_init : xfer_vars := {| x_i := 0; x_ret := 0; x_retry := 10 |}.

Definition ns9xxx_i2c_xfer (msgs : list i2c_msg) : M Z :=
  store_state I2C_INT_OK ;;
  o <- xfer_loop (xfer_fuel msgs) msgs xfer_init ;;
  match o with
  | Return r => ret r
  | Continue v | Break v => xfer_finish v
  end.

(** ** Platform glue *)

(** The probe and remove routines deal with the kernel's resource
    managers.  What those hand out is recorded in a [system]: the adapter
    (the [machine] above), the resources the driver holds, and the releases
    of something it did not hold.  Whether a request is granted is not
    decided by the driver: a [platform_device] says how each request of one
    probe call ends. *)

Definition ENOENT : Z := 2.
Definition ENOMEM : Z := 12.
Definition EBUSY : Z := 16.
Definition MAX_ERRNO : Z := 4095.

Inductive resource : Type :=
  | ResDevData                        (* kzalloc / kfree *)
  | ResMemRegion (start n : Z)        (* request_mem_region / release_mem_region *)
  | ResIoMap (addr : Z)               (* ioremap / iounmap *)
  | ResGpio (pin : Z)                 (* gpio_request / gpio_free *)
  | ResClk                            (* clk_get / clk_put *)
  | ResClkEnabled                     (* clk_enable / clk_disable *)
  | ResIrq (n : Z)                    (* request_irq / free_irq *)
  | ResAdapter.                       (* i2c_add_numbered_adapter / i2c_del_adapter *)

Definition resource_eqb (a b : resource) : bool :=
  match a, b with
  | ResDevData, ResDevData | ResClk, ResClk | ResClkEnabled, ResClkEnabled
  | ResAdapter, ResAdapter => true
  | ResMemRegion s n, ResMemRegion s' n' => (s =? s') && (n =? n')
  | ResIoMap x, ResIoMap y | ResGpio x, ResGpio y | ResIrq x, ResIrq y => x =? y
  | _, _ => false
  end.

(** [struct platform_device] with its platform data and resources, and
    the answers of the kernel to the requests of one probe call. *)
Record platform_device : Type := {
  pd_kzalloc : bool;                            (* kzalloc returns memory *)
  pd_platform_data : option plat_ns9xxx_i2c;    (* pdev->dev.platform_data *)
  pd_gpio_configuration_func : bool;            (* the callback is not NULL *)
  pd_irq : Z;                                   (* platform_get_irq(pdev, 0) *)
  pd_mem : option (Z * Z);                      (* IORESOURCE_MEM 0: start, end *)
  pd_request_mem_region : bool;                 (* the region is granted *)
  pd_ioremap : Z;                               (* the mapping, NULL on failure *)
  pd_gpio_request_scl : Z;                      (* result of the first gpio_request *)
  pd_gpio_request_sda : Z;                      (* result of the second *)
  pd_clk_get : Z;                               (* a clock handle or ERR_PTR(-errno) *)
  pd_clk_enable : Z;
  pd_request_irq : Z;
  pd_add_adapter : Z                            (* i2c_add_numbered_adapter *)
}.

Record system : Type := {
  dev : machine;                     (* *dev_data and the controller behind it *)
  dd_mem : Z * Z;                    (* *dev_data->mem: start, end *)
  dd_ioaddr : Z;                     (* dev_data->ioaddr *)
  held : list resource;              (* acquired and not released, latest first *)
  released_unheld : list resource;   (* releases of what was not held *)
  drvdata : bool                     (* platform_set_drvdata was called *)
}.

Definition set_dev (m : machine) (s : system) : system :=
  {| dev := m; dd_mem := dd_mem s; dd_ioaddr := dd_ioaddr s; held := held s;
     released_unheld := released_unheld s; drvdata := drvdata s |}.
Definition set_dd_mem (r : Z * Z) (s : system) : system :=
  {| dev := dev s; dd_mem := r; dd_ioaddr := dd_ioaddr s; held := held s;
     released_unheld := released_unheld s; drvdata := drvdata s |}.
Definition set_dd_ioaddr (a : Z) (s : system) : system :=
  {| dev := dev s; dd_mem := dd_mem s; dd_ioaddr := a; held := held s;
     released_unheld := released_unheld s; drvdata := drvdata s |}.
Definition set_held (h : list resource) (s : system) : system :=
  {| dev := dev s; dd_mem := dd_mem s; dd_ioaddr := dd_ioaddr s; held := h;
     released_unheld := released_unheld s; drvdata := drvdata s |}.
Definition set_released_unheld (l : list resource) (s : system) : system :=
  {| dev := dev s; dd_mem := dd_mem s; dd_ioaddr := dd_ioaddr s; held := held s;
     released_unheld := l; drvdata := drvdata s |}.
Definition set_drvdata (b : bool) (s : system) : system :=
  {| dev := dev s; dd_mem := dd_mem s; dd_ioaddr := dd_ioaddr s; held := held s;
     released_unheld := released_unheld s; drvdata := b |}.

Definition set_pdata (pd : plat_ns9xxx_i2c) (m : machine) : machine :=
  {| env := env m; pdata := pd; buf := buf m; irq := irq m; state := state m;
     adap_timeout := adap_timeout m; reg_masteraddr := reg_masteraddr m;
     reg_config := reg_config m; mem := mem m; jiffies := jiffies m;
     n_status := n_status m; n_wait := n_wait m; n_gpio := n_gpio m;
     trace := trace m |}.

Definition set_irq (n : Z) (m : machine) : machine :=
  {| env := env m; pdata := pdata m; buf := buf m; irq := n; state := state m;
     adap_timeout := adap_timeout m; reg_masteraddr := reg_masteraddr m;
     reg_config := reg_config m; mem := mem m; jiffies := jiffies m;
     n_status := n_status m; n_wait := n_wait m; n_gpio := n_gpio m;
     trace := trace m |}.

Definition set_adap_timeout (t : Z) (m : machine) : machine :=
  {| env := env m; pdata := pdata m; buf := buf m; irq := irq m; state := state m;
     adap_timeout := t; reg_masteraddr := reg_masteraddr m;
     reg_config := reg_config m; mem := mem m; jiffies := jiffies m;
     n_status := n_status m; n_wait := n_wait m; n_gpio := n_gpio m;
     trace := trace m |}.

(** The state monad of the platform glue. *)
Definition K (A : Type) : Type := system -> A * system.

Definition kret {A : Type} (a : A) : K A := fun s => (a, s).

Definition kbind {A B : Type} (c : K A) (k : A -> K B) : K B :=
  fun s => let (a, s') := c s in k a s'.

Notation "x <~ c ;; k" := (kbind c (fun x => k))
  (at level 100, c at next level, right associativity).

(** Driver code that works on the adapter. *)
Definition on_dev {A : Type} (c : M A) : K A :=
  fun s => let (a, m') := c (dev s) in (a, set_dev m' s).

Definition kgets {A : Type} (f : system -> A) : K A := fun s => (f s, s).
Definition kmodify (f : system -> system) : K unit := fun s => (tt, f s).

Definition acquire (r : resource) : K unit :=
  kmodify (fun s => set_held (r :: held s) s).

Fixpoint remove_first (r : resource) (l : list resource) : list resource :=
  match l with
  | [] => []
  | x :: l' => if resource_eqb r x then l' else x :: remove_first r l'
  end.

Definition release (r : resource) : K unit :=
  kmodify (fun s =>
    if existsb (resource_eqb r) (held s)
    then set_held (remove_first r (held s)) s
    else set_released_unheld (released_unheld s ++ [r]) s).

(** The kernel calls of the glue code, as resource movements. *)
Definition resource_size (r : Z * Z) : Z := snd r - fst r + 1.

Definition release_mem_region (start n : Z) : K unit := release (ResMemRegion start n).
Definition iounmap (addr : Z) : K unit := release (ResIoMap addr).
Definition gpio_free (pin : Z) : K unit := release (ResGpio pin).
Definition clk_put : K unit := release ResClk.
Definition clk_disable : K unit := release ResClkEnabled.
Definition free_irq (n : Z) : K unit := release (ResIrq n).
Definition i2c_del_adapter : K unit := release ResAdapter.

(** [kzalloc] hands out zeroed memory: null pointers, and the completion
    state whose enumeration value is 0. *)
Definition null_pdata : plat_ns9xxx_i2c :=
  {| gpio_scl := 0; gpio_sda := 0; speed := 0 |}.

Definition zeroed (m : machine) : machine :=
  set_adap_timeout 0
    (set_state I2C_INT_AWAITING (set_irq 0 (set_buf NULL (set_pdata null_pdata m)))).

Definition kzalloc (pdev : platform_device) : K bool :=
  if pd_kzalloc pdev then
    _ <~ acquire ResDevData ;;
    _ <~ on_dev (modify zeroed) ;;
    _ <~ kmodify (set_dd_mem (0, 0)) ;;
    _ <~ kmodify (set_dd_ioaddr 0) ;;
    kret true
  else kret false.

(** [kfree(NULL)] does nothing. *)
Definition kfree (dev_data : bool) : K unit :=
  if dev_data then release ResDevData else kret tt.

Definition platform_set_drvdata : K unit := kmodify (set_drvdata true).

(** [IS_ERR] and [PTR_ERR] on a 32-bit pointer. *)
Definition IS_ERR (p : Z) : bool := 2 ^ 32 - MAX_ERRNO <=? u32 p.
Definition PTR_ERR (p : Z) : Z := s32 p.

(** The error labels of the probe routine, from the last to the first:
    each releases one thing and falls through to the next. *)
Definition err_alloc_dd (dev_data : bool) (ret : Z) : K Z :=
  _ <~ kfree dev_data ;;
  kret ret.

Definition err_map_mem (ret : Z) : K Z :=
  r <~ kgets dd_mem ;;
  _ <~ release_mem_region (fst r) (resource_size r) ;;
  err_alloc_dd true ret.

Definition err_gpio_scl (ret : Z) : K Z :=
  a <~ kgets dd_ioaddr ;;
  _ <~ iounmap a ;;
  err_map_mem ret.

Definition err_gpio_sda (ret : Z) : K Z :=
  scl <~ on_dev (gets (fun m => gpio_scl (pdata m))) ;;
  _ <~ gpio_free scl ;;
  err_gpio_scl ret.

Definition err_clk_get (ret : Z) : K Z :=
  sda <~ on_dev (gets (fun m => gpio_sda (pdata m))) ;;
  _ <~ gpio_free sda ;;
  err_gpio_sda ret.

Definition err_clk_enable (ret : Z) : K Z :=
  _ <~ clk_put ;;
  err_clk_get ret.

(** [err_req_irq], [err_set_clk] and [err_cfg_gpio] are one place. *)
Definition err_cfg_gpio (ret : Z) : K Z :=
  _ <~ clk_disable ;;
  err_clk_enable ret.

Definition err_add_adap (ret : Z) : K Z :=
  irqn <~ on_dev (gets irq) ;;
  _ <~ free_irq irqn ;;
  err_cfg_gpio ret.

Definition ns9xxx_i2c_probe (pdev : platform_device) : K Z :=
  dev_data <~ kzalloc pdev ;;
  if negb dev_data then err_alloc_dd dev_data (- ENOMEM)
  else
    _ <~ platform_set_drvdata ;;
    match pd_platform_data pdev with
    | None => err_alloc_dd dev_data (- ENOENT)
    | Some pd =>
        _ <~ on_dev (modify (set_pdata pd)) ;;
        hz <~ on_dev (gets (fun m => HZ (env m))) ;;
        _ <~ on_dev (modify (set_adap_timeout (Z.quot hz 10))) ;;
        _ <~ on_dev (modify (set_buf NULL)) ;;
        let irqn := pd_irq pdev in
        _ <~ on_dev (modify (set_irq irqn)) ;;
        if irqn <=? 0 then err_alloc_dd dev_data (- ENOENT)
        else
          match pd_mem pdev with
          | None => err_alloc_dd dev_data (- ENOENT)
          | Some r =>
              _ <~ kmodify (set_dd_mem r) ;;
              if negb (pd_request_mem_region pdev) then
                err_alloc_dd dev_data (- EBUSY)
              else
                _ <~ acquire (ResMemRegion (fst r) (resource_size r)) ;;
                let ioaddr := u32 (pd_ioremap pdev) in
                _ <~ kmodify (set_dd_ioaddr ioaddr) ;;
                if ioaddr <=? 0 then err_map_mem (- EBUSY)
                else
                  _ <~ acquire (ResIoMap ioaddr) ;;
                  if negb (pd_gpio_request_scl pdev =? 0) then
                    err_gpio_scl (- EBUSY)
                  else
                    _ <~ acquire (ResGpio (gpio_scl pd)) ;;
                    if negb (pd_gpio_request_sda pdev =? 0) then
                      err_gpio_sda (- EBUSY)
                    else
                      _ <~ acquire (ResGpio (gpio_sda pd)) ;;
                      let clk := pd_clk_get pdev in
                      if IS_ERR clk then err_clk_get (PTR_ERR clk)
                      else
                        _ <~ acquire ResClk ;;
                        let ret := pd_clk_enable pdev in
                        if negb (ret =? 0) then err_clk_enable ret
                        else
                          _ <~ acquire ResClkEnabled ;;
                          (* configure i2c interface *)
                          if negb (pd_gpio_configuration_func pdev) then
                            err_cfg_gpio (- ENOENT)
                          else
                            _ <~ on_dev gpio_configuration_func ;;
                            (* Initially, disable interrupt, set standard mode
                               and set VSCD to zero.  Set spike filter width to
                               maximum value *)
                            _ <~ on_dev
                                   (writel (Z.lor I2C_CONFIG_IRQD
                                              (Z.shiftl 0xf I2C_CONFIG_SFW_SHIFT))
                                           I2C_CONFIG) ;;
                            ret <~ on_dev
                                     (if negb (speed pd =? 0)
                                      then ns9xxx_i2c_set_clock (speed pd)
                                      else ns9xxx_i2c_set_clock I2C_NORMALSPEED) ;;
                            if negb (ret =? 0) then err_cfg_gpio ret
                            else
                              let ret := pd_request_irq pdev in
                              if negb (ret =? 0) then err_cfg_gpio (- EBUSY)
                              else
                                _ <~ acquire (ResIrq irqn) ;;
                                (* Enable I2C interrupt now *)
                                c <~ on_dev (readl I2C_CONFIG) ;;
                                _ <~ on_dev
                                       (writel (Z.land c (Z.lnot I2C_CONFIG_IRQD))
                                               I2C_CONFIG) ;;
                                let ret := pd_add_adapter pdev in
                                if ret <? 0 then err_add_adap ret
                                else
                                  _ <~ acquire ResAdapter ;;
                                  kret 0
          end
    end.

Definition ns9xxx_i2c_remove : K Z :=
  _ <~ i2c_del_adapter ;;
  irqn <~ on_dev (gets irq) ;;
  _ <~ free_irq irqn ;;
  _ <~ clk_disable ;;
  _ <~ clk_put ;;
  sda <~ on_dev (gets (fun m => gpio_sda (pdata m))) ;;
  _ <~ gpio_free sda ;;
  scl <~ on_dev (gets (fun m => gpio_scl (pdata m))) ;;
  _ <~ gpio_free scl ;;
  a <~ kgets dd_ioaddr ;;
  _ <~ iounmap a ;;
  r <~ kgets dd_mem ;;
  _ <~ release_mem_region (fst r) (resource_size r) ;;
  _ <~ kfree true ;;
  kret 0.

(** * Vocabulary of the statements *)

(** ** Traces *)

(** Events since an earlier machine. *)
Definition events_since (m m' : machine) : list event :=
  drop (length (trace m)) (trace m').

(** The protocol events: commands written to the controller, stores to the
    completion state, waits and wake-ups. *)
Definition proto_of (e : event) : option event :=
  match e with
  | EvWritel _ off => if off =? I2C_CMD then Some e else None
  | EvSetState _ | EvWake | EvWait _ => Some e
  | _ => None
  end.

(** The command words written to the command register, in order. *)
Definition cmd_write_of (e : event) : option Z :=
  match e with
  | EvWritel v off => if off =? I2C_CMD then Some v else None
  | _ => None
  end.

Definition cmd_writes (evs : list event) : list Z := omap cmd_write_of evs.

(** The values written to the master address register, in order. *)
Definition masteraddr_write_of (e : event) : option Z :=
  match e with
  | EvWritel v off => if off =? I2C_MASTERADDR then Some v else None
  | _ => None
  end.

(** The arbitration losses the handler recorded. *)
Definition retry_store_of (e : event) : option unit :=
  match e with
  | EvSetState I2C_INT_RETRY => Some tt
  | _ => None
  end.

(** The hand-backs of the bus lines to the controller. *)
Definition restore_of (e : event) : option unit :=
  match e with
  | EvGpioConfigurationFunc => Some tt
  | _ => None
  end.

(** Every store of Abort to the completion state comes right after a write
    of STOP to the command register; [prev_stop] tells whether the event
    before the list was such a write. *)
Fixpoint abort_guarded (prev_stop : bool) (evs : list event) : bool :=
  match evs with
  | [] => true
  | EvSetState I2C_INT_ABORT :: rest => prev_stop && abort_guarded false rest
  | EvWritel v off :: rest =>
      abort_guarded ((v =? I2C_CMD_STOP) && (off =? I2C_CMD)) rest
  | _ :: rest => abort_guarded false rest
  end.

(** ** Relations between the machine before and after *)

(** A relation between the machine before and after a computation.  One
    that is reflexive and transitive is kept by sequencing, so it only has
    to be checked on the primitives a function is built from. *)
Definition preserves (R : relation machine) {A : Type} (c : M A) : Prop :=
  forall m, R m (snd (c m)).

(** Fields no driver function other than the transfer entry point, the
    command issuer and the interrupt handler touches. *)
Definition unchanged_dev : relation machine := fun m m' =>
  env m' = env m /\ pdata m' = pdata m /\ irq m' = irq m /\
  adap_timeout m' = adap_timeout m /\ state m' = state m /\
  buf m' = buf m /\ mem m' = mem m /\ n_wait m' = n_wait m.

(** Fields that are fixed once the adapter is set up. *)
Definition static : relation machine := fun m m' =>
  env m' = env m /\ pdata m' = pdata m /\ irq m' = irq m /\
  adap_timeout m' = adap_timeout m.

(** The GPIO oracle is where it was. *)
Definition same_gpio : relation machine := fun m m' =>
  env m' = env m /\ pdata m' = pdata m /\ n_gpio m' = n_gpio m.

(** The receive cursor stays where it is and memory changes at most in the
    cell under it. *)
Definition cursor_frame : relation machine := fun m m' =>
  buf m' = buf m /\ forall a : Z, a <> buf m -> mem m' !! a = mem m !! a.

(** The trace grew by events that [pick] ignores. *)
Definition quiet {B : Type} (pick : event -> option B) : relation machine :=
  fun m m' => exists evs, trace m' = trace m ++ evs /\ omap pick evs = [].

(** The trace only grew. *)
Definition extends : relation machine :=
  fun m m' => exists evs, trace m' = trace m ++ evs.

(** The trace grew by events among which Abort is only stored right after
    a STOP was written. *)
Definition stop_before_abort : relation machine :=
  fun m m' => exists evs, trace m' = trace m ++ evs /\ abort_guarded false evs = true.

(** ** Interrupt classifier *)

(** The interrupt cause the handler will see on its status read. *)
Definition pending_cause (m : machine) : Z :=
  Z.land (u32 (hw_status (env m) (n_status m))) I2C_STATUS_IRQCD_MASK.

(** ** Bit-bang address probe *)

(** The result of a computation is [f] of the level the next GPIO read
    will see. *)
Definition decided_by_gpio (f : Z -> Z) (c : M Z) : Prop :=
  forall m, fst (c m) = f (hw_gpio (env m) (n_gpio m)).

(** ** Clock divider *)

(** The clock-divider formulas of the hardware reference manual, over the
    integers. *)
Definition clkref_normal (rate delay : Z) : Z :=
  (rate / (4 * I2C_NORMALSPEED) - 4 - delay) / 2.

Definition clkref_fast (rate delay : Z) : Z :=
  (rate / (4 * I2C_HIGHSPEED) - 4 - delay) * 2 / 3.

(** ** Busy/lock recovery *)

(** Ticks that passed from one machine to a later one. *)
Definition elapsed (m m' : machine) : Z := u32 (jiffies m' - jiffies m).

(** One polling window of the busy wait, as [ns9xxx_wait_while_busy] starts
    it from machine [m]. *)
Definition busy_window (m : machine) : bool * machine :=
  busy_poll (busy_poll_fuel (HZ (env m)))
            (u32 (u32 (jiffies m) + NS9XXX_TIMEOUT (HZ (env m)))) m.

(** ** Command/wait protocol *)

(** The first step of [ns9xxx_i2c_send_cmd]: the status read and, with the
    lock bit set, the busy recovery; [true] when the controller stayed
    locked. *)
Definition send_cmd_unlock : M bool :=
  status <- readl I2C_STATUS ;;
  if negb (Z.land status I2C_STATUS_MCMDL =? 0) then
    r <- ns9xxx_wait_while_busy ;;
    ret (negb (r =? 0))
  else ret false.

(** The machine at the point where [ns9xxx_i2c_send_cmd] has got past the
    lock, issued [cmd], waited in vain and logged the timeout. *)
Definition after_wait_timeout (cmd : Z) (m : machine) : machine :=
  snd ((send_cmd_unlock ;;
        store_state I2C_INT_AWAITING ;;
        writel cmd I2C_CMD ;;
        timeout <- gets adap_timeout ;;
        wait_event_interruptible_timeout timeout ;;
        printk (MsgIrqTimeout cmd timeout)) m).

(** ** Byte transfer driver *)

(** The byte a [const char *] at address [a] points to. *)
Definition byte_at (m : machine) (a : Z) : Z := u8 (default 0 (mem m !! a)).

(** The command words that send [n] bytes from address [p] on with
    NOP | TXVAL | byte. *)
Fixpoint tx_words (m : machine) (p : Z) (n : nat) : list Z :=
  match n with
  | O => []
  | S n' =>
      Z.lor (Z.lor I2C_CMD_NOP I2C_CMD_TXVAL) (byte_at m p) :: tx_words m (p + 1) n'
  end.

(** ** Transfer orchestrator *)

(** Restarts of the message loop that a value of [retry] stands for. *)
Definition restarts_used (v : xfer_vars) : Z := 10 - x_retry v.

(** What the retry check at the top of a round takes off the budget. *)
Definition retry_cost (m : machine) : Z :=
  if state_eqb (state m) I2C_INT_RETRY then 1 else 0.

(** How a round that goes past the retry check can end: it never returns;
    it leaves the budget alone; it goes on either to the next index with
    the state not Retry, or in state Retry with the index set to 0. *)
Definition message_outcome (v : xfer_vars) (m : machine) (o : flow * machine) : Prop :=
  match fst o with
  | Return _ => False
  | Break v' => x_retry v' = x_retry v
  | Continue v' =>
      x_retry v' = x_retry v /\
      ((x_i v' = x_i v /\ state (snd o) <> I2C_INT_RETRY) \/
       (x_i v' = 0%nat /\ state (snd o) = I2C_INT_RETRY))
  end.

(** How a whole round can end: a return is -EIO out of the retry check; a
    round that does not return has paid [retry_cost] and has budget left. *)
Definition body_outcome (v : xfer_vars) (m : machine) (o : flow * machine) : Prop :=
  match fst o with
  | Return r => r = - EIO /\ state m = I2C_INT_RETRY
  | Break v' => x_retry v' = x_retry v - retry_cost m /\ 1 <= x_retry v'
  | Continue v' =>
      x_retry v' = x_retry v - retry_cost m /\ 1 <= x_retry v' /\
      ((x_i v' = x_i v /\ state (snd o) <> I2C_INT_RETRY) \/
       (x_i v' = 0%nat /\ state (snd o) = I2C_INT_RETRY))
  end.

(** What the loop has left of its budget and of its messages: each round
    takes at least one off. *)
Definition xfer_potential (num : nat) (v : xfer_vars) (m : machine) : Z :=
  (Z.of_nat num - Z.of_nat (x_i v))
  + Z.of_nat num * (x_retry v - retry_cost m).

(** * Scenarios *)

(** An oracle that answers from a list and then with a default. *)
Definition script {A : Type} (d : A) (l : list A) : nat -> A :=
  fun k => nth k l d.

(** A 100 Hz kernel and a 200 MHz controller clock with fast mode built in;
    status reads, waits and GPIO reads are scripted and fall back to "status
    0", "timeout" and "line high". *)
Definition test_env (st : list Z) (w : list wait_outcome) (g : list Z)
  : environment :=
  {| HZ := 100; clk_rate := 200000000; scl_delay := 0;
     CONFIG_MACH_CME9210JS := false;
     hw_status := script 0 st; hw_wait := script WaitTimeout w;
     hw_gpio := script 1 g |}.

(** The adapter as the probe routine leaves it, over a given memory. *)
Definition test_machine (e : environment) (h : gmap Z Z) : machine :=
  {| env := e;
     pdata := {| gpio_scl := 102; gpio_sda := 103; speed := 0 |};
     buf := NULL; irq := 35; state := I2C_INT_AWAITING; adap_timeout := 10;
     reg_masteraddr := 0; reg_config := 0; mem := h; jiffies := 0;
     n_status := 0; n_wait := 0; n_gpio := 0; trace := [] |}.

(** The controller reports a no-acknowledge for the command outstanding. *)
Definition noack_machine : machine := test_machine (test_env [0x200] [] []) ∅.

(** A controller clocked at 200 MHz, everything else at rest. *)
Definition clock_machine : machine := test_machine (test_env [] [] []) ∅.

(** A zero-length message: an address-only probe of device 0x50. *)
Definition probe_msg : i2c_msg :=
  {| msg_addr := 0x50; msg_flags := 0; msg_len := 0; msg_buf := NULL |}.

(** The probed device acknowledges: the data line reads low. *)
Definition probe_acked_machine : machine :=
  test_machine (test_env [0; 0x500] [WaitIrq] [0]) ∅.

(** Nobody acknowledges: the data line stays high. *)
Definition probe_unacked_machine : machine :=
  test_machine (test_env [0; 0x500] [WaitIrq] [1]) ∅.

(** The controller stays locked for good. *)
Definition locked_machine : machine :=
  test_machine
    {| HZ := 100; clk_rate := 200000000; scl_delay := 0;
       CONFIG_MACH_CME9210JS := false;
       hw_status := fun _ => I2C_STATUS_MCMDL;
       hw_wait := fun _ => WaitTimeout;
       hw_gpio := fun _ => 1 |} ∅.

(** The controller never answers a command, and is not locked either. *)
Definition silent_machine : machine := test_machine (test_env [] [] []) ∅.

(** One byte, 0x41, at address 1000; the controller acknowledges the one
    command it is given. *)
Definition one_byte_machine : machine :=
  test_machine (test_env [0; 0x500] [WaitIrq] []) {[ 1000 := 0x41 ]}.

(** Two one-byte write messages, to devices 0x10 and 0x20. *)
Definition msg_a : i2c_msg :=
  {| msg_addr := 0x10; msg_flags := 0; msg_len := 1; msg_buf := 1000 |}.

Definition msg_b : i2c_msg :=
  {| msg_addr := 0x20; msg_flags := 0; msg_len := 1; msg_buf := 2000 |}.

Definition two_bytes : gmap Z Z := {[ 1000 := 0xa1; 2000 := 0xb2 ]}.

(** Arbitration is lost on the first command; everything after it is
    acknowledged. *)
Definition arbitration_lost_once_machine : machine :=
  test_machine
    (test_env [0; 0x100; 0; 0x500; 0; 0x500; 0; 0x500]
              [WaitIrq; WaitIrq; WaitIrq; WaitIrq] [])
    two_bytes.

(** Arbitration is lost on every message command, and every STOP of the
    retry handling is acknowledged. *)
Definition arbitration_always_lost_machine : machine :=
  test_machine
    (test_env (concat (replicate 10 [0; 0x100; 0; 0x500])) (replicate 20 WaitIrq) [])
    two_bytes.

(** Arbitration is lost on the first command, and the STOP of the retry
    handling is never answered. *)
Definition retry_stop_unanswered_machine : machine :=
  test_machine (test_env [0; 0x100; 0; 0] [WaitIrq; WaitTimeout] []) two_bytes.

(** The loop is entered in state Retry with nine restarts used. *)
Definition last_retry_machine : machine :=
  set_state I2C_INT_RETRY (test_machine (test_env [0; 0x500] [WaitIrq] []) two_bytes).

(** * Further vocabulary *)

(** ** Interrupt classifier *)

(** The completion state that stands for an interrupt cause. *)
Definition state_of_cause (cause : Z) : i2c_int_state :=
  if (cause =? I2C_IRQ_ARBITLOST) then I2C_INT_RETRY
  else if (cause =? I2C_IRQ_NOACK) then I2C_INT_ABORT
  else if (cause =? I2C_IRQ_TXDATA) || (cause =? I2C_IRQ_RXDATA)
          || (cause =? I2C_IRQ_CMDACK) then I2C_INT_OK
  else I2C_INT_ERROR.

(** A machine in which the handler finds a command complete although no
    command is outstanding. *)
Definition idle_machine : machine :=
  set_state I2C_INT_OK (test_machine (test_env [0x500] [] []) ∅).

(** A byte, 0x5a, arrives for the buffer at address 3000. *)
Definition rx_machine : machine :=
  set_buf 3000 (test_machine (test_env [0x45a] [] []) ∅).

(** The sleeping task gets a signal while it waits for the interrupt. *)
Definition signalled_machine : machine :=
  test_machine (test_env [0] [WaitSignal] []) ∅.

(** ** Disciplines of the trace *)

(** An automaton run over a list of events; [None] when an event is not
    allowed in the state it meets. *)
Fixpoint run_events {S : Type} (step : S -> event -> option S) (s : S)
         (evs : list event) : option S :=
  match evs with
  | [] => Some s
  | e :: rest =>
      match step s e with
      | Some s' => run_events step s' rest
      | None => None
      end
  end.

(** The trace grew by events that take the automaton from [a] to [b]. *)
Definition tracks {S : Type} (step : S -> event -> option S) (a b : S)
  : relation machine :=
  fun m m' => exists evs, trace m' = trace m ++ evs /\ run_events step a evs = Some b.

(** Who has the bus lines, and whether the controller's interrupt can be
    delivered. *)
Inductive line_mode : Type :=
  | Serving    (* interrupt enabled, lines with the controller *)
  | Masked     (* interrupt disabled, lines with the controller *)
  | Driven.    (* interrupt disabled, lines operated as GPIOs *)

(** What may happen in which mode: the interrupt is disabled only when it
    is enabled and enabled only when it is disabled and the lines are back
    with the controller; the lines are operated as GPIOs only while the
    interrupt is disabled; a command is written, the completion state
    stored, a wait or a sleep begun only in [Serving]; no register is
    accessed while the lines are GPIOs. *)
Definition line_step (s : line_mode) (e : event) : option line_mode :=
  match e with
  | EvDisableIrq _ => match s with Serving => Some Masked | _ => None end
  | EvEnableIrq _ => match s with Masked => Some Serving | _ => None end
  | EvGpioDirectionOutput _ _ | EvGpioDirectionInput _
  | EvGpioSetValue _ _ | EvGpioGetValue _ _ =>
      match s with Serving => None | _ => Some Driven end
  | EvGpioConfigurationFunc => match s with Serving => None | _ => Some Masked end
  | EvWritel _ off =>
      match s with
      | Serving => Some Serving
      | Masked => if off =? I2C_CMD then None else Some Masked
      | Driven => None
      end
  | EvReadl _ _ => match s with Driven => None | _ => Some s end
  | EvWait _ | EvMsleep _ | EvWake | EvSetState _ =>
      match s with Serving => Some Serving | _ => None end
  | EvMdelay _ | EvPrintk _ => Some s
  end.

(** ** Bus lines *)

(** The levels the driver puts on a line, with the line: what it drives as
    an output.  Switching a line to input releases it. *)
Definition drive_of (e : event) : option (Z * Z) :=
  match e with
  | EvGpioDirectionOutput pin v | EvGpioSetValue pin v => Some (pin, v)
  | _ => None
  end.

(** Writes to a controller register, any register. *)
Definition reg_write_of (e : event) : option (Z * Z) :=
  match e with
  | EvWritel v off => Some (off, v)
  | _ => None
  end.

(** A probe of the ten-bit address 0x2aa. *)
Definition probe_ten_msg : i2c_msg :=
  {| msg_addr := 0x2aa; msg_flags := I2C_M_TEN; msg_len := 0; msg_buf := NULL |}.

(** A relation that is asked for only of machines with platform data [pd],
    which it also has to keep. *)
Definition with_pdata (pd : plat_ns9xxx_i2c) (R : relation machine)
  : relation machine :=
  fun m m' => pdata m = pd -> pdata m' = pd /\ R m m'.

(** Collects what is driven on the lines, the latest first. *)
Definition drive_step (acc : list (Z * Z)) (e : event) : option (list (Z * Z)) :=
  Some (match drive_of e with Some d => d :: acc | None => acc end).

(** ** Controller registers *)

(** The configuration and master address registers hold what they held. *)
Definition same_regs : relation machine := fun m m' =>
  reg_config m' = reg_config m /\ reg_masteraddr m' = reg_masteraddr m.

(** The bus reset finds the controller still locked, every time. *)
Definition stuck_machine (sp : Z) : machine :=
  {| env := {| HZ := 100; clk_rate := 200000000; scl_delay := 0;
               CONFIG_MACH_CME9210JS := false;
               hw_status := fun _ => I2C_STATUS_MCMDL;
               hw_wait := fun _ => WaitTimeout;
               hw_gpio := fun _ => 1 |};
     pdata := {| gpio_scl := 102; gpio_sda := 103; speed := sp |};
     buf := NULL; irq := 35; state := I2C_INT_OK; adap_timeout := 10;
     reg_masteraddr := 0; reg_config := 0x00ff; mem := ∅; jiffies := 0;
     n_status := 0; n_wait := 0; n_gpio := 0; trace := [] |}.

(** Writes to a controller register other than the configuration
    register. *)
Definition other_reg_write_of (e : event) : option (Z * Z) :=
  match e with
  | EvWritel v off => if off =? I2C_CONFIG then None else Some (off, v)
  | _ => None
  end.

(** ** Transfer orchestrator *)

(** What a round leaves in [ret]: an early return is -EIO; a [break]
    carries the error of a failed command; a round that goes on carries 0,
    the error of a command that lost arbitration, or the result of the
    probe. *)
Definition ret_outcome (o : flow) : Prop :=
  match o with
  | Return r => r = - EIO
  | Break v' => x_ret v' = - EIO \/ x_ret v' = - ETIMEDOUT
  | Continue v' =>
      x_ret v' = 0 \/ x_ret v' = - EIO \/ x_ret v' = - ETIMEDOUT \/
      x_ret v' = - ENODEV
  end.

(** The memory after the handler has taken status word [s] for a command
    that was outstanding: a receive interrupt stores the data byte under a
    cursor that is not null. *)
Definition mem_after_irq (s : Z) (m : machine) : gmap Z Z :=
  if (Z.land s I2C_STATUS_IRQCD_MASK =? I2C_IRQ_RXDATA) && negb (buf m =? NULL)
  then <[buf m := Z.land s I2C_STATUS_RXDATA_MASK]> (mem m)
  else mem m.

(** The machine after a command that the controller took at once and
    completed with an interrupt whose cause stands for Ok.  [s0] and [s] are
    the two status words read on the way, by the command issuer and by the
    handler. *)
Definition after_command (cmd : Z) (m : machine) : machine :=
  let s0 := u32 (hw_status (env m) (n_status m)) in
  let s := u32 (hw_status (env m) (S (n_status m))) in
  set_trace (trace m ++ [EvReadl I2C_STATUS s0; EvSetState I2C_INT_AWAITING;
                         EvWritel cmd I2C_CMD; EvWait WaitIrq;
                         EvReadl I2C_STATUS s; EvSetState I2C_INT_OK; EvWake])
    (set_mem (mem_after_irq s m)
       (set_state I2C_INT_OK
          (set_n_wait (S (n_wait m)) (set_n_status (S (S (n_status m))) m)))).

(** The controller is free and will answer the next command with an
    interrupt whose cause stands for Ok. *)
Definition answers_next (m : machine) : Prop :=
  Z.land (u32 (hw_status (env m) (n_status m))) I2C_STATUS_MCMDL = 0 /\
  hw_wait (env m) (n_wait m) = WaitIrq /\
  state_of_cause (Z.land (u32 (hw_status (env m) (S (n_status m))))
                         I2C_STATUS_IRQCD_MASK) = I2C_INT_OK.

(** ** Transfers on a bus that answers *)

(** The controller takes every command at once and acknowledges it: no
    status read shows the lock, every wait ends with an interrupt, and the
    cause is command-acknowledge or transmit-data. *)
Definition acknowledging (e : environment) : Prop :=
  forall k : nat,
    hw_wait e k = WaitIrq /\
    Z.land (u32 (hw_status e k)) I2C_STATUS_MCMDL = 0 /\
    (Z.land (u32 (hw_status e k)) I2C_STATUS_IRQCD_MASK = I2C_IRQ_CMDACK \/
     Z.land (u32 (hw_status e k)) I2C_STATUS_IRQCD_MASK = I2C_IRQ_TXDATA).

(** What the transfer entry point puts in the master address register for
    a message. *)
Definition masteraddr_of (msg : i2c_msg) : Z :=
  Z.lor (Z.shiftl (Z.land (msg_addr msg) I2C_MASTERADDR_ADDRMASK)
                  I2C_MASTERADDR_ADDRSHIFT)
        (if Z.land (msg_flags msg) I2C_M_TEN =? 0 then I2C_MASTERADDR_7BIT
         else I2C_MASTERADDR_10BIT).

(** A message with I2C_M_NOSTART goes without an address. *)
Definition addressed (msg : i2c_msg) : option Z :=
  if Z.land (msg_flags msg) I2C_M_NOSTART =? 0 then Some (masteraddr_of msg)
  else None.

(** The command words of a write message: WRITE with the first byte, then
    NOP with each further byte; with I2C_M_NOSTART, NOP with every byte. *)
Definition message_words (m : machine) (msg : i2c_msg) : list Z :=
  if Z.land (msg_flags msg) I2C_M_NOSTART =? 0 then
    Z.lor (Z.lor I2C_CMD_WRITE I2C_CMD_TXVAL) (byte_at m (msg_buf msg))
    :: tx_words m (msg_buf msg + 1) (Z.to_nat (msg_len msg - 1))
  else tx_words m (msg_buf msg) (Z.to_nat (msg_len msg)).

(** A stretch of a transfer that put the words [ws] on the command
    register and [ads] on the master address register, and left the
    buffers alone. *)
Definition sent (ws ads : list Z) : relation machine := fun m m' =>
  env m' = env m /\ mem m' = mem m /\
  exists evs,
    trace m' = trace m ++ evs /\ cmd_writes evs = ws /\
    omap masteraddr_write_of evs = ads.

(** Every command is acknowledged; the buffers hold 0xa1 at 1000 and 0xb2
    at 2000. *)
Definition acknowledging_machine : machine :=
  test_machine
    {| HZ := 100; clk_rate := 200000000; scl_delay := 0;
       CONFIG_MACH_CME9210JS := false;
       hw_status := fun _ => I2C_IRQ_CMDACK;
       hw_wait := fun _ => WaitIrq;
       hw_gpio := fun _ => 1 |} two_bytes.

(** The controller takes each of the next [n] commands at once and
    answers it with a receive interrupt. *)
Definition delivers (n : nat) (m : machine) : Prop :=
  forall k : nat,
    (k < n)%nat ->
    hw_wait (env m) (n_wait m + k) = WaitIrq /\
    Z.land (u32 (hw_status (env m) (n_status m + 2 * k))) I2C_STATUS_MCMDL = 0 /\
    Z.land (u32 (hw_status (env m) (n_status m + 2 * k + 1))) I2C_STATUS_IRQCD_MASK
    = I2C_IRQ_RXDATA.

(** The data byte that comes with the answer to the [k]-th command from
    now. *)
Definition rx_byte (m : machine) (k : nat) : Z :=
  Z.land (u32 (hw_status (env m) (n_status m + 2 * k + 1))) I2C_STATUS_RXDATA_MASK.

(** The command after the next [n] is taken at once and acknowledged. *)
Definition then_acknowledges (n : nat) (m : machine) : Prop :=
  hw_wait (env m) (n_wait m + n) = WaitIrq /\
  Z.land (u32 (hw_status (env m) (n_status m + 2 * n))) I2C_STATUS_MCMDL = 0 /\
  Z.land (u32 (hw_status (env m) (n_status m + 2 * n + 1))) I2C_STATUS_IRQCD_MASK
  = I2C_IRQ_CMDACK.

(** A read of two bytes into the buffer at 3000. *)
Definition read_msg : i2c_msg :=
  {| msg_addr := 0x50; msg_flags := I2C_M_RD; msg_len := 2; msg_buf := 3000 |}.

(** The device sends 0xc1 and 0xc2, and the STOP is acknowledged. *)
Definition sending_machine : machine :=
  test_machine (test_env [0; 0x4c1; 0; 0x4c2; 0; 0x500] [WaitIrq; WaitIrq; WaitIrq] []) ∅.

(** A write of three bytes to the over-wide address 0x850, which the
    controller never answers. *)
Definition wide_msg : i2c_msg :=
  {| msg_addr := 0x850; msg_flags := 0; msg_len := 3; msg_buf := 1000 |}.

(** ** Platform glue *)

(** Everything a bound driver holds, the latest acquisition first; the
    reverse of the order in which the probe routine acquires. *)
Definition acquired (s : system) : list resource :=
  [ResAdapter; ResIrq (irq (dev s)); ResClkEnabled; ResClk;
   ResGpio (gpio_sda (pdata (dev s))); ResGpio (gpio_scl (pdata (dev s)));
   ResIoMap (dd_ioaddr s);
   ResMemRegion (fst (dd_mem s)) (resource_size (dd_mem s)); ResDevData].

(** A system before any driver is bound, over a given controller. *)
Definition unbound (m : machine) : system :=
  {| dev := m; dd_mem := (0, 0); dd_ioaddr := 0; held := [];
     released_unheld := []; drvdata := false |}.

(** A platform device on which every request is granted. *)
Definition good_pdev : platform_device :=
  {| pd_kzalloc := true;
     pd_platform_data := Some {| gpio_scl := 102; gpio_sda := 103; speed := 0 |};
     pd_gpio_configuration_func := true;
     pd_irq := 35;
     pd_mem := Some (0x90050000, 0x9005000f);
     pd_request_mem_region := true;
     pd_ioremap := 0xf0050000;
     pd_gpio_request_scl := 0;
     pd_gpio_request_sda := 0;
     pd_clk_get := 0xc0123400;
     pd_clk_enable := 0;
     pd_request_irq := 0;
     pd_add_adapter := 0 |}.

(** The same device with a platform speed the clock setter rejects. *)
Definition bad_speed_pdev : platform_device :=
  {| pd_kzalloc := true;
     pd_platform_data := Some {| gpio_scl := 102; gpio_sda := 103; speed := 250000 |};
     pd_gpio_configuration_func := true;
     pd_irq := 35;
     pd_mem := Some (0x90050000, 0x9005000f);
     pd_request_mem_region := true;
     pd_ioremap := 0xf0050000;
     pd_gpio_request_scl := 0;
     pd_gpio_request_sda := 0;
     pd_clk_get := 0xc0123400;
     pd_clk_enable := 0;
     pd_request_irq := 0;
     pd_add_adapter := 0 |}.

(** Where a probe call stands once it has the memory region: the latest
    [9 - j] resources of [acquired] are held on top of what was held before,
    and the adapter is set up from the platform device. *)
Definition probing (pdev : platform_device) (pd : plat_ns9xxx_i2c) (rg : Z * Z)
           (s0 : system) (j : nat) (s : system) : Prop :=
  held s = drop j (acquired s) ++ held s0 /\
  released_unheld s = released_unheld s0 /\
  dd_mem s = rg /\ dd_ioaddr s = u32 (pd_ioremap pdev) /\ drvdata s = true /\
  env (dev s) = env (dev s0) /\ pdata (dev s) = pd /\ irq (dev s) = pd_irq pdev /\
  adap_timeout (dev s) = Z.quot (HZ (env (dev s0))) 10 /\
  buf (dev s) = NULL /\ state (dev s) = I2C_INT_AWAITING.

(** ** Runs that stop at the first failure *)

(** The computations of a list done in order until one fails: the result
    is that of the first one that does not return 0, and nothing after it
    is done; the result is 0 when none fails. *)
Fixpoint until_failure (cs : list (M Z)) : M Z :=
  match cs with
  | [] => ret 0
  | c :: rest => r <- c ;; if r =? 0 then until_failure rest else ret r
  end.

(** The machine after all the computations of a list were done, whatever
    they returned. *)
Fixpoint after_all (cs : list (M Z)) (m : machine) : machine :=
  match cs with
  | [] => m
  | c :: rest => after_all rest (snd (c m))
  end.

(** "For each remaining byte, send the command; stop on the first
    failure", over the list of command words. *)
Definition send_each (ws : list Z) : M Z :=
  until_failure (map ns9xxx_i2c_send_cmd ws).

(** What the read driver does for one byte after the first: the receive
    cursor moves up by one, then a NOP asks for the byte. *)
Definition read_round : M Z :=
  modify (fun m => set_buf (buf m + 1) m) ;;
  ns9xxx_i2c_send_cmd I2C_CMD_NOP.

(** ** Busy/lock recovery, on the trace *)

(** A status word that shows the master command lock. *)
Definition lock_set (s : Z) : Prop := Z.land s I2C_STATUS_MCMDL <> 0.

(** The polls of a window that found the lock set, by the status words
    read: a status read and a sleep of one millisecond each. *)
Definition locked_polls (ss : list Z) : list event :=
  concat (map (fun s => [EvReadl I2C_STATUS s; EvMsleep 1]) ss).

(** The poll that finds the lock clear in status word [s]: the loop
    sleeps once more, reads the status again for the log and returns. *)
Definition idle_poll (s s' : Z) : list event :=
  [EvReadl I2C_STATUS s; EvMsleep 1; EvReadl I2C_STATUS s';
   EvPrintk (MsgModuleIdle s')].

(** The polls that fit in one window.  A poll sleeps [msleep(1)], which
    takes [msecs_to_jiffies(1) + 1] ticks, two at tick rates up to 1000;
    the deadline is NS9XXX_TIMEOUT ticks after the start, so the poll that
    starts at tick [2 * (NS9XXX_TIMEOUT / 2)] is the last one. *)
Definition window_polls (hz : Z) : nat := S (Z.to_nat (NS9XXX_TIMEOUT hz / 2)).

(** The events of one run of the controller reinitialisation. *)
Definition reinit_events (evs : list event) : Prop :=
  exists m0 : machine, evs = events_since m0 (snd (ns9xxx_reinit_i2c m0)).

(** The events of the attempt loop of the busy wait at tick rate [hz],
    with [n] attempts left and the next one being number [i + 1]; [k] is the
    number of windows that expired and [r] the result.  A window expires
    after [window_polls hz] polls that all found the lock set, and is
    followed by the log line of the attempt and one reinitialisation.  The
    run ends with 0 at the first poll that finds the lock clear, within a
    window, or with -ETIMEDOUT when no attempt is left. *)
Inductive busy_events (hz : Z) : nat -> Z -> nat -> Z -> list event -> Prop :=
  | busy_events_give_up (i : Z) :
      busy_events hz 0 i 0 (- ETIMEDOUT)
                  [EvPrintk (MsgGivingUp BUSY_RELEASE_ATTEMPTS)]
  | busy_events_idle (n : nat) (i : Z) (ss : list Z) (s s' : Z) :
      Forall lock_set ss -> (length ss < window_polls hz)%nat ->
      Z.land s I2C_STATUS_MCMDL = 0 ->
      busy_events hz (S n) i 0 0 (locked_polls ss ++ idle_poll s s')
  | busy_events_expired (n : nat) (i : Z) (ss : list Z) (ri : list event)
                        (k : nat) (r : Z) (rest : list event) :
      Forall lock_set ss -> length ss = window_polls hz ->
      reinit_events ri ->
      busy_events hz n (i + 1) k r rest ->
      busy_events hz (S n) i (S k) r
                  (locked_polls ss ++ EvPrintk (MsgBusyAttempt (i + 1)) :: ri ++ rest).

(** An automaton that counts the events [pick] selects. *)
Definition count_step {B : Type} (pick : event -> option B) (n : nat) (e : event)
  : option nat :=
  Some (match pick e with Some _ => S n | None => n end).

(** ** Arbitration losses on the trace *)

(** The Retry completions among the events. *)
Definition retries (evs : list event) : Z :=
  Z.of_nat (length (omap retry_store_of evs)).

(** The Retry completions since [m] are as many as the completion state
    of [m'] shows: one when it is Retry, none when it is not. *)
Definition retry_counted : relation machine := fun m m' =>
  exists evs, trace m' = trace m ++ evs /\ retries evs = retry_cost m'.

(** * Properties *)

(** ** Running the monad *)

Lemma run_bind {A B : Type} (c : M A) (k : A -> M B) (m : machine) :
  bind c k m = k (fst (c m)) (snd (c m)).
Proof. unfold bind. destruct (c m); reflexivity. Qed.

Lemma run_ret {A : Type} (a : A) (m : machine) : ret a m = (a, m).
Proof. reflexivity. Qed.

Lemma run_gets {A : Type} (f : machine -> A) (m : machine) : gets f m = (f m, m).
Proof. reflexivity. Qed.

Lemma run_modify (f : machine -> machine) (m : machine) : modify f m = (tt, f m).
Proof. reflexivity. Qed.

Lemma run_emit (e : event) (m : machine) :
  emit e m = (tt, set_trace (trace m ++ [e]) m).
Proof. reflexivity. Qed.

Lemma run_readl_status (m : machine) :
  readl I2C_STATUS m
  = (u32 (hw_status (env m) (n_status m)),
     set_trace (trace m ++ [EvReadl I2C_STATUS (u32 (hw_status (env m) (n_status m)))])
               (set_n_status (S (n_status m)) m)).
Proof. reflexivity. Qed.

Lemma run_readl_config (m : machine) :
  readl I2C_CONFIG m
  = (reg_config m, set_trace (trace m ++ [EvReadl I2C_CONFIG (reg_config m)]) m).
Proof. reflexivity. Qed.

Lemma run_writel_cmd (v : Z) (m : machine) :
  writel v I2C_CMD m = (tt, set_trace (trace m ++ [EvWritel v I2C_CMD]) m).
Proof. reflexivity. Qed.

Lemma run_writel_masteraddr (v : Z) (m : machine) :
  writel v I2C_MASTERADDR m
  = (tt, set_trace (trace m ++ [EvWritel v I2C_MASTERADDR]) (set_reg_masteraddr v m)).
Proof. reflexivity. Qed.

Lemma run_writel_config (v : Z) (m : machine) :
  writel v I2C_CONFIG m
  = (tt, set_trace (trace m ++ [EvWritel v I2C_CONFIG]) (set_reg_config v m)).
Proof. reflexivity. Qed.

Lemma run_store_state (s : i2c_int_state) (m : machine) :
  store_state s m = (tt, set_trace (trace m ++ [EvSetState s]) (set_state s m)).
Proof. reflexivity. Qed.

Lemma run_printk (msg : kmsg) (m : machine) :
  printk msg m = (tt, set_trace (trace m ++ [EvPrintk msg]) m).
Proof. reflexivity. Qed.

Lemma set_trace_set_trace (t t' : list event) (m : machine) :
  set_trace t (set_trace t' m) = set_trace t m.
Proof. reflexivity. Qed.

Lemma machine_ext (a b : machine) :
  env a = env b -> pdata a = pdata b -> buf a = buf b -> irq a = irq b ->
  state a = state b -> adap_timeout a = adap_timeout b ->
  reg_masteraddr a = reg_masteraddr b -> reg_config a = reg_config b ->
  mem a = mem b -> jiffies a = jiffies b -> n_status a = n_status b ->
  n_wait a = n_wait b -> n_gpio a = n_gpio b -> trace a = trace b ->
  a = b.
Proof. destruct a, b. cbn. intros. subst. reflexivity. Qed.

(** Sequencing only. *)
Ltac run :=
  repeat (rewrite ?run_bind, ?run_ret, ?run_gets, ?run_modify, ?run_emit;
          cbn [fst snd]).

(** Fields of machines built with setters. *)
Ltac fields :=
  cbn [fst snd env pdata buf irq state adap_timeout reg_masteraddr
       reg_config mem jiffies n_status n_wait n_gpio trace
       set_buf set_state set_reg_masteraddr set_reg_config set_mem
       set_jiffies set_n_status set_n_wait set_n_gpio set_trace].

(** Two machines built with setters from the same machine. *)
Ltac machine_eq :=
  apply machine_ext; fields; repeat rewrite <- app_assoc; reflexivity.

(** Symbolic execution: sequencing and primitives are run and the fields of
    the machines reached are read off; arithmetic is left alone. *)
Ltac exec :=
  repeat (rewrite ?run_bind, ?run_ret, ?run_gets, ?run_modify, ?run_emit,
            ?run_readl_status, ?run_readl_config, ?run_writel_cmd,
            ?run_writel_masteraddr, ?run_writel_config, ?run_store_state,
            ?run_printk, ?set_trace_set_trace;
          cbn [fst snd env pdata buf irq state adap_timeout reg_masteraddr
               reg_config mem jiffies n_status n_wait n_gpio trace
               set_buf set_state set_reg_masteraddr set_reg_config set_mem
               set_jiffies set_n_status set_n_wait set_n_gpio set_trace
               state_eqb negb andb orb]).

Lemma state_eqb_eq (a b : i2c_int_state) : state_eqb a b = true <-> a = b.
Proof. destruct a, b; simpl; split; intros H; try reflexivity; discriminate H. Qed.

Lemma state_eqb_refl (a : i2c_int_state) : state_eqb a a = true.
Proof. destruct a; reflexivity. Qed.

Lemma state_eqb_neq (a b : i2c_int_state) : state_eqb a b = false <-> a <> b.
Proof.
  split.
  - intros H Heq. subst b. rewrite state_eqb_refl in H. discriminate H.
  - intros H. destruct (state_eqb a b) eqn:E; [|reflexivity].
    apply state_eqb_eq in E. contradiction.
Qed.

(** ** Machine integers *)

Lemma u32_idemp (x : Z) : u32 (u32 x) = u32 x.
Proof. unfold u32. apply Z.mod_mod. discriminate. Qed.

Lemma u32_add_l (a b : Z) : u32 (u32 a + b) = u32 (a + b).
Proof. unfold u32. apply Zplus_mod_idemp_l. Qed.

Lemma u32_sub (a b : Z) : u32 (u32 a - u32 b) = u32 (a - b).
Proof. unfold u32. symmetry. apply Zminus_mod. Qed.

Lemma u32_small (x : Z) : 0 <= x < 2 ^ 32 -> u32 x = x.
Proof. apply Z.mod_small. Qed.

Lemma u32_sub_sub (a b c : Z) :
  0 <= a - b - c < 2 ^ 32 -> u32 (u32 (a - b) - c) = a - b - c.
Proof.
  intros H. unfold u32. rewrite Zminus_mod_idemp_l. apply Z.mod_small. exact H.
Qed.

(** With a deadline [n] ticks after [j0], and [e] ticks gone since, the
    deadline has passed exactly when [n < e]. *)
Lemma time_after_elapsed (j0 n e : Z) :
  0 <= n < 2 ^ 30 -> 0 <= e < 2 ^ 30 ->
  time_after (u32 (j0 + e)) (u32 (j0 + n)) = (n <? e).
Proof.
  intros Hn He. unfold time_after, s32.
  rewrite u32_sub. replace (j0 + n - (j0 + e)) with (n - e) by lia.
  destruct (Z.ltb_spec n e) as [Hlt|Hge].
  - assert (Hu : u32 (n - e) = n - e + 2 ^ 32).
    { unfold u32. rewrite <- (Z_mod_plus_full (n - e) 1 (2 ^ 32)).
      rewrite Z.mul_1_l. apply Z.mod_small. lia. }
    rewrite Hu. destruct (Z.ltb_spec (n - e + 2 ^ 32) (2 ^ 31)); [lia|].
    apply Z.ltb_lt. lia.
  - rewrite (u32_small (n - e)) by lia.
    destruct (Z.ltb_spec (n - e) (2 ^ 31)); [|lia].
    apply Z.ltb_ge. lia.
Qed.

Lemma msecs_to_jiffies_1 (hz : Z) : 1 <= hz <= 1000 -> msecs_to_jiffies hz 1 = 1.
Proof.
  intros H. unfold msecs_to_jiffies.
  symmetry. apply Z.div_unique with (r := hz - 1); lia.
Qed.

Lemma NS9XXX_TIMEOUT_HZ (hz : Z) : 1 <= hz <= 1000 -> NS9XXX_TIMEOUT hz = hz.
Proof.
  intros H. unfold NS9XXX_TIMEOUT, msecs_to_jiffies.
  symmetry. apply Z.div_unique with (r := 999); lia.
Qed.

(** The bits of the divider field in a configuration value. *)
Lemma land_low_clear (a : Z) :
  Z.land (Z.land a (Z.lnot I2C_CONFIG_CLREFMASK)) I2C_CONFIG_CLREFMASK = 0.
Proof.
  rewrite <- Z.land_assoc, (Z.land_comm (Z.lnot _)), Z.land_lnot_diag.
  apply Z.land_0_r.
Qed.

Lemma land_low_land (a c : Z) :
  Z.land a I2C_CONFIG_CLREFMASK = 0 ->
  Z.land (Z.land a c) I2C_CONFIG_CLREFMASK = 0.
Proof.
  intros H. rewrite <- Z.land_assoc, (Z.land_comm c), Z.land_assoc, H.
  apply Z.land_0_l.
Qed.

Lemma land_low_field (a f : Z) :
  Z.land a I2C_CONFIG_CLREFMASK = 0 ->
  Z.land (Z.lor a (Z.land f I2C_CONFIG_CLREFMASK)) I2C_CONFIG_CLREFMASK
  = Z.land f I2C_CONFIG_CLREFMASK.
Proof.
  intros H. rewrite Z.land_lor_distr_l, H, Z.lor_0_l.
  rewrite <- Z.land_assoc, Z.land_diag. reflexivity.
Qed.

(** ** Traces *)

Lemma events_since_app (m m' : machine) (evs : list event) :
  trace m' = trace m ++ evs -> events_since m m' = evs.
Proof. intros H. unfold events_since. rewrite H. apply drop_app_length. Qed.

Lemma extends_events_since (m m' : machine) :
  extends m m' -> trace m' = trace m ++ events_since m m'.
Proof. intros [evs H]. rewrite (events_since_app _ _ _ H). exact H. Qed.

Lemma events_since_trans (a b c : machine) :
  extends a b -> extends b c ->
  events_since a c = events_since a b ++ events_since b c.
Proof.
  intros Hab Hbc. apply events_since_app.
  rewrite (extends_events_since _ _ Hbc), (extends_events_since _ _ Hab).
  rewrite app_assoc. reflexivity.
Qed.

Lemma omap_nil_weaken {A B C : Type} (f : A -> option B) (g : A -> option C)
      (l : list A) :
  (forall a, f a = None -> g a = None) -> omap f l = [] -> omap g l = [].
Proof.
  intros Hfg. induction l as [|a l IH]; simpl; [reflexivity|].
  destruct (f a) eqn:Hf; [discriminate|]. intros H.
  rewrite (Hfg a Hf). apply IH. exact H.
Qed.

Lemma proto_cmd_write (e : event) : proto_of e = None -> cmd_write_of e = None.
Proof.
  destruct e; simpl; try reflexivity; try discriminate.
  destruct (off =? I2C_CMD); [discriminate|reflexivity].
Qed.

Lemma cmd_writes_app (a b : list event) :
  cmd_writes (a ++ b) = cmd_writes a ++ cmd_writes b.
Proof. apply omap_app. Qed.

(** A guard that holds with no STOP before the list holds with one. *)
Lemma abort_guarded_weaken (evs : list event) (b : bool) :
  abort_guarded false evs = true -> abort_guarded b evs = true.
Proof.
  destruct evs as [|e evs]; [reflexivity|].
  destruct e; cbn [abort_guarded]; try (intros H; exact H).
  destruct st; try (intros H; exact H). cbn [andb]. discriminate.
Qed.

Lemma abort_guarded_app (evs1 evs2 : list event) :
  forall b : bool,
    abort_guarded b evs1 = true -> abort_guarded false evs2 = true ->
    abort_guarded b (evs1 ++ evs2) = true.
Proof.
  induction evs1 as [|e evs1 IH]; intros b H1 H2.
  - apply abort_guarded_weaken. exact H2.
  - destruct e; cbn [app abort_guarded] in *; try (apply IH; assumption).
    destruct st; try (apply IH; assumption).
    apply andb_true_iff in H1. destruct H1 as [Hb H1].
    rewrite Hb. cbn [andb]. apply IH; assumption.
Qed.

(** Without protocol events there is no store of Abort to guard. *)
Lemma proto_quiet_guarded (evs : list event) :
  forall b : bool, omap proto_of evs = [] -> abort_guarded b evs = true.
Proof.
  induction evs as [|e evs IH]; intros b H; [reflexivity|].
  destruct e; cbn [omap list_omap proto_of] in H; try discriminate H;
    cbn [abort_guarded]; try (apply IH; exact H).
  destruct (off =? I2C_CMD); [discriminate H|]. apply IH. exact H.
Qed.

(** ** Frame conditions *)

Section Preserves.
Context (R : relation machine) `{!PreOrder R}.

Lemma preserves_ret {A : Type} (a : A) : preserves R (ret a).
Proof. intros m. simpl. reflexivity. Qed.

Lemma preserves_gets {A : Type} (f : machine -> A) : preserves R (gets f).
Proof. intros m. simpl. reflexivity. Qed.

Lemma preserves_bind {A B : Type} (c : M A) (k : A -> M B) :
  preserves R c -> (forall a, preserves R (k a)) -> preserves R (bind c k).
Proof.
  intros Hc Hk m. rewrite run_bind. etransitivity; [apply Hc | apply Hk].
Qed.
End Preserves.

Lemma preserves_sub (R R' : relation machine) {A : Type} (c : M A) :
  (forall m m', R m m' -> R' m m') -> preserves R c -> preserves R' c.
Proof. intros Hsub Hc m. apply Hsub, Hc. Qed.

Lemma modify_preserves (R : relation machine) (f : machine -> machine) :
  (forall m, R m (f m)) -> preserves R (modify f).
Proof. intros H m. apply H. Qed.

#[local] Instance unchanged_dev_preorder : PreOrder unchanged_dev.
Proof.
  split.
  - intros m. unfold unchanged_dev. tauto.
  - intros a b c H1 H2. unfold unchanged_dev in *.
    destruct H1 as (?&?&?&?&?&?&?&?), H2 as (?&?&?&?&?&?&?&?).
    repeat split; congruence.
Qed.

#[local] Instance static_preorder : PreOrder static.
Proof.
  split.
  - intros m. unfold static. tauto.
  - intros a b c H1 H2. unfold static in *.
    destruct H1 as (?&?&?&?), H2 as (?&?&?&?). repeat split; congruence.
Qed.

#[local] Instance same_gpio_preorder : PreOrder same_gpio.
Proof.
  split.
  - intros m. unfold same_gpio. tauto.
  - intros a b c (?&?&?) (?&?&?). unfold same_gpio. repeat split; congruence.
Qed.

#[local] Instance cursor_frame_preorder : PreOrder cursor_frame.
Proof.
  split.
  - intros m. split; [reflexivity|]. intros a _. reflexivity.
  - intros a b c [Hb1 Hm1] [Hb2 Hm2]. split; [congruence|].
    intros x Hx. rewrite Hm2 by congruence. apply Hm1. exact Hx.
Qed.

#[local] Instance quiet_preorder {B : Type} (pick : event -> option B) :
  PreOrder (quiet pick).
Proof.
  split.
  - intros m. exists []. rewrite app_nil_r. split; reflexivity.
  - intros a b c (e1 & H1 & Q1) (e2 & H2 & Q2). exists (e1 ++ e2). split.
    + rewrite H2, H1, app_assoc. reflexivity.
    + rewrite omap_app, Q1, Q2. reflexivity.
Qed.

#[local] Instance extends_preorder : PreOrder extends.
Proof.
  split.
  - intros m. exists []. rewrite app_nil_r. reflexivity.
  - intros a b c (e1 & H1) (e2 & H2). exists (e1 ++ e2).
    rewrite H2, H1, app_assoc. reflexivity.
Qed.

#[local] Instance stop_before_abort_preorder : PreOrder stop_before_abort.
Proof.
  split.
  - intros m. exists []. rewrite app_nil_r. split; reflexivity.
  - intros a b c (e1 & H1 & G1) (e2 & H2 & G2). exists (e1 ++ e2). split.
    + rewrite H2, H1, app_assoc. reflexivity.
    + apply abort_guarded_app; assumption.
Qed.

(** *** How the relations imply one another *)

Lemma unchanged_dev_static (m m' : machine) : unchanged_dev m m' -> static m m'.
Proof. unfold unchanged_dev, static. tauto. Qed.

Lemma unchanged_dev_cursor_frame (m m' : machine) :
  unchanged_dev m m' -> cursor_frame m m'.
Proof.
  intros (_&_&_&_&_&Hb&Hm&_). split; [exact Hb|]. intros a _. rewrite Hm.
  reflexivity.
Qed.

Lemma quiet_extends {B : Type} (pick : event -> option B) (m m' : machine) :
  quiet pick m m' -> extends m m'.
Proof. intros (evs & H & _). exists evs. exact H. Qed.

Lemma stop_before_abort_extends (m m' : machine) :
  stop_before_abort m m' -> extends m m'.
Proof. intros (evs & H & _). exists evs. exact H. Qed.

Lemma quiet_stop_before_abort (m m' : machine) :
  quiet proto_of m m' -> stop_before_abort m m'.
Proof.
  intros (evs & H & Q). exists evs. split; [exact H|].
  apply proto_quiet_guarded. exact Q.
Qed.

Lemma quiet_events_since {B : Type} (pick : event -> option B) (m m' : machine) :
  quiet pick m m' -> omap pick (events_since m m') = [].
Proof. intros (evs & H & Q). rewrite (events_since_app _ _ _ H). exact Q. Qed.

Lemma quiet_cmd_writes (m m' : machine) :
  quiet proto_of m m' -> cmd_writes (events_since m m') = [].
Proof.
  intros H. unfold cmd_writes.
  apply (omap_nil_weaken proto_of); [apply proto_cmd_write|].
  apply quiet_events_since. exact H.
Qed.

Lemma quiet_cmd_writes_ex (m m' : machine) :
  quiet proto_of m m' ->
  exists evs, trace m' = trace m ++ evs /\ cmd_writes evs = [].
Proof.
  intros (evs & Ht & Hq). exists evs. split; [exact Ht|].
  apply (omap_nil_weaken proto_of); [apply proto_cmd_write|exact Hq].
Qed.

(** *** Primitives *)

Lemma emit_unchanged_dev (e : event) : preserves unchanged_dev (emit e).
Proof. intros m. cbv. tauto. Qed.

Lemma emit_same_gpio (e : event) : preserves same_gpio (emit e).
Proof. intros m. cbv. tauto. Qed.

Lemma emit_quiet {B : Type} (pick : event -> option B) (e : event) :
  pick e = None -> preserves (quiet pick) (emit e).
Proof.
  intros H m. exists [e]. split; [reflexivity|]. simpl. rewrite H. reflexivity.
Qed.

Lemma emit_stop_before_abort (e : event) :
  abort_guarded false [e] = true -> preserves stop_before_abort (emit e).
Proof. intros H m. exists [e]. split; [reflexivity|exact H]. Qed.

Lemma readl_unchanged_dev (off : Z) : preserves unchanged_dev (readl off).
Proof.
  intros m. unfold readl. destruct (off =? I2C_STATUS); cbv; tauto.
Qed.

Lemma readl_quiet {B : Type} (pick : event -> option B) (off : Z) :
  (forall v, pick (EvReadl off v) = None) -> preserves (quiet pick) (readl off).
Proof.
  intros H m. unfold readl.
  destruct (off =? I2C_STATUS); cbn [snd trace set_trace];
    (eexists [_]; split; [reflexivity|]); simpl; rewrite H; reflexivity.
Qed.

Lemma writel_unchanged_dev (val off : Z) : preserves unchanged_dev (writel val off).
Proof.
  intros m. unfold writel.
  destruct (off =? I2C_MASTERADDR); [|destruct (off =? I2C_CONFIG)];
    cbv; tauto.
Qed.

Lemma writel_trace (val off : Z) (m : machine) :
  trace (snd (writel val off m)) = trace m ++ [EvWritel val off].
Proof.
  unfold writel.
  destruct (off =? I2C_MASTERADDR); [|destruct (off =? I2C_CONFIG)]; reflexivity.
Qed.

Lemma writel_quiet {B : Type} (pick : event -> option B) (val off : Z) :
  pick (EvWritel val off) = None -> preserves (quiet pick) (writel val off).
Proof.
  intros H m. exists [EvWritel val off]. split; [apply writel_trace|].
  simpl. rewrite H. reflexivity.
Qed.

Lemma writel_stop_before_abort (val off : Z) :
  preserves stop_before_abort (writel val off).
Proof.
  intros m. exists [EvWritel val off]. split; [apply writel_trace|reflexivity].
Qed.

Lemma gpio_get_value_unchanged_dev (pin : Z) :
  preserves unchanged_dev (gpio_get_value pin).
Proof. intros m. cbv. tauto. Qed.

Lemma gpio_get_value_quiet {B : Type} (pick : event -> option B) (pin : Z) :
  (forall v, pick (EvGpioGetValue pin v) = None) ->
  preserves (quiet pick) (gpio_get_value pin).
Proof.
  intros H m. eexists [_]. split; [reflexivity|]. simpl. rewrite H. reflexivity.
Qed.

Lemma msleep_unchanged_dev (ms : Z) : preserves unchanged_dev (msleep ms).
Proof. intros m. cbv -[u32 msecs_to_jiffies Z.add]. tauto. Qed.

Lemma msleep_quiet {B : Type} (pick : event -> option B) (ms : Z) :
  pick (EvMsleep ms) = None -> preserves (quiet pick) (msleep ms).
Proof.
  intros H m. exists [EvMsleep ms]. split; [reflexivity|].
  simpl. rewrite H. reflexivity.
Qed.

Lemma store_state_static (s : i2c_int_state) : preserves static (store_state s).
Proof. intros m. cbv. tauto. Qed.

Lemma store_state_extends (s : i2c_int_state) : preserves extends (store_state s).
Proof. intros m. exists [EvSetState s]. reflexivity. Qed.

Lemma store_state_cursor_frame (s : i2c_int_state) :
  preserves cursor_frame (store_state s).
Proof. intros m. split; [reflexivity|]. intros a _. reflexivity. Qed.

Lemma store_state_stop_before_abort (s : i2c_int_state) :
  s <> I2C_INT_ABORT -> preserves stop_before_abort (store_state s).
Proof.
  intros Hs m. exists [EvSetState s]. split; [reflexivity|].
  destruct s; try reflexivity. contradiction.
Qed.

Lemma next_wait_outcome_static : preserves static next_wait_outcome.
Proof. intros m. cbv. tauto. Qed.

Lemma next_wait_outcome_cursor_frame : preserves cursor_frame next_wait_outcome.
Proof. intros m. split; [reflexivity|]. intros a _. reflexivity. Qed.

Lemma next_wait_outcome_quiet {B : Type} (pick : event -> option B) :
  preserves (quiet pick) next_wait_outcome.
Proof. intros m. exists []. cbn. rewrite app_nil_r. split; reflexivity. Qed.

(** A store to a field other than the trace adds no event. *)
Lemma modify_quiet {B : Type} (pick : event -> option B) (f : machine -> machine) :
  (forall m, trace (f m) = trace m) -> preserves (quiet pick) (modify f).
Proof.
  intros H m. exists []. cbn. rewrite H, app_nil_r. split; reflexivity.
Qed.

(** *** Proving a frame condition

    [frame] takes a computation apart along its sequencing and its case
    distinctions and closes the leaves from the hint database [frames],
    which holds the primitives and every function already dealt with.  For
    a relation that follows from one on the trace alone, or on the device
    fields alone, a leaf is looked up under that one. *)

Create HintDb frames discriminated.

#[local] Hint Resolve emit_unchanged_dev emit_same_gpio readl_unchanged_dev
  writel_unchanged_dev gpio_get_value_unchanged_dev msleep_unchanged_dev
  store_state_static store_state_extends store_state_cursor_frame
  next_wait_outcome_static next_wait_outcome_cursor_frame
  next_wait_outcome_quiet writel_stop_before_abort : frames.

#[local] Hint Extern 1 (preserves (quiet _) (emit _)) =>
  apply emit_quiet; reflexivity : frames.
#[local] Hint Extern 1 (preserves (quiet _) (readl _)) =>
  apply readl_quiet; reflexivity : frames.
#[local] Hint Extern 1 (preserves (quiet _) (writel _ _)) =>
  apply writel_quiet; reflexivity : frames.
#[local] Hint Extern 1 (preserves (quiet _) (gpio_get_value _)) =>
  apply gpio_get_value_quiet; reflexivity : frames.
#[local] Hint Extern 1 (preserves (quiet _) (msleep _)) =>
  apply msleep_quiet; reflexivity : frames.
#[local] Hint Extern 1 (preserves (quiet _) (modify _)) =>
  apply modify_quiet; intros ?; reflexivity : frames.
#[local] Hint Extern 1 (preserves stop_before_abort (emit _)) =>
  apply emit_stop_before_abort; reflexivity : frames.
#[local] Hint Extern 1 (preserves stop_before_abort (store_state _)) =>
  apply store_state_stop_before_abort; discriminate : frames.
#[local] Hint Extern 1 (preserves static (modify _)) =>
  apply modify_preserves; intros ?; cbv; tauto : frames.
#[local] Hint Extern 1 (preserves cursor_frame (modify _)) =>
  apply modify_preserves; intros ?; split; [reflexivity|intros ? _; reflexivity]
  : frames.
#[local] Hint Extern 5 (preserves static _) =>
  apply (preserves_sub unchanged_dev static); [apply unchanged_dev_static|]
  : frames.
#[local] Hint Extern 5 (preserves cursor_frame _) =>
  apply (preserves_sub unchanged_dev cursor_frame);
  [apply unchanged_dev_cursor_frame|] : frames.
#[local] Hint Extern 5 (preserves extends _) =>
  apply (preserves_sub (quiet proto_of) extends); [apply quiet_extends|]
  : frames.
#[local] Hint Extern 5 (preserves stop_before_abort _) =>
  apply (preserves_sub (quiet proto_of) stop_before_abort);
  [apply quiet_stop_before_abort|] : frames.

Ltac frame_step :=
  match goal with
  | |- preserves _ (ret _) => apply preserves_ret; typeclasses eauto
  | |- preserves _ (gets _) => apply preserves_gets; typeclasses eauto
  | |- preserves _ (bind _ _) =>
      apply preserves_bind; [typeclasses eauto| |intros ?]
  | |- preserves _ (match ?x with _ => _ end) => destruct x
  end.

Ltac frame :=
  unfold printk, disable_irq, enable_irq, gpio_direction_output,
    gpio_direction_input, gpio_set_value, gpio_configuration_func, mdelay,
    clk_get_rate, wake_up_interruptible, load_char;
  repeat first [frame_step | solve [auto with frames]].

(** *** Functions that stay off the command protocol *)

Lemma set_clock_unchanged_dev (freq : Z) :
  preserves unchanged_dev (ns9xxx_i2c_set_clock freq).
Proof. unfold ns9xxx_i2c_set_clock. frame. Qed.

Lemma set_clock_quiet (freq : Z) :
  preserves (quiet proto_of) (ns9xxx_i2c_set_clock freq).
Proof. unfold ns9xxx_i2c_set_clock. frame. Qed.

#[local] Hint Resolve set_clock_unchanged_dev set_clock_quiet : frames.

Lemma reset_clock_cycles_unchanged_dev (n : nat) (i eff prev : Z) :
  preserves unchanged_dev (reset_clock_cycles n i eff prev).
Proof.
  revert i eff prev. induction n as [|n IH]; intros i eff prev; simpl; frame.
Qed.

Lemma reset_clock_cycles_quiet (n : nat) (i eff prev : Z) :
  preserves (quiet proto_of) (reset_clock_cycles n i eff prev).
Proof.
  revert i eff prev. induction n as [|n IH]; intros i eff prev; simpl; frame.
Qed.

#[local] Hint Resolve reset_clock_cycles_unchanged_dev reset_clock_cycles_quiet
  : frames.

Lemma reset_bitbang_unchanged_dev : preserves unchanged_dev ns9xxx_i2c_reset_bitbang.
Proof. unfold ns9xxx_i2c_reset_bitbang. frame. Qed.

Lemma reset_bitbang_quiet : preserves (quiet proto_of) ns9xxx_i2c_reset_bitbang.
Proof. unfold ns9xxx_i2c_reset_bitbang. frame. Qed.

#[local] Hint Resolve reset_bitbang_unchanged_dev reset_bitbang_quiet : frames.

Lemma reinit_unchanged_dev : preserves unchanged_dev ns9xxx_reinit_i2c.
Proof. unfold ns9xxx_reinit_i2c. frame. Qed.

Lemma reinit_quiet : preserves (quiet proto_of) ns9xxx_reinit_i2c.
Proof. unfold ns9xxx_reinit_i2c. frame. Qed.

#[local] Hint Resolve reinit_unchanged_dev reinit_quiet : frames.

Lemma busy_poll_unchanged_dev (fuel : nat) (timeout : Z) :
  preserves unchanged_dev (busy_poll fuel timeout).
Proof. induction fuel as [|fuel IH]; simpl; frame. Qed.

Lemma busy_poll_quiet (fuel : nat) (timeout : Z) :
  preserves (quiet proto_of) (busy_poll fuel timeout).
Proof. induction fuel as [|fuel IH]; simpl; frame. Qed.

#[local] Hint Resolve busy_poll_unchanged_dev busy_poll_quiet : frames.

Lemma busy_attempts_unchanged_dev (n : nat) (i : Z) :
  preserves unchanged_dev (busy_attempts n i).
Proof. revert i. induction n as [|n IH]; intros i; simpl; frame. Qed.

Lemma busy_attempts_quiet (n : nat) (i : Z) :
  preserves (quiet proto_of) (busy_attempts n i).
Proof. revert i. induction n as [|n IH]; intros i; simpl; frame. Qed.

#[local] Hint Resolve busy_attempts_unchanged_dev busy_attempts_quiet : frames.

Lemma wait_while_busy_unchanged_dev : preserves unchanged_dev ns9xxx_wait_while_busy.
Proof. unfold ns9xxx_wait_while_busy. frame. Qed.

Lemma wait_while_busy_quiet : preserves (quiet proto_of) ns9xxx_wait_while_busy.
Proof. unfold ns9xxx_wait_while_busy. frame. Qed.

#[local] Hint Resolve wait_while_busy_unchanged_dev wait_while_busy_quiet : frames.

Lemma send_cmd_unlock_unchanged_dev : preserves unchanged_dev send_cmd_unlock.
Proof. unfold send_cmd_unlock. frame. Qed.

Lemma send_cmd_unlock_quiet : preserves (quiet proto_of) send_cmd_unlock.
Proof. unfold send_cmd_unlock. frame. Qed.

#[local] Hint Resolve send_cmd_unlock_unchanged_dev send_cmd_unlock_quiet : frames.

Lemma bitbang_address_bits_unchanged_dev (n : nat) (i nr_bits addr : Z) :
  preserves unchanged_dev (bitbang_address_bits n i nr_bits addr).
Proof. revert i. induction n as [|n IH]; intros i; simpl; frame. Qed.

Lemma bitbang_address_bits_quiet (n : nat) (i nr_bits addr : Z) :
  preserves (quiet proto_of) (bitbang_address_bits n i nr_bits addr).
Proof. revert i. induction n as [|n IH]; intros i; simpl; frame. Qed.

Lemma bitbang_address_bits_same_gpio (n : nat) (i nr_bits addr : Z) :
  preserves same_gpio (bitbang_address_bits n i nr_bits addr).
Proof. revert i. induction n as [|n IH]; intros i; simpl; frame. Qed.

#[local] Hint Resolve bitbang_address_bits_unchanged_dev
  bitbang_address_bits_quiet : frames.

Lemma bitbang_unchanged_dev (msg : i2c_msg) :
  preserves unchanged_dev (ns9xxx_i2c_bitbang msg).
Proof. unfold ns9xxx_i2c_bitbang. frame. Qed.

Lemma bitbang_quiet (msg : i2c_msg) :
  preserves (quiet proto_of) (ns9xxx_i2c_bitbang msg).
Proof. unfold ns9xxx_i2c_bitbang. frame. Qed.

#[local] Hint Resolve bitbang_unchanged_dev bitbang_quiet : frames.
(** ** Following a computation through an automaton *)

Lemma run_events_app {S : Type} (step : S -> event -> option S) (l1 l2 : list event) :
  forall a b c : S,
    run_events step a l1 = Some b -> run_events step b l2 = Some c ->
    run_events step a (l1 ++ l2) = Some c.
Proof.
  induction l1 as [|e l1 IH]; intros a b c H1 H2; cbn [run_events app] in *.
  - injection H1 as ->. exact H2.
  - destruct (step a e) as [a'|]; [|discriminate H1]. apply (IH a' b c H1 H2).
Qed.

Section Tracks.
Context {S : Type} (step : S -> event -> option S).

Lemma tracks_seq (a b c : S) (x y z : machine) :
  tracks step a b x y -> tracks step b c y z -> tracks step a c x z.
Proof.
  intros (e1 & H1 & R1) (e2 & H2 & R2). exists (e1 ++ e2). split.
  - rewrite H2, H1, app_assoc. reflexivity.
  - apply (run_events_app step e1 e2 a b c R1 R2).
Qed.

Lemma tracks_here (a : S) (x y : machine) : trace y = trace x -> tracks step a a x y.
Proof. intros H. exists []. rewrite app_nil_r. split; [exact H|reflexivity]. Qed.

Lemma tracks_one (a b : S) (e : event) (x y : machine) :
  trace y = trace x ++ [e] -> step a e = Some b -> tracks step a b x y.
Proof.
  intros H Hs. exists [e]. split; [exact H|]. cbn [run_events]. rewrite Hs.
  reflexivity.
Qed.

Lemma tracks_ret {A : Type} (a : S) (v : A) : preserves (tracks step a a) (ret v).
Proof. intros m. apply tracks_here. reflexivity. Qed.

Lemma tracks_gets {A : Type} (a : S) (f : machine -> A) :
  preserves (tracks step a a) (gets f).
Proof. intros m. apply tracks_here. reflexivity. Qed.

Lemma tracks_bind {A B : Type} (a b c : S) (c1 : M A) (k : A -> M B) :
  preserves (tracks step a b) c1 -> (forall x, preserves (tracks step b c) (k x)) ->
  preserves (tracks step a c) (bind c1 k).
Proof.
  intros H1 H2 m. rewrite run_bind. eapply tracks_seq; [apply H1|apply H2].
Qed.

Lemma tracks_modify (a : S) (f : machine -> machine) :
  (forall m, trace (f m) = trace m) -> preserves (tracks step a a) (modify f).
Proof. intros H m. apply tracks_here. apply H. Qed.

Lemma tracks_next_wait_outcome (a : S) :
  preserves (tracks step a a) next_wait_outcome.
Proof. intros m. apply tracks_here. reflexivity. Qed.

Lemma tracks_emit (a b : S) (e : event) :
  step a e = Some b -> preserves (tracks step a b) (emit e).
Proof. intros H m. apply (tracks_one a b e); [reflexivity|exact H]. Qed.

Lemma tracks_readl (a b : S) (off : Z) :
  (forall v, step a (EvReadl off v) = Some b) -> preserves (tracks step a b) (readl off).
Proof.
  intros H m. unfold readl.
  destruct (off =? I2C_STATUS); cbn [snd];
    (eapply tracks_one; [reflexivity|apply H]).
Qed.

Lemma tracks_writel (a b : S) (val off : Z) :
  step a (EvWritel val off) = Some b -> preserves (tracks step a b) (writel val off).
Proof.
  intros H m. apply (tracks_one a b (EvWritel val off)); [apply writel_trace|exact H].
Qed.

Lemma tracks_gpio_get_value (a b : S) (pin : Z) :
  (forall v, step a (EvGpioGetValue pin v) = Some b) ->
  preserves (tracks step a b) (gpio_get_value pin).
Proof. intros H m. eapply tracks_one; [reflexivity|apply H]. Qed.

Lemma tracks_msleep (a b : S) (ms : Z) :
  step a (EvMsleep ms) = Some b -> preserves (tracks step a b) (msleep ms).
Proof. intros H m. apply (tracks_one a b (EvMsleep ms)); [reflexivity|exact H]. Qed.

Lemma tracks_store_state (a b : S) (s : i2c_int_state) :
  step a (EvSetState s) = Some b -> preserves (tracks step a b) (store_state s).
Proof. intros H m. apply (tracks_one a b (EvSetState s)); [reflexivity|exact H]. Qed.
End Tracks.

(** [track] follows a computation through the automaton: sequencing passes
    the state on, a primitive makes its step, both sides of a case
    distinction have to arrive in the same state, and a function already
    dealt with is looked up among the hypotheses and in the hint database
    [tracked]. *)
Create HintDb tracked discriminated.

Ltac track_leaf :=
  lazymatch goal with
  | |- preserves _ (ret _) => apply tracks_ret
  | |- preserves _ (gets _) => apply tracks_gets
  | |- preserves _ (emit _) => apply tracks_emit; lazy; reflexivity
  | |- preserves _ (readl _) => apply tracks_readl; intros ?; lazy; reflexivity
  | |- preserves _ (writel _ _) => apply tracks_writel; lazy; reflexivity
  | |- preserves _ (gpio_get_value _) =>
      apply tracks_gpio_get_value; intros ?; lazy; reflexivity
  | |- preserves _ (msleep _) => apply tracks_msleep; lazy; reflexivity
  | |- preserves _ (store_state _) => apply tracks_store_state; lazy; reflexivity
  | |- preserves _ (modify _) => apply tracks_modify; intros ?; reflexivity
  | |- preserves _ next_wait_outcome => apply tracks_next_wait_outcome
  | |- _ => solve [eauto 2 with tracked]
  end.

Ltac track_step :=
  lazymatch goal with
  | |- preserves _ (bind _ _) => eapply tracks_bind; [|intros ?]
  | |- preserves _ (match ?x with _ => _ end) => destruct x
  | |- _ => track_leaf
  end.

Ltac track :=
  unfold printk, disable_irq, enable_irq, gpio_direction_output,
    gpio_direction_input, gpio_set_value, gpio_configuration_func, mdelay,
    clk_get_rate, wake_up_interruptible, load_char;
  repeat track_step.


(** ** Interrupt classifier *)

Lemma app_assoc3 {A : Type} (l : list A) (a b c d : A) :
  (((l ++ [a]) ++ [b]) ++ [c]) ++ [d] = l ++ [a; b; c; d].
Proof. repeat rewrite <- app_assoc. reflexivity. Qed.

(** C7.  When the interrupt handler runs in state Awaiting and the status
    read shows the no-acknowledge cause, it appends to the trace, in this
    order: the status read, the write of the STOP command word to the
    command register, the store of Abort to the completion state, the
    wake-up of the waiter.  And for every status value: if the handler
    leaves the state at Abort and did not find it there, the STOP write is in
    the trace right before the store of Abort. *)
Theorem irq_noack_stop_before_abort (m : machine) :
  let m' := snd (ns9xxx_i2c_irq m) in
  let status := u32 (hw_status (env m) (n_status m)) in
  (state m = I2C_INT_AWAITING -> pending_cause m = I2C_IRQ_NOACK ->
     state m' = I2C_INT_ABORT /\
     trace m' = trace m ++ [EvReadl I2C_STATUS status;
                            EvWritel I2C_CMD_STOP I2C_CMD;
                            EvSetState I2C_INT_ABORT;
                            EvWake]) /\
  (state m' = I2C_INT_ABORT -> state m <> I2C_INT_ABORT ->
     exists pre post,
       trace m' = trace m ++ pre ++
                  [EvWritel I2C_CMD_STOP I2C_CMD; EvSetState I2C_INT_ABORT] ++ post).
Proof.
  cbv zeta. unfold ns9xxx_i2c_irq, pending_cause, wake_up_interruptible.
  set (status := u32 (hw_status (env m) (n_status m))).
  exec. fold status. split.
  - intros Hst Hcause. rewrite Hst, Hcause. exec.
    change (I2C_IRQ_NOACK =? I2C_IRQ_RXDATA) with false.
    change ((I2C_IRQ_NOACK =? I2C_IRQ_CMDACK) || (I2C_IRQ_NOACK =? I2C_IRQ_TXDATA))
      with false.
    change (I2C_IRQ_NOACK =? I2C_IRQ_NOACK) with true. exec.
    split; [reflexivity|]. rewrite app_assoc3. reflexivity.
  - destruct (state_eqb (state m) I2C_INT_AWAITING) eqn:Haw; exec.
    + intros Hab Hne. revert Hab.
      repeat match goal with
             | |- context [if ?c then _ else _] => destruct c eqn:?; exec
             end;
        try discriminate.
      intros _. exists [EvReadl I2C_STATUS status], [EvWake].
      rewrite app_assoc3. reflexivity.
    + intros Hab Hne. contradiction.
Qed.

Lemma irq_noack_stop_before_abort_witness :
  state noack_machine = I2C_INT_AWAITING /\
  pending_cause noack_machine = I2C_IRQ_NOACK /\
  state (snd (ns9xxx_i2c_irq noack_machine)) = I2C_INT_ABORT /\
  trace (snd (ns9xxx_i2c_irq noack_machine))
  = trace noack_machine ++ [EvReadl I2C_STATUS 0x200;
                            EvWritel I2C_CMD_STOP I2C_CMD;
                            EvSetState I2C_INT_ABORT;
                            EvWake].
Proof.
  split; [reflexivity|]. split; [reflexivity|].
  destruct (irq_noack_stop_before_abort noack_machine) as [H _].
  apply H; reflexivity.
Defined.

Lemma irq_static : preserves static ns9xxx_i2c_irq.
Proof. unfold ns9xxx_i2c_irq. frame. Qed.

Lemma irq_cursor_frame : preserves cursor_frame ns9xxx_i2c_irq.
Proof.
  intros m. unfold ns9xxx_i2c_irq, wake_up_interruptible. exec.
  repeat match goal with
         | |- context [if ?c then _ else _] => destruct c eqn:?; exec
         end;
    (split; [reflexivity|]); intros x Hx; try reflexivity.
  apply lookup_insert_ne. intros Heq. apply Hx. symmetry. exact Heq.
Qed.

(** The handler writes the command register at most once, with STOP, and
    then leaves the state at Abort. *)
Lemma irq_cmd_writes (m : machine) :
  exists evs,
    trace (snd (ns9xxx_i2c_irq m)) = trace m ++ evs /\
    (cmd_writes evs = [] \/
     (cmd_writes evs = [I2C_CMD_STOP] /\ state (snd (ns9xxx_i2c_irq m)) = I2C_INT_ABORT)).
Proof.
  unfold ns9xxx_i2c_irq, wake_up_interruptible. exec.
  repeat match goal with
         | |- context [if ?c then _ else _] => destruct c eqn:?; exec
         end;
    repeat rewrite <- app_assoc; eexists; (split; [reflexivity|]);
    first [left; reflexivity | right; split; reflexivity].
Qed.

(** Whatever the cause, the handler stores Abort only right after it wrote
    STOP. *)
Lemma irq_stop_before_abort : preserves stop_before_abort ns9xxx_i2c_irq.
Proof.
  intros m. unfold ns9xxx_i2c_irq, wake_up_interruptible. exec.
  repeat match goal with
         | |- context [if ?c then _ else _] => destruct c eqn:?; exec
         end;
    repeat rewrite <- app_assoc; eexists; (split; [reflexivity|]); reflexivity.
Qed.

#[local] Hint Resolve irq_static irq_cursor_frame irq_stop_before_abort : frames.

(** ** Clock divider *)

(** C10.  For a frequency other than 100000 and 400000 the clock setter
    returns -EINVAL; all it does is read the configuration register and log
    the complaint, so the configuration and master address registers keep
    their values and no register write is added to the trace. *)
Theorem set_clock_rejects_other_frequencies (freq : Z) (m : machine) :
  freq <> I2C_NORMALSPEED -> freq <> I2C_HIGHSPEED ->
  let r := fst (ns9xxx_i2c_set_clock freq m) in
  let m' := snd (ns9xxx_i2c_set_clock freq m) in
  r = - EINVAL /\
  reg_config m' = reg_config m /\
  reg_masteraddr m' = reg_masteraddr m /\
  trace m' = trace m ++ [EvReadl I2C_CONFIG (reg_config m); EvPrintk MsgWrongClock].
Proof.
  intros H1 H2. cbv zeta. unfold ns9xxx_i2c_set_clock.
  apply Z.eqb_neq in H1, H2. exec.
  rewrite H1, H2, andb_false_r. exec.
  rewrite <- app_assoc. repeat split; reflexivity.
Qed.

Lemma set_clock_rejects_other_frequencies_witness :
  250000 <> I2C_NORMALSPEED /\ 250000 <> I2C_HIGHSPEED /\
  fst (ns9xxx_i2c_set_clock 250000 clock_machine) = - EINVAL /\
  reg_config (snd (ns9xxx_i2c_set_clock 250000 clock_machine))
  = reg_config clock_machine.
Proof.
  split; [discriminate|]. split; [discriminate|].
  destruct (set_clock_rejects_other_frequencies 250000 clock_machine)
    as (Hr & Hc & _); [discriminate|discriminate|].
  split; [exact Hr|exact Hc].
Defined.

Lemma set_clock_normal (m : machine) :
  let rate := u32 (clk_rate (env m)) in
  let delay := scl_delay (env m) in
  let config :=
    Z.lor (Z.land (Z.land (Z.land (reg_config m) (Z.lnot I2C_CONFIG_CLREFMASK))
                          (Z.lnot I2C_CONFIG_TMDE)) (Z.lnot I2C_CONFIG_VSCD))
          (Z.land (u32 (u32 (rate / u32 (4 * I2C_NORMALSPEED) - 4) - delay) / 2)
                  I2C_CONFIG_CLREFMASK) in
  fst (ns9xxx_i2c_set_clock I2C_NORMALSPEED m) = 0 /\
  reg_config (snd (ns9xxx_i2c_set_clock I2C_NORMALSPEED m)) = config /\
  trace (snd (ns9xxx_i2c_set_clock I2C_NORMALSPEED m))
  = trace m ++ [EvReadl I2C_CONFIG (reg_config m);
                EvWritel config I2C_CONFIG;
                EvPrintk (MsgClockSet I2C_NORMALSPEED rate (u32 delay) config)].
Proof.
  cbv zeta. unfold ns9xxx_i2c_set_clock, clk_get_rate. exec.
  rewrite Z.eqb_refl. exec.
  repeat rewrite <- app_assoc. repeat split; reflexivity.
Qed.

Lemma set_clock_fast (m : machine) :
  CONFIG_MACH_CME9210JS (env m) = false ->
  let rate := u32 (clk_rate (env m)) in
  let delay := scl_delay (env m) in
  let config :=
    Z.lor (Z.land (Z.lor (Z.land (reg_config m) (Z.lnot I2C_CONFIG_CLREFMASK))
                         I2C_CONFIG_TMDE) (Z.lnot I2C_CONFIG_VSCD))
          (Z.land (u32 (u32 (u32 (rate / u32 (4 * I2C_HIGHSPEED) - 4) - delay) * 2) / 3)
                  I2C_CONFIG_CLREFMASK) in
  fst (ns9xxx_i2c_set_clock I2C_HIGHSPEED m) = 0 /\
  reg_config (snd (ns9xxx_i2c_set_clock I2C_HIGHSPEED m)) = config /\
  trace (snd (ns9xxx_i2c_set_clock I2C_HIGHSPEED m))
  = trace m ++ [EvReadl I2C_CONFIG (reg_config m);
                EvWritel config I2C_CONFIG;
                EvPrintk (MsgClockSet I2C_HIGHSPEED rate (u32 delay) config)].
Proof.
  intros Hcfg. cbv zeta. unfold ns9xxx_i2c_set_clock, clk_get_rate. exec.
  rewrite Hcfg.
  change (I2C_HIGHSPEED =? I2C_NORMALSPEED) with false.
  rewrite Z.eqb_refl. exec.
  repeat rewrite <- app_assoc. repeat split; reflexivity.
Qed.

Lemma clock_quotient_range (rate freq4 : Z) :
  0 < freq4 -> 0 <= u32 rate / freq4 < 2 ^ 32.
Proof.
  intros Hf.
  assert (H : 0 <= u32 rate < 2 ^ 32) by (apply Z.mod_pos_bound; reflexivity).
  split; [apply Z.div_pos; lia|].
  apply Z.div_lt_upper_bound; [exact Hf|]. nia.
Qed.

(** C5, as the code has it.  At 100 kHz, and at 400 kHz on a build that
    has fast mode, the clock setter succeeds and the low nine bits (mask
    0x1ff) of the value it writes to the configuration register are the
    manual's formula computed in unsigned 32-bit arithmetic and masked with
    0x1ff.  When the subtraction does not go below zero, that is the formula
    over the integers, masked with 0x1ff. *)
Theorem set_clock_clkref_field (m : machine) :
  let rate := u32 (clk_rate (env m)) in
  let delay := scl_delay (env m) in
  (fst (ns9xxx_i2c_set_clock I2C_NORMALSPEED m) = 0 /\
   Z.land (reg_config (snd (ns9xxx_i2c_set_clock I2C_NORMALSPEED m)))
          I2C_CONFIG_CLREFMASK
   = Z.land (u32 (u32 (rate / (4 * I2C_NORMALSPEED) - 4) - delay) / 2) 0x1ff /\
   (0 <= rate / (4 * I2C_NORMALSPEED) - 4 - delay < 2 ^ 32 ->
    Z.land (reg_config (snd (ns9xxx_i2c_set_clock I2C_NORMALSPEED m)))
           I2C_CONFIG_CLREFMASK
    = Z.land (clkref_normal rate delay) 0x1ff)) /\
  (CONFIG_MACH_CME9210JS (env m) = false ->
   fst (ns9xxx_i2c_set_clock I2C_HIGHSPEED m) = 0 /\
   Z.land (reg_config (snd (ns9xxx_i2c_set_clock I2C_HIGHSPEED m)))
          I2C_CONFIG_CLREFMASK
   = Z.land (u32 (u32 (u32 (rate / (4 * I2C_HIGHSPEED) - 4) - delay) * 2) / 3) 0x1ff /\
   (0 <= rate / (4 * I2C_HIGHSPEED) - 4 - delay < 2 ^ 31 ->
    Z.land (reg_config (snd (ns9xxx_i2c_set_clock I2C_HIGHSPEED m)))
           I2C_CONFIG_CLREFMASK
    = Z.land (clkref_fast rate delay) 0x1ff)).
Proof.
  cbv zeta. split.
  - destruct (set_clock_normal m) as (Hr & Hc & _). rewrite Hr, Hc.
    rewrite land_low_field
      by (apply land_low_land, land_low_land, land_low_clear).
    change (u32 (4 * I2C_NORMALSPEED)) with (4 * I2C_NORMALSPEED).
    change I2C_CONFIG_CLREFMASK with 0x1ff.
    split; [reflexivity|]. split; [reflexivity|].
    intros Hrange. unfold clkref_normal. f_equal. f_equal.
    apply u32_sub_sub. exact Hrange.
  - intros Hcfg. destruct (set_clock_fast m Hcfg) as (Hr & Hc & _). rewrite Hr, Hc.
    rewrite land_low_field.
    2:{ apply land_low_land. rewrite Z.land_lor_distr_l, land_low_clear.
        reflexivity. }
    change (u32 (4 * I2C_HIGHSPEED)) with (4 * I2C_HIGHSPEED).
    change I2C_CONFIG_CLREFMASK with 0x1ff.
    split; [reflexivity|]. split; [reflexivity|].
    intros Hrange. unfold clkref_fast. f_equal. f_equal.
    rewrite u32_sub_sub by lia. apply u32_small. lia.
Qed.

Lemma set_clock_clkref_field_witness :
  CONFIG_MACH_CME9210JS (env clock_machine) = false /\
  0 <= u32 (clk_rate (env clock_machine)) / (4 * I2C_HIGHSPEED) - 4
       - scl_delay (env clock_machine) < 2 ^ 31 /\
  Z.land (reg_config (snd (ns9xxx_i2c_set_clock I2C_HIGHSPEED clock_machine)))
         I2C_CONFIG_CLREFMASK
  = Z.land (clkref_fast (u32 (clk_rate (env clock_machine)))
                        (scl_delay (env clock_machine))) 0x1ff.
Proof.
  split; [reflexivity|]. split; [vm_compute; split; [discriminate|reflexivity]|].
  apply (set_clock_clkref_field clock_machine);
    [reflexivity | vm_compute; split; [discriminate|reflexivity]].
Defined.

(** C5, as stated, fails: with a 200 MHz clock and no delay the divider for
    100 kHz is 248, and the register receives all of it; a 7-bit field would
    have kept 120. *)
Lemma set_clock_clkref_exceeds_seven_bits :
  Z.land (reg_config (snd (ns9xxx_i2c_set_clock I2C_NORMALSPEED clock_machine)))
         I2C_CONFIG_CLREFMASK = 248 /\
  Z.land (clkref_normal (clk_rate (env clock_machine))
                        (scl_delay (env clock_machine))) 0x7f = 120 /\
  reg_config (snd (ns9xxx_i2c_set_clock I2C_NORMALSPEED clock_machine))
  <> Z.land (clkref_normal (clk_rate (env clock_machine))
                           (scl_delay (env clock_machine))) 0x7f.
Proof. vm_compute. repeat split; try reflexivity. discriminate. Qed.

(** ** Bit-bang address probe *)

Lemma decided_bind {A : Type} (f : Z -> Z) (c : M A) (k : A -> M Z) :
  preserves same_gpio c -> (forall a, decided_by_gpio f (k a)) ->
  decided_by_gpio f (bind c k).
Proof.
  intros Hc Hk m. rewrite run_bind, Hk.
  destruct (Hc m) as (He & _ & Hg). rewrite He, Hg. reflexivity.
Qed.

Lemma bitbang_decided (msg : i2c_msg) :
  decided_by_gpio (fun r => if r =? 0 then - ENODEV else 0) (ns9xxx_i2c_bitbang msg).
Proof.
  pose proof bitbang_address_bits_same_gpio as Hbits.
  unfold ns9xxx_i2c_bitbang, disable_irq, enable_irq, gpio_direction_output,
    gpio_direction_input, gpio_set_value, gpio_configuration_func, mdelay, printk.
  cbv zeta.
  repeat (apply decided_bind; [solve [frame]|intros ?]).
  intros m. unfold gpio_get_value. run.
  destruct (hw_gpio (env m) (n_gpio m) =? 0); reflexivity.
Qed.

(** The probe result is decided by the one GPIO read it makes: 0 when the
    data line reads high, -ENODEV when it reads low. *)
Lemma bitbang_result (msg : i2c_msg) (m : machine) :
  fst (ns9xxx_i2c_bitbang msg m)
  = if hw_gpio (env m) (n_gpio m) =? 0 then - ENODEV else 0.
Proof. exact (bitbang_decided msg m). Qed.

(** A zero-length message goes to the probe and nowhere else: the transfer
    step for it is the cursor store followed by the probe, and it adds no
    protocol event (no command, no wait) to the trace. *)
Lemma xfer_message_zero_length (msg : i2c_msg) (v : xfer_vars) (m : machine) :
  msg_len msg = 0 ->
  xfer_message msg v m
  = (Continue (with_ret (fst (ns9xxx_i2c_bitbang msg (set_buf (msg_buf msg) m))) v),
     snd (ns9xxx_i2c_bitbang msg (set_buf (msg_buf msg) m))) /\
  omap proto_of (events_since m (snd (xfer_message msg v m))) = [].
Proof.
  intros Hlen. unfold xfer_message. rewrite Hlen. cbn [Z.eqb]. run.
  split; [reflexivity|].
  apply (quiet_events_since proto_of m).
  destruct (bitbang_quiet msg (set_buf (msg_buf msg) m)) as (evs & Ht & Hq).
  exists evs. split; [exact Ht | exact Hq].
Qed.

(** C4, at a failing input.  A zero-length message for a device that
    acknowledges (data line sampled low) makes the transfer step record
    -ENODEV, and the transfer return it; when nobody acknowledges (data line
    sampled high) the transfer reports one message done. *)
Theorem bitbang_probe_ack_low_is_error :
  fst (xfer_message probe_msg xfer_init probe_acked_machine)
  = Continue {| x_i := 0; x_ret := - ENODEV; x_retry := 10 |} /\
  fst (ns9xxx_i2c_xfer [probe_msg] probe_acked_machine) = - ENODEV /\
  fst (ns9xxx_i2c_xfer [probe_msg] probe_unacked_machine) = 1.
Proof. vm_compute. repeat split; reflexivity. Qed.

(** ** Busy/lock recovery *)

(** A polling window that ends without having seen the lock clear ends
    after the deadline: [e] ticks into a window of [n] ticks, with enough
    rounds left to reach the deadline, the loop stops at more than [n]. *)
Lemma busy_poll_expired (fuel : nat) (j0 n : Z) :
  forall (e : Z) (m m1 : machine),
    1 <= HZ (env m) <= 1000 ->
    0 <= n <= 1000 -> 0 <= e <= n + 2 ->
    n < e + 2 * Z.of_nat fuel ->
    u32 (jiffies m) = u32 (j0 + e) ->
    busy_poll fuel (u32 (j0 + n)) m = (false, m1) ->
    exists e1, n < e1 <= n + 2 /\ u32 (jiffies m1) = u32 (j0 + e1).
Proof.
  induction fuel as [|fuel IH]; intros e m m1 Hhz Hn He Hfuel Hj Hrun.
  - apply (f_equal snd) in Hrun. simpl in Hrun. subst m1.
    exists e. split; [lia|exact Hj].
  - simpl in Hrun. revert Hrun. run. rewrite Hj.
    rewrite time_after_elapsed by lia.
    destruct (Z.ltb_spec n e) as [Hlt|Hge].
    + intros Hrun. apply (f_equal snd) in Hrun. simpl in Hrun. subst m1.
      exists e. split; [lia|exact Hj].
    + run. set (m2 := snd (readl I2C_STATUS m)).
      match goal with |- context [if ?c then _ else _] => destruct c end.
      * unfold printk. run. intros Hrun. discriminate Hrun.
      * intros Hrun. apply (IH (e + 2)) in Hrun; try lia.
        -- exact Hrun.
        -- exact Hhz.
        -- unfold msleep. run. cbn [jiffies set_trace set_jiffies env].
           change (env m2) with (env m). change (jiffies m2) with (jiffies m).
           rewrite msecs_to_jiffies_1 by exact Hhz.
           rewrite u32_idemp.
           replace (jiffies m + 1 + 1) with (jiffies m + 2) by lia.
           rewrite <- u32_add_l, Hj, u32_add_l. f_equal. lia.
Qed.

(** The polling loop never needs the rounds it is allowed: with more of
    them it does the same. *)
Lemma busy_poll_fuel_enough (fuel : nat) (j0 n : Z) :
  forall (e : Z) (m : machine) (k : nat),
    1 <= HZ (env m) <= 1000 ->
    0 <= n <= 1000 -> 0 <= e <= n + 2 ->
    n < e + 2 * Z.of_nat fuel ->
    u32 (jiffies m) = u32 (j0 + e) ->
    busy_poll (fuel + k) (u32 (j0 + n)) m = busy_poll fuel (u32 (j0 + n)) m.
Proof.
  induction fuel as [|fuel IH]; intros e m k Hhz Hn He Hfuel Hj.
  - destruct k as [|k]; [reflexivity|].
    cbn [Nat.add busy_poll]. run. rewrite Hj.
    rewrite time_after_elapsed by lia.
    destruct (Z.ltb_spec n e) as [Hlt|Hge]; [reflexivity|lia].
  - cbn [Nat.add busy_poll]. run. rewrite Hj.
    rewrite time_after_elapsed by lia.
    destruct (Z.ltb_spec n e) as [Hlt|Hge]; [reflexivity|].
    run. set (m2 := snd (readl I2C_STATUS m)).
    destruct (Z.land (fst (readl I2C_STATUS m)) I2C_STATUS_MCMDL =? 0);
      [reflexivity|].
    run. apply (IH (e + 2)); try lia.
    + exact Hhz.
    + unfold msleep. run. cbn [jiffies set_trace set_jiffies env].
      change (env m2) with (env m). change (jiffies m2) with (jiffies m).
      rewrite msecs_to_jiffies_1 by exact Hhz.
      rewrite u32_idemp.
      replace (jiffies m + 1 + 1) with (jiffies m + 2) by lia.
      rewrite <- u32_add_l, Hj, u32_add_l. f_equal. lia.
Qed.

Lemma busy_window_fuel_enough (m : machine) (k : nat) :
  1 <= HZ (env m) <= 1000 ->
  busy_poll (busy_poll_fuel (HZ (env m)) + k)
            (u32 (u32 (jiffies m) + NS9XXX_TIMEOUT (HZ (env m)))) m
  = busy_window m.
Proof.
  intros Hhz. unfold busy_window.
  pose proof (NS9XXX_TIMEOUT_HZ _ Hhz) as Hn.
  apply (busy_poll_fuel_enough _ (u32 (jiffies m)) _ 0).
  - exact Hhz.
  - lia.
  - lia.
  - unfold busy_poll_fuel. rewrite !Nat2Z.inj_succ, Z2Nat.id by lia. lia.
  - rewrite Z.add_0_r, u32_idemp. reflexivity.
Qed.

Lemma busy_window_expired (m m1 : machine) :
  1 <= HZ (env m) <= 1000 ->
  busy_window m = (false, m1) ->
  NS9XXX_TIMEOUT (HZ (env m)) < elapsed m m1.
Proof.
  intros Hhz Hrun. unfold busy_window in Hrun.
  pose proof (NS9XXX_TIMEOUT_HZ _ Hhz) as Hn.
  apply (busy_poll_expired _ (u32 (jiffies m)) _ 0) in Hrun.
  - destruct Hrun as (e1 & He1 & Hj1). unfold elapsed.
    rewrite <- u32_sub, Hj1, u32_sub.
    replace (u32 (jiffies m) + e1 - jiffies m) with (u32 (jiffies m) - jiffies m + e1)
      by lia.
    rewrite <- u32_add_l, <- u32_sub, u32_idemp, Z.sub_diag.
    change (u32 0) with 0. rewrite Z.add_0_l, (u32_small e1) by lia. lia.
  - exact Hhz.
  - lia.
  - lia.
  - unfold busy_poll_fuel. rewrite !Nat2Z.inj_succ, Z2Nat.id by lia. lia.
  - rewrite Z.add_0_r, u32_idemp. reflexivity.
Qed.

Lemma busy_attempts_S (n : nat) (i : Z) (m : machine) :
  busy_attempts (S n) i m
  = if fst (busy_window m) then (0, snd (busy_window m))
    else busy_attempts n (i + 1)
           (snd (ns9xxx_reinit_i2c
                   (snd (printk (MsgBusyAttempt (i + 1)) (snd (busy_window m)))))).
Proof.
  cbn [busy_attempts]. run. fold (busy_window m).
  destruct (fst (busy_window m)); run; reflexivity.
Qed.

(** *** The busy wait on the trace *)

Lemma window_polls_spec (hz : Z) :
  1 <= hz <= 1000 ->
  Z.of_nat (window_polls hz) = hz / 2 + 1.
Proof.
  intros H. unfold window_polls. rewrite NS9XXX_TIMEOUT_HZ by exact H.
  rewrite Nat2Z.inj_succ, Z2Nat.id; [lia|]. apply Z.div_pos; lia.
Qed.

(** The polls of one window, started [i] polls in: they stop at the first
    status word that shows the lock clear, or when [window_polls] polls
    found it set. *)
Lemma busy_poll_events (hz j0 : Z) (fuel : nat) :
  forall (i : nat) (m : machine),
    1 <= hz <= 1000 -> HZ (env m) = hz ->
    (i <= window_polls hz)%nat -> (window_polls hz - i < fuel)%nat ->
    u32 (jiffies m) = u32 (j0 + 2 * Z.of_nat i) ->
    exists ss : list Z,
      Forall lock_set ss /\
      ((fst (busy_poll fuel (u32 (j0 + NS9XXX_TIMEOUT hz)) m) = true /\
        (i + length ss < window_polls hz)%nat /\
        exists s s' : Z,
          Z.land s I2C_STATUS_MCMDL = 0 /\
          trace (snd (busy_poll fuel (u32 (j0 + NS9XXX_TIMEOUT hz)) m))
          = trace m ++ locked_polls ss ++ idle_poll s s') \/
       (fst (busy_poll fuel (u32 (j0 + NS9XXX_TIMEOUT hz)) m) = false /\
        (i + length ss = window_polls hz)%nat /\
        trace (snd (busy_poll fuel (u32 (j0 + NS9XXX_TIMEOUT hz)) m))
        = trace m ++ locked_polls ss)).
Proof.
  induction fuel as [|fuel IH]; intros i m Hhz Henv Hi Hfuel Hj; [lia|].
  pose proof (window_polls_spec hz Hhz) as Hq.
  rewrite NS9XXX_TIMEOUT_HZ in * by exact Hhz.
  assert (Hi' : 0 <= Z.of_nat i <= 501) by (Z.div_mod_to_equations; lia).
  cbn [busy_poll]. run. rewrite Hj.
  rewrite time_after_elapsed by lia.
  destruct (Z.ltb_spec hz (2 * Z.of_nat i)) as [Hlt|Hge].
  - exists []. split; [constructor|]. right. run.
    split; [reflexivity|]. split.
    + cbn [length]. Z.div_mod_to_equations. lia.
    + cbn. rewrite app_nil_r. reflexivity.
  - run. rewrite run_readl_status. cbn [fst snd].
    set (s := u32 (hw_status (env m) (n_status m))).
    destruct (Z.eqb_spec (Z.land s I2C_STATUS_MCMDL) 0) as [Hc|Hl].
    + exists []. split; [constructor|]. left.
      unfold msleep, printk. run. rewrite run_readl_status. run.
      split; [reflexivity|]. split.
      * cbn [length]. Z.div_mod_to_equations. lia.
      * eexists s, _. split; [exact Hc|]. fields.
        repeat rewrite <- app_assoc. reflexivity.
    + run. set (m1 := snd (msleep 1 _)).
      destruct (IH (S i) m1) as (ss & Hss & Hcases).
      * exact Hhz.
      * exact Henv.
      * Z.div_mod_to_equations. lia.
      * Z.div_mod_to_equations. lia.
      * unfold m1, msleep. run. fields. rewrite Henv.
        rewrite msecs_to_jiffies_1 by exact Hhz. rewrite u32_idemp.
        replace (jiffies m + 1 + 1) with (jiffies m + 2) by lia.
        rewrite <- u32_add_l, Hj, u32_add_l. f_equal. lia.
      * assert (Ht1 : trace m1 = trace m ++ [EvReadl I2C_STATUS s; EvMsleep 1]).
        { unfold m1, msleep. run. fields. rewrite <- app_assoc. reflexivity. }
        exists (s :: ss). split; [constructor; [exact Hl|exact Hss]|].
        fold m1.
        destruct Hcases as [(Hr & Hn & s1 & s2 & Hs1 & Ht)|(Hr & Hn & Ht)].
        -- left. split; [exact Hr|]. split; [cbn [length]; lia|].
           exists s1, s2. split; [exact Hs1|].
           rewrite Ht, Ht1. cbn [locked_polls map concat].
           repeat rewrite <- app_assoc. reflexivity.
        -- right. split; [exact Hr|]. split; [cbn [length]; lia|].
           rewrite Ht, Ht1. cbn [locked_polls map concat].
           repeat rewrite <- app_assoc. reflexivity.
Qed.

Lemma busy_window_events (m : machine) :
  1 <= HZ (env m) <= 1000 ->
  exists ss : list Z,
    Forall lock_set ss /\
    ((fst (busy_window m) = true /\
      (length ss < window_polls (HZ (env m)))%nat /\
      exists s s' : Z,
        Z.land s I2C_STATUS_MCMDL = 0 /\
        trace (snd (busy_window m)) = trace m ++ locked_polls ss ++ idle_poll s s') \/
     (fst (busy_window m) = false /\
      length ss = window_polls (HZ (env m)) /\
      trace (snd (busy_window m)) = trace m ++ locked_polls ss)).
Proof.
  intros Hhz. unfold busy_window.
  apply (busy_poll_events (HZ (env m)) (u32 (jiffies m)) _ 0%nat m).
  - exact Hhz.
  - reflexivity.
  - lia.
  - unfold busy_poll_fuel, window_polls.
    rewrite NS9XXX_TIMEOUT_HZ by exact Hhz.
    assert (Z.to_nat (HZ (env m) / 2) <= Z.to_nat (HZ (env m)))%nat; [|lia].
    apply Z2Nat.inj_le; [apply Z.div_pos; lia|lia|].
    apply Z.div_le_upper_bound; lia.
  - rewrite Z.add_0_r, u32_idemp. reflexivity.
Qed.

(** *** Counting the reinitialisations *)

Lemma run_count_step {B : Type} (pick : event -> option B) (evs : list event) :
  forall a b : nat,
    run_events (count_step pick) a evs = Some b ->
    b = (a + length (omap pick evs))%nat.
Proof.
  induction evs as [|e evs IH]; intros a b H; cbn [run_events] in H.
  - injection H as <-. cbn. lia.
  - unfold count_step at 1 in H. apply IH in H. cbn [omap list_omap].
    fold (omap pick evs).
    destruct (pick e); cbn [length]; lia.
Qed.

Lemma set_clock_restores (a : nat) (freq : Z) :
  preserves (tracks (count_step restore_of) a a) (ns9xxx_i2c_set_clock freq).
Proof. unfold ns9xxx_i2c_set_clock. cbv zeta. track. Qed.

Lemma reset_clock_cycles_restores (a : nat) (n : nat) :
  forall i eff prev : Z,
    preserves (tracks (count_step restore_of) a a) (reset_clock_cycles n i eff prev).
Proof. induction n as [|n IH]; intros i eff prev; cbn [reset_clock_cycles]; track. Qed.

#[local] Hint Resolve set_clock_restores reset_clock_cycles_restores : tracked.

Lemma reset_bitbang_restores (a : nat) :
  preserves (tracks (count_step restore_of) a (S a)) ns9xxx_i2c_reset_bitbang.
Proof. unfold ns9xxx_i2c_reset_bitbang. cbv zeta. track. Qed.

#[local] Hint Resolve reset_bitbang_restores : tracked.

Lemma reinit_restores (a : nat) :
  preserves (tracks (count_step restore_of) a (S a)) ns9xxx_reinit_i2c.
Proof. unfold ns9xxx_reinit_i2c. track. Qed.

(** One reinitialisation hands the bus lines back to the controller
    once. *)
Lemma reinit_events_restore (ri : list event) :
  reinit_events ri -> length (omap restore_of ri) = 1%nat.
Proof.
  intros (m0 & ->).
  destruct (reinit_restores 0 m0) as (evs & Ht & Hrun).
  rewrite (events_since_app _ _ _ Ht).
  apply run_count_step in Hrun. lia.
Qed.

Lemma locked_polls_restore (ss : list Z) : omap restore_of (locked_polls ss) = [].
Proof. induction ss as [|s ss IH]; [reflexivity|exact IH]. Qed.

(** *** What the events of the attempt loop say *)

Lemma busy_events_count (hz : Z) (n : nat) (i : Z) (k : nat) (r : Z)
      (evs : list event) :
  busy_events hz n i k r evs ->
  (r = 0 /\ (k < n)%nat) \/ (r = - ETIMEDOUT /\ k = n).
Proof.
  induction 1 as [i|n i ss s s' Hss Hlen Hs|n i ss ri k r rest Hss Hlen Hri Hrest IH].
  - right. split; reflexivity.
  - left. split; [reflexivity|lia].
  - destruct IH as [[Hr Hk]|[Hr Hk]]; [left|right]; split; try exact Hr; lia.
Qed.

Lemma busy_events_restores (hz : Z) (n : nat) (i : Z) (k : nat) (r : Z)
      (evs : list event) :
  busy_events hz n i k r evs -> length (omap restore_of evs) = k.
Proof.
  induction 1 as [i|n i ss s s' Hss Hlen Hs|n i ss ri k r rest Hss Hlen Hri Hrest IH].
  - reflexivity.
  - rewrite omap_app, locked_polls_restore. reflexivity.
  - rewrite omap_app, locked_polls_restore. cbn [app omap list_omap restore_of].
    fold (omap restore_of (ri ++ rest)).
    rewrite omap_app, length_app, (reinit_events_restore ri Hri), IH. reflexivity.
Qed.

Lemma busy_events_idle_end (hz : Z) (n : nat) (i : Z) (k : nat) (r : Z)
      (evs : list event) :
  busy_events hz n i k r evs -> r = 0 ->
  exists (pre : list event) (s s' : Z),
    evs = pre ++ idle_poll s s' /\ Z.land s I2C_STATUS_MCMDL = 0.
Proof.
  induction 1 as [i|n i ss s s' Hss Hlen Hs|n i ss ri k r rest Hss Hlen Hri Hrest IH];
    intros Hr.
  - discriminate Hr.
  - exists (locked_polls ss), s, s'. split; [reflexivity|exact Hs].
  - destruct (IH Hr) as (pre & s & s' & -> & Hs).
    exists (locked_polls ss ++ EvPrintk (MsgBusyAttempt (i + 1)) :: ri ++ pre), s, s'.
    split; [|exact Hs].
    rewrite <- app_assoc. cbn [app]. rewrite <- app_assoc. reflexivity.
Qed.

Lemma busy_attempts_events (n : nat) :
  forall (i : Z) (m : machine),
    1 <= HZ (env m) <= 1000 ->
    exists (k : nat) (evs : list event),
      trace (snd (busy_attempts n i m)) = trace m ++ evs /\
      busy_events (HZ (env m)) n i k (fst (busy_attempts n i m)) evs.
Proof.
  induction n as [|n IH]; intros i m Hhz.
  - exists 0%nat, [EvPrintk (MsgGivingUp BUSY_RELEASE_ATTEMPTS)].
    cbn [busy_attempts]. unfold printk. run. split; [reflexivity|constructor].
  - rewrite busy_attempts_S.
    destruct (busy_window_events m Hhz)
      as (ss & Hss & [(Hr & Hlen & s & s' & Hs & Ht)|(Hr & Hlen & Ht)]);
      rewrite Hr.
    + exists 0%nat, (locked_polls ss ++ idle_poll s s'). cbn [fst snd].
      split; [exact Ht|]. apply busy_events_idle; assumption.
    + set (m1 := snd (busy_window m)) in *.
      set (mp := snd (printk (MsgBusyAttempt (i + 1)) m1)).
      set (m2 := snd (ns9xxx_reinit_i2c mp)).
      assert (Henv : env m2 = env m).
      { destruct (reinit_unchanged_dev mp) as (He2 & _). fold m2 in He2.
        rewrite He2. unfold mp. cbn [printk emit modify snd env set_trace].
        pose proof (busy_poll_unchanged_dev
                      (busy_poll_fuel (HZ (env m)))
                      (u32 (u32 (jiffies m) + NS9XXX_TIMEOUT (HZ (env m)))) m)
          as (He1 & _).
        exact He1. }
      destruct (quiet_extends _ _ _ (reinit_quiet mp)) as (ri & Hri). fold m2 in Hri.
      destruct (IH (i + 1) m2) as (k & rest & Hrest & Hev); [rewrite Henv; exact Hhz|].
      rewrite Henv in Hev.
      exists (S k),
        (locked_polls ss ++ EvPrintk (MsgBusyAttempt (i + 1)) :: ri ++ rest).
      split.
      * rewrite Hrest, Hri. unfold mp, printk. run. fields. rewrite Ht.
        repeat rewrite <- app_assoc. reflexivity.
      * apply busy_events_expired; try assumption.
        exists mp. fold m2. symmetry. apply events_since_app. exact Hri.
Qed.

(** C8.  With a tick rate between 1 and 1000.  When the status read on
    entry shows the master-command-lock bit clear, the busy wait returns 0
    having done nothing but that read.  Otherwise, what it does after that
    read is a run of the attempt loop with ten attempts ([busy_events]): [k]
    polling windows expire, each after [window_polls] polls that all read
    the lock bit set, a sleep of a millisecond after every poll, and each
    followed by the log line of its attempt and one controller
    reinitialisation; so the bus lines are handed back by a reinitialisation
    exactly [k] times, and [k] is at most 10.  The result is 0 only when a
    poll read the lock bit clear, which ends the wait at once (one more sleep
    and the status read for the log), with fewer than ten windows expired;
    it is -ETIMEDOUT after the tenth window expired and was followed by its
    reinitialisation.  The sleeps of an expired window take more ticks than
    NS9XXX_TIMEOUT. *)
Theorem wait_while_busy_bounded (m : machine) :
  1 <= HZ (env m) <= 1000 ->
  let hz := HZ (env m) in
  let status := u32 (hw_status (env m) (n_status m)) in
  let m0 := snd (readl I2C_STATUS m) in
  let r := fst (ns9xxx_wait_while_busy m) in
  let m' := snd (ns9xxx_wait_while_busy m) in
  (Z.land status I2C_STATUS_MCMDL = 0 ->
     r = 0 /\ m' = m0 /\ trace m' = trace m ++ [EvReadl I2C_STATUS status]) /\
  (Z.land status I2C_STATUS_MCMDL <> 0 ->
     exists (k : nat) (evs : list event),
       trace m' = trace m ++ EvReadl I2C_STATUS status :: evs /\
       busy_events hz 10 0 k r evs /\
       length (omap restore_of evs) = k /\ (k <= 10)%nat /\
       ((r = 0 /\ (k < 10)%nat /\
         exists (pre : list event) (s s' : Z),
           evs = pre ++ idle_poll s s' /\ Z.land s I2C_STATUS_MCMDL = 0) \/
        (r = - ETIMEDOUT /\ k = 10%nat))) /\
  NS9XXX_TIMEOUT hz < (msecs_to_jiffies hz 1 + 1) * Z.of_nat (window_polls hz).
Proof.
  intros Hhz. cbv zeta. split; [|split].
  - unfold ns9xxx_wait_while_busy. run.
    change (fst (readl I2C_STATUS m)) with (u32 (hw_status (env m) (n_status m))).
    intros Hclear. rewrite Hclear. cbn [Z.eqb]. run. repeat split; reflexivity.
  - unfold ns9xxx_wait_while_busy. run.
    change (fst (readl I2C_STATUS m)) with (u32 (hw_status (env m) (n_status m))).
    intros Hlocked. apply Z.eqb_neq in Hlocked. rewrite Hlocked.
    change (Z.to_nat BUSY_RELEASE_ATTEMPTS) with 10%nat.
    destruct (busy_attempts_events 10 0 (snd (readl I2C_STATUS m)) Hhz)
      as (k & evs & Ht & Hev).
    change (env (snd (readl I2C_STATUS m))) with (env m) in Hev.
    exists k, evs. split.
    + rewrite Ht. rewrite run_readl_status. fields.
      rewrite <- app_assoc. reflexivity.
    + split; [exact Hev|].
      split; [apply (busy_events_restores _ _ _ _ _ _ Hev)|].
      pose proof (busy_events_count _ _ _ _ _ _ Hev) as Hc.
      split; [destruct Hc as [[_ Hlt]|[_ Heq]]; lia|].
      destruct Hc as [[Hr Hlt]|[Hr Heq]]; [left|right].
      * split; [exact Hr|]. split; [exact Hlt|].
        apply (busy_events_idle_end _ _ _ _ _ _ Hev Hr).
      * split; assumption.
  - rewrite msecs_to_jiffies_1 by exact Hhz.
    rewrite window_polls_spec by exact Hhz.
    rewrite NS9XXX_TIMEOUT_HZ by exact Hhz.
    Z.div_mod_to_equations. lia.
Qed.

Lemma wait_while_busy_bounded_witness :
  1 <= HZ (env locked_machine) <= 1000 /\
  Z.land (u32 (hw_status (env locked_machine) (n_status locked_machine)))
         I2C_STATUS_MCMDL <> 0 /\
  exists (k : nat) (evs : list event),
    trace (snd (ns9xxx_wait_while_busy locked_machine))
    = trace locked_machine
      ++ EvReadl I2C_STATUS
           (u32 (hw_status (env locked_machine) (n_status locked_machine))) :: evs /\
    length (omap restore_of evs) = k /\ (k <= 10)%nat.
Proof.
  assert (Hhz : 1 <= HZ (env locked_machine) <= 1000) by (cbn; lia).
  assert (Hl : Z.land (u32 (hw_status (env locked_machine) (n_status locked_machine)))
                      I2C_STATUS_MCMDL <> 0) by (vm_compute; discriminate).
  split; [exact Hhz|]. split; [exact Hl|].
  destruct (wait_while_busy_bounded locked_machine Hhz) as (_ & H & _).
  destruct (H Hl) as (k & evs & Ht & _ & Hk & Hle & _).
  exists k, evs. split; [exact Ht|]. split; [exact Hk|exact Hle].
Defined.

(** A controller that stays locked: the busy wait gives up with -ETIMEDOUT
    after ten bus resets. *)
Example wait_while_busy_locked_gives_up :
  fst (ns9xxx_wait_while_busy locked_machine) = - ETIMEDOUT /\
  length (omap restore_of
                (trace (snd (ns9xxx_wait_while_busy locked_machine)))) = 10%nat.
Proof. vm_compute. split; reflexivity. Qed.

(** ** Command/wait protocol *)

(** *** Frames of the wait and of the command issuer *)

Lemma wait_static (t : Z) : preserves static (wait_event_interruptible_timeout t).
Proof. unfold wait_event_interruptible_timeout. frame. Qed.

Lemma wait_cursor_frame (t : Z) :
  preserves cursor_frame (wait_event_interruptible_timeout t).
Proof. unfold wait_event_interruptible_timeout. frame. Qed.

Lemma wait_stop_before_abort (t : Z) :
  preserves stop_before_abort (wait_event_interruptible_timeout t).
Proof. unfold wait_event_interruptible_timeout. frame. Qed.

#[local] Hint Resolve wait_static wait_cursor_frame wait_stop_before_abort : frames.

Lemma send_cmd_static (cmd : Z) : preserves static (ns9xxx_i2c_send_cmd cmd).
Proof. unfold ns9xxx_i2c_send_cmd. frame. Qed.

Lemma send_cmd_cursor_frame (cmd : Z) :
  preserves cursor_frame (ns9xxx_i2c_send_cmd cmd).
Proof. unfold ns9xxx_i2c_send_cmd. frame. Qed.

(** Whatever command is issued, and however the wait ends, the only way
    the completion state becomes Abort is after the handler's STOP. *)
Lemma send_cmd_stop_before_abort (cmd : Z) :
  preserves stop_before_abort (ns9xxx_i2c_send_cmd cmd).
Proof. unfold ns9xxx_i2c_send_cmd. frame. Qed.

Lemma send_cmd_extends (cmd : Z) : preserves extends (ns9xxx_i2c_send_cmd cmd).
Proof.
  apply (preserves_sub stop_before_abort extends);
    [apply stop_before_abort_extends|apply send_cmd_stop_before_abort].
Qed.

#[local] Hint Resolve send_cmd_static send_cmd_cursor_frame
  send_cmd_stop_before_abort send_cmd_extends : frames.

(** *** The wait that times out *)

Lemma wait_times_out (t : Z) (m : machine) :
  state m = I2C_INT_AWAITING ->
  hw_wait (env m) (n_wait m) = WaitTimeout ->
  wait_event_interruptible_timeout t m
  = (0, set_jiffies (u32 (jiffies m + t))
          (set_trace (trace m ++ [EvWait WaitTimeout])
             (set_n_wait (S (n_wait m)) m))).
Proof.
  intros Hs Hw. unfold wait_event_interruptible_timeout.
  exec. rewrite Hs. exec. unfold next_wait_outcome. exec. rewrite Hw. exec.
  reflexivity.
Qed.


Lemma send_cmd_unfold (cmd : Z) (m : machine) :
  ns9xxx_i2c_send_cmd cmd m
  = (locked <- send_cmd_unlock ;;
     if locked : bool then
       printk MsgUnlockTimeout ;;
       ret (- ETIMEDOUT)
     else
       store_state I2C_INT_AWAITING ;;
       writel cmd I2C_CMD ;;
       timeout <- gets adap_timeout ;;
       w <- wait_event_interruptible_timeout timeout ;;
       if w =? 0 then
         printk (MsgIrqTimeout cmd timeout) ;;
         r <- ns9xxx_wait_while_busy ;;
         (if r =? 0 then printk MsgNotRetrying else ret tt) ;;
         ret (- ETIMEDOUT)
       else
         st <- gets state ;;
         if negb (state_eqb st I2C_INT_OK) then
           printk (MsgStateNotOk st) ;;
           ret (- EIO)
         else ret 0) m.
Proof.
  unfold ns9xxx_i2c_send_cmd, send_cmd_unlock.
  rewrite (run_bind (readl I2C_STATUS)).
  rewrite (run_bind (bind (readl I2C_STATUS) _)).
  rewrite (run_bind (readl I2C_STATUS)).
  rewrite run_bind. reflexivity.
Qed.

Lemma after_wait_timeout_eq (cmd : Z) (m : machine) :
  hw_wait (env m) (n_wait m) = WaitTimeout ->
  let m0 := snd (send_cmd_unlock m) in
  after_wait_timeout cmd m
  = set_trace (trace m0 ++ [EvSetState I2C_INT_AWAITING;
                            EvWritel cmd I2C_CMD;
                            EvWait WaitTimeout;
                            EvPrintk (MsgIrqTimeout cmd (adap_timeout m))])
      (set_jiffies (u32 (jiffies m0 + adap_timeout m))
         (set_n_wait (S (n_wait m)) (set_state I2C_INT_AWAITING m0))).
Proof.
  intros Hw. cbv zeta. unfold after_wait_timeout.
  destruct (send_cmd_unlock_unchanged_dev m) as (He&_&_&Ht&_&_&_&Hn).
  rewrite run_bind. set (m0 := snd (send_cmd_unlock m)) in *. exec.
  rewrite wait_times_out by (fields; rewrite ?He, ?Hn; first [reflexivity|exact Hw]).
  exec. rewrite Ht, Hn. machine_eq.
Qed.

Lemma send_cmd_timed_out (cmd : Z) (m : machine) :
  fst (send_cmd_unlock m) = false ->
  hw_wait (env m) (n_wait m) = WaitTimeout ->
  ns9xxx_i2c_send_cmd cmd m
  = (- ETIMEDOUT,
     if fst (ns9xxx_wait_while_busy (after_wait_timeout cmd m)) =? 0
     then snd (printk MsgNotRetrying
                 (snd (ns9xxx_wait_while_busy (after_wait_timeout cmd m))))
     else snd (ns9xxx_wait_while_busy (after_wait_timeout cmd m))).
Proof.
  intros Hlock Hw. rewrite (after_wait_timeout_eq cmd m Hw). cbv zeta.
  rewrite send_cmd_unfold.
  destruct (send_cmd_unlock_unchanged_dev m) as (He&_&_&Ht&_&_&_&Hn).
  rewrite run_bind, Hlock. set (m0 := snd (send_cmd_unlock m)) in *. exec.
  rewrite wait_times_out by (fields; rewrite ?He, ?Hn; first [reflexivity|exact Hw]).
  exec. cbn [Z.eqb]. exec. rewrite Ht, Hn.
  match goal with
  | |- context [ns9xxx_wait_while_busy ?a] =>
      match goal with
      | |- context [ns9xxx_wait_while_busy ?b] =>
          lazymatch a with b => fail | _ => idtac end;
          replace a with b by machine_eq
      end
  | _ => idtac
  end.
  destruct (fst (ns9xxx_wait_while_busy _) =? 0); exec; reflexivity.
Qed.

(** C6.  When the command issuer gets past the lock check and its wait for
    the interrupt times out, it polls the busy state again and returns
    -ETIMEDOUT whatever that poll says; when the poll reports the controller
    idle, the last thing it does is log that it is not retrying.  From entry
    to return the command register is written once, with [cmd], and the
    completion state is left at Awaiting. *)
Theorem send_cmd_timeout_no_retry (cmd : Z) (m : machine) :
  fst (send_cmd_unlock m) = false ->
  hw_wait (env m) (n_wait m) = WaitTimeout ->
  let m0 := snd (send_cmd_unlock m) in
  let m1 := after_wait_timeout cmd m in
  let idle := fst (ns9xxx_wait_while_busy m1) =? 0 in
  let m2 := snd (ns9xxx_wait_while_busy m1) in
  let r := fst (ns9xxx_i2c_send_cmd cmd m) in
  let m' := snd (ns9xxx_i2c_send_cmd cmd m) in
  trace m1 = trace m0 ++ [EvSetState I2C_INT_AWAITING;
                          EvWritel cmd I2C_CMD;
                          EvWait WaitTimeout;
                          EvPrintk (MsgIrqTimeout cmd (adap_timeout m))] /\
  r = - ETIMEDOUT /\
  (idle = true -> trace m' = trace m2 ++ [EvPrintk MsgNotRetrying]) /\
  (idle = false -> m' = m2) /\
  cmd_writes (events_since m m') = [cmd] /\
  state m' = I2C_INT_AWAITING.
Proof.
  intros Hlock Hwait. cbv zeta.
  rewrite (send_cmd_timed_out cmd m Hlock Hwait). cbn [fst snd].
  pose proof (wait_while_busy_quiet (after_wait_timeout cmd m)) as Hq.
  pose proof (wait_while_busy_unchanged_dev (after_wait_timeout cmd m)) as Hu.
  pose proof (send_cmd_unlock_quiet m) as Hq0.
  assert (Hm1 : trace (after_wait_timeout cmd m)
                = trace (snd (send_cmd_unlock m))
                  ++ [EvSetState I2C_INT_AWAITING;
                      EvWritel cmd I2C_CMD;
                      EvWait WaitTimeout;
                      EvPrintk (MsgIrqTimeout cmd (adap_timeout m))])
    by (rewrite (after_wait_timeout_eq cmd m Hwait); reflexivity).
  assert (Hst1 : state (after_wait_timeout cmd m) = I2C_INT_AWAITING)
    by (rewrite (after_wait_timeout_eq cmd m Hwait); reflexivity).
  set (m0 := snd (send_cmd_unlock m)) in *.
  set (m1 := after_wait_timeout cmd m) in *.
  set (m2 := snd (ns9xxx_wait_while_busy m1)) in *.
  split; [exact Hm1|]. split; [reflexivity|].
  assert (Hx01 : extends m0 m1) by (eexists; exact Hm1).
  assert (Hx0 : extends m m0) by exact (quiet_extends _ _ _ Hq0).
  assert (Hx12 : extends m1 m2) by exact (quiet_extends _ _ _ Hq).
  assert (Hc2 : cmd_writes (events_since m m2) = [cmd]).
  { rewrite (events_since_trans m m1 m2);
      [|transitivity m0; assumption|assumption].
    rewrite (events_since_trans m m0 m1) by assumption.
    rewrite !cmd_writes_app, (quiet_cmd_writes _ _ Hq), (quiet_cmd_writes _ _ Hq0).
    rewrite (events_since_app _ _ _ Hm1). reflexivity. }
  destruct (fst (ns9xxx_wait_while_busy m1) =? 0).
  - split; [intros _; reflexivity|]. split; [discriminate|]. split.
    + rewrite (events_since_trans m m2).
      * rewrite cmd_writes_app, Hc2.
        rewrite (events_since_app m2 _ [EvPrintk MsgNotRetrying]); reflexivity.
      * transitivity m0; [assumption|]. transitivity m1; assumption.
      * eexists. reflexivity.
    + destruct Hu as (_&_&_&_&Hs&_). rewrite run_printk. cbn [snd state set_trace].
      rewrite Hs. exact Hst1.
  - split; [discriminate|]. split; [reflexivity|]. split; [exact Hc2|].
    destruct Hu as (_&_&_&_&Hs&_). rewrite Hs. exact Hst1.
Qed.

Lemma send_cmd_timeout_no_retry_witness :
  fst (send_cmd_unlock silent_machine) = false /\
  hw_wait (env silent_machine) (n_wait silent_machine) = WaitTimeout /\
  fst (ns9xxx_i2c_send_cmd I2C_CMD_STOP silent_machine) = - ETIMEDOUT /\
  cmd_writes (events_since silent_machine
                (snd (ns9xxx_i2c_send_cmd I2C_CMD_STOP silent_machine)))
  = [I2C_CMD_STOP].
Proof.
  split; [reflexivity|]. split; [reflexivity|].
  destruct (send_cmd_timeout_no_retry I2C_CMD_STOP silent_machine)
    as (_ & Hr & _ & _ & Hc & _); [reflexivity|reflexivity|].
  split; [exact Hr|exact Hc].
Defined.

Example send_cmd_timeout_trace :
  trace (snd (ns9xxx_i2c_send_cmd I2C_CMD_STOP silent_machine))
  = [EvReadl I2C_STATUS 0; EvSetState I2C_INT_AWAITING;
     EvWritel I2C_CMD_STOP I2C_CMD; EvWait WaitTimeout;
     EvPrintk (MsgIrqTimeout I2C_CMD_STOP 10); EvReadl I2C_STATUS 0;
     EvPrintk MsgNotRetrying].
Proof. vm_compute. reflexivity. Qed.


(** *** The command register, call by call *)

Lemma wait_cmd_writes (t : Z) (m : machine) :
  exists evs,
    trace (snd (wait_event_interruptible_timeout t m)) = trace m ++ evs /\
    (fst (wait_event_interruptible_timeout t m) = 0 -> cmd_writes evs = []) /\
    (cmd_writes evs = [] \/
     (cmd_writes evs = [I2C_CMD_STOP] /\
      state (snd (wait_event_interruptible_timeout t m)) = I2C_INT_ABORT)).
Proof.
  unfold wait_event_interruptible_timeout. exec.
  destruct (state_eqb (state m) I2C_INT_AWAITING); exec.
  - unfold next_wait_outcome. exec.
    destruct (hw_wait (env m) (n_wait m)); exec.
    + match goal with |- context [ns9xxx_i2c_irq ?m0] =>
        destruct (irq_cmd_writes m0) as (evs & Ht & Hc);
        set (m1 := snd (ns9xxx_i2c_irq m0)) in *
      end.
      exists (EvWait WaitIrq :: evs). split; [|split].
      * rewrite Ht. fields. rewrite <- app_assoc. reflexivity.
      * discriminate.
      * exact Hc.
    + eexists. split; [reflexivity|]. split; [reflexivity|]. left. reflexivity.
    + eexists. split; [reflexivity|]. split; [reflexivity|]. left. reflexivity.
  - exists []. split; [rewrite app_nil_r; reflexivity|].
    split; [reflexivity|]. left. reflexivity.
Qed.


(** What a call of the command issuer does to the command register, by
    result: nothing when the controller stayed locked; [cmd] alone on
    success or timeout; [cmd], possibly followed by the handler's STOP, on an
    I/O error.  Success leaves the state at Ok. *)
Lemma send_cmd_spec (cmd : Z) (m : machine) :
  exists evs,
    trace (snd (ns9xxx_i2c_send_cmd cmd m)) = trace m ++ evs /\
    ((fst (ns9xxx_i2c_send_cmd cmd m) = - ETIMEDOUT /\
      (cmd_writes evs = [] \/ cmd_writes evs = [cmd])) \/
     (fst (ns9xxx_i2c_send_cmd cmd m) = - EIO /\
      state (snd (ns9xxx_i2c_send_cmd cmd m)) <> I2C_INT_OK /\
      (cmd_writes evs = [cmd] \/ cmd_writes evs = [cmd; I2C_CMD_STOP])) \/
     (fst (ns9xxx_i2c_send_cmd cmd m) = 0 /\
      state (snd (ns9xxx_i2c_send_cmd cmd m)) = I2C_INT_OK /\
      cmd_writes evs = [cmd])).
Proof.
  unfold ns9xxx_i2c_send_cmd. exec.
  set (status := u32 (hw_status (env m) (n_status m))).
  set (m1 := set_trace (trace m ++ [EvReadl I2C_STATUS status])
                       (set_n_status (S (n_status m)) m)).
  assert (H1 : trace m1 = trace m ++ [EvReadl I2C_STATUS status]) by reflexivity.
  set (pre := (if negb (Z.land status I2C_STATUS_MCMDL =? 0)
               then r <- ns9xxx_wait_while_busy ;; ret (negb (r =? 0))
               else ret false) m1).
  assert (H2 : exists e2, trace (snd pre) = trace m ++ e2 /\ cmd_writes e2 = []).
  { unfold pre. destruct (negb (Z.land status I2C_STATUS_MCMDL =? 0)).
    - exec. destruct (quiet_cmd_writes_ex _ _ (wait_while_busy_quiet m1))
        as (e & Ht & Hc).
      exists ([EvReadl I2C_STATUS status] ++ e). split.
      + rewrite Ht, H1, <- app_assoc. reflexivity.
      + rewrite cmd_writes_app, Hc. reflexivity.
    - exec. exists [EvReadl I2C_STATUS status]. split; [exact H1|reflexivity]. }
  destruct H2 as (e2 & Ht2 & Hc2).
  destruct pre as [locked m2]. cbn [fst snd] in *. clear H1. clearbody m1.
  destruct locked; exec.
  - exists (e2 ++ [EvPrintk MsgUnlockTimeout]). split.
    + rewrite Ht2, <- app_assoc. reflexivity.
    + left. split; [reflexivity|]. left. rewrite cmd_writes_app, Hc2. reflexivity.
  - match goal with |- context [wait_event_interruptible_timeout ?t ?m0] =>
      destruct (wait_cmd_writes t m0) as (e3 & Ht3 & Hw0 & Hc3);
      remember (wait_event_interruptible_timeout t m0) as wm eqn:Hwm;
      destruct wm as [w m3]; cbn [fst snd] in *; clear Hwm
    end.
    revert Ht3. fields. rewrite Ht2. intros Ht3.
    assert (Hc3' : cmd_writes (e2 ++ [EvSetState I2C_INT_AWAITING; EvWritel cmd I2C_CMD]
                               ++ e3) = cmd :: cmd_writes e3).
    { rewrite !cmd_writes_app, Hc2. reflexivity. }
    destruct (Z.eqb_spec w 0) as [Hw|Hw]; exec.
    + specialize (Hw0 Hw).
      destruct (quiet_cmd_writes_ex _ _
                  (wait_while_busy_quiet
                     (set_trace (trace m3 ++ [EvPrintk (MsgIrqTimeout cmd (adap_timeout m2))])
                                m3))) as (e4 & Ht4 & Hc4).
      revert Ht4. fields. intros Ht4.
      set (m4 := snd (ns9xxx_wait_while_busy _)) in *.
      destruct (fst (ns9xxx_wait_while_busy _) =? 0); exec;
        eexists; (split;
          [rewrite ?Ht4, Ht3; repeat rewrite <- app_assoc; reflexivity|]);
        left; (split; [reflexivity|]); right;
        rewrite !cmd_writes_app, Hc2, Hw0, Hc4; reflexivity.
    + destruct (state_eqb (state m3) I2C_INT_OK) eqn:Hst; exec.
      * apply state_eqb_eq in Hst.
        exists (e2 ++ [EvSetState I2C_INT_AWAITING; EvWritel cmd I2C_CMD] ++ e3).
        split; [rewrite Ht3; repeat rewrite <- app_assoc; reflexivity|].
        right. right. split; [reflexivity|]. split; [exact Hst|].
        rewrite Hc3'. destruct Hc3 as [Hc3|[_ Hab]]; [rewrite Hc3; reflexivity|].
        rewrite Hst in Hab. discriminate Hab.
      * exists ((e2 ++ [EvSetState I2C_INT_AWAITING; EvWritel cmd I2C_CMD] ++ e3)
                ++ [EvPrintk (MsgStateNotOk (state m3))]).
        split; [rewrite Ht3; repeat rewrite <- app_assoc; reflexivity|].
        right. left. split; [reflexivity|]. split.
        -- intros Heq. rewrite Heq in Hst. discriminate Hst.
        -- rewrite cmd_writes_app, Hc3', app_nil_r.
           destruct Hc3 as [Hc3|[Hc3 _]]; rewrite Hc3; [left|right]; reflexivity.
Qed.
(** ** Byte transfer driver *)

Lemma until_failure_cons (c : M Z) (cs : list (M Z)) (m : machine) :
  until_failure (c :: cs) m
  = if fst (c m) =? 0 then until_failure cs (snd (c m)) else c m.
Proof.
  cbn [until_failure]. rewrite run_bind.
  destruct (c m) as [r m1]. cbn [fst snd].
  destruct (r =? 0); reflexivity.
Qed.

(** What [until_failure] comes to.  Either every computation of the list
    was done and returned 0, or there is a first one that did not: those
    before it returned 0, and its result and the machine it left are the
    result and the machine of the whole run. *)
Lemma until_failure_cases (cs : list (M Z)) :
  forall m : machine,
    (fst (until_failure cs m) = 0 /\ snd (until_failure cs m) = after_all cs m /\
     forall (i : nat) (c : M Z),
       cs !! i = Some c -> fst (c (after_all (take i cs) m)) = 0) \/
    (exists (i : nat) (c : M Z),
       cs !! i = Some c /\
       (forall (j : nat) (c' : M Z),
          (j < i)%nat -> cs !! j = Some c' ->
          fst (c' (after_all (take j cs) m)) = 0) /\
       fst (c (after_all (take i cs) m)) <> 0 /\
       until_failure cs m = c (after_all (take i cs) m)).
Proof.
  induction cs as [|c cs IH]; intros m.
  - left. split; [reflexivity|]. split; [reflexivity|].
    intros i c H. discriminate H.
  - rewrite until_failure_cons.
    destruct (Z.eqb_spec (fst (c m)) 0) as [H0|H0].
    + destruct (IH (snd (c m))) as [(Hr & Hm & Hall)|(i & c1 & Hi & Hbefore & Hfail & Heq)].
      * left. split; [exact Hr|]. split; [exact Hm|].
        intros [|i] c1 Hc1; cbn in Hc1 |- *.
        -- injection Hc1 as <-. exact H0.
        -- apply Hall. exact Hc1.
      * right. exists (S i), c1. split; [exact Hi|]. split; [|split].
        -- intros [|j] c2 Hj Hc2; cbn in Hc2 |- *.
           ++ injection Hc2 as <-. exact H0.
           ++ apply (Hbefore j c2); [lia|exact Hc2].
        -- exact Hfail.
        -- exact Heq.
    + right. exists 0%nat, c. split; [reflexivity|]. split; [|split].
      * intros j c' Hj. lia.
      * exact H0.
      * reflexivity.
Qed.

Lemma tx_words_frame (m m' : machine) (n : nat) :
  forall p : Z,
    (forall a : Z, p <= a -> mem m' !! a = mem m !! a) ->
    tx_words m' p n = tx_words m p n.
Proof.
  induction n as [|n IH]; intros p Hm; simpl; [reflexivity|].
  unfold byte_at. rewrite Hm by lia. f_equal.
  apply IH. intros a Ha. apply Hm. lia.
Qed.

Lemma i2c_write_loop_S (n : nat) (p : Z) (m : machine) :
  i2c_write_loop (S n) p m
  = let rm := ns9xxx_i2c_send_cmd
                (Z.lor (Z.lor I2C_CMD_NOP I2C_CMD_TXVAL) (byte_at m p)) m in
    if negb (fst rm =? 0) then rm else i2c_write_loop n (p + 1) (snd rm).
Proof.
  cbn [i2c_write_loop]. unfold load_char. exec. fold (byte_at m p). cbv zeta.
  destruct (ns9xxx_i2c_send_cmd _ m) as [r m1]. cbn [fst snd].
  destruct (negb (r =? 0)); exec; reflexivity.
Qed.

Lemma i2c_read_loop_S (n : nat) (m : machine) :
  i2c_read_loop (S n) m
  = let rm := ns9xxx_i2c_send_cmd I2C_CMD_NOP (set_buf (buf m + 1) m) in
    if negb (fst rm =? 0) then rm else i2c_read_loop n (snd rm).
Proof.
  cbn [i2c_read_loop]. exec. cbv zeta.
  destruct (ns9xxx_i2c_send_cmd _ _) as [r m1]. cbn [fst snd].
  destruct (negb (r =? 0)); exec; reflexivity.
Qed.

Lemma i2c_write_loop_commands (n : nat) :
  forall (p : Z) (m : machine),
    buf m <= p ->
    exists (j : nat) (tail : list Z),
      (j <= n)%nat /\
      cmd_writes (events_since m (snd (i2c_write_loop n p m)))
      = tx_words m p j ++ tail /\
      (tail = [] \/ tail = [I2C_CMD_STOP]) /\
      (fst (i2c_write_loop n p m) = 0 -> j = n /\ tail = []) /\
      extends m (snd (i2c_write_loop n p m)).
Proof.
  induction n as [|n IH]; intros p m Hbuf.
  - exists 0%nat, []. cbn [i2c_write_loop]. exec.
    split; [lia|]. split.
    + rewrite (events_since_app m m []) by (rewrite app_nil_r; reflexivity).
      reflexivity.
    + split; [left; reflexivity|]. split; [intros _; split; reflexivity|].
      reflexivity.
  - rewrite i2c_write_loop_S. cbv zeta.
    set (cmd := Z.lor (Z.lor I2C_CMD_NOP I2C_CMD_TXVAL) (byte_at m p)).
    destruct (send_cmd_spec cmd m) as (evs & Ht & Hcases).
    destruct (send_cmd_cursor_frame cmd m) as [Hb Hmem].
    destruct (ns9xxx_i2c_send_cmd cmd m) as [r m1]. cbn [fst snd] in *.
    assert (Hext : extends m m1) by (exists evs; exact Ht).
    rewrite <- (events_since_app _ _ _ Ht) in Hcases.
    destruct Hcases as [[Hr Hc]|[[Hr [_ Hc]]|[Hr [_ Hc]]]]; subst r.
    + change (negb (- ETIMEDOUT =? 0)) with true. cbn [snd fst].
      destruct Hc as [Hc|Hc]; rewrite Hc.
      * exists 0%nat, []. split; [lia|]. split; [reflexivity|].
        split; [left; reflexivity|]. split; [discriminate|exact Hext].
      * exists 1%nat, []. split; [lia|]. split; [reflexivity|].
        split; [left; reflexivity|]. split; [discriminate|exact Hext].
    + change (negb (- EIO =? 0)) with true. cbn [snd fst].
      destruct Hc as [Hc|Hc]; rewrite Hc.
      * exists 1%nat, []. split; [lia|]. split; [reflexivity|].
        split; [left; reflexivity|]. split; [discriminate|exact Hext].
      * exists 1%nat, [I2C_CMD_STOP]. split; [lia|]. split; [reflexivity|].
        split; [right; reflexivity|]. split; [discriminate|exact Hext].
    + change (negb (0 =? 0)) with false. cbn [snd fst].
      destruct (IH (p + 1) m1) as (j & tail & Hj & Hw & Htail & Hok & Hext');
        [rewrite Hb; lia|].
      exists (S j), tail. split; [lia|]. split.
      * rewrite (events_since_trans m m1) by assumption.
        rewrite cmd_writes_app, Hc, Hw. cbn [tx_words app]. f_equal. f_equal.
        apply tx_words_frame. intros a Ha. apply Hmem. lia.
      * split; [exact Htail|]. split.
        -- intros H0. destruct (Hok H0) as [-> ->]. split; reflexivity.
        -- transitivity m1; assumption.
Qed.

(** The loop of the byte-write driver is the run of the command words of
    the bytes, as memory holds them on entry, up to the first failure. *)
Lemma i2c_write_loop_send_each (n : nat) :
  forall (p : Z) (m0 m : machine),
    buf m <= p ->
    (forall a : Z, p <= a -> mem m !! a = mem m0 !! a) ->
    i2c_write_loop n p m = send_each (tx_words m0 p n) m.
Proof.
  induction n as [|n IH]; intros p m0 m Hbuf Hmem.
  - reflexivity.
  - rewrite i2c_write_loop_S. cbv zeta. unfold send_each.
    cbn [tx_words map]. rewrite until_failure_cons.
    assert (Hb : byte_at m p = byte_at m0 p)
      by (unfold byte_at; rewrite Hmem by lia; reflexivity).
    rewrite Hb.
    set (cmd := Z.lor (Z.lor I2C_CMD_NOP I2C_CMD_TXVAL) (byte_at m0 p)).
    destruct (send_cmd_cursor_frame cmd m) as [Hb1 Hmem1].
    destruct (Z.eqb_spec (fst (ns9xxx_i2c_send_cmd cmd m)) 0) as [H0|H0];
      cbn [negb]; [|reflexivity].
    apply (IH (p + 1) m0).
    + rewrite Hb1. lia.
    + intros a Ha. rewrite Hmem1 by lia. apply Hmem. lia.
Qed.

(** C2, as the code has it.  With a count that is not negative and the
    receive cursor not ahead of the transmit pointer, the byte-write driver
    is the run of one command per byte, in order, with the word
    NOP | TXVAL | byte of the byte that memory holds on entry, up to the
    first command that fails: the commands before that one returned 0, its
    result is the result of the driver, and no command is issued after it;
    when none fails the result is 0 ([send_each], [until_failure_cases]).
    On the command register this gives the words of a leading part of the
    [count] bytes, after them at most the STOP that the interrupt handler
    writes on a no-acknowledge; on a return of 0 the words are those of all
    [count] bytes, and nothing else. *)
Theorem i2c_write_issues_nop_txval (p count : Z) (m : machine) :
  0 <= count -> buf m <= p ->
  ns9xxx_i2c_write p count m = send_each (tx_words m p (Z.to_nat count)) m /\
  exists (j : nat) (tail : list Z),
    (j <= Z.to_nat count)%nat /\
    cmd_writes (events_since m (snd (ns9xxx_i2c_write p count m)))
    = tx_words m p j ++ tail /\
    (tail = [] \/ tail = [I2C_CMD_STOP]) /\
    (fst (ns9xxx_i2c_write p count m) = 0 -> j = Z.to_nat count /\ tail = []).
Proof.
  intros _ Hbuf. unfold ns9xxx_i2c_write. split.
  - apply i2c_write_loop_send_each; [exact Hbuf|reflexivity].
  - destruct (i2c_write_loop_commands (Z.to_nat count) p m Hbuf)
      as (j & tail & Hj & Hw & Htail & Hok & _).
    exists j, tail. repeat split; try assumption; apply Hok; assumption.
Qed.

Lemma i2c_write_issues_nop_txval_witness :
  0 <= 1 /\ buf one_byte_machine <= 1000 /\
  ns9xxx_i2c_write 1000 1 one_byte_machine = send_each [0x2041] one_byte_machine /\
  exists (j : nat) (tail : list Z),
    cmd_writes (events_since one_byte_machine
                  (snd (ns9xxx_i2c_write 1000 1 one_byte_machine)))
    = tx_words one_byte_machine 1000 j ++ tail.
Proof.
  split; [lia|]. split; [vm_compute; discriminate|].
  destruct (i2c_write_issues_nop_txval 1000 1 one_byte_machine)
    as (He & j & tail & _ & Hw & _); [lia|vm_compute; discriminate|].
  split; [exact He|]. exists j, tail. exact Hw.
Defined.

(** C2, as stated, fails: for the byte 0x41 the driver issues 0x2041, which
    is NOP | TXVAL | 0x41; the word WRITE | TXVAL | 0x41 = 0x2541 is never
    written. *)
Lemma i2c_write_does_not_issue_write_command :
  cmd_writes (trace (snd (ns9xxx_i2c_write 1000 1 one_byte_machine))) = [0x2041] /\
  Z.lor (Z.lor I2C_CMD_WRITE I2C_CMD_TXVAL) 0x41 = 0x2541 /\
  ~ In (EvWritel (Z.lor (Z.lor I2C_CMD_WRITE I2C_CMD_TXVAL) 0x41) I2C_CMD)
       (trace (snd (ns9xxx_i2c_write 1000 1 one_byte_machine))).
Proof.
  vm_compute. split; [reflexivity|]. split; [reflexivity|].
  intros H. repeat (destruct H as [H|H]; [discriminate H|]). exact H.
Qed.

(** ** Transfer orchestrator *)

Lemma send_cmd_ok_state (cmd : Z) (m : machine) :
  fst (ns9xxx_i2c_send_cmd cmd m) = 0 ->
  state (snd (ns9xxx_i2c_send_cmd cmd m)) = I2C_INT_OK.
Proof.
  intros Hr. destruct (send_cmd_spec cmd m) as (evs & _ & Hcases).
  destruct Hcases as [[H _]|[[H _]|[_ [H _]]]].
  - rewrite Hr in H. discriminate H.
  - rewrite Hr in H. discriminate H.
  - exact H.
Qed.

Lemma send_cmd_result (cmd : Z) (m : machine) :
  fst (ns9xxx_i2c_send_cmd cmd m) = 0 \/
  fst (ns9xxx_i2c_send_cmd cmd m) = - EIO \/
  fst (ns9xxx_i2c_send_cmd cmd m) = - ETIMEDOUT.
Proof.
  destruct (send_cmd_spec cmd m) as (evs & _ & Hcases).
  destruct Hcases as [[H _]|[[H _]|[H _]]]; auto.
Qed.

Lemma i2c_read_loop_state (n : nat) :
  forall m : machine,
    fst (i2c_read_loop n m) = 0 ->
    state (snd (i2c_read_loop n m)) = I2C_INT_OK \/
    state (snd (i2c_read_loop n m)) = state m.
Proof.
  induction n as [|n IH]; intros m; cbn [i2c_read_loop]; exec.
  - intros _. right. reflexivity.
  - set (m1 := set_buf (buf m + 1) m).
    pose proof (send_cmd_ok_state I2C_CMD_NOP m1) as Hok.
    destruct (ns9xxx_i2c_send_cmd I2C_CMD_NOP m1) as [r m2]. cbn [fst snd] in *.
    destruct (Z.eqb_spec r 0) as [Hr|Hr]; cbn [negb]; exec.
    + intros H0. destruct (IH m2 H0) as [H|H]; [left; exact H|].
      left. rewrite H. apply Hok. exact Hr.
    + intros H0. contradiction.
Qed.

Lemma i2c_write_loop_state (n : nat) :
  forall (p : Z) (m : machine),
    fst (i2c_write_loop n p m) = 0 ->
    state (snd (i2c_write_loop n p m)) = I2C_INT_OK \/
    state (snd (i2c_write_loop n p m)) = state m.
Proof.
  induction n as [|n IH]; intros p m.
  - cbn [i2c_write_loop]. exec. intros _. right. reflexivity.
  - rewrite i2c_write_loop_S. cbv zeta.
    set (cmd := Z.lor _ _).
    pose proof (send_cmd_ok_state cmd m) as Hok.
    destruct (ns9xxx_i2c_send_cmd cmd m) as [r m2]. cbn [fst snd] in *.
    destruct (Z.eqb_spec r 0) as [Hr|Hr]; cbn [negb fst snd].
    + intros H0. destruct (IH (p + 1) m2 H0) as [H|H]; [left; exact H|].
      left. rewrite H. apply Hok. exact Hr.
    + intros H0. contradiction.
Qed.

(** The retry check at the top of the loop body: in state Retry it costs
    one unit of the budget and goes on only with a budget left and the STOP
    done, which leaves the state at Ok; in any other state it does nothing. *)
Lemma xfer_retry_check_spec (v : xfer_vars) (m : machine) :
  (state m = I2C_INT_RETRY ->
   match fst (xfer_retry_check v m) with
   | inr e => e = - EIO
   | inl v' =>
       x_i v' = x_i v /\ x_retry v' = x_retry v - 1 /\ x_retry v' <> 0 /\
       state (snd (xfer_retry_check v m)) = I2C_INT_OK
   end) /\
  (state m = I2C_INT_RETRY -> x_retry v = 1 ->
   fst (xfer_retry_check v m) = inr (- EIO)) /\
  (state m <> I2C_INT_RETRY -> xfer_retry_check v m = (inl v, m)).
Proof.
  unfold xfer_retry_check. exec.
  pose proof (send_cmd_ok_state I2C_CMD_STOP m) as Hok.
  split; [|split].
  - intros Hs. rewrite Hs. exec.
    destruct (ns9xxx_i2c_send_cmd I2C_CMD_STOP m) as [r m1]. cbn [fst snd] in *.
    destruct (Z.eqb_spec r 0) as [Hr|Hr]; cbn [negb orb].
    + destruct (Z.eqb_spec (x_retry v - 1) 0) as [Hz|Hz]; exec.
      * reflexivity.
      * repeat split; try reflexivity; try assumption. apply Hok. exact Hr.
    + exec. reflexivity.
  - intros Hs H1. rewrite Hs, H1. exec.
    destruct (negb (fst (ns9xxx_i2c_send_cmd I2C_CMD_STOP m) =? 0)); reflexivity.
  - intros Hs. destruct (state_eqb (state m) I2C_INT_RETRY) eqn:E.
    + apply state_eqb_eq in E. contradiction.
    + exec. reflexivity.
Qed.

Lemma xfer_failed_spec (r : Z) (v : xfer_vars) (m : machine) :
  xfer_failed r v m
  = (if state_eqb (state m) I2C_INT_RETRY
     then Continue (with_i 0%nat (with_ret r v)) else Break (with_ret r v), m).
Proof.
  unfold xfer_failed. exec. destruct (state_eqb (state m) I2C_INT_RETRY); reflexivity.
Qed.

Lemma xfer_payload_outcome (msg : i2c_msg) (p len : Z) (v : xfer_vars) (m : machine) :
  state m <> I2C_INT_RETRY ->
  message_outcome v m (xfer_payload msg p len v m).
Proof.
  intros Hs. unfold xfer_payload, message_outcome. exec.
  set (c := if negb (Z.land (msg_flags msg) I2C_M_RD =? 0)
            then ns9xxx_i2c_read len else ns9xxx_i2c_write p len).
  assert (Hst : fst (c m) = 0 ->
                state (snd (c m)) = I2C_INT_OK \/ state (snd (c m)) = state m).
  { unfold c. destruct (negb (Z.land (msg_flags msg) I2C_M_RD =? 0)).
    - apply i2c_read_loop_state.
    - apply i2c_write_loop_state. }
  destruct (c m) as [r m1]. cbn [fst snd] in *.
  destruct (Z.eqb_spec r 0) as [Hr|Hr]; cbn [negb].
  - exec. split; [reflexivity|]. left. split; [reflexivity|].
    destruct (Hst Hr) as [H|H]; rewrite H; [discriminate|exact Hs].
  - rewrite xfer_failed_spec. cbn [fst snd].
    destruct (state_eqb (state m1) I2C_INT_RETRY) eqn:E.
    + split; [reflexivity|]. right. split; [reflexivity|].
      apply state_eqb_eq. exact E.
    + reflexivity.
Qed.

Lemma message_outcome_with_ret (r : Z) (v : xfer_vars) (m m0 : machine)
      (o : flow * machine) :
  message_outcome (with_ret r v) m0 o -> message_outcome v m o.
Proof. unfold message_outcome. destruct (fst o); cbn; tauto. Qed.

Lemma xfer_message_outcome (msg : i2c_msg) (v : xfer_vars) (m : machine) :
  state m <> I2C_INT_RETRY ->
  message_outcome v m (xfer_message msg v m).
Proof.
  intros Hs. unfold xfer_message. exec.
  set (m0 := set_buf (msg_buf msg) m).
  assert (Hs0 : state m0 <> I2C_INT_RETRY) by exact Hs.
  destruct (msg_len msg =? 0).
  - exec. unfold message_outcome. cbn [fst snd].
    split; [reflexivity|]. left. split; [reflexivity|].
    destruct (bitbang_unchanged_dev msg m0) as (_&_&_&_&Hst&_).
    rewrite Hst. exact Hs0.
  - destruct (negb (Z.land (msg_flags msg) I2C_M_NOSTART =? 0)).
    + apply (message_outcome_with_ret (x_ret v) v m m0).
      replace (with_ret (x_ret v) v) with v by (destruct v; reflexivity).
      apply xfer_payload_outcome. exact Hs0.
    + exec. set (m1 := set_trace _ _).
      assert (Hfail : forall (r : Z) (m2 : machine),
                 message_outcome v m (xfer_failed r v m2)).
      { intros r m2. rewrite xfer_failed_spec. unfold message_outcome.
        cbn [fst snd]. destruct (state_eqb (state m2) I2C_INT_RETRY) eqn:E.
        - split; [reflexivity|]. right. split; [reflexivity|].
          apply state_eqb_eq. exact E.
        - reflexivity. }
      destruct (negb (Z.land (msg_flags msg) I2C_M_RD =? 0)).
      * exec. pose proof (send_cmd_ok_state I2C_CMD_READ m1) as Hok.
        destruct (ns9xxx_i2c_send_cmd I2C_CMD_READ m1) as [r m2].
        cbn [fst snd] in *.
        destruct (Z.eqb_spec r 0) as [Hr|Hr]; cbn [negb].
        -- apply (message_outcome_with_ret r v m m2).
           apply xfer_payload_outcome. rewrite (Hok Hr). discriminate.
        -- apply Hfail.
      * unfold load_char. exec.
        set (cmd := Z.lor _ _).
        pose proof (send_cmd_ok_state cmd m1) as Hok.
        destruct (ns9xxx_i2c_send_cmd cmd m1) as [r m2].
        cbn [fst snd] in *.
        destruct (Z.eqb_spec r 0) as [Hr|Hr]; cbn [negb].
        -- apply (message_outcome_with_ret r v m m2).
           apply xfer_payload_outcome. rewrite (Hok Hr). discriminate.
        -- apply Hfail.
Qed.

Lemma xfer_body_outcome (msg : i2c_msg) (v : xfer_vars) (m : machine) :
  1 <= x_retry v ->
  body_outcome v m (xfer_body msg v m).
Proof.
  intros Hretry. unfold xfer_body, body_outcome, retry_cost. exec.
  destruct (xfer_retry_check_spec v m) as (Hre & _ & Hno).
  destruct (state_eqb (state m) I2C_INT_RETRY) eqn:E.
  - apply state_eqb_eq in E. specialize (Hre E).
    destruct (xfer_retry_check v m) as [[v1|e] m1]; cbn [fst snd] in *.
    + destruct Hre as (Hi & Hr & Hnz & Hok).
      pose proof (xfer_message_outcome msg v1 m1) as Hm.
      unfold message_outcome in Hm.
      destruct (xfer_message msg v1 m1) as [o m2]. cbn [fst snd] in *.
      assert (Hs1 : state m1 <> I2C_INT_RETRY) by (rewrite Hok; discriminate).
      specialize (Hm Hs1).
      destruct o as [v'|v'|r]; [| |contradiction].
      * destruct Hm as [Hr' Hcase]. split; [lia|]. split; [lia|].
        rewrite <- Hi. exact Hcase.
      * split; lia.
    + exec. split; [exact Hre|exact E].
  - apply state_eqb_neq in E. rewrite (Hno E). cbn [fst snd].
    pose proof (xfer_message_outcome msg v m E) as Hm.
    unfold message_outcome in Hm.
    destruct (xfer_message msg v m) as [o m2]. cbn [fst snd] in *.
    destruct o as [v'|v'|r]; [| |contradiction].
    + destruct Hm as [Hr' Hcase]. split; [lia|]. split; [lia|]. exact Hcase.
    + split; lia.
Qed.

Lemma xfer_loop_S (fuel : nat) (msgs : list i2c_msg) (v : xfer_vars) (m : machine) :
  xfer_loop (S fuel) msgs v m
  = match msgs !! x_i v with
    | None => (Break v, m)
    | Some msg =>
        match fst (xfer_body msg v m) with
        | Continue v' =>
            xfer_loop fuel msgs (with_i (S (x_i v')) v') (snd (xfer_body msg v m))
        | o => (o, snd (xfer_body msg v m))
        end
    end.
Proof.
  cbn [xfer_loop]. destruct (msgs !! x_i v) as [msg|]; [|reflexivity].
  exec. destruct (fst (xfer_body msg v m)); reflexivity.
Qed.

(** The loop never needs the fuel it is given: with more than
    [xfer_potential] rounds allowed, allowing more changes nothing. *)
Lemma xfer_loop_fuel_enough (msgs : list i2c_msg) (fuel : nat) :
  forall (v : xfer_vars) (m : machine) (k : nat),
    1 <= x_retry v ->
    xfer_potential (length msgs) v m < Z.of_nat fuel ->
    xfer_loop (fuel + k) msgs v m = xfer_loop fuel msgs v m.
Proof.
  induction fuel as [|fuel IH]; intros v m k Hretry Hpot.
  - destruct k as [|k]; [reflexivity|].
    cbn [Nat.add]. rewrite xfer_loop_S. cbn [xfer_loop].
    destruct (msgs !! x_i v) as [msg|] eqn:Hl; [|reflexivity].
    exfalso. apply lookup_lt_Some in Hl.
    unfold xfer_potential, retry_cost in Hpot.
    assert (0 <= x_retry v - (if state_eqb (state m) I2C_INT_RETRY then 1 else 0))
      by (destruct (state_eqb (state m) I2C_INT_RETRY); lia).
    nia.
  - cbn [Nat.add]. rewrite !xfer_loop_S.
    destruct (msgs !! x_i v) as [msg|] eqn:Hl; [|reflexivity].
    apply lookup_lt_Some in Hl.
    pose proof (xfer_body_outcome msg v m Hretry) as Hout.
    unfold body_outcome, retry_cost in Hout.
    destruct (xfer_body msg v m) as [o m1]. cbn [fst snd] in *.
    destruct o as [v'|v'|r]; [|reflexivity|reflexivity].
    destruct Hout as (Hr & Hr1 & Hcase).
    apply IH; [exact Hr1|].
    unfold xfer_potential, retry_cost in *. cbn [x_i x_retry with_i].
    destruct Hcase as [[Hi Hs]|[Hi Hs]].
    + apply state_eqb_neq in Hs. rewrite Hs, Hi, Hr.
      replace (x_retry v - (if state_eqb (state m) I2C_INT_RETRY then 1 else 0) - 0)
        with (x_retry v - (if state_eqb (state m) I2C_INT_RETRY then 1 else 0))
        by lia.
      lia.
    + rewrite Hs, Hi, Hr. cbn [state_eqb].
      rewrite Z.mul_sub_distr_l.
      set (P := Z.of_nat (length msgs)
                * (x_retry v - (if state_eqb (state m) I2C_INT_RETRY then 1 else 0)))
        in *.
      lia.
Qed.

(** The transfer entry point makes fewer rounds than [xfer_fuel] allows. *)
Lemma xfer_fuel_enough (msgs : list i2c_msg) (m : machine) (k : nat) :
  xfer_loop (xfer_fuel msgs + k) msgs xfer_init (snd (store_state I2C_INT_OK m))
  = xfer_loop (xfer_fuel msgs) msgs xfer_init (snd (store_state I2C_INT_OK m)).
Proof.
  apply xfer_loop_fuel_enough.
  - cbn. lia.
  - unfold xfer_potential, retry_cost, xfer_fuel. rewrite run_store_state.
    cbn [snd state set_trace set_state state_eqb xfer_init x_i x_retry]. lia.
Qed.

Lemma xfer_loop_budget (msgs : list i2c_msg) (fuel : nat) :
  forall (v : xfer_vars) (m : machine),
    1 <= x_retry v ->
    match fst (xfer_loop fuel msgs v m) with
    | Return r => r = - EIO
    | Continue v' | Break v' => 1 <= x_retry v' <= x_retry v
    end.
Proof.
  induction fuel as [|fuel IH]; intros v m Hretry.
  - cbn. lia.
  - rewrite xfer_loop_S.
    destruct (msgs !! x_i v) as [msg|]; [|cbn; lia].
    pose proof (xfer_body_outcome msg v m Hretry) as Hout.
    unfold body_outcome, retry_cost in Hout.
    destruct (xfer_body msg v m) as [o m1]. cbn [fst snd] in *.
    assert (Hcost : 0 <= (if state_eqb (state m) I2C_INT_RETRY then 1 else 0) <= 1)
      by (destruct (state_eqb (state m) I2C_INT_RETRY); lia).
    destruct o as [v'|v'|r]; cbn [fst].
    + destruct Hout as (Hr & Hr1 & _).
      specialize (IH (with_i (S (x_i v')) v') m1 Hr1).
      destruct (fst (xfer_loop fuel msgs (with_i (S (x_i v')) v') m1));
        cbn [x_retry with_i] in IH; try exact IH; lia.
    + lia.
    + apply Hout.
Qed.

(** *** Arbitration losses on the trace *)

Lemma retries_app (a b : list event) : retries (a ++ b) = retries a + retries b.
Proof. unfold retries. rewrite omap_app, length_app. lia. Qed.

Lemma retries_range (evs : list event) : 0 <= retries evs.
Proof. unfold retries. lia. Qed.

Lemma proto_retry_store (e : event) : proto_of e = None -> retry_store_of e = None.
Proof.
  destruct e as [| | st | | | | | | | | | | | |]; cbn; try reflexivity.
  intros H. discriminate H.
Qed.

Lemma quiet_retries (m m' : machine) :
  quiet proto_of m m' ->
  exists evs, trace m' = trace m ++ evs /\ retries evs = 0.
Proof.
  intros (evs & Ht & Hq). exists evs. split; [exact Ht|].
  unfold retries. rewrite (omap_nil_weaken proto_of retry_store_of evs);
    [reflexivity|apply proto_retry_store|exact Hq].
Qed.

Lemma retry_cost_not_retry (m : machine) :
  state m <> I2C_INT_RETRY -> retry_cost m = 0.
Proof.
  intros H. unfold retry_cost. apply state_eqb_neq in H. rewrite H. reflexivity.
Qed.

Lemma retry_cost_range (m : machine) : 0 <= retry_cost m <= 1.
Proof. unfold retry_cost. destruct (state_eqb _ _); lia. Qed.

Lemma retry_counted_here (m m' : machine) :
  state m' <> I2C_INT_RETRY -> trace m' = trace m -> retry_counted m m'.
Proof.
  intros Hs Ht. exists []. rewrite app_nil_r. split; [exact Ht|].
  rewrite retry_cost_not_retry by exact Hs. reflexivity.
Qed.

Lemma retry_counted_quiet (m m' : machine) :
  state m <> I2C_INT_RETRY -> quiet proto_of m m' -> state m' = state m ->
  retry_counted m m'.
Proof.
  intros Hs Hq Hst. destruct (quiet_retries _ _ Hq) as (evs & Ht & Hr).
  exists evs. split; [exact Ht|].
  rewrite retry_cost_not_retry by (rewrite Hst; exact Hs). exact Hr.
Qed.

(** After a stretch that left the state off Retry, the count goes on from
    nought. *)
Lemma retry_counted_step (m m1 m2 : machine) :
  retry_counted m m1 -> state m1 <> I2C_INT_RETRY -> retry_counted m1 m2 ->
  retry_counted m m2.
Proof.
  intros (e1 & Ht1 & Hr1) Hs (e2 & Ht2 & Hr2). exists (e1 ++ e2). split.
  - rewrite Ht2, Ht1, app_assoc. reflexivity.
  - rewrite retries_app, Hr1, Hr2, (retry_cost_not_retry m1 Hs). lia.
Qed.

(** The handler, for a command that is outstanding. *)
Lemma irq_counted (m : machine) :
  state m = I2C_INT_AWAITING -> retry_counted m (snd (ns9xxx_i2c_irq m)).
Proof.
  intros Hs. unfold retry_counted, ns9xxx_i2c_irq, wake_up_interruptible. exec.
  rewrite Hs. exec.
  repeat match goal with
         | |- context [if ?c then _ else _] => destruct c eqn:?; exec
         end;
    repeat rewrite <- app_assoc; eexists; (split; [reflexivity|]); reflexivity.
Qed.

Lemma wait_counted (t : Z) (m : machine) :
  state m = I2C_INT_AWAITING ->
  retry_counted m (snd (wait_event_interruptible_timeout t m)) /\
  (fst (wait_event_interruptible_timeout t m) = 0 ->
   state (snd (wait_event_interruptible_timeout t m)) = I2C_INT_AWAITING).
Proof.
  intros Hs. unfold wait_event_interruptible_timeout. exec. rewrite Hs. exec.
  unfold next_wait_outcome. exec.
  destruct (hw_wait (env m) (n_wait m)); exec.
  - split; [|discriminate].
    match goal with |- context [ns9xxx_i2c_irq ?m0] =>
      destruct (irq_counted m0 Hs) as (evs & Ht & Hr);
      set (m1 := snd (ns9xxx_i2c_irq m0)) in *
    end.
    exists (EvWait WaitIrq :: evs). split.
    + rewrite Ht. fields. rewrite <- app_assoc. reflexivity.
    + exact Hr.
  - split; [|intros _; exact Hs].
    eexists. split; [reflexivity|]. unfold retry_cost. fields. rewrite Hs. reflexivity.
  - split; [|discriminate].
    eexists. split; [reflexivity|]. unfold retry_cost. fields. rewrite Hs. reflexivity.
Qed.

(** The Retry completions of one call of the command issuer.  When the
    controller stays locked nothing is stored and the state is as it was.
    Otherwise the call records a Retry exactly when it leaves the state at
    Retry, and it returns 0 whenever it leaves the state at Ok. *)
Lemma send_cmd_retries (cmd : Z) (m : machine) :
  (fst (ns9xxx_i2c_send_cmd cmd m) = - ETIMEDOUT /\
   state (snd (ns9xxx_i2c_send_cmd cmd m)) = state m /\
   exists evs, trace (snd (ns9xxx_i2c_send_cmd cmd m)) = trace m ++ evs /\
               retries evs = 0) \/
  (retry_counted m (snd (ns9xxx_i2c_send_cmd cmd m)) /\
   (state (snd (ns9xxx_i2c_send_cmd cmd m)) = I2C_INT_OK ->
    fst (ns9xxx_i2c_send_cmd cmd m) = 0)).
Proof.
  rewrite send_cmd_unfold. rewrite run_bind.
  destruct (send_cmd_unlock_unchanged_dev m) as (_&_&_&_&Hst0&_).
  destruct (quiet_retries _ _ (send_cmd_unlock_quiet m)) as (e0 & Ht0 & Hr0).
  destruct (send_cmd_unlock m) as [locked m0]. cbn [fst snd] in *.
  destruct locked.
  - left. unfold printk. exec. split; [reflexivity|]. split; [exact Hst0|].
    exists (e0 ++ [EvPrintk MsgUnlockTimeout]). split.
    + rewrite Ht0, <- app_assoc. reflexivity.
    + rewrite retries_app, Hr0. reflexivity.
  - right. exec.
    set (ma := set_trace _ (set_state I2C_INT_AWAITING m0)).
    assert (Hta : trace ma
                  = trace m ++ e0 ++ [EvSetState I2C_INT_AWAITING; EvWritel cmd I2C_CMD]).
    { unfold ma. fields. rewrite Ht0. repeat rewrite <- app_assoc. reflexivity. }
    destruct (wait_counted (adap_timeout m0) ma eq_refl) as ((e1 & Ht1 & Hr1) & Hw0).
    change (adap_timeout ma) with (adap_timeout m0).
    destruct (wait_event_interruptible_timeout (adap_timeout m0) ma) as [w m1].
    cbn [fst snd] in *.
    assert (Hpre : retries (e0 ++ [EvSetState I2C_INT_AWAITING; EvWritel cmd I2C_CMD])
                   = 0) by (rewrite retries_app, Hr0; reflexivity).
    destruct (Z.eqb_spec w 0) as [Hw|Hw]; exec.
    + specialize (Hw0 Hw).
      set (mb := set_trace _ m1).
      destruct (wait_while_busy_unchanged_dev mb) as (_&_&_&_&Hst2&_).
      destruct (quiet_retries _ _ (wait_while_busy_quiet mb)) as (e2 & Ht2 & Hr2).
      destruct (ns9xxx_wait_while_busy mb) as [r2 m2]. cbn [fst snd] in *.
      assert (Hs2 : state m2 = I2C_INT_AWAITING) by (rewrite Hst2; exact Hw0).
      assert (Hc1 : retry_cost m1 = 0)
        by (apply retry_cost_not_retry; rewrite Hw0; discriminate).
      destruct (r2 =? 0); unfold printk; exec.
      * split; [|rewrite Hs2; discriminate].
        eexists. split.
        -- rewrite Ht2. unfold mb. fields. rewrite Ht1, Hta.
           repeat rewrite <- app_assoc. reflexivity.
        -- unfold retry_cost. fields. rewrite Hs2. cbn [state_eqb].
           rewrite !retries_app, Hr0, Hr1, Hr2, Hc1. reflexivity.
      * split; [|rewrite Hs2; discriminate].
        eexists. split.
        -- rewrite Ht2. unfold mb. fields. rewrite Ht1, Hta.
           repeat rewrite <- app_assoc. reflexivity.
        -- rewrite (retry_cost_not_retry m2) by (rewrite Hs2; discriminate).
           rewrite !retries_app, Hr0, Hr1, Hr2, Hc1. reflexivity.
    + destruct (state_eqb (state m1) I2C_INT_OK) eqn:Hst; unfold printk; exec.
      * split; [|reflexivity].
        exists ((e0 ++ [EvSetState I2C_INT_AWAITING; EvWritel cmd I2C_CMD]) ++ e1).
        split; [rewrite Ht1, Hta; repeat rewrite <- app_assoc; reflexivity|].
        rewrite retries_app, Hpre, Hr1. reflexivity.
      * split; [|intros Hok; apply state_eqb_neq in Hst; contradiction].
        exists (((e0 ++ [EvSetState I2C_INT_AWAITING; EvWritel cmd I2C_CMD]) ++ e1)
                ++ [EvPrintk (MsgStateNotOk (state m1))]).
        split; [rewrite Ht1, Hta; repeat rewrite <- app_assoc; reflexivity|].
        rewrite !retries_app, Hr0, Hr1. unfold retry_cost. fields.
        destruct (state_eqb (state m1) I2C_INT_RETRY); reflexivity.
Qed.

Lemma send_cmd_counted (cmd : Z) (m : machine) :
  state m <> I2C_INT_RETRY -> retry_counted m (snd (ns9xxx_i2c_send_cmd cmd m)).
Proof.
  intros Hs. destruct (send_cmd_retries cmd m) as [(_ & Hst & evs & Ht & Hr)|[H _]].
  - exists evs. split; [exact Ht|].
    rewrite retry_cost_not_retry by (rewrite Hst; exact Hs). exact Hr.
  - exact H.
Qed.

Lemma send_cmd_retries_le (cmd : Z) (m : machine) :
  exists evs,
    trace (snd (ns9xxx_i2c_send_cmd cmd m)) = trace m ++ evs /\
    0 <= retries evs <= 1.
Proof.
  destruct (send_cmd_retries cmd m) as [(_ & _ & evs & Ht & Hr)|[(evs & Ht & Hr) _]];
    exists evs; (split; [exact Ht|]).
  - lia.
  - rewrite Hr. apply retry_cost_range.
Qed.

Lemma i2c_read_loop_counted (n : nat) :
  forall m : machine,
    state m <> I2C_INT_RETRY -> retry_counted m (snd (i2c_read_loop n m)).
Proof.
  induction n as [|n IH]; intros m Hs.
  - apply retry_counted_here; [exact Hs|reflexivity].
  - rewrite i2c_read_loop_S. cbv zeta.
    set (m1 := set_buf (buf m + 1) m).
    pose proof (send_cmd_counted I2C_CMD_NOP m1 Hs) as Hc.
    pose proof (send_cmd_ok_state I2C_CMD_NOP m1) as Hok.
    destruct (ns9xxx_i2c_send_cmd I2C_CMD_NOP m1) as [r m2]. cbn [fst snd] in *.
    destruct (Z.eqb_spec r 0) as [Hr|Hr]; cbn [negb snd].
    + assert (Hs2 : state m2 <> I2C_INT_RETRY) by (rewrite (Hok Hr); discriminate).
      apply (retry_counted_step m m2); [exact Hc|exact Hs2|apply IH; exact Hs2].
    + exact Hc.
Qed.

Lemma i2c_write_loop_counted (n : nat) :
  forall (p : Z) (m : machine),
    state m <> I2C_INT_RETRY -> retry_counted m (snd (i2c_write_loop n p m)).
Proof.
  induction n as [|n IH]; intros p m Hs.
  - apply retry_counted_here; [exact Hs|reflexivity].
  - rewrite i2c_write_loop_S. cbv zeta.
    set (cmd := Z.lor _ _).
    pose proof (send_cmd_counted cmd m Hs) as Hc.
    pose proof (send_cmd_ok_state cmd m) as Hok.
    destruct (ns9xxx_i2c_send_cmd cmd m) as [r m2]. cbn [fst snd] in *.
    destruct (Z.eqb_spec r 0) as [Hr|Hr]; cbn [negb snd].
    + assert (Hs2 : state m2 <> I2C_INT_RETRY) by (rewrite (Hok Hr); discriminate).
      apply (retry_counted_step m m2); [exact Hc|exact Hs2|apply IH; exact Hs2].
    + exact Hc.
Qed.

Lemma xfer_payload_counted (msg : i2c_msg) (p len : Z) (v : xfer_vars) (m : machine) :
  state m <> I2C_INT_RETRY -> retry_counted m (snd (xfer_payload msg p len v m)).
Proof.
  intros Hs. unfold xfer_payload. exec.
  set (c := if negb (Z.land (msg_flags msg) I2C_M_RD =? 0)
            then ns9xxx_i2c_read len else ns9xxx_i2c_write p len).
  assert (Hc : retry_counted m (snd (c m))).
  { unfold c. destruct (negb (Z.land (msg_flags msg) I2C_M_RD =? 0)).
    - apply i2c_read_loop_counted. exact Hs.
    - apply i2c_write_loop_counted. exact Hs. }
  destruct (c m) as [r m1]. cbn [fst snd] in *.
  destruct (negb (r =? 0)).
  - rewrite xfer_failed_spec. exact Hc.
  - exact Hc.
Qed.

(** A message handled from a state that is not Retry records a Retry
    exactly when it leaves the state at Retry: the command that lost
    arbitration is its last. *)
Lemma xfer_message_counted (msg : i2c_msg) (v : xfer_vars) (m : machine) :
  state m <> I2C_INT_RETRY -> retry_counted m (snd (xfer_message msg v m)).
Proof.
  intros Hs. unfold xfer_message. exec.
  set (m0 := set_buf (msg_buf msg) m).
  assert (Hs0 : state m0 <> I2C_INT_RETRY) by exact Hs.
  assert (H0 : forall x, retry_counted m0 x -> retry_counted m x)
    by (intros x H; exact H).
  apply H0. clearbody m0. clear H0 Hs m.
  destruct (msg_len msg =? 0).
  - exec. apply retry_counted_quiet; [exact Hs0|apply bitbang_quiet|].
    destruct (bitbang_unchanged_dev msg m0) as (_&_&_&_&Hst&_). exact Hst.
  - destruct (negb (Z.land (msg_flags msg) I2C_M_NOSTART =? 0)).
    + apply xfer_payload_counted. exact Hs0.
    + exec. set (m1 := set_trace _ _).
      assert (Hs1 : state m1 <> I2C_INT_RETRY) by exact Hs0.
      assert (H1 : retry_counted m0 m1).
      { exists [EvWritel
                  (if negb (Z.land (msg_flags msg) I2C_M_TEN =? 0)
                   then Z.lor (Z.shiftl (Z.land (msg_addr msg) I2C_MASTERADDR_ADDRMASK)
                                        I2C_MASTERADDR_ADDRSHIFT) I2C_MASTERADDR_10BIT
                   else Z.lor (Z.shiftl (Z.land (msg_addr msg) I2C_MASTERADDR_ADDRMASK)
                                        I2C_MASTERADDR_ADDRSHIFT) I2C_MASTERADDR_7BIT)
                  I2C_MASTERADDR].
        split; [reflexivity|].
        rewrite retry_cost_not_retry by exact Hs1. reflexivity. }
      assert (Hgo : forall x, retry_counted m1 x -> retry_counted m0 x)
        by (intros x H; apply (retry_counted_step m0 m1); assumption).
      apply Hgo. clearbody m1. clear Hgo H1 Hs0 m0.
      destruct (negb (Z.land (msg_flags msg) I2C_M_RD =? 0)).
      * exec. pose proof (send_cmd_ok_state I2C_CMD_READ m1) as Hok.
        pose proof (send_cmd_counted I2C_CMD_READ m1 Hs1) as Hc.
        destruct (ns9xxx_i2c_send_cmd I2C_CMD_READ m1) as [r m2].
        cbn [fst snd] in *.
        destruct (Z.eqb_spec r 0) as [Hr|Hr]; cbn [negb].
        -- assert (Hs2 : state m2 <> I2C_INT_RETRY) by (rewrite (Hok Hr); discriminate).
           apply (retry_counted_step m1 m2); [exact Hc|exact Hs2|].
           apply xfer_payload_counted. exact Hs2.
        -- rewrite xfer_failed_spec. exact Hc.
      * unfold load_char. exec.
        set (cmd := Z.lor _ _).
        pose proof (send_cmd_ok_state cmd m1) as Hok.
        pose proof (send_cmd_counted cmd m1 Hs1) as Hc.
        destruct (ns9xxx_i2c_send_cmd cmd m1) as [r m2].
        cbn [fst snd] in *.
        destruct (Z.eqb_spec r 0) as [Hr|Hr]; cbn [negb].
        -- assert (Hs2 : state m2 <> I2C_INT_RETRY) by (rewrite (Hok Hr); discriminate).
           apply (retry_counted_step m1 m2); [exact Hc|exact Hs2|].
           apply xfer_payload_counted. exact Hs2.
        -- rewrite xfer_failed_spec. exact Hc.
Qed.

(** One round of the loop.  A round that goes on has recorded a Retry
    exactly when it leaves the state at Retry.  A round that returns has
    recorded at most the Retry of its STOP; when it leaves the state at Ok,
    the STOP went through, no Retry was recorded and the return is the one
    for the budget. *)
Lemma xfer_body_retries (msg : i2c_msg) (v : xfer_vars) (m : machine) :
  match fst (xfer_body msg v m) with
  | Return _ =>
      exists evs,
        trace (snd (xfer_body msg v m)) = trace m ++ evs /\
        0 <= retries evs <= 1 /\
        (state (snd (xfer_body msg v m)) = I2C_INT_OK ->
         retries evs = 0 /\ x_retry v = 1)
  | Continue _ | Break _ => retry_counted m (snd (xfer_body msg v m))
  end.
Proof.
  unfold xfer_body, xfer_retry_check. exec.
  destruct (state_eqb (state m) I2C_INT_RETRY) eqn:E.
  - apply state_eqb_eq in E. exec.
    pose proof (send_cmd_ok_state I2C_CMD_STOP m) as Hok.
    pose proof (send_cmd_retries I2C_CMD_STOP m) as Hr.
    destruct (ns9xxx_i2c_send_cmd I2C_CMD_STOP m) as [r m1]. cbn [fst snd] in *.
    destruct (Z.eqb_spec r 0) as [Hr0|Hr0]; cbn [negb orb].
    + specialize (Hok Hr0).
      destruct Hr as [(Hbad & _)|[Hc _]]; [rewrite Hr0 in Hbad; discriminate Hbad|].
      assert (Hs1 : state m1 <> I2C_INT_RETRY) by (rewrite Hok; discriminate).
      destruct (Z.eqb_spec (x_retry v - 1) 0) as [Hz|Hz]; exec.
      * destruct Hc as (evs & Ht & Hn). exists evs. split; [exact Ht|].
        rewrite (retry_cost_not_retry m1 Hs1) in Hn. rewrite Hn.
        split; [lia|]. intros _. split; [reflexivity|lia].
      * pose proof (xfer_message_counted msg
                      (with_retry (x_retry v - 1) (with_ret r v)) m1 Hs1) as Hm.
        pose proof (xfer_message_outcome msg
                      (with_retry (x_retry v - 1) (with_ret r v)) m1 Hs1) as Hout.
        unfold message_outcome in Hout.
        destruct (xfer_message msg _ m1) as [o m2]. cbn [fst snd] in *.
        assert (Hall : retry_counted m m2)
          by (apply (retry_counted_step m m1); assumption).
        destruct o; [exact Hall|exact Hall|contradiction].
    + exec.
      destruct Hr as [(_ & Hst & evs & Ht & Hn)|[(evs & Ht & Hn) Hgood]];
        exists evs; (split; [exact Ht|]).
      * rewrite Hn. split; [lia|]. intros Hs1. rewrite Hst, E in Hs1. discriminate Hs1.
      * rewrite Hn. split; [apply retry_cost_range|].
        intros Hs1. specialize (Hgood Hs1). contradiction.
  - apply state_eqb_neq in E. exec.
    pose proof (xfer_message_counted msg v m E) as Hm.
    pose proof (xfer_message_outcome msg v m E) as Hout.
    unfold message_outcome in Hout.
    destruct (xfer_message msg v m) as [o m2]. cbn [fst snd] in *.
    destruct o; [exact Hm|exact Hm|contradiction].
Qed.

(** The loop.  The Retry completions on record, the one still waiting to
    be handled and the restarts used add up: a round that goes on turns a
    waiting Retry into a restart used and may leave a new one waiting. *)
Lemma xfer_loop_retries (msgs : list i2c_msg) (fuel : nat) :
  forall (v : xfer_vars) (m : machine),
    1 <= x_retry v ->
    exists evs,
      trace (snd (xfer_loop fuel msgs v m)) = trace m ++ evs /\
      match fst (xfer_loop fuel msgs v m) with
      | Return r =>
          r = - EIO /\
          retries evs + retry_cost m + restarts_used v <= 11 /\
          (state (snd (xfer_loop fuel msgs v m)) = I2C_INT_OK ->
           retries evs + retry_cost m + restarts_used v = 10)
      | Continue v' | Break v' =>
          retries evs + retry_cost m + restarts_used v
          = retry_cost (snd (xfer_loop fuel msgs v m)) + restarts_used v' /\
          1 <= x_retry v'
      end.
Proof.
  induction fuel as [|fuel IH]; intros v m Hretry.
  - exists []. cbn [xfer_loop]. exec. rewrite app_nil_r.
    split; [reflexivity|]. split; [reflexivity|exact Hretry].
  - rewrite xfer_loop_S.
    destruct (msgs !! x_i v) as [msg|].
    2:{ exists []. exec. rewrite app_nil_r.
        split; [reflexivity|]. split; [reflexivity|exact Hretry]. }
    pose proof (xfer_body_outcome msg v m Hretry) as Hout.
    pose proof (xfer_body_retries msg v m) as Hcnt.
    unfold body_outcome in Hout.
    destruct (xfer_body msg v m) as [o m1]. cbn [fst snd] in *.
    destruct o as [v1|v1|r]; cbn [fst snd].
    + destruct Hout as (Hr & Hr1 & _). destruct Hcnt as (e1 & Ht1 & Hn1).
      destruct (IH (with_i (S (x_i v1)) v1) m1 Hr1) as (e2 & Ht2 & Hcase).
      exists (e1 ++ e2). split; [rewrite Ht2, Ht1, app_assoc; reflexivity|].
      rewrite retries_app, Hn1.
      unfold restarts_used in *. cbn [x_retry with_i] in *.
      destruct (fst (xfer_loop fuel msgs (with_i (S (x_i v1)) v1) m1)).
      * destruct Hcase as [Hc Hx]. split; [lia|exact Hx].
      * destruct Hcase as [Hc Hx]. split; [lia|exact Hx].
      * destruct Hcase as (Hc & Hle & Hok). split; [exact Hc|].
        split; [lia|]. intros Hs. specialize (Hok Hs). lia.
    + destruct Hout as (Hr & Hr1). destruct Hcnt as (e1 & Ht1 & Hn1).
      exists e1. split; [exact Ht1|]. rewrite Hn1. unfold restarts_used.
      split; [lia|exact Hr1].
    + destruct Hout as (Hr & Hs). destruct Hcnt as (e1 & Ht1 & Hle & Hok).
      exists e1. split; [exact Ht1|]. split; [exact Hr|].
      assert (Hc : retry_cost m = 1)
        by (unfold retry_cost; rewrite Hs; reflexivity).
      unfold restarts_used. split; [lia|].
      intros Hs1. destruct (Hok Hs1) as [H0 H1]. lia.
Qed.

Lemma xfer_finish_retries (v : xfer_vars) (m : machine) :
  exists evs,
    trace (snd (xfer_finish v m)) = trace m ++ evs /\ 0 <= retries evs <= 3.
Proof.
  unfold xfer_finish. exec.
  destruct (send_cmd_retries_le I2C_CMD_STOP m) as (e1 & Ht1 & Hn1).
  destruct (ns9xxx_i2c_send_cmd I2C_CMD_STOP m) as [r m1]. cbn [fst snd] in *.
  destruct (negb (r =? 0)); exec.
  - set (ma := set_trace _ m1).
    destruct (send_cmd_retries_le I2C_CMD_NOP ma) as (e2 & Ht2 & Hn2).
    destruct (ns9xxx_i2c_send_cmd I2C_CMD_NOP ma) as [r2 m2]. cbn [fst snd] in *.
    destruct (send_cmd_retries_le I2C_CMD_STOP m2) as (e3 & Ht3 & Hn3).
    destruct (ns9xxx_i2c_send_cmd I2C_CMD_STOP m2) as [r3 m3]. cbn [fst snd] in *.
    assert (Ht : trace m3 = trace m ++ e1 ++ [EvPrintk (MsgStuck (state m1))] ++ e2 ++ e3).
    { rewrite Ht3, Ht2. unfold ma. fields. rewrite Ht1.
      repeat rewrite <- app_assoc. reflexivity. }
    assert (Hn : retries (e1 ++ [EvPrintk (MsgStuck (state m1))] ++ e2 ++ e3)
                 = retries e1 + retries e2 + retries e3).
    { rewrite !retries_app. change (retries [EvPrintk _]) with 0. lia. }
    destruct (negb (r3 =? 0)); exec.
    + set (mb := set_trace _ m3).
      destruct (quiet_retries _ _ (reset_bitbang_quiet mb)) as (e4 & Ht4 & Hn4).
      eexists. split.
      * rewrite Ht4. unfold mb. fields. rewrite Ht.
        repeat rewrite <- app_assoc. reflexivity.
      * rewrite !retries_app, Hn4. change (retries [EvPrintk _]) with 0. lia.
    + eexists. split; [exact Ht|]. rewrite Hn. lia.
  - exists e1. split; [exact Ht1|]. lia.
Qed.

(** A [break] is taken only when the state is not Retry. *)
Lemma xfer_failed_break (r : Z) (v : xfer_vars) (m : machine) :
  match fst (xfer_failed r v m) with
  | Break _ => state (snd (xfer_failed r v m)) <> I2C_INT_RETRY
  | _ => True
  end.
Proof.
  rewrite xfer_failed_spec. cbn [fst snd].
  destruct (state_eqb (state m) I2C_INT_RETRY) eqn:E; [exact I|].
  apply state_eqb_neq. exact E.
Qed.

Lemma xfer_payload_break (msg : i2c_msg) (p len : Z) (v : xfer_vars) (m : machine) :
  match fst (xfer_payload msg p len v m) with
  | Break _ => state (snd (xfer_payload msg p len v m)) <> I2C_INT_RETRY
  | _ => True
  end.
Proof.
  unfold xfer_payload. exec.
  destruct ((if negb (Z.land (msg_flags msg) I2C_M_RD =? 0)
             then ns9xxx_i2c_read len else ns9xxx_i2c_write p len) m) as [r m1].
  cbn [fst snd]. destruct (negb (r =? 0)).
  - apply xfer_failed_break.
  - exact I.
Qed.

Lemma xfer_message_break (msg : i2c_msg) (v : xfer_vars) (m : machine) :
  match fst (xfer_message msg v m) with
  | Break _ => state (snd (xfer_message msg v m)) <> I2C_INT_RETRY
  | _ => True
  end.
Proof.
  unfold xfer_message. exec.
  destruct (msg_len msg =? 0); [exec; exact I|].
  destruct (negb (Z.land (msg_flags msg) I2C_M_NOSTART =? 0));
    [apply xfer_payload_break|].
  exec.
  destruct (negb (Z.land (msg_flags msg) I2C_M_RD =? 0)).
  - exec.
    match goal with |- context [ns9xxx_i2c_send_cmd ?c ?m0] =>
      destruct (ns9xxx_i2c_send_cmd c m0) as [r m2] end.
    cbn [fst snd]. destruct (negb (r =? 0));
      [apply xfer_failed_break|apply xfer_payload_break].
  - unfold load_char. exec.
    match goal with |- context [ns9xxx_i2c_send_cmd ?c ?m0] =>
      destruct (ns9xxx_i2c_send_cmd c m0) as [r m2] end.
    cbn [fst snd]. destruct (negb (r =? 0));
      [apply xfer_failed_break|apply xfer_payload_break].
Qed.

Lemma xfer_body_break (msg : i2c_msg) (v : xfer_vars) (m : machine) :
  match fst (xfer_body msg v m) with
  | Break _ => state (snd (xfer_body msg v m)) <> I2C_INT_RETRY
  | _ => True
  end.
Proof.
  unfold xfer_body. rewrite run_bind.
  destruct (xfer_retry_check v m) as [[v1|e] m1]; cbn [fst snd].
  - apply xfer_message_break.
  - exact I.
Qed.

(** A Retry that is still waiting when the loop ends: the loop handles a
    Retry at the top of the next round, which is the round for index 1, so
    a Retry is left waiting only when there is no message of index 1, and
    then the loop made no restart. *)
Lemma xfer_loop_pending (msgs : list i2c_msg) (fuel : nat) :
  forall (v : xfer_vars) (m : machine),
    1 <= x_retry v ->
    xfer_potential (length msgs) v m < Z.of_nat fuel ->
    (state m = I2C_INT_RETRY -> x_i v = 1%nat) ->
    match fst (xfer_loop fuel msgs v m) with
    | Return _ => True
    | Continue v' | Break v' =>
        state (snd (xfer_loop fuel msgs v m)) = I2C_INT_RETRY ->
        (length msgs <= 1)%nat /\ x_retry v' = x_retry v
    end.
Proof.
  induction fuel as [|fuel IH]; intros v m Hretry Hpot Hidx.
  - cbn [xfer_loop]. exec. intros Hs. split; [|reflexivity].
    specialize (Hidx Hs). unfold xfer_potential, retry_cost in Hpot.
    rewrite Hs, Hidx in Hpot. cbn [state_eqb] in Hpot. nia.
  - rewrite xfer_loop_S.
    destruct (msgs !! x_i v) as [msg|] eqn:Hl.
    2:{ cbn [fst snd]. intros Hs. split; [|reflexivity].
        rewrite (Hidx Hs) in Hl. apply lookup_ge_None in Hl. exact Hl. }
    apply lookup_lt_Some in Hl.
    pose proof (xfer_body_outcome msg v m Hretry) as Hout.
    pose proof (xfer_body_break msg v m) as Hbrk.
    unfold body_outcome in Hout.
    destruct (xfer_body msg v m) as [o m1]. cbn [fst snd] in *.
    destruct o as [v1|v1|r]; cbn [fst snd].
    + destruct Hout as (Hr & Hr1 & Hcase).
      assert (Hpot1 : xfer_potential (length msgs) (with_i (S (x_i v1)) v1) m1
                      < Z.of_nat fuel).
      { unfold xfer_potential, retry_cost in *. cbn [x_i x_retry with_i].
        destruct Hcase as [[Hi Hs]|[Hi Hs]].
        - apply state_eqb_neq in Hs. rewrite Hs, Hi, Hr.
          replace (x_retry v - (if state_eqb (state m) I2C_INT_RETRY then 1 else 0) - 0)
            with (x_retry v - (if state_eqb (state m) I2C_INT_RETRY then 1 else 0))
            by lia.
          lia.
        - rewrite Hs, Hi, Hr. cbn [state_eqb].
          rewrite Z.mul_sub_distr_l.
          set (P := Z.of_nat (length msgs)
                    * (x_retry v - (if state_eqb (state m) I2C_INT_RETRY then 1 else 0)))
            in *.
          lia. }
      assert (Hidx1 : state m1 = I2C_INT_RETRY -> x_i (with_i (S (x_i v1)) v1) = 1%nat).
      { intros Hs1. cbn [x_i with_i].
        destruct Hcase as [[_ Hs]|[Hi _]]; [contradiction|rewrite Hi; reflexivity]. }
      specialize (IH (with_i (S (x_i v1)) v1) m1 Hr1 Hpot1 Hidx1).
      destruct (fst (xfer_loop fuel msgs (with_i (S (x_i v1)) v1) m1));
        [| |exact I];
        (intros Hs'; destruct (IH Hs') as [Hlen Hx]; split; [exact Hlen|];
         rewrite Hx; cbn [x_retry with_i]; rewrite Hr;
         rewrite retry_cost_not_retry; [lia|];
         intros Hs; specialize (Hidx Hs); lia).
    + intros Hs'. contradiction.
    + exact I.
Qed.

(** C3, as the code has it.  The check at the top of a round, entered in
    state Retry: with nine restarts used it returns -EIO, the tenth Retry
    handled being the fatal one; with fewer used and the STOP it sends
    succeeding it goes on to the message, one restart more on the count.
    On the trace of a transfer: when the loop is left by that return, the
    result of the transfer is -EIO and at most eleven Retry completions are
    on record, exactly ten when the last STOP went through, so that a Retry
    before the tenth never ends the transfer if its STOP succeeds; when the
    loop is left otherwise, the Retry completions on record are the
    restarts used, at most nine, and one more when the state is still
    Retry, which happens only with at most one message and no restart.
    With the final STOP sequence a whole call records at most twelve. *)
Theorem xfer_retry_budget (msgs : list i2c_msg) (m : machine) :
  let loop := xfer_loop (xfer_fuel msgs) msgs xfer_init
                        (snd (store_state I2C_INT_OK m)) in
  (forall (msg : i2c_msg) (v : xfer_vars) (m0 : machine),
     state m0 = I2C_INT_RETRY -> restarts_used v = 9 ->
     fst (xfer_body msg v m0) = Return (- EIO)) /\
  (forall (msg : i2c_msg) (v : xfer_vars) (m0 : machine),
     state m0 = I2C_INT_RETRY -> restarts_used v < 9 ->
     fst (ns9xxx_i2c_send_cmd I2C_CMD_STOP m0) = 0 ->
     xfer_body msg v m0
     = xfer_message msg (with_retry (x_retry v - 1) (with_ret 0 v))
                    (snd (ns9xxx_i2c_send_cmd I2C_CMD_STOP m0)) /\
     match fst (xfer_body msg v m0) with
     | Return _ => False
     | Continue v' | Break v' => restarts_used v' = restarts_used v + 1
     end) /\
  match fst loop with
  | Return r =>
      r = - EIO /\ ns9xxx_i2c_xfer msgs m = (- EIO, snd loop) /\
      retries (events_since m (snd loop)) <= 11 /\
      (state (snd loop) = I2C_INT_OK -> retries (events_since m (snd loop)) = 10)
  | Continue v' | Break v' =>
      retries (events_since m (snd loop))
      = restarts_used v' + retry_cost (snd loop) /\
      0 <= restarts_used v' <= 9 /\
      (state (snd loop) = I2C_INT_RETRY ->
       (length msgs <= 1)%nat /\ restarts_used v' = 0)
  end /\
  retries (events_since m (snd (ns9xxx_i2c_xfer msgs m))) <= 12.
Proof.
  cbv zeta. split; [|split].
  - intros msg v m0 Hs H9. unfold xfer_body. exec.
    destruct (xfer_retry_check_spec v m0) as (_ & Hlast & _).
    rewrite Hlast; [reflexivity|exact Hs|unfold restarts_used in H9; lia].
  - intros msg v m0 Hs H9 Hstop.
    assert (Heq : xfer_body msg v m0
                  = xfer_message msg (with_retry (x_retry v - 1) (with_ret 0 v))
                      (snd (ns9xxx_i2c_send_cmd I2C_CMD_STOP m0))).
    { unfold xfer_body, xfer_retry_check. exec. rewrite Hs. exec.
      destruct (ns9xxx_i2c_send_cmd I2C_CMD_STOP m0) as [r m1].
      cbn [fst snd] in *. subst r. cbn [Z.eqb negb orb].
      unfold restarts_used in H9.
      destruct (Z.eqb_spec (x_retry v - 1) 0) as [Hz|Hz]; [lia|]. exec.
      reflexivity. }
    split; [exact Heq|]. rewrite Heq.
    pose proof (send_cmd_ok_state I2C_CMD_STOP m0 Hstop) as Hok.
    pose proof (xfer_message_outcome msg
                  (with_retry (x_retry v - 1) (with_ret 0 v))
                  (snd (ns9xxx_i2c_send_cmd I2C_CMD_STOP m0))) as Hout.
    unfold message_outcome in Hout.
    destruct (fst (xfer_message msg _ _)) as [v'|v'|r].
    + destruct Hout as [Hx _]; [rewrite Hok; discriminate|].
      unfold restarts_used. rewrite Hx. cbn [x_retry with_retry]. lia.
    + unfold restarts_used. rewrite Hout by (rewrite Hok; discriminate).
      cbn [x_retry with_retry]. lia.
    + apply Hout. rewrite Hok. discriminate.
  - set (m0 := snd (store_state I2C_INT_OK m)).
    assert (Ht0 : trace m0 = trace m ++ [EvSetState I2C_INT_OK]) by reflexivity.
    destruct (xfer_loop_retries msgs (xfer_fuel msgs) xfer_init m0) as (evs & Ht & Hcase);
      [cbn; lia|].
    pose proof (xfer_loop_budget msgs (xfer_fuel msgs) xfer_init m0) as Hb.
    assert (Hpend := xfer_loop_pending msgs (xfer_fuel msgs) xfer_init m0).
    assert (Hpot : xfer_potential (length msgs) xfer_init m0
                   < Z.of_nat (xfer_fuel msgs)).
    { unfold xfer_potential, retry_cost, xfer_fuel, m0. rewrite run_store_state.
      cbn [snd state set_trace set_state state_eqb xfer_init x_i x_retry]. lia. }
    specialize (Hpend ltac:(cbn; lia) Hpot ltac:(intros H; discriminate H)).
    clear Hpot.
    unfold ns9xxx_i2c_xfer. rewrite run_bind. fold m0. rewrite run_bind.
    change (retry_cost m0) with 0 in Hcase.
    change (restarts_used xfer_init) with 0 in Hcase.
    destruct (xfer_loop (xfer_fuel msgs) msgs xfer_init m0) as [o m1].
    cbn [fst snd] in *.
    assert (Hev : events_since m m1 = EvSetState I2C_INT_OK :: evs).
    { apply events_since_app. rewrite Ht, Ht0, <- app_assoc. reflexivity. }
    assert (Hn : retries (events_since m m1) = retries evs).
    { rewrite Hev. reflexivity. }
    pose proof (retry_cost_range m1) as Hc1.
    cbn [xfer_init x_retry] in Hb, Hpend.
    assert (Hfin : forall v' : xfer_vars,
               retries evs = restarts_used v' + retry_cost m1 ->
               0 <= restarts_used v' <= 9 ->
               (state m1 = I2C_INT_RETRY -> restarts_used v' = 0) ->
               retries (events_since m (snd (xfer_finish v' m1))) <= 12).
    { intros v' Hsum Hru Hp.
      destruct (xfer_finish_retries v' m1) as (e2 & Ht2 & Hn2).
      rewrite (events_since_app m _ ((EvSetState I2C_INT_OK :: evs) ++ e2)).
      - rewrite retries_app.
        change (retries (EvSetState I2C_INT_OK :: evs)) with (retries evs).
        unfold retry_cost in Hsum.
        destruct (state_eqb (state m1) I2C_INT_RETRY) eqn:E.
        + apply state_eqb_eq in E. specialize (Hp E). lia.
        + lia.
      - rewrite Ht2, Ht, Ht0. repeat rewrite <- app_assoc. reflexivity. }
    destruct o as [v'|v'|r].
    + specialize (Hb ltac:(lia)). destruct Hcase as [Hsum Hx].
      assert (Hp : state m1 = I2C_INT_RETRY ->
                   (length msgs <= 1)%nat /\ restarts_used v' = 0).
      { intros Hs. destruct (Hpend Hs) as [Hl Hx']. split; [exact Hl|].
        unfold restarts_used. lia. }
      assert (Hru : 0 <= restarts_used v' <= 9) by (unfold restarts_used; lia).
      split.
      * rewrite Hn. split; [lia|]. split; [exact Hru|exact Hp].
      * apply Hfin; [lia|exact Hru|intros Hs; apply Hp; exact Hs].
    + specialize (Hb ltac:(lia)). destruct Hcase as [Hsum Hx].
      assert (Hp : state m1 = I2C_INT_RETRY ->
                   (length msgs <= 1)%nat /\ restarts_used v' = 0).
      { intros Hs. destruct (Hpend Hs) as [Hl Hx']. split; [exact Hl|].
        unfold restarts_used. lia. }
      assert (Hru : 0 <= restarts_used v' <= 9) by (unfold restarts_used; lia).
      split.
      * rewrite Hn. split; [lia|]. split; [exact Hru|exact Hp].
      * apply Hfin; [lia|exact Hru|intros Hs; apply Hp; exact Hs].
    + destruct Hcase as (Hr & Hle & Hok). exec. split.
      * split; [exact Hr|]. split; [rewrite Hr; reflexivity|].
        rewrite Hn. split; [lia|]. intros Hs. specialize (Hok Hs). lia.
      * rewrite Hn. lia.
Qed.

Lemma xfer_retry_budget_witness :
  state last_retry_machine = I2C_INT_RETRY /\
  restarts_used {| x_i := 1; x_ret := - EIO; x_retry := 1 |} = 9 /\
  fst (xfer_body msg_b {| x_i := 1; x_ret := - EIO; x_retry := 1 |}
                 last_retry_machine)
  = Return (- EIO).
Proof.
  split; [reflexivity|]. split; [reflexivity|].
  destruct (xfer_retry_budget [msg_a; msg_b] last_retry_machine) as (H & _).
  apply H; reflexivity.
Defined.

(** C3, as stated, fails: when arbitration is lost on every message
    command the transfer returns -EIO with ten Retry completions on record;
    the tenth one was not followed by a restart and there is no eleventh. *)
Lemma xfer_tenth_retry_is_fatal :
  fst (ns9xxx_i2c_xfer [msg_a; msg_b] arbitration_always_lost_machine) = - EIO /\
  length (omap retry_store_of
            (trace (snd (ns9xxx_i2c_xfer [msg_a; msg_b]
                           arbitration_always_lost_machine)))) = 10%nat /\
  n_wait (snd (ns9xxx_i2c_xfer [msg_a; msg_b] arbitration_always_lost_machine))
  = 20%nat.
Proof. vm_compute. repeat split; reflexivity. Qed.

(** A restart does not go back to the first message: after a round that
    ends with [i = 0; continue], the next round is the one for index 1. *)
Lemma xfer_loop_restart_index (fuel : nat) (msgs : list i2c_msg) (msg : i2c_msg)
      (v v' : xfer_vars) (m : machine) :
  msgs !! x_i v = Some msg ->
  fst (xfer_body msg v m) = Continue v' ->
  x_i v' = 0%nat ->
  xfer_loop (S fuel) msgs v m
  = xfer_loop fuel msgs (with_i 1%nat v') (snd (xfer_body msg v m)).
Proof.
  intros Hl Hb Hi. rewrite xfer_loop_S, Hl, Hb, Hi. reflexivity.
Qed.

(** C1, at a failing input.  Two one-byte writes; arbitration is lost on
    the command of the first.  The master address register then receives
    the address of the first message once and of the second message once,
    the byte of the first message is never sent again, and the transfer
    reports two messages done. *)
Theorem xfer_retry_resumes_at_second_message :
  fst (ns9xxx_i2c_xfer [msg_a; msg_b] arbitration_lost_once_machine) = 2 /\
  omap masteraddr_write_of
       (trace (snd (ns9xxx_i2c_xfer [msg_a; msg_b] arbitration_lost_once_machine)))
  = [Z.shiftl (msg_addr msg_a) 1; Z.shiftl (msg_addr msg_b) 1] /\
  cmd_writes
    (trace (snd (ns9xxx_i2c_xfer [msg_a; msg_b] arbitration_lost_once_machine)))
  = [Z.lor (Z.lor I2C_CMD_WRITE I2C_CMD_TXVAL) 0xa1; I2C_CMD_STOP;
     Z.lor (Z.lor I2C_CMD_WRITE I2C_CMD_TXVAL) 0xb2; I2C_CMD_STOP] /\
  omap retry_store_of
       (trace (snd (ns9xxx_i2c_xfer [msg_a; msg_b] arbitration_lost_once_machine)))
  = [tt].
Proof. vm_compute. repeat split; reflexivity. Qed.

(** After the loop the cursor is cleared, whatever the STOP sequence did. *)
Lemma xfer_finish_clears_cursor (v : xfer_vars) (m : machine) :
  buf (snd (xfer_finish v m)) = NULL.
Proof. unfold xfer_finish. exec. reflexivity. Qed.

(** The transfer entry point either went through the final STOP sequence
    and cleared the cursor, or it returned -EIO from the retry check inside
    the loop. *)
Lemma xfer_cursor_cleared_unless_early_return (msgs : list i2c_msg) (m : machine) :
  buf (snd (ns9xxx_i2c_xfer msgs m)) = NULL \/
  (exists r, fst (xfer_loop (xfer_fuel msgs) msgs xfer_init
                    (snd (store_state I2C_INT_OK m))) = Return r /\
             fst (ns9xxx_i2c_xfer msgs m) = - EIO).
Proof.
  pose proof (xfer_loop_budget msgs (xfer_fuel msgs) xfer_init
                (snd (store_state I2C_INT_OK m))) as Hloop.
  unfold ns9xxx_i2c_xfer. exec. fold (store_state I2C_INT_OK m).
  revert Hloop. rewrite run_store_state. cbn [snd].
  destruct (xfer_loop (xfer_fuel msgs) msgs xfer_init _) as [o m1].
  cbn [fst snd]. destruct o as [v'|v'|r]; intros Hloop.
  - left. apply xfer_finish_clears_cursor.
  - left. apply xfer_finish_clears_cursor.
  - right. exists r. split; [reflexivity|]. exec. apply Hloop. cbn. lia.
Qed.

(** C9, at a failing input.  Arbitration is lost on the first command and
    the STOP of the retry handling times out.  The transfer returns -EIO
    from inside the loop: the cursor still points into the first message's
    buffer, the state is still Awaiting, the command register has seen the
    first command and that one STOP and neither a NOP nor a second STOP, and
    the bus lines were never handed to the bus reset. *)
Theorem xfer_early_return_skips_cleanup :
  fst (ns9xxx_i2c_xfer [msg_a; msg_b] retry_stop_unanswered_machine) = - EIO /\
  buf (snd (ns9xxx_i2c_xfer [msg_a; msg_b] retry_stop_unanswered_machine))
  = msg_buf msg_a /\
  msg_buf msg_a <> NULL /\
  state (snd (ns9xxx_i2c_xfer [msg_a; msg_b] retry_stop_unanswered_machine))
  = I2C_INT_AWAITING /\
  cmd_writes
    (trace (snd (ns9xxx_i2c_xfer [msg_a; msg_b] retry_stop_unanswered_machine)))
  = [Z.lor (Z.lor I2C_CMD_WRITE I2C_CMD_TXVAL) 0xa1; I2C_CMD_STOP] /\
  omap restore_of
       (trace (snd (ns9xxx_i2c_xfer [msg_a; msg_b] retry_stop_unanswered_machine)))
  = [].
Proof. vm_compute. repeat split; try reflexivity. discriminate. Qed.


(** ** The whole transfer *)

Lemma i2c_read_loop_stop_before_abort (n : nat) :
  preserves stop_before_abort (i2c_read_loop n).
Proof. induction n as [|n IH]; simpl; frame. Qed.

Lemma i2c_write_loop_stop_before_abort (n : nat) (p : Z) :
  preserves stop_before_abort (i2c_write_loop n p).
Proof. revert p. induction n as [|n IH]; intros p; simpl; frame. Qed.

#[local] Hint Resolve i2c_read_loop_stop_before_abort
  i2c_write_loop_stop_before_abort : frames.

Lemma xfer_body_stop_before_abort (msg : i2c_msg) (v : xfer_vars) :
  preserves stop_before_abort (xfer_body msg v).
Proof.
  unfold xfer_body, xfer_retry_check, xfer_message, xfer_payload, xfer_failed,
    ns9xxx_i2c_read, ns9xxx_i2c_write.
  cbv zeta. frame.
Qed.

#[local] Hint Resolve xfer_body_stop_before_abort : frames.

Lemma xfer_loop_stop_before_abort (fuel : nat) (msgs : list i2c_msg) (v : xfer_vars) :
  preserves stop_before_abort (xfer_loop fuel msgs v).
Proof. revert v. induction fuel as [|fuel IH]; intros v; simpl; frame. Qed.

#[local] Hint Resolve xfer_loop_stop_before_abort : frames.

(** Over a whole transfer, whatever the messages and whatever the hardware
    does, the completion state is set to Abort only after a STOP has been
    written to the command register, with no other command in between. *)
Lemma xfer_stop_before_abort (msgs : list i2c_msg) :
  preserves stop_before_abort (ns9xxx_i2c_xfer msgs).
Proof. unfold ns9xxx_i2c_xfer, xfer_finish. frame. Qed.

(** * Further properties *)

(** ** Interrupt classifier *)

(** X1.  An interrupt that arrives while no command is outstanding is
    acknowledged by the status read and otherwise ignored: no store to the
    completion state or to memory, no command, no wake-up. *)
Theorem irq_ignored_unless_awaiting (m : machine) :
  state m <> I2C_INT_AWAITING ->
  ns9xxx_i2c_irq m = (IRQ_HANDLED, snd (readl I2C_STATUS m)).
Proof.
  intros Hst. apply state_eqb_neq in Hst.
  unfold ns9xxx_i2c_irq. exec. rewrite Hst. exec. reflexivity.
Qed.

Lemma irq_ignored_unless_awaiting_witness :
  state idle_machine <> I2C_INT_AWAITING /\
  ns9xxx_i2c_irq idle_machine = (IRQ_HANDLED, snd (readl I2C_STATUS idle_machine)).
Proof.
  assert (H : state idle_machine <> I2C_INT_AWAITING) by (cbn; discriminate).
  split; [exact H|]. apply (irq_ignored_unless_awaiting idle_machine H).
Defined.

Lemma land_rxdata_byte (status : Z) :
  u8 (Z.land status I2C_STATUS_RXDATA_MASK) = Z.land status I2C_STATUS_RXDATA_MASK.
Proof.
  unfold u8. change I2C_STATUS_RXDATA_MASK with (Z.ones 8).
  rewrite Z.land_ones by lia. apply Z.mod_mod. discriminate.
Qed.

(** X2.  A receive interrupt for the outstanding command stores the low eight
    bits of the status word in the cell under the receive cursor and
    completes the command with Ok; with a null cursor it stores nothing and
    still completes with Ok.  The cursor itself is not moved and no command
    is written. *)
Theorem irq_rxdata_stores_byte (m : machine) :
  state m = I2C_INT_AWAITING ->
  pending_cause m = I2C_IRQ_RXDATA ->
  let status := u32 (hw_status (env m) (n_status m)) in
  let m' := snd (ns9xxx_i2c_irq m) in
  state m' = I2C_INT_OK /\ buf m' = buf m /\
  mem m' = (if buf m =? NULL then mem m
            else <[buf m := Z.land status I2C_STATUS_RXDATA_MASK]> (mem m)) /\
  cmd_writes (events_since m m') = [].
Proof.
  intros Hst Hcause. cbv zeta. unfold pending_cause in Hcause.
  unfold ns9xxx_i2c_irq, wake_up_interruptible. exec.
  rewrite Hst, Hcause. exec.
  change (I2C_IRQ_RXDATA =? I2C_IRQ_RXDATA) with true. exec.
  rewrite land_rxdata_byte.
  destruct (buf m =? NULL); exec;
    (split; [reflexivity|]); (split; [reflexivity|]); (split; [reflexivity|]);
    (erewrite events_since_app;
       [|cbn [trace set_trace]; repeat rewrite <- app_assoc; reflexivity]);
    reflexivity.
Qed.

Lemma irq_rxdata_stores_byte_witness :
  state rx_machine = I2C_INT_AWAITING /\
  pending_cause rx_machine = I2C_IRQ_RXDATA /\
  mem (snd (ns9xxx_i2c_irq rx_machine)) = <[3000 := 0x5a]> (mem rx_machine).
Proof.
  split; [reflexivity|]. split; [reflexivity|].
  destruct (irq_rxdata_stores_byte rx_machine) as (_ & _ & H & _);
    [reflexivity|reflexivity|].
  exact H.
Defined.

(** X3.  An interrupt for the outstanding command always ends the wait: the
    handler stores the state that stands for the cause (Error for a cause it
    does not know), never leaves it at Awaiting, and its last act is the one
    wake-up of the waiter. *)
Theorem irq_completes_wait (m : machine) :
  state m = I2C_INT_AWAITING ->
  let m' := snd (ns9xxx_i2c_irq m) in
  state m' = state_of_cause (pending_cause m) /\
  state m' <> I2C_INT_AWAITING /\
  exists pre,
    trace m' = trace m ++ pre ++ [EvSetState (state m'); EvWake] /\
    ~ In EvWake pre.
Proof.
  intros Hst. cbv zeta. unfold pending_cause, state_of_cause.
  unfold ns9xxx_i2c_irq, wake_up_interruptible. exec. rewrite Hst. exec.
  set (status := u32 (hw_status (env m) (n_status m))).
  set (cause := Z.land status I2C_STATUS_IRQCD_MASK).
  assert (Hnowake : forall e : event,
             e = EvReadl I2C_STATUS status \/
             e = EvWritel I2C_CMD_STOP I2C_CMD -> e <> EvWake)
    by (intros e [->| ->]; discriminate).
  destruct (Z.eqb_spec cause I2C_IRQ_RXDATA) as [Hrx|Hrx].
  - rewrite Hrx.
    change (I2C_IRQ_RXDATA =? I2C_IRQ_ARBITLOST) with false.
    change (I2C_IRQ_RXDATA =? I2C_IRQ_NOACK) with false.
    change (I2C_IRQ_RXDATA =? I2C_IRQ_TXDATA) with false.
    change (I2C_IRQ_RXDATA =? I2C_IRQ_RXDATA) with true. exec.
    destruct (buf m =? NULL); exec;
      (split; [reflexivity|]); (split; [discriminate|]);
      exists [EvReadl I2C_STATUS status];
      (split; [repeat rewrite <- app_assoc; reflexivity|]);
      intros [H|[]]; discriminate H.
  - destruct (Z.eqb_spec cause I2C_IRQ_CMDACK) as [Hack|Hack].
    + rewrite Hack.
      change (I2C_IRQ_CMDACK =? I2C_IRQ_ARBITLOST) with false.
      change (I2C_IRQ_CMDACK =? I2C_IRQ_NOACK) with false.
      change (I2C_IRQ_CMDACK =? I2C_IRQ_TXDATA) with false.
      change (I2C_IRQ_CMDACK =? I2C_IRQ_CMDACK) with true. exec.
      split; [reflexivity|]. split; [discriminate|].
      exists [EvReadl I2C_STATUS status].
      split; [repeat rewrite <- app_assoc; reflexivity|].
      intros [H|[]]; discriminate H.
    + destruct (Z.eqb_spec cause I2C_IRQ_TXDATA) as [Htx|Htx].
      * rewrite Htx.
        change (I2C_IRQ_TXDATA =? I2C_IRQ_ARBITLOST) with false.
        change (I2C_IRQ_TXDATA =? I2C_IRQ_NOACK) with false.
        exec. split; [reflexivity|]. split; [discriminate|].
        exists [EvReadl I2C_STATUS status].
        split; [repeat rewrite <- app_assoc; reflexivity|].
        intros [H|[]]; discriminate H.
      * exec. destruct (Z.eqb_spec cause I2C_IRQ_NOACK) as [Hna|Hna].
        -- rewrite Hna. change (I2C_IRQ_NOACK =? I2C_IRQ_ARBITLOST) with false.
           exec. split; [reflexivity|]. split; [discriminate|].
           exists [EvReadl I2C_STATUS status; EvWritel I2C_CMD_STOP I2C_CMD].
           split; [repeat rewrite <- app_assoc; reflexivity|].
           intros [H|[H|[]]]; discriminate H.
        -- destruct (cause =? I2C_IRQ_ARBITLOST); exec;
             (split; [reflexivity|]); (split; [discriminate|]);
             exists [EvReadl I2C_STATUS status];
             (split; [repeat rewrite <- app_assoc; reflexivity|]);
             intros [H|[]]; discriminate H.
Qed.

Lemma irq_completes_wait_witness :
  state noack_machine = I2C_INT_AWAITING /\
  state (snd (ns9xxx_i2c_irq noack_machine)) <> I2C_INT_AWAITING.
Proof.
  split; [reflexivity|].
  destruct (irq_completes_wait noack_machine) as (_ & H & _); [reflexivity|].
  exact H.
Defined.

(** ** Command/wait protocol *)

Lemma wait_signalled (t : Z) (m : machine) :
  state m = I2C_INT_AWAITING ->
  hw_wait (env m) (n_wait m) = WaitSignal ->
  wait_event_interruptible_timeout t m
  = (- ERESTARTSYS,
     set_trace (trace m ++ [EvWait WaitSignal]) (set_n_wait (S (n_wait m)) m)).
Proof.
  intros Hs Hw. unfold wait_event_interruptible_timeout.
  exec. rewrite Hs. exec. unfold next_wait_outcome. exec. rewrite Hw. exec.
  reflexivity.
Qed.

(** X4.  A signal that interrupts the wait for the command's interrupt is
    reported as an I/O error: the command issuer returns -EIO, not a
    restart or interrupt code.  It has written the command once, does no
    busy recovery, and leaves the completion state at Awaiting, so that the
    interrupt of the abandoned command is still acted on when it comes. *)
Theorem send_cmd_signal_is_eio (cmd : Z) (m : machine) :
  fst (send_cmd_unlock m) = false ->
  hw_wait (env m) (n_wait m) = WaitSignal ->
  let m0 := snd (send_cmd_unlock m) in
  let m' := snd (ns9xxx_i2c_send_cmd cmd m) in
  fst (ns9xxx_i2c_send_cmd cmd m) = - EIO /\
  state m' = I2C_INT_AWAITING /\
  trace m' = trace m0 ++ [EvSetState I2C_INT_AWAITING;
                          EvWritel cmd I2C_CMD;
                          EvWait WaitSignal;
                          EvPrintk (MsgStateNotOk I2C_INT_AWAITING)] /\
  cmd_writes (events_since m m') = [cmd].
Proof.
  intros Hlock Hw. cbv zeta. rewrite send_cmd_unfold.
  destruct (send_cmd_unlock_unchanged_dev m) as (He&_&_&Ht&_&_&_&Hn).
  destruct (quiet_cmd_writes_ex _ _ (send_cmd_unlock_quiet m)) as (e0 & Ht0 & Hc0).
  rewrite run_bind, Hlock. set (m0 := snd (send_cmd_unlock m)) in *. exec.
  rewrite wait_signalled by (fields; rewrite ?He, ?Hn; first [reflexivity|exact Hw]).
  exec. change (- ERESTARTSYS =? 0) with false. exec.
  split; [reflexivity|]. split; [reflexivity|]. split.
  - repeat rewrite <- app_assoc. reflexivity.
  - erewrite events_since_app.
    2:{ rewrite Ht0. repeat rewrite <- app_assoc. reflexivity. }
    rewrite cmd_writes_app, Hc0. reflexivity.
Qed.

Lemma send_cmd_signal_is_eio_witness :
  fst (send_cmd_unlock signalled_machine) = false /\
  hw_wait (env signalled_machine) (n_wait signalled_machine) = WaitSignal /\
  fst (ns9xxx_i2c_send_cmd I2C_CMD_STOP signalled_machine) = - EIO /\
  state (snd (ns9xxx_i2c_send_cmd I2C_CMD_STOP signalled_machine)) = I2C_INT_AWAITING.
Proof.
  split; [reflexivity|]. split; [reflexivity|].
  destruct (send_cmd_signal_is_eio I2C_CMD_STOP signalled_machine)
    as (Hr & Hs & _); [reflexivity|reflexivity|].
  split; [exact Hr|exact Hs].
Defined.

(** X5.  When the controller stays locked through the whole busy recovery, the
    command issuer gives up with -ETIMEDOUT before it touches the protocol:
    the command is not written, and completion state, cursor and buffers are
    as they were. *)
Theorem send_cmd_locked_issues_nothing (cmd : Z) (m : machine) :
  fst (send_cmd_unlock m) = true ->
  let m' := snd (ns9xxx_i2c_send_cmd cmd m) in
  fst (ns9xxx_i2c_send_cmd cmd m) = - ETIMEDOUT /\
  state m' = state m /\ buf m' = buf m /\ mem m' = mem m /\
  cmd_writes (events_since m m') = [].
Proof.
  intros Hlock. cbv zeta. rewrite send_cmd_unfold.
  destruct (send_cmd_unlock_unchanged_dev m) as (_&_&_&_&Hs&Hb&Hm&_).
  destruct (quiet_cmd_writes_ex _ _ (send_cmd_unlock_quiet m)) as (e0 & Ht0 & Hc0).
  rewrite run_bind, Hlock. set (m0 := snd (send_cmd_unlock m)) in *. exec.
  split; [reflexivity|]. split; [exact Hs|]. split; [exact Hb|].
  split; [exact Hm|].
  erewrite events_since_app.
  2:{ rewrite Ht0. repeat rewrite <- app_assoc. reflexivity. }
  rewrite cmd_writes_app, Hc0. reflexivity.
Qed.

Lemma send_cmd_locked_issues_nothing_witness :
  fst (send_cmd_unlock locked_machine) = true /\
  fst (ns9xxx_i2c_send_cmd I2C_CMD_STOP locked_machine) = - ETIMEDOUT /\
  cmd_writes (events_since locked_machine
                (snd (ns9xxx_i2c_send_cmd I2C_CMD_STOP locked_machine))) = [].
Proof.
  assert (H : fst (send_cmd_unlock locked_machine) = true)
    by (vm_compute; reflexivity).
  split; [exact H|].
  destruct (send_cmd_locked_issues_nothing I2C_CMD_STOP locked_machine H)
    as (Hr & _ & _ & _ & Hc).
  split; [exact Hr|exact Hc].
Defined.

(** X6.  The command issuer has three results.  0 means the handler completed
    the command with Ok, and the command register got the command word and
    nothing else.  -EIO means the wait ended with the state not Ok; the
    register got the command word and at most the handler's STOP after it.
    -ETIMEDOUT means no interrupt came or the controller stayed locked; the
    register got the command word at most.  Never is the command written
    twice. *)
Theorem send_cmd_outcomes (cmd : Z) (m : machine) :
  let r := fst (ns9xxx_i2c_send_cmd cmd m) in
  let m' := snd (ns9xxx_i2c_send_cmd cmd m) in
  let written := cmd_writes (events_since m m') in
  (r = 0 /\ state m' = I2C_INT_OK /\ written = [cmd]) \/
  (r = - EIO /\ state m' <> I2C_INT_OK /\
   (written = [cmd] \/ written = [cmd; I2C_CMD_STOP])) \/
  (r = - ETIMEDOUT /\ (written = [] \/ written = [cmd])).
Proof.
  cbv zeta. destruct (send_cmd_spec cmd m) as (evs & Ht & Hcases).
  rewrite (events_since_app _ _ _ Ht).
  destruct Hcases as [H|[H|H]]; [right; right|right; left|left]; exact H.
Qed.

(** ** Byte transfer driver *)

Lemma i2c_read_loop_commands (n : nat) :
  forall m : machine,
    exists (j k : nat) (tail : list Z),
      (j <= n)%nat /\ (k = j \/ S k = j) /\
      buf (snd (i2c_read_loop n m)) = buf m + Z.of_nat j /\
      cmd_writes (events_since m (snd (i2c_read_loop n m)))
      = replicate k I2C_CMD_NOP ++ tail /\
      (tail = [] \/ tail = [I2C_CMD_STOP]) /\
      (fst (i2c_read_loop n m) = 0 -> j = n /\ k = n /\ tail = []) /\
      extends m (snd (i2c_read_loop n m)).
Proof.
  induction n as [|n IH]; intros m.
  - exists 0%nat, 0%nat, []. cbn [i2c_read_loop]. exec.
    split; [lia|]. split; [left; reflexivity|]. split; [lia|]. split.
    + rewrite (events_since_app m m []) by (rewrite app_nil_r; reflexivity).
      reflexivity.
    + split; [left; reflexivity|]. split; [intros _; repeat split|].
      reflexivity.
  - rewrite i2c_read_loop_S. cbv zeta.
    set (m1 := set_buf (buf m + 1) m).
    assert (Hev : forall x, events_since m x = events_since m1 x) by reflexivity.
    destruct (send_cmd_spec I2C_CMD_NOP m1) as (evs & Ht & Hcases).
    destruct (send_cmd_cursor_frame I2C_CMD_NOP m1) as [Hb _].
    destruct (ns9xxx_i2c_send_cmd I2C_CMD_NOP m1) as [r m2]. cbn [fst snd] in *.
    assert (Hext : extends m m2) by (exists evs; exact Ht).
    assert (Hext1 : extends m1 m2) by (exists evs; exact Ht).
    rewrite <- (events_since_app _ _ _ Ht) in Hcases.
    change (buf m1) with (buf m + 1) in Hb.
    destruct Hcases as [[Hr Hc]|[[Hr [_ Hc]]|[Hr [_ Hc]]]]; subst r.
    + change (negb (- ETIMEDOUT =? 0)) with true. cbn [snd fst].
      rewrite Hev.
      destruct Hc as [Hc|Hc]; rewrite Hc.
      * exists 1%nat, 0%nat, []. split; [lia|]. split; [right; reflexivity|].
        split; [rewrite Hb; lia|]. split; [reflexivity|].
        split; [left; reflexivity|]. split; [discriminate|exact Hext].
      * exists 1%nat, 1%nat, []. split; [lia|]. split; [left; reflexivity|].
        split; [rewrite Hb; lia|]. split; [reflexivity|].
        split; [left; reflexivity|]. split; [discriminate|exact Hext].
    + change (negb (- EIO =? 0)) with true. cbn [snd fst].
      rewrite Hev.
      destruct Hc as [Hc|Hc]; rewrite Hc.
      * exists 1%nat, 1%nat, []. split; [lia|]. split; [left; reflexivity|].
        split; [rewrite Hb; lia|]. split; [reflexivity|].
        split; [left; reflexivity|]. split; [discriminate|exact Hext].
      * exists 1%nat, 1%nat, [I2C_CMD_STOP]. split; [lia|].
        split; [left; reflexivity|].
        split; [rewrite Hb; lia|]. split; [reflexivity|].
        split; [right; reflexivity|]. split; [discriminate|exact Hext].
    + change (negb (0 =? 0)) with false. cbn [snd fst].
      destruct (IH m2) as (j & k & tail & Hj & Hk & Hbuf & Hw & Htail & Hok & Hext').
      exists (S j), (S k), tail. split; [lia|]. split; [lia|].
      split; [rewrite Hbuf, Hb; lia|]. split.
      * rewrite Hev, (events_since_trans m1 m2) by assumption.
        rewrite cmd_writes_app, Hc, Hw. reflexivity.
      * split; [exact Htail|]. split.
        -- intros H0. destruct (Hok H0) as (-> & -> & ->). repeat split.
        -- transitivity m2; assumption.
Qed.

Lemma i2c_read_loop_rounds (n : nat) :
  forall m : machine,
    i2c_read_loop n m = until_failure (replicate n read_round) m.
Proof.
  induction n as [|n IH]; intros m.
  - reflexivity.
  - rewrite i2c_read_loop_S. cbv zeta. cbn [replicate].
    rewrite until_failure_cons. unfold read_round at 1 3 4.
    rewrite !run_bind, !run_modify. cbn [fst snd].
    destruct (Z.eqb_spec (fst (ns9xxx_i2c_send_cmd I2C_CMD_NOP (set_buf (buf m + 1) m))) 0);
      cbn [negb]; [apply IH|reflexivity].
Qed.

(** X7.  The read driver asks for each byte after the first with one NOP
    command, moving the receive cursor up by one before it, and stops at the
    first command that fails: it is the run of [count - 1] such rounds up to
    the first failure, so the rounds before a failed one returned 0, the
    result of the failed command is the result of the driver, no round
    follows it, and the result is 0 when none fails ([until_failure_cases]).
    The cursor ends [j] cells up, [j] being the number of rounds started,
    at most [count - 1]; the command register got [j] NOPs, or one fewer
    when the controller stayed locked for the last, and after them at most
    the handler's STOP.  On a return of 0 the NOPs number [count - 1] and
    there is no STOP. *)
Theorem i2c_read_issues_nops (count : Z) (m : machine) :
  let m' := snd (ns9xxx_i2c_read count m) in
  ns9xxx_i2c_read count m
  = until_failure (replicate (Z.to_nat (count - 1)) read_round) m /\
  exists (j k : nat) (tail : list Z),
    (j <= Z.to_nat (count - 1))%nat /\ (k = j \/ S k = j) /\
    buf m' = buf m + Z.of_nat j /\
    cmd_writes (events_since m m') = replicate k I2C_CMD_NOP ++ tail /\
    (tail = [] \/ tail = [I2C_CMD_STOP]) /\
    (fst (ns9xxx_i2c_read count m) = 0 ->
     j = Z.to_nat (count - 1) /\ k = j /\ tail = []).
Proof.
  cbv zeta. unfold ns9xxx_i2c_read. split; [apply i2c_read_loop_rounds|].
  destruct (i2c_read_loop_commands (Z.to_nat (count - 1)) m)
    as (j & k & tail & Hj & Hk & Hb & Hw & Htail & Hok & _).
  exists j, k, tail. repeat split; try assumption.
  - apply Hok. assumption.
  - destruct (Hok H) as (-> & -> & _). reflexivity.
  - apply Hok. assumption.
Qed.

(** ** Interrupt masking and the bus lines *)

Lemma irq_line_discipline :
  preserves (tracks line_step Serving Serving) ns9xxx_i2c_irq.
Proof. unfold ns9xxx_i2c_irq. track. Qed.

#[local] Hint Resolve irq_line_discipline : tracked.

Lemma wait_line_discipline (t : Z) :
  preserves (tracks line_step Serving Serving) (wait_event_interruptible_timeout t).
Proof. unfold wait_event_interruptible_timeout. track. Qed.

Lemma set_clock_line_discipline (freq : Z) :
  preserves (tracks line_step Masked Masked) (ns9xxx_i2c_set_clock freq).
Proof. unfold ns9xxx_i2c_set_clock. cbv zeta. track. Qed.

Lemma reset_clock_cycles_line_discipline (n : nat) (i eff prev : Z) :
  preserves (tracks line_step Driven Driven) (reset_clock_cycles n i eff prev).
Proof. revert i eff prev. induction n as [|n IH]; intros i eff prev; simpl; track. Qed.

#[local] Hint Resolve wait_line_discipline set_clock_line_discipline
  reset_clock_cycles_line_discipline : tracked.

Lemma reset_bitbang_line_discipline :
  preserves (tracks line_step Serving Serving) ns9xxx_i2c_reset_bitbang.
Proof. unfold ns9xxx_i2c_reset_bitbang. cbv zeta. track. Qed.

#[local] Hint Resolve reset_bitbang_line_discipline : tracked.

Lemma reinit_line_discipline :
  preserves (tracks line_step Serving Serving) ns9xxx_reinit_i2c.
Proof. unfold ns9xxx_reinit_i2c. track. Qed.

#[local] Hint Resolve reinit_line_discipline : tracked.

Lemma busy_poll_line_discipline (fuel : nat) (timeout : Z) :
  preserves (tracks line_step Serving Serving) (busy_poll fuel timeout).
Proof. induction fuel as [|fuel IH]; simpl; track. Qed.

#[local] Hint Resolve busy_poll_line_discipline : tracked.

Lemma busy_attempts_line_discipline (n : nat) (i : Z) :
  preserves (tracks line_step Serving Serving) (busy_attempts n i).
Proof. revert i. induction n as [|n IH]; intros i; simpl; track. Qed.

#[local] Hint Resolve busy_attempts_line_discipline : tracked.

Lemma wait_while_busy_line_discipline :
  preserves (tracks line_step Serving Serving) ns9xxx_wait_while_busy.
Proof. unfold ns9xxx_wait_while_busy. track. Qed.

#[local] Hint Resolve wait_while_busy_line_discipline : tracked.

Lemma send_cmd_line_discipline (cmd : Z) :
  preserves (tracks line_step Serving Serving) (ns9xxx_i2c_send_cmd cmd).
Proof. unfold ns9xxx_i2c_send_cmd. track. Qed.

#[local] Hint Resolve send_cmd_line_discipline : tracked.

Lemma bitbang_address_bits_line_discipline (n : nat) (i nr_bits addr : Z) :
  preserves (tracks line_step Driven Driven) (bitbang_address_bits n i nr_bits addr).
Proof. revert i. induction n as [|n IH]; intros i; simpl; track. Qed.

#[local] Hint Resolve bitbang_address_bits_line_discipline : tracked.

Lemma bitbang_line_discipline (msg : i2c_msg) :
  preserves (tracks line_step Serving Serving) (ns9xxx_i2c_bitbang msg).
Proof. unfold ns9xxx_i2c_bitbang. cbv zeta. track. Qed.

#[local] Hint Resolve bitbang_line_discipline : tracked.

Lemma i2c_read_loop_line_discipline (n : nat) :
  preserves (tracks line_step Serving Serving) (i2c_read_loop n).
Proof. induction n as [|n IH]; simpl; track. Qed.

Lemma i2c_write_loop_line_discipline (n : nat) (p : Z) :
  preserves (tracks line_step Serving Serving) (i2c_write_loop n p).
Proof. revert p. induction n as [|n IH]; intros p; simpl; track. Qed.

#[local] Hint Resolve i2c_read_loop_line_discipline
  i2c_write_loop_line_discipline : tracked.

Lemma xfer_body_line_discipline (msg : i2c_msg) (v : xfer_vars) :
  preserves (tracks line_step Serving Serving) (xfer_body msg v).
Proof.
  unfold xfer_body, xfer_retry_check, xfer_message, xfer_payload, xfer_failed,
    ns9xxx_i2c_read, ns9xxx_i2c_write.
  cbv zeta. track.
Qed.

#[local] Hint Resolve xfer_body_line_discipline : tracked.

Lemma xfer_loop_line_discipline (fuel : nat) (msgs : list i2c_msg) (v : xfer_vars) :
  preserves (tracks line_step Serving Serving) (xfer_loop fuel msgs v).
Proof. revert v. induction fuel as [|fuel IH]; intros v; simpl; track. Qed.

#[local] Hint Resolve xfer_loop_line_discipline : tracked.

(** X8.  Over a whole transfer, with all the recovery it may go through and
    whatever the hardware does: the interrupt is disabled and enabled in
    strict alternation and is enabled again at the end; the bus lines are
    operated as GPIOs only while the interrupt is disabled and are handed
    back to the controller before it is enabled; and commands, waits, sleeps
    and stores to the completion state happen only while the interrupt is
    enabled and the lines are with the controller. *)
Theorem xfer_line_discipline (msgs : list i2c_msg) (m : machine) :
  exists evs,
    trace (snd (ns9xxx_i2c_xfer msgs m)) = trace m ++ evs /\
    run_events line_step Serving evs = Some Serving.
Proof.
  revert m.
  change (preserves (tracks line_step Serving Serving) (ns9xxx_i2c_xfer msgs)).
  unfold ns9xxx_i2c_xfer, xfer_finish. track.
Qed.

(** X9.  Over a whole transfer, whatever the messages and whatever the hardware
    does, the completion state is set to Abort only right after a STOP has
    been written to the command register: what the interrupt handler does on
    a no-acknowledge holds for everything the transfer goes through, the
    retries, the final STOP sequence and the busy recovery included. *)
Theorem xfer_abort_only_after_stop (msgs : list i2c_msg) (m : machine) :
  exists evs,
    trace (snd (ns9xxx_i2c_xfer msgs m)) = trace m ++ evs /\
    abort_guarded false evs = true.
Proof. exact (xfer_stop_before_abort msgs m). Qed.

(** ** Bus reset by bit-banging *)

Section WithPdata.
Context {S : Type} (step : S -> event -> option S) (pd : plat_ns9xxx_i2c).

Lemma with_pdata_leaf {A : Type} (R : relation machine) (c : M A) :
  preserves static c -> preserves R c -> preserves (with_pdata pd R) c.
Proof.
  intros Hs HR m Hpd. split; [|apply HR].
  destruct (Hs m) as (_ & Hp & _). rewrite Hp. exact Hpd.
Qed.

Lemma with_pdata_bind {A B : Type} (a b c : S) (c1 : M A) (k : A -> M B) :
  preserves (with_pdata pd (tracks step a b)) c1 ->
  (forall x, preserves (with_pdata pd (tracks step b c)) (k x)) ->
  preserves (with_pdata pd (tracks step a c)) (bind c1 k).
Proof.
  intros H1 H2 m Hpd. rewrite run_bind.
  destruct (H1 m Hpd) as [Hpd1 T1].
  destruct (H2 (fst (c1 m)) (snd (c1 m)) Hpd1) as [Hpd2 T2].
  split; [exact Hpd2|]. apply (tracks_seq step a b c _ _ _ T1 T2).
Qed.

(** A read of the platform data gives what [pd] holds. *)
Lemma with_pdata_gets {A B : Type} (R : relation machine)
      (g : plat_ns9xxx_i2c -> A) (k : A -> M B) :
  preserves (with_pdata pd R) (k (g pd)) ->
  preserves (with_pdata pd R) (bind (gets (fun m => g (pdata m))) k).
Proof.
  intros H m Hpd. rewrite run_bind, run_gets. cbn [fst snd].
  rewrite Hpd. apply H. exact Hpd.
Qed.
End WithPdata.

Lemma with_pdata_run {A : Type} (R : relation machine) (c : M A) (m : machine) :
  preserves (with_pdata (pdata m) R) c -> R m (snd (c m)).
Proof. intros H. apply (H m). reflexivity. Qed.

Ltac track_pd_step :=
  lazymatch goal with
  | |- preserves (with_pdata _ _) (bind _ _) =>
      first [apply with_pdata_gets | eapply with_pdata_bind; [|intros ?]]
  | |- preserves (with_pdata _ _) (match ?x with _ => _ end) => destruct x
  | |- preserves (with_pdata _ _) _ =>
      first [ solve [eauto 2 with tracked]
            | apply with_pdata_leaf; [solve [frame]|track_leaf] ]
  end.

Ltac track_pd :=
  unfold printk, disable_irq, enable_irq, gpio_direction_output,
    gpio_direction_input, gpio_set_value, gpio_configuration_func, mdelay,
    clk_get_rate, wake_up_interruptible, load_char;
  repeat track_pd_step.

Lemma run_drive_step (evs : list event) :
  forall acc acc' : list (Z * Z),
    run_events drive_step acc evs = Some acc' ->
    acc' = rev (omap drive_of evs) ++ acc.
Proof.
  induction evs as [|e evs IH]; intros acc acc' H; cbn [run_events] in H.
  - injection H as <-. reflexivity.
  - unfold drive_step at 1 in H. apply IH in H. cbn [omap list_omap].
    fold (omap drive_of evs).
    destruct (drive_of e) as [d|]; [|exact H].
    rewrite H. cbn [rev]. rewrite <- app_assoc. reflexivity.
Qed.

Lemma replicate_snoc {A : Type} (n : nat) (x : A) (l : list A) :
  replicate n x ++ x :: l = x :: replicate n x ++ l.
Proof. induction n as [|n IH]; [reflexivity|]. cbn. rewrite IH. reflexivity. Qed.

Lemma reset_clock_cycles_drives (pd : plat_ns9xxx_i2c) (n : nat) :
  forall (i eff prev : Z) (acc : list (Z * Z)),
    preserves (with_pdata pd (tracks drive_step acc
                                (replicate n (gpio_scl pd, 0) ++ acc)))
              (reset_clock_cycles n i eff prev).
Proof.
  induction n as [|n IH]; intros i eff prev acc.
  - cbn [reset_clock_cycles replicate app]. track_pd.
  - cbn [reset_clock_cycles replicate app].
    rewrite <- replicate_snoc.
    pose proof (fun i e p => IH i e p ((gpio_scl pd, 0) :: acc)) as IH'.
    track_pd.
Qed.

#[local] Hint Resolve reset_clock_cycles_drives : tracked.

Lemma reset_clock_cycles_no_reg_write (n : nat) (i eff prev : Z) :
  preserves (quiet reg_write_of) (reset_clock_cycles n i eff prev).
Proof.
  revert i eff prev. induction n as [|n IH]; intros i eff prev; simpl; frame.
Qed.

#[local] Hint Resolve reset_clock_cycles_no_reg_write : frames.

Lemma reset_bitbang_no_reg_write :
  preserves (quiet reg_write_of) ns9xxx_i2c_reset_bitbang.
Proof. unfold ns9xxx_i2c_reset_bitbang. frame. Qed.

Lemma reset_bitbang_drives (pd : plat_ns9xxx_i2c) :
  preserves (with_pdata pd (tracks drive_step [] (replicate 9 (gpio_scl pd, 0))))
            ns9xxx_i2c_reset_bitbang.
Proof. unfold ns9xxx_i2c_reset_bitbang. cbv zeta. track_pd. Qed.

(** X10.  The bus reset gives nine clock pulses by pulling the clock line low
    and releasing it, and drives nothing else: the data line is only ever
    released, and no line is driven high.  It writes no controller
    register, and completion state, cursor and buffers are as before. *)
Theorem reset_bitbang_nine_pulses (m : machine) :
  let m' := snd (ns9xxx_i2c_reset_bitbang m) in
  omap drive_of (events_since m m') = replicate 9 (gpio_scl (pdata m), 0) /\
  omap reg_write_of (events_since m m') = [] /\
  state m' = state m /\ buf m' = buf m /\ mem m' = mem m.
Proof.
  cbv zeta.
  destruct (reset_bitbang_unchanged_dev m) as (_&_&_&_&Hst&Hb&Hm&_).
  split; [|split; [|split; [exact Hst|split; [exact Hb|exact Hm]]]].
  - destruct (with_pdata_run _ _ m (reset_bitbang_drives (pdata m)))
      as (evs & Ht & Hrun).
    rewrite (events_since_app _ _ _ Ht).
    apply run_drive_step in Hrun. rewrite app_nil_r in Hrun.
    apply (f_equal (@rev _)) in Hrun. rewrite rev_involutive in Hrun.
    rewrite <- Hrun. reflexivity.
  - apply quiet_events_since, reset_bitbang_no_reg_write.
Qed.

(** ** Bit-bang address probe *)

Lemma bitbang_address_bits_any_address (n : nat) (nr_bits addr addr' : Z) :
  forall (i : Z) (m : machine),
    bitbang_address_bits n i nr_bits addr m = bitbang_address_bits n i nr_bits addr' m.
Proof.
  induction n as [|n IH]; intros i m; [reflexivity|].
  cbn [bitbang_address_bits]. run.
  assert (H : forall (b : bool) (pin : Z),
             (if b then gpio_set_value pin 1 else gpio_set_value pin 1)
             = gpio_set_value pin 1) by (intros []; reflexivity).
  rewrite !H. apply IH.
Qed.

(** X11.  The probe does not put the address on the bus: for every address bit
    it sets the data line to 1, whatever the bit.  Two probes that differ
    only in the address (and agree on whether it has ten bits) do the same
    and return the same. *)
Theorem bitbang_ignores_address (msg msg' : i2c_msg) (m : machine) :
  Z.land (msg_flags msg) I2C_M_TEN = Z.land (msg_flags msg') I2C_M_TEN ->
  ns9xxx_i2c_bitbang msg m = ns9xxx_i2c_bitbang msg' m.
Proof.
  intros Hten. unfold ns9xxx_i2c_bitbang. cbv zeta. rewrite Hten. run.
  rewrite (bitbang_address_bits_any_address _ _ (msg_addr msg) (msg_addr msg')).
  reflexivity.
Qed.

Lemma bitbang_ignores_address_witness :
  Z.land (msg_flags probe_msg) I2C_M_TEN
  = Z.land (msg_flags (Build_i2c_msg 0x2f 0 0 NULL)) I2C_M_TEN /\
  ns9xxx_i2c_bitbang probe_msg probe_acked_machine
  = ns9xxx_i2c_bitbang (Build_i2c_msg 0x2f 0 0 NULL) probe_acked_machine.
Proof.
  split; [reflexivity|].
  apply (bitbang_ignores_address probe_msg (Build_i2c_msg 0x2f 0 0 NULL)).
  reflexivity.
Defined.

Lemma concat_replicate_snoc {A : Type} (n : nat) (c l : list A) :
  concat (replicate n c) ++ c ++ l = c ++ concat (replicate n c) ++ l.
Proof.
  induction n as [|n IH]; [reflexivity|].
  cbn [replicate concat]. rewrite <- !app_assoc, IH. reflexivity.
Qed.

Lemma bitbang_address_bits_drives (pd : plat_ns9xxx_i2c) (nr_bits addr : Z) (n : nat) :
  forall (i : Z) (acc : list (Z * Z)),
    preserves
      (with_pdata pd
         (tracks drive_step acc
            (concat (replicate n [(gpio_scl pd, 0); (gpio_scl pd, 1); (gpio_sda pd, 1)])
             ++ acc)))
      (bitbang_address_bits n i nr_bits addr).
Proof.
  induction n as [|n IH]; intros i acc.
  - cbn [bitbang_address_bits replicate concat app]. track_pd.
  - cbn [bitbang_address_bits replicate concat].
    rewrite <- (app_nil_r (concat _)), <- !app_assoc, <- concat_replicate_snoc.
    cbn [app].
    pose proof (fun i => IH i ((gpio_scl pd, 0) :: (gpio_scl pd, 1)
                               :: (gpio_sda pd, 1) :: acc)) as IH'.
    track_pd.
Qed.

#[local] Hint Resolve bitbang_address_bits_drives : tracked.

Lemma bitbang_drives (pd : plat_ns9xxx_i2c) (msg : i2c_msg) :
  let nr_bits := if negb (Z.land (msg_flags msg) I2C_M_TEN =? 0) then 10 else 7 in
  preserves
    (with_pdata pd
       (tracks drive_step []
          ([(gpio_sda pd, 1); (gpio_scl pd, 1)]
           ++ concat (replicate (Z.to_nat nr_bits)
                        [(gpio_scl pd, 0); (gpio_scl pd, 1); (gpio_sda pd, 1)])
           ++ [(gpio_scl pd, 0); (gpio_sda pd, 0);
               (gpio_scl pd, 1); (gpio_sda pd, 1)])))
    (ns9xxx_i2c_bitbang msg).
Proof. cbv zeta. unfold ns9xxx_i2c_bitbang. cbv zeta. track_pd. Qed.

(** X12.  What the probe puts on the lines, in order: both lines high, the start
    condition (data low, then clock low), then for each of the 7 or 10
    address bits data set to 1 and one clock pulse, then one more clock
    rise to sample the acknowledge, and the data line driven high again.
    The levels do not depend on the address. *)
Theorem bitbang_wire_sequence (msg : i2c_msg) (m : machine) :
  let scl := gpio_scl (pdata m) in
  let sda := gpio_sda (pdata m) in
  let nr_bits := if Z.land (msg_flags msg) I2C_M_TEN =? 0 then 7%nat else 10%nat in
  omap drive_of (events_since m (snd (ns9xxx_i2c_bitbang msg m)))
  = [(sda, 1); (scl, 1); (sda, 0); (scl, 0)]
    ++ concat (replicate nr_bits [(sda, 1); (scl, 1); (scl, 0)])
    ++ [(scl, 1); (sda, 1)].
Proof.
  cbv zeta.
  destruct (with_pdata_run _ _ m (bitbang_drives (pdata m) msg)) as (evs & Ht & Hrun).
  rewrite (events_since_app _ _ _ Ht).
  apply run_drive_step in Hrun. rewrite app_nil_r in Hrun.
  apply (f_equal (@rev _)) in Hrun. rewrite rev_involutive in Hrun.
  rewrite <- Hrun.
  destruct (Z.land (msg_flags msg) I2C_M_TEN =? 0); reflexivity.
Qed.

(** ** Clock divider and controller reinitialisation *)

Lemma set_clock_rejected (freq : Z) (m : machine) :
  freq <> I2C_NORMALSPEED ->
  CONFIG_MACH_CME9210JS (env m) = true \/ freq <> I2C_HIGHSPEED ->
  fst (ns9xxx_i2c_set_clock freq m) = - EINVAL /\
  reg_config (snd (ns9xxx_i2c_set_clock freq m)) = reg_config m.
Proof.
  intros H1 H2. unfold ns9xxx_i2c_set_clock. apply Z.eqb_neq in H1. exec.
  rewrite H1.
  assert (Hc : negb (CONFIG_MACH_CME9210JS (env m)) && (freq =? I2C_HIGHSPEED) = false).
  { destruct H2 as [H2|H2]; [rewrite H2; reflexivity|].
    apply Z.eqb_neq in H2. rewrite H2. apply andb_false_r. }
  rewrite Hc. exec. split; reflexivity.
Qed.

Lemma set_clock_accepts (freq : Z) (m : machine) :
  fst (ns9xxx_i2c_set_clock freq m) = 0 ->
  freq = I2C_NORMALSPEED \/
  (CONFIG_MACH_CME9210JS (env m) = false /\ freq = I2C_HIGHSPEED).
Proof.
  intros Hr. destruct (Z.eq_dec freq I2C_NORMALSPEED) as [Hn|Hn]; [left; exact Hn|].
  right. destruct (CONFIG_MACH_CME9210JS (env m)) eqn:Hc.
  - destruct (set_clock_rejected freq m Hn) as [He _]; [left; exact Hc|].
    rewrite He in Hr. discriminate Hr.
  - split; [reflexivity|].
    destruct (Z.eq_dec freq I2C_HIGHSPEED) as [Hh|Hh]; [exact Hh|].
    destruct (set_clock_rejected freq m Hn) as [He _]; [right; exact Hh|].
    rewrite He in Hr. discriminate Hr.
Qed.

Lemma testbit_clrefmask (n : Z) : 0 <= n -> Z.testbit I2C_CONFIG_CLREFMASK n = (n <? 9).
Proof.
  intros H. change I2C_CONFIG_CLREFMASK with (Z.ones 9).
  apply Z.testbit_ones_nonneg; lia.
Qed.

Lemma testbit_tmde (n : Z) : 0 <= n -> Z.testbit I2C_CONFIG_TMDE n = (14 =? n).
Proof.
  intros H. change I2C_CONFIG_TMDE with (2 ^ 14). apply Z.pow2_bits_eqb. lia.
Qed.

Lemma testbit_vscd (n : Z) : 0 <= n -> Z.testbit I2C_CONFIG_VSCD n = (13 =? n).
Proof.
  intros H. change I2C_CONFIG_VSCD with (2 ^ 13). apply Z.pow2_bits_eqb. lia.
Qed.

(** X13.  Whenever the clock setter succeeds, it has changed nothing in the
    configuration register but the divider field (bits 0 to 8) and the two
    mode bits: VSCD (bit 13) is cleared, TMDE (bit 14) says whether fast mode
    was asked for, and every other bit from 9 up, the interrupt-disable bit
    and the spike filter width among them, is as it was. *)
Theorem set_clock_keeps_other_fields (freq : Z) (m : machine) :
  fst (ns9xxx_i2c_set_clock freq m) = 0 ->
  let c := reg_config m in
  let c' := reg_config (snd (ns9xxx_i2c_set_clock freq m)) in
  (forall n, 9 <= n -> n <> 13 -> n <> 14 -> Z.testbit c' n = Z.testbit c n) /\
  Z.testbit c' 13 = false /\
  Z.testbit c' 14 = (freq =? I2C_HIGHSPEED).
Proof.
  intros Hr. cbv zeta.
  assert (Hbits : forall n, 9 <= n ->
            Z.testbit (reg_config (snd (ns9xxx_i2c_set_clock freq m))) n
            = if n =? 13 then false
              else if n =? 14 then freq =? I2C_HIGHSPEED
              else Z.testbit (reg_config m) n).
  { intros n Hn.
    destruct (set_clock_accepts freq m Hr) as [->|[Hcfg ->]].
    - destruct (set_clock_normal m) as (_ & Hc & _). rewrite Hc.
      rewrite Z.lor_spec, !Z.land_spec, !Z.lnot_spec by lia.
      rewrite testbit_clrefmask, testbit_tmde, testbit_vscd by lia.
      change (I2C_NORMALSPEED =? I2C_HIGHSPEED) with false.
      destruct (Z.ltb_spec n 9); [lia|].
      destruct (Z.eqb_spec 14 n), (Z.eqb_spec 13 n), (Z.eqb_spec n 13),
        (Z.eqb_spec n 14); try lia;
        cbn [negb andb orb]; rewrite ?andb_true_r, ?andb_false_r, ?orb_false_r;
        reflexivity.
    - destruct (set_clock_fast m Hcfg) as (_ & Hc & _). rewrite Hc.
      rewrite Z.lor_spec, !Z.land_spec, Z.lor_spec, !Z.land_spec, !Z.lnot_spec by lia.
      rewrite testbit_clrefmask, testbit_tmde, testbit_vscd by lia.
      change (I2C_HIGHSPEED =? I2C_HIGHSPEED) with true.
      destruct (Z.ltb_spec n 9); [lia|].
      destruct (Z.eqb_spec 14 n), (Z.eqb_spec 13 n), (Z.eqb_spec n 13),
        (Z.eqb_spec n 14); try lia;
        cbn [negb andb orb];
        rewrite ?andb_true_r, ?andb_false_r, ?orb_false_r, ?orb_true_r;
        reflexivity. }
  split; [|split].
  - intros n Hn H13 H14. rewrite (Hbits n Hn).
    apply Z.eqb_neq in H13, H14. rewrite H13, H14. reflexivity.
  - rewrite (Hbits 13) by lia. reflexivity.
  - rewrite (Hbits 14) by lia. reflexivity.
Qed.

Lemma set_clock_keeps_other_fields_witness :
  fst (ns9xxx_i2c_set_clock I2C_NORMALSPEED (stuck_machine 0)) = 0 /\
  Z.testbit (reg_config (snd (ns9xxx_i2c_set_clock I2C_NORMALSPEED (stuck_machine 0)))) 13
  = false.
Proof.
  assert (H : fst (ns9xxx_i2c_set_clock I2C_NORMALSPEED (stuck_machine 0)) = 0)
    by reflexivity.
  split; [exact H|].
  apply (set_clock_keeps_other_fields I2C_NORMALSPEED (stuck_machine 0) H).
Defined.

#[local] Instance same_regs_preorder : PreOrder same_regs.
Proof.
  split.
  - intros m. split; reflexivity.
  - intros a b c [H1 H2] [H3 H4]. split; congruence.
Qed.

Lemma emit_same_regs (e : event) : preserves same_regs (emit e).
Proof. intros m. split; reflexivity. Qed.

Lemma readl_same_regs (off : Z) : preserves same_regs (readl off).
Proof. intros m. unfold readl. destruct (off =? I2C_STATUS); split; reflexivity. Qed.

Lemma gpio_get_value_same_regs (pin : Z) : preserves same_regs (gpio_get_value pin).
Proof. intros m. split; reflexivity. Qed.

#[local] Hint Resolve emit_same_regs readl_same_regs gpio_get_value_same_regs
  : frames.

Lemma reset_clock_cycles_same_regs (n : nat) (i eff prev : Z) :
  preserves same_regs (reset_clock_cycles n i eff prev).
Proof.
  revert i eff prev. induction n as [|n IH]; intros i eff prev; simpl; frame.
Qed.

#[local] Hint Resolve reset_clock_cycles_same_regs : frames.

Lemma reset_bitbang_same_regs : preserves same_regs ns9xxx_i2c_reset_bitbang.
Proof. unfold ns9xxx_i2c_reset_bitbang. frame. Qed.

Lemma land_field_irqd (f : Z) :
  Z.land (Z.land f I2C_CONFIG_CLREFMASK) (Z.lnot I2C_CONFIG_IRQD)
  = Z.land f I2C_CONFIG_CLREFMASK.
Proof. rewrite <- Z.land_assoc. reflexivity. Qed.

Lemma reinit_config_normal (f : Z) :
  Z.land
    (Z.lor (Z.land (Z.land (Z.land 0x9e00 (Z.lnot I2C_CONFIG_CLREFMASK))
                           (Z.lnot I2C_CONFIG_TMDE)) (Z.lnot I2C_CONFIG_VSCD))
           (Z.land f I2C_CONFIG_CLREFMASK))
    (Z.lnot I2C_CONFIG_IRQD)
  = Z.lor 0x1e00 (Z.land f 0x1ff).
Proof. rewrite Z.land_lor_distr_l, land_field_irqd. reflexivity. Qed.

Lemma reinit_config_fast (f : Z) :
  Z.land
    (Z.lor (Z.land (Z.lor (Z.land 0x9e00 (Z.lnot I2C_CONFIG_CLREFMASK))
                          I2C_CONFIG_TMDE) (Z.lnot I2C_CONFIG_VSCD))
           (Z.land f I2C_CONFIG_CLREFMASK))
    (Z.lnot I2C_CONFIG_IRQD)
  = Z.lor 0x5e00 (Z.land f 0x1ff).
Proof. rewrite Z.land_lor_distr_l, land_field_irqd. reflexivity. Qed.

Lemma reinit_tail_config (sp irqn : Z) (m2 : machine) :
  reg_config
    (snd ((r <- ns9xxx_i2c_set_clock sp ;;
           (if negb (r =? 0) then printk MsgClockError else ret tt) ;;
           enable_irq irqn ;;
           c0 <- readl I2C_CONFIG ;;
           writel (Z.land c0 (Z.lnot I2C_CONFIG_IRQD)) I2C_CONFIG) m2))
  = Z.land (reg_config (snd (ns9xxx_i2c_set_clock sp m2))) (Z.lnot I2C_CONFIG_IRQD).
Proof.
  unfold enable_irq. rewrite run_bind.
  destruct (ns9xxx_i2c_set_clock sp m2) as [r m3]. cbn [fst snd] in *.
  destruct (negb (r =? 0)); exec; reflexivity.
Qed.

Lemma reinit_locked_config (status : Z) (m1 : machine) :
  let sp := if speed (pdata m1) =? 0 then I2C_NORMALSPEED else speed (pdata m1) in
  let m2 := snd ((printk (MsgStillLocked status) ;;
                  irqn <- gets irq ;;
                  disable_irq irqn ;;
                  writel (Z.lor I2C_CONFIG_IRQD (Z.shiftl 0xf I2C_CONFIG_SFW_SHIFT))
                         I2C_CONFIG) m1) in
  reg_config
    (snd ((printk (MsgStillLocked status) ;;
           irqn <- gets irq ;;
           disable_irq irqn ;;
           writel (Z.lor I2C_CONFIG_IRQD (Z.shiftl 0xf I2C_CONFIG_SFW_SHIFT)) I2C_CONFIG ;;
           sp <- gets (fun m => speed (pdata m)) ;;
           r <- (if negb (sp =? 0) then ns9xxx_i2c_set_clock sp
                 else ns9xxx_i2c_set_clock I2C_NORMALSPEED) ;;
           (if negb (r =? 0) then printk MsgClockError else ret tt) ;;
           enable_irq irqn ;;
           c <- readl I2C_CONFIG ;;
           writel (Z.land c (Z.lnot I2C_CONFIG_IRQD)) I2C_CONFIG) m1))
  = Z.land (reg_config (snd (ns9xxx_i2c_set_clock sp m2))) (Z.lnot I2C_CONFIG_IRQD) /\
  reg_config m2 = 0x9e00 /\ env m2 = env m1.
Proof.
  cbv zeta. split; [|split; reflexivity].
  unfold disable_irq.
  rewrite run_bind, run_printk. cbn [fst snd].
  rewrite run_bind, run_gets. cbn [fst snd].
  rewrite run_bind, run_emit. cbn [fst snd].
  rewrite run_bind, run_writel_config. cbn [fst snd].
  rewrite run_bind, run_gets. cbn [fst snd].
  rewrite (run_bind (printk _)), run_printk. cbn [fst snd].
  rewrite (run_bind (gets irq)), run_gets. cbn [fst snd].
  rewrite (run_bind (emit _)), run_emit. cbn [fst snd].
  rewrite run_writel_config. cbn [fst snd].
  fields.
  assert (Hsp : (if negb (speed (pdata m1) =? 0)
                 then ns9xxx_i2c_set_clock (speed (pdata m1))
                 else ns9xxx_i2c_set_clock I2C_NORMALSPEED)
                = ns9xxx_i2c_set_clock
                    (if speed (pdata m1) =? 0 then I2C_NORMALSPEED else speed (pdata m1)))
    by (destruct (speed (pdata m1) =? 0); reflexivity).
  rewrite Hsp. apply reinit_tail_config.
Qed.

Lemma reinit_effect (m : machine) :
  let m1 := snd (ns9xxx_i2c_reset_bitbang m) in
  let status := u32 (hw_status (env m1) (n_status m1)) in
  let sp := if speed (pdata m1) =? 0 then I2C_NORMALSPEED else speed (pdata m1) in
  let m' := snd (ns9xxx_reinit_i2c m) in
  (Z.land status I2C_STATUS_MCMDL = 0 ->
     reg_config m' = reg_config m1 /\
     trace m' = trace m1 ++ [EvReadl I2C_STATUS status; EvPrintk (MsgModuleIdle status)]) /\
  (Z.land status I2C_STATUS_MCMDL <> 0 ->
     exists m2,
       reg_config m2 = 0x9e00 /\ env m2 = env m1 /\
       reg_config m'
       = Z.land (reg_config (snd (ns9xxx_i2c_set_clock sp m2))) (Z.lnot I2C_CONFIG_IRQD)).
Proof.
  cbv zeta. unfold ns9xxx_reinit_i2c. rewrite run_bind.
  generalize (snd (ns9xxx_i2c_reset_bitbang m)). intros m1.
  rewrite run_bind, run_readl_status. cbn [fst snd].
  set (status := u32 (hw_status (env m1) (n_status m1))).
  split.
  - intros Hfree. rewrite Hfree. cbn [Z.eqb negb]. exec.
    rewrite <- app_assoc. split; reflexivity.
  - intros Hlock. apply Z.eqb_neq in Hlock. rewrite Hlock. cbn [negb].
    destruct (reinit_locked_config status
                (set_trace (trace m1 ++ [EvReadl I2C_STATUS status])
                           (set_n_status (S (n_status m1)) m1)))
      as (Hr & Hc2 & He2).
    eexists. split; [exact Hc2|]. split; [exact He2|]. exact Hr.
Qed.

(** X14.  The controller reinitialisation, after its bus reset.  When the status
    it then reads shows the master command lock clear, it writes no register
    and the configuration stays as it was.  When the lock is set, it builds
    the configuration anew, whatever it was before: interrupt-disable clear,
    spike filter width 15, and the divider for the platform speed, with
    100 kHz standing in for a speed of 0.  A speed the clock setter rejects
    is logged and leaves the divider at 0. *)
Theorem reinit_rebuilds_config (m : machine) :
  let m1 := snd (ns9xxx_i2c_reset_bitbang m) in
  let status := u32 (hw_status (env m1) (n_status m1)) in
  let sp := if speed (pdata m) =? 0 then I2C_NORMALSPEED else speed (pdata m) in
  let rate := u32 (clk_rate (env m)) in
  let delay := scl_delay (env m) in
  let m' := snd (ns9xxx_reinit_i2c m) in
  (Z.land status I2C_STATUS_MCMDL = 0 ->
     reg_config m' = reg_config m /\
     omap reg_write_of (events_since m m') = []) /\
  (Z.land status I2C_STATUS_MCMDL <> 0 ->
     (sp = I2C_NORMALSPEED ->
        reg_config m'
        = Z.lor 0x1e00
            (Z.land (u32 (u32 (rate / (4 * I2C_NORMALSPEED) - 4) - delay) / 2) 0x1ff)) /\
     (sp = I2C_HIGHSPEED -> CONFIG_MACH_CME9210JS (env m) = false ->
        reg_config m'
        = Z.lor 0x5e00
            (Z.land (u32 (u32 (u32 (rate / (4 * I2C_HIGHSPEED) - 4) - delay) * 2) / 3)
                    0x1ff)) /\
     (sp <> I2C_NORMALSPEED ->
      CONFIG_MACH_CME9210JS (env m) = true \/ sp <> I2C_HIGHSPEED ->
        reg_config m' = 0x1e00)).
Proof.
  cbv zeta.
  destruct (reset_bitbang_same_regs m) as [Hc1 _].
  destruct (reset_bitbang_unchanged_dev m) as (He1 & Hp1 & _).
  destruct (reset_bitbang_no_reg_write m) as (evs & Ht & Hq).
  destruct (reinit_effect m) as [Hfree Hlocked].
  rewrite Hp1, Hc1 in *.
  generalize dependent (snd (ns9xxx_reinit_i2c m)). intros m' Hfree Hlocked.
  generalize dependent (snd (ns9xxx_i2c_reset_bitbang m)).
  intros m1 Hc1 He1 Hp1 Ht Hfree Hlocked.
  split.
  - intros H0. destruct (Hfree H0) as [Hc Ht']. split; [exact Hc|].
    erewrite events_since_app.
    2:{ rewrite Ht', Ht. repeat rewrite <- app_assoc. reflexivity. }
    rewrite omap_app, Hq. reflexivity.
  - intros H1. destruct (Hlocked H1) as (m2 & Hc2 & He2 & Hc').
    rewrite He1 in He2. rewrite Hc'. clear Hfree Hlocked.
    split; [|split].
    + intros Hn. rewrite Hn.
      destruct (set_clock_normal m2) as (_ & Hc & _). rewrite Hc, Hc2, He2.
      rewrite reinit_config_normal. reflexivity.
    + intros Hh Hcfg. rewrite Hh.
      destruct (set_clock_fast m2) as (_ & Hc & _); [rewrite He2; exact Hcfg|].
      rewrite Hc, Hc2, He2.
      rewrite reinit_config_fast. reflexivity.
    + intros Hn Hbad.
      destruct (set_clock_rejected _ m2 Hn) as [_ Hc];
        [rewrite He2; exact Hbad|].
      rewrite Hc, Hc2. reflexivity.
Qed.

Lemma reinit_rebuilds_config_witness :
  Z.land (u32 (hw_status (env (snd (ns9xxx_i2c_reset_bitbang (stuck_machine 250000))))
                 (n_status (snd (ns9xxx_i2c_reset_bitbang (stuck_machine 250000))))))
         I2C_STATUS_MCMDL <> 0 /\
  reg_config (stuck_machine 250000) = 0xff /\
  reg_config (snd (ns9xxx_reinit_i2c (stuck_machine 250000))) = 0x1e00.
Proof.
  assert (Hl : Z.land
                 (u32 (hw_status (env (snd (ns9xxx_i2c_reset_bitbang (stuck_machine 250000))))
                         (n_status (snd (ns9xxx_i2c_reset_bitbang (stuck_machine 250000))))))
                 I2C_STATUS_MCMDL <> 0) by (vm_compute; discriminate).
  split; [exact Hl|]. split; [reflexivity|].
  destruct (reinit_rebuilds_config (stuck_machine 250000)) as [_ H].
  destruct (H Hl) as (_ & _ & H3).
  apply H3; [vm_compute; discriminate|right; vm_compute; discriminate].
Defined.

(** ** Busy/lock recovery *)

Lemma set_clock_other_regs (freq : Z) :
  preserves (quiet other_reg_write_of) (ns9xxx_i2c_set_clock freq).
Proof. unfold ns9xxx_i2c_set_clock. frame. Qed.

Lemma reset_clock_cycles_other_regs (n : nat) (i eff prev : Z) :
  preserves (quiet other_reg_write_of) (reset_clock_cycles n i eff prev).
Proof.
  revert i eff prev. induction n as [|n IH]; intros i eff prev; simpl; frame.
Qed.

#[local] Hint Resolve set_clock_other_regs reset_clock_cycles_other_regs : frames.

Lemma reset_bitbang_other_regs :
  preserves (quiet other_reg_write_of) ns9xxx_i2c_reset_bitbang.
Proof. unfold ns9xxx_i2c_reset_bitbang. frame. Qed.

#[local] Hint Resolve reset_bitbang_other_regs : frames.

Lemma reinit_other_regs : preserves (quiet other_reg_write_of) ns9xxx_reinit_i2c.
Proof. unfold ns9xxx_reinit_i2c. frame. Qed.

#[local] Hint Resolve reinit_other_regs : frames.

Lemma busy_poll_other_regs (fuel : nat) (timeout : Z) :
  preserves (quiet other_reg_write_of) (busy_poll fuel timeout).
Proof. induction fuel as [|fuel IH]; simpl; frame. Qed.

#[local] Hint Resolve busy_poll_other_regs : frames.

Lemma busy_attempts_other_regs (n : nat) (i : Z) :
  preserves (quiet other_reg_write_of) (busy_attempts n i).
Proof. revert i. induction n as [|n IH]; intros i; simpl; frame. Qed.

#[local] Hint Resolve busy_attempts_other_regs : frames.

Lemma wait_while_busy_other_regs :
  preserves (quiet other_reg_write_of) ns9xxx_wait_while_busy.
Proof. unfold ns9xxx_wait_while_busy. frame. Qed.

#[local] Hint Resolve wait_while_busy_other_regs : frames.

(** X15.  The busy wait, with all the bus resets and reinitialisations it may
    go through, stays off the transfer: the only register it ever writes is
    the configuration register, it adds no store to the completion state, no
    wait and no wake-up, and completion state, cursor, buffers and the
    adapter's settings are as before. *)
Theorem wait_while_busy_keeps_transfer_state (m : machine) :
  let m' := snd (ns9xxx_wait_while_busy m) in
  omap other_reg_write_of (events_since m m') = [] /\
  omap proto_of (events_since m m') = [] /\
  unchanged_dev m m'.
Proof.
  cbv zeta. split; [|split].
  - apply quiet_events_since, wait_while_busy_other_regs.
  - apply quiet_events_since, wait_while_busy_quiet.
  - apply wait_while_busy_unchanged_dev.
Qed.

(** ** Transfer orchestrator *)

Lemma xfer_finish_result (v : xfer_vars) (m : machine) :
  fst (xfer_finish v m) = if x_ret v <? 0 then x_ret v else Z.of_nat (x_i v).
Proof. unfold xfer_finish. exec. reflexivity. Qed.

Lemma i2c_read_loop_result (n : nat) :
  forall m : machine,
    fst (i2c_read_loop n m) = 0 \/ fst (i2c_read_loop n m) = - EIO \/
    fst (i2c_read_loop n m) = - ETIMEDOUT.
Proof.
  induction n as [|n IH]; intros m.
  - left. reflexivity.
  - rewrite i2c_read_loop_S. cbv zeta.
    pose proof (send_cmd_result I2C_CMD_NOP (set_buf (buf m + 1) m)) as Hr.
    destruct (ns9xxx_i2c_send_cmd I2C_CMD_NOP (set_buf (buf m + 1) m)) as [r m1].
    cbn [fst snd] in *.
    destruct (Z.eqb_spec r 0) as [H0|H0]; cbn [negb fst]; [apply IH|].
    destruct Hr as [Hr|Hr]; [contradiction|right; exact Hr].
Qed.

Lemma i2c_write_loop_result (n : nat) :
  forall (p : Z) (m : machine),
    fst (i2c_write_loop n p m) = 0 \/ fst (i2c_write_loop n p m) = - EIO \/
    fst (i2c_write_loop n p m) = - ETIMEDOUT.
Proof.
  induction n as [|n IH]; intros p m.
  - left. reflexivity.
  - rewrite i2c_write_loop_S. cbv zeta.
    set (cmd := Z.lor _ _).
    pose proof (send_cmd_result cmd m) as Hr.
    destruct (ns9xxx_i2c_send_cmd cmd m) as [r m1]. cbn [fst snd] in *.
    destruct (Z.eqb_spec r 0) as [H0|H0]; cbn [negb fst]; [apply IH|].
    destruct Hr as [Hr|Hr]; [contradiction|right; exact Hr].
Qed.

Lemma xfer_failed_ret (r : Z) (v : xfer_vars) (m : machine) :
  r = - EIO \/ r = - ETIMEDOUT -> ret_outcome (fst (xfer_failed r v m)).
Proof.
  intros Hr. rewrite xfer_failed_spec. cbn [fst].
  destruct (state_eqb (state m) I2C_INT_RETRY); cbn [ret_outcome with_ret with_i x_ret];
    tauto.
Qed.

Lemma xfer_payload_ret (msg : i2c_msg) (p len : Z) (v : xfer_vars) (m : machine) :
  ret_outcome (fst (xfer_payload msg p len v m)).
Proof.
  unfold xfer_payload. rewrite run_bind.
  set (c := if negb (Z.land (msg_flags msg) I2C_M_RD =? 0)
            then ns9xxx_i2c_read len else ns9xxx_i2c_write p len).
  assert (Hr : fst (c m) = 0 \/ fst (c m) = - EIO \/ fst (c m) = - ETIMEDOUT).
  { unfold c. destruct (negb (Z.land (msg_flags msg) I2C_M_RD =? 0)).
    - apply i2c_read_loop_result.
    - apply i2c_write_loop_result. }
  destruct (c m) as [r m1]. cbn [fst snd] in *.
  destruct (Z.eqb_spec r 0) as [H0|H0]; cbn [negb].
  - subst r. cbn. left. reflexivity.
  - apply xfer_failed_ret. destruct Hr as [Hr|Hr]; [contradiction|exact Hr].
Qed.

Lemma xfer_message_ret (msg : i2c_msg) (v : xfer_vars) (m : machine) :
  ret_outcome (fst (xfer_message msg v m)).
Proof.
  unfold xfer_message. cbv zeta. rewrite run_bind, run_modify. cbn [fst snd].
  set (m0 := set_buf (msg_buf msg) m).
  destruct (msg_len msg =? 0).
  - rewrite run_bind, run_ret. cbn [fst ret_outcome with_ret x_ret].
    rewrite bitbang_result.
    destruct (hw_gpio (env m0) (n_gpio m0) =? 0); tauto.
  - destruct (negb (Z.land (msg_flags msg) I2C_M_NOSTART =? 0)).
    + apply xfer_payload_ret.
    + rewrite run_bind. set (m1 := snd (writel _ _ m0)). cbn [fst].
      destruct (negb (Z.land (msg_flags msg) I2C_M_RD =? 0)).
      * rewrite run_bind.
        pose proof (send_cmd_result I2C_CMD_READ m1) as Hr.
        destruct (ns9xxx_i2c_send_cmd I2C_CMD_READ m1) as [r m2].
        cbn [fst snd] in *.
        destruct (Z.eqb_spec r 0) as [H0|H0]; cbn [negb].
        -- apply xfer_payload_ret.
        -- apply xfer_failed_ret.
           destruct Hr as [Hr|Hr]; [contradiction|exact Hr].
      * unfold load_char. rewrite run_bind, run_gets. cbn [fst snd].
        rewrite run_bind. set (cmd := Z.lor _ _).
        pose proof (send_cmd_result cmd m1) as Hr.
        destruct (ns9xxx_i2c_send_cmd cmd m1) as [r m2].
        cbn [fst snd] in *.
        destruct (Z.eqb_spec r 0) as [H0|H0]; cbn [negb].
        -- apply xfer_payload_ret.
        -- apply xfer_failed_ret.
           destruct Hr as [Hr|Hr]; [contradiction|exact Hr].
Qed.

Lemma xfer_retry_check_error (v : xfer_vars) (m : machine) (e : Z) :
  fst (xfer_retry_check v m) = inr e -> e = - EIO.
Proof.
  destruct (xfer_retry_check_spec v m) as (Hre & _ & Hno).
  destruct (state_eqb (state m) I2C_INT_RETRY) eqn:E.
  - apply state_eqb_eq in E. specialize (Hre E). intros H. rewrite H in Hre.
    exact Hre.
  - apply state_eqb_neq in E. rewrite (Hno E). discriminate.
Qed.

Lemma xfer_body_ret (msg : i2c_msg) (v : xfer_vars) (m : machine) :
  ret_outcome (fst (xfer_body msg v m)).
Proof.
  unfold xfer_body. rewrite run_bind.
  pose proof (xfer_retry_check_error v m) as He.
  destruct (xfer_retry_check v m) as [[v1|e] m1]; cbn [fst snd] in *.
  - apply xfer_message_ret.
  - cbn. apply He. reflexivity.
Qed.

(** Reasoning about the message loop: a property [I] of the loop variables
    that every round which goes on hands to the next, and a property [Q] of
    how the loop ends that holds when the messages are used up and for every
    round that breaks or returns.  The number of rounds allowed plays no
    part. *)
Lemma xfer_loop_invariant (msgs : list i2c_msg)
      (I : xfer_vars -> machine -> Prop) (Q : flow -> machine -> Prop) :
  (forall v m, I v m -> msgs !! x_i v = None -> Q (Break v) m) ->
  (forall v m msg,
     I v m -> msgs !! x_i v = Some msg ->
     body_outcome v m (xfer_body msg v m) ->
     match fst (xfer_body msg v m) with
     | Continue v' => I (with_i (S (x_i v')) v') (snd (xfer_body msg v m))
     | o => Q o (snd (xfer_body msg v m))
     end) ->
  forall (fuel : nat) (v : xfer_vars) (m : machine),
    I v m -> 1 <= x_retry v ->
    xfer_potential (length msgs) v m < Z.of_nat fuel ->
    Q (fst (xfer_loop fuel msgs v m)) (snd (xfer_loop fuel msgs v m)).
Proof.
  intros Hend Hbody. induction fuel as [|fuel IH]; intros v m HI Hretry Hpot.
  - cbn [xfer_loop]. destruct (msgs !! x_i v) as [msg|] eqn:Hl.
    + exfalso. apply lookup_lt_Some in Hl.
      unfold xfer_potential, retry_cost in Hpot.
      assert (0 <= x_retry v - (if state_eqb (state m) I2C_INT_RETRY then 1 else 0))
        by (destruct (state_eqb (state m) I2C_INT_RETRY); lia).
      nia.
    + apply Hend; assumption.
  - rewrite xfer_loop_S.
    destruct (msgs !! x_i v) as [msg|] eqn:Hl; [|apply Hend; assumption].
    pose proof (xfer_body_outcome msg v m Hretry) as Hout.
    specialize (Hbody v m msg HI Hl Hout).
    apply lookup_lt_Some in Hl.
    unfold body_outcome, retry_cost in Hout.
    destruct (xfer_body msg v m) as [o m1]. cbn [fst snd] in *.
    destruct o as [v'|v'|r]; [|exact Hbody|exact Hbody].
    destruct Hout as (Hr & Hr1 & Hcase).
    apply IH; [exact Hbody|exact Hr1|].
    unfold xfer_potential, retry_cost in *. cbn [x_i x_retry with_i].
    destruct Hcase as [[Hi Hs]|[Hi Hs]].
    + apply state_eqb_neq in Hs. rewrite Hs, Hi, Hr.
      replace (x_retry v - (if state_eqb (state m) I2C_INT_RETRY then 1 else 0) - 0)
        with (x_retry v - (if state_eqb (state m) I2C_INT_RETRY then 1 else 0))
        by lia.
      lia.
    + rewrite Hs, Hi, Hr. cbn [state_eqb].
      rewrite Z.mul_sub_distr_l.
      set (P := Z.of_nat (length msgs)
                * (x_retry v - (if state_eqb (state m) I2C_INT_RETRY then 1 else 0)))
        in *.
      lia.
Qed.

(** The loop as the transfer entry point starts it. *)
Lemma xfer_loop_from_start (msgs : list i2c_msg)
      (I : xfer_vars -> machine -> Prop) (Q : flow -> machine -> Prop) (m : machine) :
  (forall v m, I v m -> msgs !! x_i v = None -> Q (Break v) m) ->
  (forall v m msg,
     I v m -> msgs !! x_i v = Some msg ->
     body_outcome v m (xfer_body msg v m) ->
     match fst (xfer_body msg v m) with
     | Continue v' => I (with_i (S (x_i v')) v') (snd (xfer_body msg v m))
     | o => Q o (snd (xfer_body msg v m))
     end) ->
  I xfer_init (snd (store_state I2C_INT_OK m)) ->
  Q (fst (xfer_loop (xfer_fuel msgs) msgs xfer_init (snd (store_state I2C_INT_OK m))))
    (snd (xfer_loop (xfer_fuel msgs) msgs xfer_init (snd (store_state I2C_INT_OK m)))).
Proof.
  intros Hend Hbody HI.
  apply (xfer_loop_invariant msgs I Q Hend Hbody); [exact HI|cbn; lia|].
  unfold xfer_potential, retry_cost, xfer_fuel. rewrite run_store_state.
  cbn [snd state set_trace set_state state_eqb xfer_init x_i x_retry]. lia.
Qed.

Lemma xfer_unfold (msgs : list i2c_msg) (m : machine) :
  ns9xxx_i2c_xfer msgs m
  = let om := xfer_loop (xfer_fuel msgs) msgs xfer_init
                        (snd (store_state I2C_INT_OK m)) in
    match fst om with
    | Return r => (r, snd om)
    | Continue v | Break v => xfer_finish v (snd om)
    end.
Proof.
  unfold ns9xxx_i2c_xfer. rewrite run_bind, run_bind. cbv zeta.
  destruct (fst (xfer_loop _ _ _ _)); reflexivity.
Qed.

(** X16.  The transfer entry point never reports a partial count: its result is
    the number of messages it was given, or one of -EIO, -ETIMEDOUT and
    -ENODEV. *)
Theorem xfer_all_or_error (msgs : list i2c_msg) (m : machine) :
  let r := fst (ns9xxx_i2c_xfer msgs m) in
  r = Z.of_nat (length msgs) \/ r = - EIO \/ r = - ETIMEDOUT \/ r = - ENODEV.
Proof.
  cbv zeta. rewrite xfer_unfold. cbv zeta.
  pose proof (xfer_loop_from_start msgs
    (fun v _ => (x_i v <= length msgs)%nat /\
                (x_ret v = 0 \/ x_ret v = - EIO \/ x_ret v = - ETIMEDOUT \/
                 x_ret v = - ENODEV))
    (fun o _ => match o with
                | Return r => r = - EIO
                | Continue _ => False
                | Break v' =>
                    (x_i v' = length msgs /\
                     (x_ret v' = 0 \/ x_ret v' = - EIO \/ x_ret v' = - ETIMEDOUT \/
                      x_ret v' = - ENODEV)) \/
                    x_ret v' = - EIO \/ x_ret v' = - ETIMEDOUT
                end) m) as Hloop.
  cbv beta in Hloop.
  destruct (xfer_loop (xfer_fuel msgs) msgs xfer_init _) as [o m1].
  cbn [fst snd] in *.
  assert (H : match o with
              | Return r => r = - EIO
              | Continue _ => False
              | Break v' =>
                  (x_i v' = length msgs /\
                   (x_ret v' = 0 \/ x_ret v' = - EIO \/ x_ret v' = - ETIMEDOUT \/
                    x_ret v' = - ENODEV)) \/
                  x_ret v' = - EIO \/ x_ret v' = - ETIMEDOUT
              end).
  { apply Hloop.
    - intros v m0 [Hi Hr] Hl. left. split; [|exact Hr].
      apply lookup_ge_None in Hl. lia.
    - intros v m0 msg [Hi _] Hl Hout.
      pose proof (xfer_body_ret msg v m0) as Hret.
      apply lookup_lt_Some in Hl. unfold body_outcome in Hout.
      destruct (fst (xfer_body msg v m0)) as [v'|v'|r]; cbn [ret_outcome] in Hret.
      + split; [|exact Hret]. cbn [x_i with_i].
        destruct Hout as (_ & _ & [[Hi' _]|[Hi' _]]); lia.
      + right. exact Hret.
      + exact Hret.
    - cbn. split; [lia|left; reflexivity]. }
  destruct o as [v'|v'|r]; [contradiction| |cbn [fst]; tauto].
  rewrite xfer_finish_result.
  destruct H as [[Hi Hr]|Hr].
  - rewrite Hi.
    destruct Hr as [Hr|[Hr|[Hr|Hr]]]; rewrite Hr; cbn; tauto.
  - destruct Hr as [Hr|Hr]; rewrite Hr; cbn; tauto.
Qed.

(** ** Transfers on a bus that answers *)

Lemma state_of_cause_ok (cause : Z) :
  state_of_cause cause = I2C_INT_OK ->
  cause = I2C_IRQ_RXDATA \/ cause = I2C_IRQ_CMDACK \/ cause = I2C_IRQ_TXDATA.
Proof.
  unfold state_of_cause.
  destruct (cause =? I2C_IRQ_ARBITLOST); [discriminate|].
  destruct (cause =? I2C_IRQ_NOACK); [discriminate|].
  destruct (Z.eqb_spec cause I2C_IRQ_TXDATA); [tauto|].
  destruct (Z.eqb_spec cause I2C_IRQ_RXDATA); [tauto|].
  destruct (Z.eqb_spec cause I2C_IRQ_CMDACK); [tauto|discriminate].
Qed.

Lemma irq_completes_ok (m : machine) :
  state m = I2C_INT_AWAITING ->
  let s := u32 (hw_status (env m) (n_status m)) in
  state_of_cause (Z.land s I2C_STATUS_IRQCD_MASK) = I2C_INT_OK ->
  snd (ns9xxx_i2c_irq m)
  = set_trace (trace m ++ [EvReadl I2C_STATUS s; EvSetState I2C_INT_OK; EvWake])
      (set_mem (mem_after_irq s m)
         (set_state I2C_INT_OK (set_n_status (S (n_status m)) m))).
Proof.
  intros Hst s Hok. subst s. unfold mem_after_irq.
  unfold ns9xxx_i2c_irq, wake_up_interruptible. exec. rewrite Hst. exec.
  set (s := u32 (hw_status (env m) (n_status m))) in *.
  destruct (state_of_cause_ok _ Hok) as [Hc|[Hc|Hc]]; rewrite Hc.
  - change (I2C_IRQ_RXDATA =? I2C_IRQ_RXDATA) with true. exec.
    rewrite land_rxdata_byte.
    destruct (buf m =? NULL); exec; machine_eq.
  - change (I2C_IRQ_CMDACK =? I2C_IRQ_RXDATA) with false.
    change ((I2C_IRQ_CMDACK =? I2C_IRQ_CMDACK) || (I2C_IRQ_CMDACK =? I2C_IRQ_TXDATA))
      with true.
    exec. machine_eq.
  - change (I2C_IRQ_TXDATA =? I2C_IRQ_RXDATA) with false.
    change ((I2C_IRQ_TXDATA =? I2C_IRQ_CMDACK) || (I2C_IRQ_TXDATA =? I2C_IRQ_TXDATA))
      with true.
    exec. machine_eq.
Qed.

Lemma send_cmd_unlock_free (m : machine) :
  Z.land (u32 (hw_status (env m) (n_status m))) I2C_STATUS_MCMDL = 0 ->
  send_cmd_unlock m = (false, snd (readl I2C_STATUS m)).
Proof.
  intros Hfree. unfold send_cmd_unlock. exec. rewrite Hfree. reflexivity.
Qed.

Lemma wait_answered (t : Z) (m : machine) :
  state m = I2C_INT_AWAITING ->
  hw_wait (env m) (n_wait m) = WaitIrq ->
  let s := u32 (hw_status (env m) (n_status m)) in
  state_of_cause (Z.land s I2C_STATUS_IRQCD_MASK) = I2C_INT_OK ->
  wait_event_interruptible_timeout t m
  = (1, set_trace (trace m ++ [EvWait WaitIrq; EvReadl I2C_STATUS s;
                               EvSetState I2C_INT_OK; EvWake])
          (set_mem (mem_after_irq s m)
             (set_state I2C_INT_OK
                (set_n_wait (S (n_wait m)) (set_n_status (S (n_status m)) m))))).
Proof.
  intros Hs Hw s Hok. subst s. unfold wait_event_interruptible_timeout.
  exec. rewrite Hs. exec. unfold next_wait_outcome. exec. rewrite Hw. exec.
  rewrite irq_completes_ok; [|exact Hs|exact Hok].
  unfold mem_after_irq. fields. f_equal. machine_eq.
Qed.

(** A command that the controller takes at once and completes with Ok:
    the command issuer returns 0 and has done exactly this. *)
Lemma send_cmd_answered (cmd : Z) (m : machine) :
  answers_next m -> ns9xxx_i2c_send_cmd cmd m = (0, after_command cmd m).
Proof.
  intros (Hfree & Hwait & Hok). unfold after_command. cbv zeta.
  rewrite send_cmd_unfold, run_bind, (send_cmd_unlock_free m Hfree).
  cbn [fst snd]. exec.
  rewrite wait_answered by (fields; first [reflexivity|assumption]).
  exec. change (1 =? 0) with false. exec.
  unfold mem_after_irq. fields. f_equal. machine_eq.
Qed.

Lemma sent_refl (m : machine) : sent [] [] m m.
Proof.
  split; [reflexivity|]. split; [reflexivity|]. exists [].
  rewrite app_nil_r. repeat split; reflexivity.
Qed.

Lemma sent_trans (ws1 ws2 ads1 ads2 : list Z) (a b c : machine) :
  sent ws1 ads1 a b -> sent ws2 ads2 b c -> sent (ws1 ++ ws2) (ads1 ++ ads2) a c.
Proof.
  intros (He1 & Hm1 & e1 & Ht1 & Hw1 & Ha1) (He2 & Hm2 & e2 & Ht2 & Hw2 & Ha2).
  split; [congruence|]. split; [congruence|]. exists (e1 ++ e2).
  split; [rewrite Ht2, Ht1, app_assoc; reflexivity|].
  split; [rewrite cmd_writes_app, Hw1, Hw2; reflexivity|].
  rewrite omap_app, Ha1, Ha2. reflexivity.
Qed.

Lemma acknowledging_answers (m : machine) : acknowledging (env m) -> answers_next m.
Proof.
  intros Hack. unfold answers_next.
  destruct (Hack (n_status m)) as (_ & Hfree & _).
  destruct (Hack (n_wait m)) as (Hw & _).
  destruct (Hack (S (n_status m))) as (_ & _ & Hc).
  split; [exact Hfree|]. split; [exact Hw|].
  destruct Hc as [-> | ->]; reflexivity.
Qed.

Lemma send_cmd_acked (cmd : Z) (m : machine) :
  acknowledging (env m) ->
  let m' := snd (ns9xxx_i2c_send_cmd cmd m) in
  fst (ns9xxx_i2c_send_cmd cmd m) = 0 /\
  state m' = I2C_INT_OK /\ buf m' = buf m /\ sent [cmd] [] m m'.
Proof.
  intros Hack. cbv zeta.
  rewrite (send_cmd_answered cmd m (acknowledging_answers m Hack)).
  cbn [fst snd]. unfold after_command. cbv zeta. fields.
  split; [reflexivity|]. split; [reflexivity|]. split; [reflexivity|].
  split; [reflexivity|]. split.
  - unfold mem_after_irq. destruct (Hack (S (n_status m))) as (_ & _ & [-> | ->]);
      reflexivity.
  - eexists. split; [reflexivity|]. split; reflexivity.
Qed.

Lemma tx_words_mem (m m' : machine) (n : nat) (p : Z) :
  mem m' = mem m -> tx_words m' p n = tx_words m p n.
Proof. intros H. apply tx_words_frame. intros a _. rewrite H. reflexivity. Qed.

Lemma i2c_write_loop_acked (n : nat) :
  forall (p : Z) (m : machine),
    acknowledging (env m) ->
    let m' := snd (i2c_write_loop n p m) in
    fst (i2c_write_loop n p m) = 0 /\
    (state m' = I2C_INT_OK \/ state m' = state m) /\ buf m' = buf m /\
    sent (tx_words m p n) [] m m'.
Proof.
  induction n as [|n IH]; intros p m Hack; cbv zeta.
  - cbn [i2c_write_loop tx_words]. exec.
    split; [reflexivity|]. split; [right; reflexivity|]. split; [reflexivity|].
    apply sent_refl.
  - rewrite i2c_write_loop_S. cbv zeta.
    set (cmd := Z.lor (Z.lor I2C_CMD_NOP I2C_CMD_TXVAL) (byte_at m p)).
    destruct (send_cmd_acked cmd m Hack) as (Hr & Hs & Hb & Hsent).
    destruct (ns9xxx_i2c_send_cmd cmd m) as [r m1]. cbn [fst snd] in *.
    subst r. change (negb (0 =? 0)) with false. cbn iota.
    assert (Hack1 : acknowledging (env m1))
      by (destruct Hsent as (He & _); rewrite He; exact Hack).
    destruct (IH (p + 1) m1 Hack1) as (Hr' & Hs' & Hb' & Hsent').
    split; [exact Hr'|]. split; [left; destruct Hs' as [H|H]; congruence|].
    split; [congruence|].
    cbn [tx_words]. fold cmd.
    rewrite <- (tx_words_mem m m1) by (apply Hsent).
    apply (sent_trans [cmd] _ [] [] m m1 _ Hsent Hsent').
Qed.

Lemma xfer_payload_write_acked (msg : i2c_msg) (p len : Z) (v : xfer_vars)
      (m : machine) :
  acknowledging (env m) ->
  Z.land (msg_flags msg) I2C_M_RD = 0 ->
  let m' := snd (xfer_payload msg p len v m) in
  fst (xfer_payload msg p len v m) = Continue (with_ret 0 v) /\
  (state m' = I2C_INT_OK \/ state m' = state m) /\
  sent (tx_words m p (Z.to_nat len)) [] m m'.
Proof.
  intros Hack Hrd. cbv zeta. unfold xfer_payload, ns9xxx_i2c_write.
  rewrite Hrd. cbn [Z.eqb negb]. rewrite run_bind.
  destruct (i2c_write_loop_acked (Z.to_nat len) p m Hack) as (Hr & Hs & _ & Hsent).
  destruct (i2c_write_loop (Z.to_nat len) p m) as [r m1]. cbn [fst snd] in *.
  subst r. change (negb (0 =? 0)) with false. cbn iota. rewrite run_ret.
  cbn [fst snd]. split; [reflexivity|]. split; assumption.
Qed.

Lemma masteraddr_of_eq (msg : i2c_msg) :
  (if negb (Z.land (msg_flags msg) I2C_M_TEN =? 0)
   then Z.lor (Z.shiftl (Z.land (msg_addr msg) I2C_MASTERADDR_ADDRMASK)
                        I2C_MASTERADDR_ADDRSHIFT) I2C_MASTERADDR_10BIT
   else Z.lor (Z.shiftl (Z.land (msg_addr msg) I2C_MASTERADDR_ADDRMASK)
                        I2C_MASTERADDR_ADDRSHIFT) I2C_MASTERADDR_7BIT)
  = masteraddr_of msg.
Proof.
  unfold masteraddr_of. destruct (Z.land (msg_flags msg) I2C_M_TEN =? 0); reflexivity.
Qed.

Lemma xfer_message_write_acked (msg : i2c_msg) (v : xfer_vars) (m : machine) :
  acknowledging (env m) ->
  1 <= msg_len msg ->
  Z.land (msg_flags msg) I2C_M_RD = 0 ->
  let m' := snd (xfer_message msg v m) in
  fst (xfer_message msg v m) = Continue (with_ret 0 v) /\
  (state m' = I2C_INT_OK \/ state m' = state m) /\
  sent (message_words m msg) (option_list (addressed msg)) m m'.
Proof.
  intros Hack Hlen Hrd. cbv zeta. unfold xfer_message, message_words, addressed.
  cbv zeta. rewrite run_bind, run_modify. cbn [fst snd].
  set (m0 := set_buf (msg_buf msg) m).
  assert (Hack0 : acknowledging (env m0)) by exact Hack.
  assert (Hsent0 : sent [] [] m m0).
  { split; [reflexivity|]. split; [reflexivity|]. exists [].
    rewrite app_nil_r. repeat split; reflexivity. }
  assert (Hl : (msg_len msg =? 0) = false) by (apply Z.eqb_neq; lia).
  rewrite Hl. destruct (Z.land (msg_flags msg) I2C_M_NOSTART =? 0); cbn [negb].
  - rewrite masteraddr_of_eq, run_bind, run_writel_masteraddr. cbn [fst snd].
    set (m1 := set_trace _ (set_reg_masteraddr _ m0)).
    assert (Hack1 : acknowledging (env m1)) by exact Hack.
    assert (Hsent1 : sent [] [masteraddr_of msg] m0 m1).
    { split; [reflexivity|]. split; [reflexivity|]. eexists.
      split; [reflexivity|]. split; reflexivity. }
    rewrite Hrd. cbn [Z.eqb negb]. unfold load_char.
    rewrite run_bind, run_gets. cbn [fst snd].
    change (u8 (default 0 (mem m1 !! msg_buf msg))) with (byte_at m (msg_buf msg)).
    set (cmd := Z.lor _ (byte_at m (msg_buf msg))).
    rewrite run_bind.
    destruct (send_cmd_acked cmd m1 Hack1) as (Hr & Hs & _ & Hsent2).
    destruct (ns9xxx_i2c_send_cmd cmd m1) as [r m2]. cbn [fst snd] in *.
    subst r. change (negb (0 =? 0)) with false. cbn iota.
    assert (Hack2 : acknowledging (env m2))
      by (destruct Hsent2 as (He & _); rewrite He; exact Hack1).
    destruct (xfer_payload_write_acked msg (msg_buf msg + 1) (msg_len msg - 1)
                (with_ret 0 v) m2 Hack2 Hrd) as (Hf & Hs3 & Hsent3).
    split; [exact Hf|]. split; [left; destruct Hs3 as [H|H]; congruence|].
    rewrite (tx_words_mem m m2) in Hsent3.
    2:{ destruct Hsent2 as (_ & Hm2 & _). exact Hm2. }
    pose proof (sent_trans _ _ _ _ _ _ _ Hsent0
                  (sent_trans _ _ _ _ _ _ _ Hsent1
                     (sent_trans _ _ _ _ _ _ _ Hsent2 Hsent3))) as H.
    exact H.
  - destruct (xfer_payload_write_acked msg (msg_buf msg) (msg_len msg) v m0 Hack0 Hrd)
      as (Hf & Hs & Hsent).
    split; [exact Hf|]. split; [exact Hs|].
    rewrite (tx_words_mem m m0) in Hsent by reflexivity.
    exact (sent_trans _ _ _ _ _ _ _ Hsent0 Hsent).
Qed.

Lemma xfer_finish_acked (v : xfer_vars) (m : machine) :
  acknowledging (env m) ->
  let m' := snd (xfer_finish v m) in
  sent [I2C_CMD_STOP] [] m m' /\ state m' = I2C_INT_OK.
Proof.
  intros Hack. cbv zeta. unfold xfer_finish. rewrite run_bind.
  destruct (send_cmd_acked I2C_CMD_STOP m Hack) as (Hr & Hs & _ & Hsent).
  destruct (ns9xxx_i2c_send_cmd I2C_CMD_STOP m) as [r m1]. cbn [fst snd] in *.
  subst r. change (negb (0 =? 0)) with false. cbn iota. exec.
  split; [|exact Hs].
  destruct Hsent as (He & Hm & evs & Ht & Hw & Ha).
  split; [exact He|]. split; [exact Hm|]. exists evs. repeat split; assumption.
Qed.

Lemma message_words_mem (m m' : machine) (msg : i2c_msg) :
  mem m' = mem m -> message_words m' msg = message_words m msg.
Proof.
  intros H. unfold message_words, byte_at. rewrite H, !(tx_words_mem m m') by exact H.
  reflexivity.
Qed.

Lemma omap_singleton {A B : Type} (f : A -> option B) (a : A) :
  omap f [a] = option_list (f a).
Proof. cbn. destruct (f a); reflexivity. Qed.

Lemma xfer_body_not_retry (msg : i2c_msg) (v : xfer_vars) (m : machine) :
  state m <> I2C_INT_RETRY -> xfer_body msg v m = xfer_message msg v m.
Proof.
  intros Hs. unfold xfer_body. rewrite run_bind.
  destruct (xfer_retry_check_spec v m) as (_ & _ & Hno).
  rewrite (Hno Hs). reflexivity.
Qed.

(** X17.  On a bus that acknowledges every command, a transfer of write messages
    (each with at least one byte) reports all of them done.  The command
    register gets, message by message, WRITE with the first byte and NOP
    with each further one (for a message with I2C_M_NOSTART, NOP with every
    byte), and one STOP at the end; the master address register gets the
    address of each message that has no I2C_M_NOSTART, in order; the buffers
    are as they were, and the cursor is cleared. *)
Theorem xfer_writes_acknowledged (msgs : list i2c_msg) (m : machine) :
  acknowledging (env m) ->
  Forall (fun msg => 1 <= msg_len msg /\ Z.land (msg_flags msg) I2C_M_RD = 0) msgs ->
  let m' := snd (ns9xxx_i2c_xfer msgs m) in
  fst (ns9xxx_i2c_xfer msgs m) = Z.of_nat (length msgs) /\
  cmd_writes (events_since m m')
  = concat (map (message_words m) msgs) ++ [I2C_CMD_STOP] /\
  omap masteraddr_write_of (events_since m m') = omap addressed msgs /\
  mem m' = mem m /\ buf m' = NULL /\ state m' = I2C_INT_OK.
Proof.
  intros Hack Hmsgs. cbv zeta. rewrite xfer_unfold. cbv zeta.
  pose proof (xfer_loop_from_start msgs
    (fun v m1 =>
       acknowledging (env m1) /\ state m1 <> I2C_INT_RETRY /\ x_ret v = 0 /\
       (x_i v <= length msgs)%nat /\
       sent (concat (map (message_words m) (take (x_i v) msgs)))
            (omap addressed (take (x_i v) msgs)) m m1)
    (fun o m1 =>
       exists v', o = Break v' /\ x_ret v' = 0 /\ x_i v' = length msgs /\
                  acknowledging (env m1) /\
                  sent (concat (map (message_words m) msgs))
                       (omap addressed msgs) m m1) m) as Hloop.
  cbv beta in Hloop.
  destruct (xfer_loop (xfer_fuel msgs) msgs xfer_init _) as [o m1].
  cbn [fst snd] in *.
  destruct Hloop as (v' & -> & Hret & Hi & Hack1 & Hsent1).
  - intros v m0 (Hack0 & _ & Hr & Hi & Hsent) Hl. exists v.
    apply lookup_ge_None in Hl.
    rewrite take_ge in Hsent by lia.
    split; [reflexivity|]. split; [exact Hr|]. split; [lia|].
    split; [exact Hack0|exact Hsent].
  - intros v m0 msg (Hack0 & Hs0 & Hr & Hi & Hsent) Hl _.
    rewrite (xfer_body_not_retry msg v m0 Hs0).
    destruct (proj1 (Forall_lookup _ _) Hmsgs _ _ Hl) as [Hlen Hrd].
    destruct (xfer_message_write_acked msg v m0 Hack0 Hlen Hrd) as (Hf & Hs & Hsent').
    rewrite Hf. cbn [x_i with_i with_ret x_ret].
    pose proof (lookup_lt_Some _ _ _ Hl) as Hlt.
    split; [destruct Hsent' as (He & _); rewrite He; exact Hack0|].
    split; [destruct Hs as [H|H]; rewrite H; [discriminate|exact Hs0]|].
    split; [reflexivity|]. split; [lia|].
    rewrite (take_S_r _ _ _ Hl), map_app, concat_app, omap_app, omap_singleton.
    cbn [map concat]. rewrite app_nil_r.
    rewrite <- (message_words_mem m m0 msg) by (apply Hsent).
    exact (sent_trans _ _ _ _ _ _ _ Hsent Hsent').
  - rewrite run_store_state. cbn [snd]. split; [exact Hack|].
    split; [discriminate|]. split; [reflexivity|]. split; [cbn; lia|].
    cbn [xfer_init x_i take map concat omap list_omap].
    split; [reflexivity|]. split; [reflexivity|]. eexists.
    split; [reflexivity|]. split; reflexivity.
  - rewrite xfer_finish_result, xfer_finish_clears_cursor, Hret, Hi.
    destruct (xfer_finish_acked v' m1 Hack1) as (Hsent2 & Hs2).
    pose proof (sent_trans _ _ _ _ _ _ _ Hsent1 Hsent2) as (_ & Hm & evs & Ht & Hw & Ha).
    rewrite (events_since_app _ _ _ Ht), app_nil_r in *.
    split; [reflexivity|]. split; [exact Hw|]. split; [exact Ha|].
    split; [exact Hm|]. split; [reflexivity|exact Hs2].
Qed.

Lemma xfer_writes_acknowledged_witness :
  acknowledging (env acknowledging_machine) /\
  fst (ns9xxx_i2c_xfer [msg_a; msg_b] acknowledging_machine) = 2 /\
  cmd_writes (events_since acknowledging_machine
                (snd (ns9xxx_i2c_xfer [msg_a; msg_b] acknowledging_machine)))
  = concat (map (message_words acknowledging_machine) [msg_a; msg_b])
    ++ [I2C_CMD_STOP].
Proof.
  assert (Hack : acknowledging (env acknowledging_machine)).
  { intros k. split; [reflexivity|]. split; [reflexivity|]. left. reflexivity. }
  split; [exact Hack|].
  destruct (xfer_writes_acknowledged [msg_a; msg_b] acknowledging_machine Hack)
    as (Hr & Hw & _).
  - repeat constructor; cbn; lia.
  - split; [exact Hr|exact Hw].
Defined.

(** *** Receiving *)

Lemma delivers_answers (n : nat) (m : machine) :
  delivers (S n) m -> answers_next m.
Proof.
  intros H. destruct (H 0%nat) as (Hw & Hf & Hc); [lia|].
  rewrite Nat.add_0_r in Hw.
  replace (n_status m + 2 * 0)%nat with (n_status m) in Hf by lia.
  replace (n_status m + 2 * 0 + 1)%nat with (S (n_status m)) in Hc by lia.
  split; [exact Hf|]. split; [exact Hw|]. rewrite Hc. reflexivity.
Qed.

(** The machine after an answered command, field by field. *)
Lemma after_command_fields (cmd : Z) (m : machine) :
  let m' := after_command cmd m in
  env m' = env m /\ pdata m' = pdata m /\ buf m' = buf m /\
  state m' = I2C_INT_OK /\
  n_status m' = S (S (n_status m)) /\ n_wait m' = S (n_wait m) /\
  mem m' = mem_after_irq (u32 (hw_status (env m) (S (n_status m)))) m /\
  exists evs, trace m' = trace m ++ evs /\ cmd_writes evs = [cmd] /\
              omap masteraddr_write_of evs = [].
Proof.
  cbv zeta. unfold after_command. cbv zeta. fields.
  repeat (split; [reflexivity|]). eexists. split; [reflexivity|].
  split; reflexivity.
Qed.

Lemma delivers_shift (n : nat) (m m' : machine) :
  env m' = env m -> n_status m' = S (S (n_status m)) -> n_wait m' = S (n_wait m) ->
  delivers (S n) m -> delivers n m'.
Proof.
  intros He Hs Hw H k Hk. destruct (H (S k)) as (H1 & H2 & H3); [lia|].
  rewrite He, Hs, Hw.
  replace (S (n_wait m) + k)%nat with (n_wait m + S k)%nat by lia.
  replace (S (S (n_status m)) + 2 * k)%nat with (n_status m + 2 * S k)%nat by lia.
  replace (S (S (n_status m)) + 2 * k + 1)%nat
    with (n_status m + 2 * S k + 1)%nat by lia.
  split; [exact H1|]. split; [exact H2|exact H3].
Qed.

Lemma rx_byte_shift (m m' : machine) (k : nat) :
  env m' = env m -> n_status m' = S (S (n_status m)) ->
  rx_byte m' k = rx_byte m (S k).
Proof.
  intros He Hs. unfold rx_byte. rewrite He, Hs.
  replace (S (S (n_status m)) + 2 * k + 1)%nat
    with (n_status m + 2 * S k + 1)%nat by lia.
  reflexivity.
Qed.

Lemma then_acknowledges_shift (n : nat) (m m' : machine) :
  env m' = env m -> n_status m' = S (S (n_status m)) -> n_wait m' = S (n_wait m) ->
  then_acknowledges (S n) m -> then_acknowledges n m'.
Proof.
  intros He Hs Hw (H1 & H2 & H3). unfold then_acknowledges.
  rewrite He, Hs, Hw.
  replace (S (n_wait m) + n)%nat with (n_wait m + S n)%nat by lia.
  replace (S (S (n_status m)) + 2 * n)%nat with (n_status m + 2 * S n)%nat by lia.
  replace (S (S (n_status m)) + 2 * n + 1)%nat
    with (n_status m + 2 * S n + 1)%nat by lia.
  split; [exact H1|]. split; [exact H2|exact H3].
Qed.

(** A received byte lands under the cursor. *)
Lemma mem_after_rx (m : machine) :
  delivers 1 m -> buf m <> NULL ->
  mem_after_irq (u32 (hw_status (env m) (S (n_status m)))) m
  = <[buf m := rx_byte m 0]> (mem m).
Proof.
  intros H Hb. destruct (H 0%nat) as (_ & _ & Hc); [lia|].
  unfold mem_after_irq, rx_byte.
  replace (n_status m + 2 * 0 + 1)%nat with (S (n_status m)) in * by lia.
  rewrite Hc. apply Z.eqb_neq in Hb. rewrite Hb. reflexivity.
Qed.

Lemma delivers_le (n n' : nat) (m : machine) :
  (n' <= n)%nat -> delivers n m -> delivers n' m.
Proof. intros Hle H k Hk. apply H. lia. Qed.

Lemma i2c_read_loop_receives (n : nat) :
  forall m : machine,
    0 <= buf m -> delivers n m ->
    let m' := snd (i2c_read_loop n m) in
    fst (i2c_read_loop n m) = 0 /\
    env m' = env m /\ n_status m' = (n_status m + 2 * n)%nat /\
    n_wait m' = (n_wait m + n)%nat /\
    buf m' = buf m + Z.of_nat n /\
    (state m' = I2C_INT_OK \/ state m' = state m) /\
    (forall k : nat, (k < n)%nat ->
       mem m' !! (buf m + 1 + Z.of_nat k) = Some (rx_byte m k)) /\
    (forall a : Z, a <= buf m \/ buf m + Z.of_nat n < a -> mem m' !! a = mem m !! a) /\
    exists evs, trace m' = trace m ++ evs /\
                cmd_writes evs = replicate n I2C_CMD_NOP /\
                omap masteraddr_write_of evs = [].
Proof.
  induction n as [|n IH]; intros m Hbuf Hdel; cbv zeta.
  - cbn [i2c_read_loop]. exec.
    split; [reflexivity|]. split; [reflexivity|]. split; [lia|]. split; [lia|].
    split; [lia|]. split; [right; reflexivity|]. split; [intros k Hk; lia|].
    split; [reflexivity|]. exists []. rewrite app_nil_r.
    split; [reflexivity|]. split; reflexivity.
  - rewrite i2c_read_loop_S. cbv zeta.
    set (m1 := set_buf (buf m + 1) m).
    assert (Hdel1 : delivers (S n) m1) by exact Hdel.
    rewrite (send_cmd_answered I2C_CMD_NOP m1 (delivers_answers n m1 Hdel1)).
    cbn [fst snd]. change (negb (0 =? 0)) with false. cbn iota.
    destruct (after_command_fields I2C_CMD_NOP m1)
      as (He & _ & Hb & Hs & Hns & Hnw & Hm & evs & Ht & Hw & Ha).
    rewrite (mem_after_rx m1) in Hm;
      [|apply (delivers_le (S n)); [lia|exact Hdel1]
       |unfold NULL; cbn [buf set_buf m1]; lia].
    change (env m1) with (env m) in He. change (n_status m1) with (n_status m) in Hns.
    change (n_wait m1) with (n_wait m) in Hnw. change (buf m1) with (buf m + 1) in *.
    change (mem m1) with (mem m) in Hm. change (trace m1) with (trace m) in Ht.
    assert (Hrx : forall k, rx_byte m1 k = rx_byte m k) by reflexivity.
    rewrite Hrx in Hm. clear Hrx.
    generalize dependent (after_command I2C_CMD_NOP m1). intros m2 He Hb Hs Hns Hnw Hm Ht.
    destruct (IH m2) as (Hr' & He' & Hns' & Hnw' & Hb' & Hs' & Hmem' & Hframe' & evs' & Ht' & Hw' & Ha').
    { rewrite Hb. lia. }
    { apply (delivers_shift n m m2 He Hns Hnw Hdel). }
    split; [exact Hr'|]. split; [congruence|]. split; [lia|]. split; [lia|].
    split; [rewrite Hb', Hb; lia|].
    split; [left; destruct Hs' as [H|H]; congruence|].
    split; [|split].
    + intros k Hk. destruct k as [|k].
      * rewrite Hframe' by (rewrite Hb; lia). rewrite Hm.
        replace (buf m + 1 + Z.of_nat 0) with (buf m + 1) by lia.
        apply lookup_insert_eq.
      * replace (buf m + 1 + Z.of_nat (S k)) with (buf m2 + 1 + Z.of_nat k)
          by (rewrite Hb; lia).
        rewrite Hmem' by lia. rewrite (rx_byte_shift m m2 k He Hns). reflexivity.
    + intros a Ha0. rewrite Hframe' by (rewrite Hb; lia). rewrite Hm.
      apply lookup_insert_ne. lia.
    + exists (evs ++ evs'). split; [rewrite Ht', Ht, app_assoc; reflexivity|].
      split; [rewrite cmd_writes_app, Hw, Hw'; reflexivity|].
      rewrite omap_app, Ha, Ha'. reflexivity.
Qed.

Lemma xfer_finish_answered (v : xfer_vars) (m : machine) :
  answers_next m ->
  xfer_finish v m
  = (if x_ret v <? 0 then x_ret v else Z.of_nat (x_i v),
     set_buf NULL (after_command I2C_CMD_STOP m)).
Proof.
  intros H. unfold xfer_finish. rewrite run_bind, (send_cmd_answered _ _ H).
  cbn [fst snd]. change (negb (0 =? 0)) with false. cbn iota. exec. reflexivity.
Qed.

Lemma xfer_payload_read_received (msg : i2c_msg) (p len : Z) (v : xfer_vars)
      (m : machine) :
  Z.land (msg_flags msg) I2C_M_RD <> 0 ->
  0 <= buf m -> delivers (Z.to_nat (len - 1)) m ->
  xfer_payload msg p len v m
  = (Continue (with_ret 0 v), snd (i2c_read_loop (Z.to_nat (len - 1)) m)).
Proof.
  intros Hrd Hb Hdel. unfold xfer_payload, ns9xxx_i2c_read.
  apply Z.eqb_neq in Hrd. rewrite Hrd. cbn [negb]. rewrite run_bind.
  destruct (i2c_read_loop_receives _ m Hb Hdel) as (Hr & _).
  destruct (i2c_read_loop (Z.to_nat (len - 1)) m) as [r m1]. cbn [fst snd] in *.
  subst r. reflexivity.
Qed.

Lemma xfer_message_read_received (msg : i2c_msg) (v : xfer_vars) (m : machine) :
  1 <= msg_len msg ->
  Z.land (msg_flags msg) I2C_M_RD <> 0 ->
  Z.land (msg_flags msg) I2C_M_NOSTART = 0 ->
  0 < msg_buf msg ->
  delivers (Z.to_nat (msg_len msg)) m ->
  let n := Z.to_nat (msg_len msg) in
  let m' := snd (xfer_message msg v m) in
  fst (xfer_message msg v m) = Continue (with_ret 0 v) /\
  env m' = env m /\ n_status m' = (n_status m + 2 * n)%nat /\
  n_wait m' = (n_wait m + n)%nat /\ state m' = I2C_INT_OK /\
  (forall k : nat, (k < n)%nat ->
     mem m' !! (msg_buf msg + Z.of_nat k) = Some (rx_byte m k)) /\
  (forall a : Z, a < msg_buf msg \/ msg_buf msg + Z.of_nat n <= a ->
     mem m' !! a = mem m !! a) /\
  exists evs, trace m' = trace m ++ evs /\
              cmd_writes evs = I2C_CMD_READ :: replicate (n - 1) I2C_CMD_NOP /\
              omap masteraddr_write_of evs = [masteraddr_of msg].
Proof.
  intros Hlen Hrd Hns Hp Hdel. cbv zeta.
  assert (Hn : Z.to_nat (msg_len msg) = S (Z.to_nat (msg_len msg - 1))) by lia.
  rewrite Hn in *. clear Hn.
  assert (Hread : ns9xxx_i2c_read (msg_len msg)
                  = i2c_read_loop (Z.to_nat (msg_len msg - 1))) by reflexivity.
  remember (Z.to_nat (msg_len msg - 1)) as n eqn:En.
  unfold xfer_message. cbv zeta. rewrite run_bind, run_modify. cbn [fst snd].
  assert (Hl : (msg_len msg =? 0) = false) by (apply Z.eqb_neq; lia).
  rewrite Hl, Hns. cbn [Z.eqb negb].
  rewrite masteraddr_of_eq, run_bind, run_writel_masteraddr. cbn [fst snd].
  set (m1 := set_trace _ (set_reg_masteraddr _ (set_buf (msg_buf msg) m))).
  assert (Hdel1 : delivers (S n) m1) by exact Hdel.
  assert (Ht1 : trace m1 = trace m ++ [EvWritel (masteraddr_of msg) I2C_MASTERADDR])
    by reflexivity.
  assert (Hrd' : (Z.land (msg_flags msg) I2C_M_RD =? 0) = false)
    by (apply Z.eqb_neq; exact Hrd).
  rewrite Hrd'. cbn [negb]. rewrite run_bind.
  rewrite (send_cmd_answered I2C_CMD_READ m1 (delivers_answers n m1 Hdel1)).
  cbn [fst snd]. change (negb (0 =? 0)) with false. cbn iota.
  destruct (after_command_fields I2C_CMD_READ m1)
    as (He & _ & Hb & Hs & Hst & Hnw & Hm & evs & Ht & Hw & Ha).
  rewrite (mem_after_rx m1) in Hm;
    [|apply (delivers_le (S n)); [lia|exact Hdel1]
     |unfold NULL; cbn [buf set_buf set_trace set_reg_masteraddr m1]; lia].
  change (env m1) with (env m) in He. change (n_status m1) with (n_status m) in Hst.
  change (n_wait m1) with (n_wait m) in Hnw. change (buf m1) with (msg_buf msg) in *.
  change (mem m1) with (mem m) in Hm.
  assert (Hrx : forall k, rx_byte m1 k = rx_byte m k) by reflexivity.
  rewrite Hrx in Hm. clear Hrx. rewrite Ht1 in Ht. clear Ht1 Hdel1.
  generalize dependent (after_command I2C_CMD_READ m1).
  intros m2 He Hb Hs Hst Hnw Hm Ht. clear m1.
  assert (Hdel2 : delivers n m2) by (apply (delivers_shift n m m2 He Hst Hnw Hdel)).
  rewrite (xfer_payload_read_received msg (msg_buf msg) (msg_len msg) (with_ret 0 v) m2
             Hrd); [|rewrite Hb; lia|rewrite <- En; exact Hdel2].
  rewrite <- En. cbn [fst snd].
  destruct (i2c_read_loop_receives n m2) as
    (_ & He' & Hst' & Hnw' & _ & Hs' & Hmem' & Hframe' & evs' & Ht' & Hw' & Ha');
    [rewrite Hb; lia|exact Hdel2|].
  split; [reflexivity|]. split; [congruence|]. split; [lia|]. split; [lia|].
  split; [destruct Hs' as [H|H]; congruence|].
  split; [|split].
  - intros k Hk. destruct k as [|k].
    + rewrite Hframe' by (rewrite Hb; lia). rewrite Hm.
      replace (msg_buf msg + Z.of_nat 0) with (msg_buf msg) by lia.
      apply lookup_insert_eq.
    + replace (msg_buf msg + Z.of_nat (S k)) with (buf m2 + 1 + Z.of_nat k)
        by (rewrite Hb; lia).
      rewrite Hmem' by lia. rewrite (rx_byte_shift m m2 k He Hst). reflexivity.
  - intros a Ha0. rewrite Hframe' by (rewrite Hb; lia). rewrite Hm.
    apply lookup_insert_ne. lia.
  - exists (([EvWritel (masteraddr_of msg) I2C_MASTERADDR] ++ evs) ++ evs').
    split; [rewrite Ht', Ht, !app_assoc; reflexivity|].
    replace (S n - 1)%nat with n by lia.
    split; [rewrite !cmd_writes_app, Hw, Hw'; reflexivity|].
    rewrite !omap_app, Ha, Ha'. reflexivity.
Qed.

(** X18.  Reading from a device that sends.  One read message of [n] bytes into
    a buffer that does not start at address 0; the controller answers the
    READ command and each of the [n - 1] NOP commands with a receive
    interrupt, and acknowledges the STOP.  Then the transfer reports one
    message done; the [n] bytes are in the buffer in the order they came, the
    first of them having come with the READ itself; memory outside the
    buffer is as it was; the cursor is cleared; and the registers got the
    message's address, READ, the NOPs and STOP. *)
Theorem xfer_read_stores_bytes (msg : i2c_msg) (m : machine) :
  let n := Z.to_nat (msg_len msg) in
  1 <= msg_len msg ->
  Z.land (msg_flags msg) I2C_M_RD <> 0 ->
  Z.land (msg_flags msg) I2C_M_NOSTART = 0 ->
  0 < msg_buf msg ->
  delivers n m -> then_acknowledges n m ->
  let m' := snd (ns9xxx_i2c_xfer [msg] m) in
  fst (ns9xxx_i2c_xfer [msg] m) = 1 /\
  (forall k : nat, (k < n)%nat ->
     mem m' !! (msg_buf msg + Z.of_nat k) = Some (rx_byte m k)) /\
  (forall a : Z, a < msg_buf msg \/ msg_buf msg + Z.of_nat n <= a ->
     mem m' !! a = mem m !! a) /\
  buf m' = NULL /\
  cmd_writes (events_since m m')
  = I2C_CMD_READ :: replicate (n - 1) I2C_CMD_NOP ++ [I2C_CMD_STOP] /\
  omap masteraddr_write_of (events_since m m') = [masteraddr_of msg].
Proof.
  cbv zeta. intros Hlen Hrd Hns Hp Hdel Hstop.
  rewrite xfer_unfold. cbv zeta. rewrite run_store_state. cbn [snd].
  set (m0 := set_trace (trace m ++ [EvSetState I2C_INT_OK]) (set_state I2C_INT_OK m)).
  assert (Hdel0 : delivers (Z.to_nat (msg_len msg)) m0) by exact Hdel.
  assert (Hrx0 : forall k, rx_byte m0 k = rx_byte m k) by reflexivity.
  assert (Hs0 : state m0 <> I2C_INT_RETRY) by discriminate.
  assert (Ht0 : trace m0 = trace m ++ [EvSetState I2C_INT_OK]) by reflexivity.
  assert (Hm0 : mem m0 = mem m) by reflexivity.
  assert (Hc0 : env m0 = env m /\ n_status m0 = n_status m /\ n_wait m0 = n_wait m)
    by (repeat split; reflexivity).
  clearbody m0.
  change (xfer_fuel [msg]) with 12%nat.
  rewrite xfer_loop_S. change ([msg] !! x_i xfer_init) with (Some msg).
  cbv iota. rewrite (xfer_body_not_retry msg xfer_init m0 Hs0).
  destruct (xfer_message_read_received msg xfer_init m0 Hlen Hrd Hns Hp Hdel0)
    as (Hf & He & Hst & Hnw & Hs & Hmem & Hframe & evs & Ht & Hw & Ha).
  rewrite Hf.
  generalize dependent (snd (xfer_message msg xfer_init m0)).
  intros m1 He Hst Hnw Hs Hmem Hframe Ht.
  rewrite xfer_loop_S. cbn [x_i with_i with_ret xfer_init lookup list_lookup fst snd].
  destruct Hc0 as (He0 & Hst0 & Hnw0).
  assert (Hans : answers_next m1).
  { destruct Hstop as (H1 & H2 & H3). unfold answers_next.
    rewrite He, He0, Hst, Hst0, Hnw, Hnw0.
    replace (S (n_status m + 2 * Z.to_nat (msg_len msg)))%nat
      with ((n_status m + 2 * Z.to_nat (msg_len msg)) + 1)%nat by lia.
    split; [exact H2|]. split; [exact H1|]. rewrite H3. reflexivity. }
  rewrite (xfer_finish_answered _ m1 Hans). cbn [fst snd x_ret x_i with_i with_ret].
  destruct (after_command_fields I2C_CMD_STOP m1)
    as (_ & _ & _ & _ & _ & _ & Hm2 & evs2 & Ht2 & Hw2 & Ha2).
  assert (Hm2' : mem (after_command I2C_CMD_STOP m1) = mem m1).
  { rewrite Hm2. unfold mem_after_irq. destruct Hstop as (_ & _ & H3).
    rewrite He, He0, Hst, Hst0.
    replace (S (n_status m + 2 * Z.to_nat (msg_len msg)))%nat
      with ((n_status m + 2 * Z.to_nat (msg_len msg)) + 1)%nat by lia.
    rewrite H3. reflexivity. }
  generalize dependent (after_command I2C_CMD_STOP m1). intros m2 _ Ht2 Hm2'.
  cbn [buf set_buf mem trace].
  split; [reflexivity|]. split; [|split; [|split; [reflexivity|]]].
  - intros k Hk. rewrite Hm2', (Hmem k Hk). rewrite Hrx0. reflexivity.
  - intros a Ha0. rewrite Hm2', (Hframe a Ha0). rewrite Hm0. reflexivity.
  - erewrite events_since_app.
    2:{ cbn [trace set_buf]. rewrite Ht2, Ht, Ht0. repeat rewrite <- app_assoc.
        reflexivity. }
    rewrite !cmd_writes_app, !omap_app, Hw, Hw2, Ha, Ha2. split; reflexivity.
Qed.

Lemma xfer_read_stores_bytes_witness :
  delivers 2 sending_machine /\ then_acknowledges 2 sending_machine /\
  fst (ns9xxx_i2c_xfer [read_msg] sending_machine) = 1 /\
  mem (snd (ns9xxx_i2c_xfer [read_msg] sending_machine)) !! 3000 = Some 0xc1 /\
  mem (snd (ns9xxx_i2c_xfer [read_msg] sending_machine)) !! 3001 = Some 0xc2.
Proof.
  assert (Hd : delivers 2 sending_machine).
  { intros k Hk. destruct k as [|[|k]]; [| |lia]; repeat split; reflexivity. }
  assert (Ha : then_acknowledges 2 sending_machine) by (repeat split; reflexivity).
  split; [exact Hd|]. split; [exact Ha|].
  destruct (xfer_read_stores_bytes read_msg sending_machine) as (Hr & Hm & _);
    [cbn; lia|vm_compute; discriminate|reflexivity|cbn; lia|exact Hd|exact Ha|].
  split; [exact Hr|]. split.
  - apply (Hm 0%nat). cbn. lia.
  - apply (Hm 1%nat). cbn. lia.
Defined.

(** ** Addressing *)

Lemma other_reg_masteraddr (e : event) :
  other_reg_write_of e = None -> masteraddr_write_of e = None.
Proof.
  destruct e; cbn; try reflexivity.
  destruct (Z.eqb_spec off I2C_CONFIG) as [->|]; [reflexivity|discriminate].
Qed.

Lemma wait_while_busy_no_address :
  preserves (quiet masteraddr_write_of) ns9xxx_wait_while_busy.
Proof.
  intros m. destruct (wait_while_busy_other_regs m) as (evs & Ht & Hq).
  exists evs. split; [exact Ht|].
  apply (omap_nil_weaken other_reg_write_of); [apply other_reg_masteraddr|exact Hq].
Qed.

#[local] Hint Resolve wait_while_busy_no_address : frames.

Lemma store_state_quiet {B : Type} (pick : event -> option B) (s : i2c_int_state) :
  pick (EvSetState s) = None -> preserves (quiet pick) (store_state s).
Proof.
  intros H m. exists [EvSetState s]. split; [reflexivity|].
  cbn. rewrite H. reflexivity.
Qed.

#[local] Hint Extern 1 (preserves (quiet _) (store_state _)) =>
  apply store_state_quiet; reflexivity : frames.

Lemma irq_no_address : preserves (quiet masteraddr_write_of) ns9xxx_i2c_irq.
Proof. unfold ns9xxx_i2c_irq. frame. Qed.

#[local] Hint Resolve irq_no_address : frames.

Lemma wait_no_address (t : Z) :
  preserves (quiet masteraddr_write_of) (wait_event_interruptible_timeout t).
Proof. unfold wait_event_interruptible_timeout. frame. Qed.

#[local] Hint Resolve wait_no_address : frames.

Lemma send_cmd_no_address (cmd : Z) :
  preserves (quiet masteraddr_write_of) (ns9xxx_i2c_send_cmd cmd).
Proof. unfold ns9xxx_i2c_send_cmd. frame. Qed.

#[local] Hint Resolve send_cmd_no_address : frames.

Lemma i2c_read_loop_no_address (n : nat) :
  preserves (quiet masteraddr_write_of) (i2c_read_loop n).
Proof. induction n as [|n IH]; simpl; frame. Qed.

Lemma i2c_write_loop_no_address (n : nat) (p : Z) :
  preserves (quiet masteraddr_write_of) (i2c_write_loop n p).
Proof. revert p. induction n as [|n IH]; intros p; simpl; frame. Qed.

#[local] Hint Resolve i2c_read_loop_no_address i2c_write_loop_no_address : frames.

Lemma xfer_payload_no_address (msg : i2c_msg) (p len : Z) (v : xfer_vars) :
  preserves (quiet masteraddr_write_of) (xfer_payload msg p len v).
Proof. unfold xfer_payload, xfer_failed, ns9xxx_i2c_read, ns9xxx_i2c_write. frame. Qed.

#[local] Hint Resolve xfer_payload_no_address : frames.

Lemma masteraddr_of_value (msg : i2c_msg) :
  masteraddr_of msg
  = 2 * (msg_addr msg mod 2048)
    + (if Z.land (msg_flags msg) I2C_M_TEN =? 0 then 0 else 1).
Proof.
  unfold masteraddr_of.
  change I2C_MASTERADDR_ADDRMASK with (Z.ones 11). rewrite Z.land_ones by lia.
  change (2 ^ 11) with 2048. change I2C_MASTERADDR_ADDRSHIFT with 1.
  rewrite Z.shiftl_mul_pow2 by lia. change (2 ^ 1) with 2.
  rewrite (Z.mul_comm _ 2).
  destruct (Z.land (msg_flags msg) I2C_M_TEN =? 0).
  - change I2C_MASTERADDR_7BIT with 0. rewrite Z.lor_0_r. lia.
  - change I2C_MASTERADDR_10BIT with 1.
    rewrite <- Z.add_nocarry_lor; [reflexivity|].
    change 1 with (Z.ones 1). rewrite Z.land_ones by lia.
    change (2 ^ 1) with 2. rewrite Z.mul_comm. apply Z.mod_mul. lia.
Qed.

(** X19.  Addressing, whatever the hardware does.  For a message with data and
    without I2C_M_NOSTART the first thing done is the one write of the
    master address register, with twice the address taken modulo 2048, plus
    1 for a ten-bit address: address bits from the twelfth up are dropped
    without complaint, for seven-bit addressing too.  For a message with
    I2C_M_NOSTART the address register is not written. *)
Theorem xfer_message_address (msg : i2c_msg) (v : xfer_vars) (m : machine) :
  msg_len msg <> 0 ->
  let evs := events_since m (snd (xfer_message msg v m)) in
  omap masteraddr_write_of evs = option_list (addressed msg) /\
  (Z.land (msg_flags msg) I2C_M_NOSTART = 0 ->
   exists rest, evs = EvWritel (masteraddr_of msg) I2C_MASTERADDR :: rest) /\
  masteraddr_of msg
  = 2 * (msg_addr msg mod 2048)
    + (if Z.land (msg_flags msg) I2C_M_TEN =? 0 then 0 else 1).
Proof.
  intros Hlen. cbv zeta. split; [|split; [|apply masteraddr_of_value]].
  - unfold xfer_message, addressed. cbv zeta. rewrite run_bind, run_modify.
    cbn [fst snd]. apply Z.eqb_neq in Hlen. rewrite Hlen.
    set (m0 := set_buf (msg_buf msg) m).
    assert (Hev : forall x, events_since m x = events_since m0 x) by reflexivity.
    rewrite Hev.
    destruct (Z.land (msg_flags msg) I2C_M_NOSTART =? 0); cbn [negb option_list].
    + rewrite masteraddr_of_eq, run_bind, run_writel_masteraddr. cbn [fst snd].
      set (m1 := set_trace _ (set_reg_masteraddr _ m0)).
      set (k := if negb (Z.land (msg_flags msg) I2C_M_RD =? 0) then _ else _).
      assert (Hk : preserves (quiet masteraddr_write_of) k)
        by (unfold k, xfer_failed; frame).
      destruct (Hk m1) as (evs & Ht & Hq).
      erewrite events_since_app.
      2:{ rewrite Ht. unfold m1. cbn [trace set_trace].
          rewrite <- app_assoc. reflexivity. }
      rewrite omap_app, Hq. reflexivity.
    + apply quiet_events_since, xfer_payload_no_address.
  - intros Hns. unfold xfer_message. cbv zeta. rewrite run_bind, run_modify.
    cbn [fst snd]. apply Z.eqb_neq in Hlen. rewrite Hlen, Hns. cbn [Z.eqb negb].
    set (m0 := set_buf (msg_buf msg) m).
    assert (Hev : forall x, events_since m x = events_since m0 x) by reflexivity.
    rewrite Hev.
    rewrite masteraddr_of_eq, run_bind, run_writel_masteraddr. cbn [fst snd].
    set (m1 := set_trace _ (set_reg_masteraddr _ m0)).
    set (k := if negb (Z.land (msg_flags msg) I2C_M_RD =? 0) then _ else _).
    assert (Hk : preserves (quiet masteraddr_write_of) k)
      by (unfold k, xfer_failed; frame).
    destruct (Hk m1) as (evs & Ht & Hq).
    exists evs. apply events_since_app. rewrite Ht. unfold m1.
    cbn [trace set_trace]. rewrite <- app_assoc. reflexivity.
Qed.

Lemma xfer_message_address_witness :
  msg_len wide_msg <> 0 /\
  omap masteraddr_write_of
       (events_since silent_machine
          (snd (xfer_message wide_msg xfer_init silent_machine)))
  = [0xa0].
Proof.
  split; [discriminate|].
  destruct (xfer_message_address wide_msg xfer_init silent_machine) as (H & _);
    [discriminate|].
  exact H.
Defined.

(** ** Platform glue *)

Lemma run_kbind {A B : Type} (c : K A) (k : A -> K B) (s : system) :
  kbind c k s = k (fst (c s)) (snd (c s)).
Proof. unfold kbind. destruct (c s); reflexivity. Qed.

Lemma run_on_dev {A : Type} (c : M A) (s : system) :
  on_dev c s = (fst (c (dev s)), set_dev (snd (c (dev s))) s).
Proof. unfold on_dev. destruct (c (dev s)); reflexivity. Qed.

Lemma system_ext (a b : system) :
  dev a = dev b -> dd_mem a = dd_mem b -> dd_ioaddr a = dd_ioaddr b ->
  held a = held b -> released_unheld a = released_unheld b ->
  drvdata a = drvdata b -> a = b.
Proof. destruct a, b. cbn. intros. subst. reflexivity. Qed.

Lemma resource_eqb_refl (r : resource) : resource_eqb r r = true.
Proof. destruct r; cbn; rewrite ?Z.eqb_refl; reflexivity. Qed.

(** Releasing what was acquired last takes it off the list. *)
Lemma release_head (r : resource) (h : list resource) (s : system) :
  held s = r :: h -> release r s = (tt, set_held h s).
Proof.
  intros H. unfold release, kmodify. rewrite H. cbn [existsb remove_first].
  rewrite resource_eqb_refl. reflexivity.
Qed.

Lemma run_kret {A : Type} (a : A) (s : system) : kret a s = (a, s).
Proof. reflexivity. Qed.

Lemma run_kgets {A : Type} (f : system -> A) (s : system) : kgets f s = (f s, s).
Proof. reflexivity. Qed.

Lemma run_kmodify (f : system -> system) (s : system) : kmodify f s = (tt, f s).
Proof. reflexivity. Qed.

Lemma run_acquire (r : resource) (s : system) :
  acquire r s = (tt, set_held (r :: held s) s).
Proof. reflexivity. Qed.

Lemma run_on_dev_gets {A : Type} (f : machine -> A) (s : system) :
  on_dev (gets f) s = (f (dev s), s).
Proof. destruct s. reflexivity. Qed.

Lemma run_on_dev_modify (f : machine -> machine) (s : system) :
  on_dev (modify f) s = (tt, set_dev (f (dev s)) s).
Proof. reflexivity. Qed.

(** Fields of systems built with setters. *)
Ltac kfields :=
  cbn [fst snd dev dd_mem dd_ioaddr held released_unheld drvdata
       set_dev set_dd_mem set_dd_ioaddr set_held set_released_unheld set_drvdata
       env pdata buf irq state adap_timeout reg_masteraddr
       reg_config mem jiffies n_status n_wait n_gpio trace
       set_buf set_state set_reg_masteraddr set_reg_config set_mem
       set_jiffies set_n_status set_n_wait set_n_gpio set_trace
       set_pdata set_irq set_adap_timeout zeroed negb].

(** Straight-line glue code is run up to the next case distinction. *)
Ltac kexec :=
  repeat (rewrite ?run_kbind, ?run_kret, ?run_kgets, ?run_kmodify, ?run_acquire,
            ?run_on_dev_gets, ?run_on_dev_modify;
          kfields).

Ltac kfields_in H :=
  cbn [fst snd dev dd_mem dd_ioaddr held released_unheld drvdata
       set_dev set_dd_mem set_dd_ioaddr set_held set_released_unheld set_drvdata
       env pdata buf irq state adap_timeout reg_masteraddr
       reg_config mem jiffies n_status n_wait n_gpio trace
       set_buf set_state set_reg_masteraddr set_reg_config set_mem
       set_jiffies set_n_status set_n_wait set_n_gpio set_trace
       set_pdata set_irq set_adap_timeout zeroed negb] in H.

Ltac kexec_in H :=
  repeat (rewrite ?run_kbind, ?run_kret, ?run_kgets, ?run_kmodify, ?run_acquire,
            ?run_on_dev_gets, ?run_on_dev_modify in H;
          kfields_in H).

Lemma err_alloc_dd_held (ret : Z) (h : list resource) (s : system) :
  held s = drop 8 (acquired s) ++ h ->
  err_alloc_dd true ret s = (ret, set_held h s).
Proof.
  intros H. unfold err_alloc_dd, kfree. rewrite run_kbind.
  rewrite (release_head _ h s H). reflexivity.
Qed.

Lemma err_map_mem_held (ret : Z) (h : list resource) (s : system) :
  held s = drop 7 (acquired s) ++ h ->
  err_map_mem ret s = (ret, set_held h s).
Proof.
  intros H. unfold err_map_mem, release_mem_region.
  rewrite run_kbind, run_kgets. cbn [fst snd].
  rewrite run_kbind, (release_head _ (drop 8 (acquired s) ++ h) s H). cbn [fst snd].
  rewrite (err_alloc_dd_held ret h); reflexivity.
Qed.

Lemma err_gpio_scl_held (ret : Z) (h : list resource) (s : system) :
  held s = drop 6 (acquired s) ++ h ->
  err_gpio_scl ret s = (ret, set_held h s).
Proof.
  intros H. unfold err_gpio_scl, iounmap.
  rewrite run_kbind, run_kgets. cbn [fst snd].
  rewrite run_kbind, (release_head _ (drop 7 (acquired s) ++ h) s H). cbn [fst snd].
  rewrite (err_map_mem_held ret h); reflexivity.
Qed.

Lemma err_gpio_sda_held (ret : Z) (h : list resource) (s : system) :
  held s = drop 5 (acquired s) ++ h ->
  err_gpio_sda ret s = (ret, set_held h s).
Proof.
  intros H. unfold err_gpio_sda, gpio_free.
  rewrite run_kbind, run_on_dev_gets. cbn [fst snd].
  rewrite run_kbind, (release_head _ (drop 6 (acquired s) ++ h) s H). cbn [fst snd].
  rewrite (err_gpio_scl_held ret h); reflexivity.
Qed.

Lemma err_clk_get_held (ret : Z) (h : list resource) (s : system) :
  held s = drop 4 (acquired s) ++ h ->
  err_clk_get ret s = (ret, set_held h s).
Proof.
  intros H. unfold err_clk_get, gpio_free.
  rewrite run_kbind, run_on_dev_gets. cbn [fst snd].
  rewrite run_kbind, (release_head _ (drop 5 (acquired s) ++ h) s H). cbn [fst snd].
  rewrite (err_gpio_sda_held ret h); reflexivity.
Qed.

Lemma err_clk_enable_held (ret : Z) (h : list resource) (s : system) :
  held s = drop 3 (acquired s) ++ h ->
  err_clk_enable ret s = (ret, set_held h s).
Proof.
  intros H. unfold err_clk_enable, clk_put.
  rewrite run_kbind, (release_head _ (drop 4 (acquired s) ++ h) s H). cbn [fst snd].
  rewrite (err_clk_get_held ret h); reflexivity.
Qed.

Lemma err_cfg_gpio_held (ret : Z) (h : list resource) (s : system) :
  held s = drop 2 (acquired s) ++ h ->
  err_cfg_gpio ret s = (ret, set_held h s).
Proof.
  intros H. unfold err_cfg_gpio, clk_disable.
  rewrite run_kbind, (release_head _ (drop 3 (acquired s) ++ h) s H). cbn [fst snd].
  rewrite (err_clk_enable_held ret h); reflexivity.
Qed.

Lemma err_add_adap_held (ret : Z) (h : list resource) (s : system) :
  held s = drop 1 (acquired s) ++ h ->
  err_add_adap ret s = (ret, set_held h s).
Proof.
  intros H. unfold err_add_adap, free_irq.
  rewrite run_kbind, run_on_dev_gets. cbn [fst snd].
  rewrite run_kbind, (release_head _ (drop 2 (acquired s) ++ h) s H). cbn [fst snd].
  rewrite (err_cfg_gpio_held ret h); reflexivity.
Qed.

(** Remove releases all a bound driver holds, in the reverse order of the
    probe routine. *)
Lemma remove_held (h : list resource) (s : system) :
  held s = acquired s ++ h ->
  ns9xxx_i2c_remove s = (0, set_held h s).
Proof.
  intros H. unfold ns9xxx_i2c_remove, i2c_del_adapter, free_irq, clk_disable,
    clk_put, gpio_free, iounmap, release_mem_region, kfree.
  rewrite run_kbind, (release_head _ (drop 1 (acquired s) ++ h) s H). cbn [fst snd].
  rewrite run_kbind, run_on_dev_gets. cbn [fst snd dev set_held].
  rewrite run_kbind, (release_head _ (drop 2 (acquired s) ++ h)) by reflexivity.
  cbn [fst snd].
  rewrite run_kbind, (release_head _ (drop 3 (acquired s) ++ h)) by reflexivity.
  cbn [fst snd].
  rewrite run_kbind, (release_head _ (drop 4 (acquired s) ++ h)) by reflexivity.
  cbn [fst snd].
  rewrite run_kbind, run_on_dev_gets. cbn [fst snd dev set_held].
  rewrite run_kbind, (release_head _ (drop 5 (acquired s) ++ h)) by reflexivity.
  cbn [fst snd].
  rewrite run_kbind, run_on_dev_gets. cbn [fst snd dev set_held].
  rewrite run_kbind, (release_head _ (drop 6 (acquired s) ++ h)) by reflexivity.
  cbn [fst snd].
  rewrite run_kbind, run_kgets. cbn [fst snd dd_ioaddr set_held].
  rewrite run_kbind, (release_head _ (drop 7 (acquired s) ++ h)) by reflexivity.
  cbn [fst snd].
  rewrite run_kbind, run_kgets. cbn [fst snd dd_mem set_held].
  rewrite run_kbind, (release_head _ (drop 8 (acquired s) ++ h)) by reflexivity.
  cbn [fst snd].
  rewrite run_kbind, (release_head _ h) by reflexivity.
  reflexivity.
Qed.

Lemma PTR_ERR_not_zero (p : Z) : IS_ERR p = true -> PTR_ERR p <> 0.
Proof.
  unfold IS_ERR, PTR_ERR, s32, MAX_ERRNO. intros H. apply Z.leb_le in H.
  assert (Hu : 0 <= u32 p < 2 ^ 32) by (apply Z.mod_pos_bound; reflexivity).
  destruct (Z.ltb_spec (u32 p) (2 ^ 31)); lia.
Qed.

(** The clock set-up of the probe routine, on a configuration register
    that holds the initial value. *)
Lemma probe_set_clock (sp : Z) (m : machine) :
  reg_config m = 0x9e00 ->
  let c := if negb (sp =? 0) then ns9xxx_i2c_set_clock sp
           else ns9xxx_i2c_set_clock I2C_NORMALSPEED in
  let speed := if sp =? 0 then I2C_NORMALSPEED else sp in
  let rate := u32 (clk_rate (env m)) in
  let delay := scl_delay (env m) in
  unchanged_dev m (snd (c m)) /\
  (fst (c m) = 0 ->
   (speed = I2C_NORMALSPEED /\
    Z.land (reg_config (snd (c m))) (Z.lnot I2C_CONFIG_IRQD)
    = Z.lor 0x1e00
        (Z.land (u32 (u32 (rate / (4 * I2C_NORMALSPEED) - 4) - delay) / 2) 0x1ff)) \/
   (speed = I2C_HIGHSPEED /\ CONFIG_MACH_CME9210JS (env m) = false /\
    Z.land (reg_config (snd (c m))) (Z.lnot I2C_CONFIG_IRQD)
    = Z.lor 0x5e00
        (Z.land (u32 (u32 (u32 (rate / (4 * I2C_HIGHSPEED) - 4) - delay) * 2) / 3)
                0x1ff))).
Proof.
  intros Hc. cbv zeta.
  assert (Heq : (if negb (sp =? 0) then ns9xxx_i2c_set_clock sp
                 else ns9xxx_i2c_set_clock I2C_NORMALSPEED)
                = ns9xxx_i2c_set_clock (if sp =? 0 then I2C_NORMALSPEED else sp))
    by (destruct (sp =? 0); reflexivity).
  rewrite Heq. generalize (if sp =? 0 then I2C_NORMALSPEED else sp). intros f.
  split; [apply set_clock_unchanged_dev|].
  intros Hr. destruct (set_clock_accepts f m Hr) as [->|[Hcfg ->]].
  - left. split; [reflexivity|].
    destruct (set_clock_normal m) as (_ & H & _). rewrite H, Hc.
    rewrite reinit_config_normal. reflexivity.
  - right. split; [reflexivity|]. split; [exact Hcfg|].
    destruct (set_clock_fast m Hcfg) as (_ & H & _). rewrite H, Hc.
    rewrite reinit_config_fast. reflexivity.
Qed.

Lemma probing_acquire (pdev : platform_device) (pd : plat_ns9xxx_i2c) (rg : Z * Z)
      (s0 : system) (j : nat) (r : resource) (s : system) :
  probing pdev pd rg s0 (S j) s ->
  acquired s !! j = Some r ->
  probing pdev pd rg s0 j (set_held (r :: held s) s).
Proof.
  intros (Hh & Hrest) Hr. split; [|exact Hrest].
  cbn [held set_held]. change (acquired (set_held (r :: held s) s)) with (acquired s).
  rewrite Hh, (drop_S _ _ _ Hr). reflexivity.
Qed.

Lemma probing_on_dev (pdev : platform_device) (pd : plat_ns9xxx_i2c) (rg : Z * Z)
      (s0 : system) (j : nat) (m' : machine) (s : system) :
  probing pdev pd rg s0 j s ->
  unchanged_dev (dev s) m' ->
  probing pdev pd rg s0 j (set_dev m' s).
Proof.
  intros (Hh & Hu & Hm & Ha & Hd & He & Hp & Hi & Ht & Hb & Hs)
         (He' & Hp' & Hi' & Ht' & Hs' & Hb' & _).
  unfold probing, acquired in *. cbn [held dev dd_mem dd_ioaddr released_unheld
                                      drvdata set_dev] in *.
  rewrite He', Hp', Hi', Ht', Hs', Hb'.
  repeat (split; [assumption|]). assumption.
Qed.

Lemma probing_held (pdev : platform_device) (pd : plat_ns9xxx_i2c) (rg : Z * Z)
      (s0 : system) (j : nat) (s : system) :
  probing pdev pd rg s0 j s -> held s = drop j (acquired s) ++ held s0.
Proof. intros (H & _). exact H. Qed.

Lemma probing_ioaddr (pdev : platform_device) (pd : plat_ns9xxx_i2c) (rg : Z * Z)
      (s0 : system) (j : nat) (s : system) :
  probing pdev pd rg s0 j s -> dd_ioaddr s = u32 (pd_ioremap pdev).
Proof. intros (_ & _ & _ & H & _). exact H. Qed.

Lemma probing_pdata (pdev : platform_device) (pd : plat_ns9xxx_i2c) (rg : Z * Z)
      (s0 : system) (j : nat) (s : system) :
  probing pdev pd rg s0 j s -> pdata (dev s) = pd.
Proof. intros (_ & _ & _ & _ & _ & _ & H & _). exact H. Qed.

Lemma probing_irq (pdev : platform_device) (pd : plat_ns9xxx_i2c) (rg : Z * Z)
      (s0 : system) (j : nat) (s : system) :
  probing pdev pd rg s0 j s -> irq (dev s) = pd_irq pdev.
Proof. intros (_ & _ & _ & _ & _ & _ & _ & H & _). exact H. Qed.

Lemma probing_unheld (pdev : platform_device) (pd : plat_ns9xxx_i2c) (rg : Z * Z)
      (s0 : system) (j : nat) (s : system) :
  probing pdev pd rg s0 j s -> released_unheld s = released_unheld s0.
Proof. intros (_ & H & _). exact H. Qed.

Lemma probing_env (pdev : platform_device) (pd : plat_ns9xxx_i2c) (rg : Z * Z)
      (s0 : system) (j : nat) (s : system) :
  probing pdev pd rg s0 j s -> env (dev s) = env (dev s0).
Proof. intros (_ & _ & _ & _ & _ & H & _). exact H. Qed.

(** A failure exit of the probe routine: everything is handed back. *)
Lemma probe_failed (s0 : system) (ret r : Z) (h : list resource) (s s' : system) :
  (ret, set_held (held s0) s) = (r, s') ->
  ret <> 0 -> released_unheld s = released_unheld s0 ->
  r <> 0 /\ held s' = held s0 /\ released_unheld s' = released_unheld s0.
Proof.
  intros Heq Hr Hu. injection Heq as <- <-. repeat split; assumption.
Qed.

(** The two ways a probe call ends.  Either it fails: the result is not
    0 and everything acquired on the way has been released again, nothing
    else has, and nothing twice.  Or it returns 0 and the driver holds the
    nine resources of [acquired], every request having been granted; the
    adapter is set up with the platform's data and interrupt, a timeout of
    HZ / 10 ticks and no receive buffer, and the controller configured with
    the interrupt enabled, the spike filter at 15 and the divider of the
    platform speed. *)
Lemma probe_outcome (pdev : platform_device) (s : system) :
  let r := fst (ns9xxx_i2c_probe pdev s) in
  let s' := snd (ns9xxx_i2c_probe pdev s) in
  let rate := u32 (clk_rate (env (dev s))) in
  let delay := scl_delay (env (dev s)) in
  (r <> 0 /\ held s' = held s /\ released_unheld s' = released_unheld s) \/
  (r = 0 /\ held s' = acquired s' ++ held s /\
   released_unheld s' = released_unheld s /\
   pd_platform_data pdev = Some (pdata (dev s')) /\
   irq (dev s') = pd_irq pdev /\ 0 < irq (dev s') /\
   pd_mem pdev = Some (dd_mem s') /\
   dd_ioaddr s' = u32 (pd_ioremap pdev) /\ dd_ioaddr s' <> 0 /\
   adap_timeout (dev s') = Z.quot (HZ (env (dev s))) 10 /\
   buf (dev s') = NULL /\ state (dev s') = I2C_INT_AWAITING /\
   drvdata s' = true /\
   let speed := if speed (pdata (dev s')) =? 0 then I2C_NORMALSPEED
                else speed (pdata (dev s')) in
   (speed = I2C_NORMALSPEED /\
    reg_config (dev s')
    = Z.lor 0x1e00
        (Z.land (u32 (u32 (rate / (4 * I2C_NORMALSPEED) - 4) - delay) / 2) 0x1ff)) \/
   (speed = I2C_HIGHSPEED /\ CONFIG_MACH_CME9210JS (env (dev s)) = false /\
    reg_config (dev s')
    = Z.lor 0x5e00
        (Z.land (u32 (u32 (u32 (rate / (4 * I2C_HIGHSPEED) - 4) - delay) * 2) / 3)
                0x1ff))).
Proof.
  cbv zeta. destruct (ns9xxx_i2c_probe pdev s) as [r s'] eqn:E. cbn [fst snd].
  unfold ns9xxx_i2c_probe, kzalloc, platform_set_drvdata in E.
  destruct (pd_kzalloc pdev); kexec_in E.
  2:{ left. unfold err_alloc_dd, kfree in E. kexec_in E.
      injection E as <- <-. split; [discriminate|]. split; reflexivity. }
  destruct (pd_platform_data pdev) as [pd|].
  2:{ left. rewrite (err_alloc_dd_held _ (held s)) in E by reflexivity.
      apply (probe_failed s _ _ [] _ _ E); [discriminate|reflexivity]. }
  kexec_in E. destruct (Z.leb_spec (pd_irq pdev) 0) as [Hirq|Hirq].
  { left. rewrite (err_alloc_dd_held _ (held s)) in E by reflexivity.
    apply (probe_failed s _ _ [] _ _ E); [discriminate|reflexivity]. }
  destruct (pd_mem pdev) as [rg|].
  2:{ left. rewrite (err_alloc_dd_held _ (held s)) in E by reflexivity.
      apply (probe_failed s _ _ [] _ _ E); [discriminate|reflexivity]. }
  kexec_in E. destruct (pd_request_mem_region pdev); cbn [negb] in E.
  2:{ left. rewrite (err_alloc_dd_held _ (held s)) in E by reflexivity.
      apply (probe_failed s _ _ [] _ _ E); [discriminate|reflexivity]. }
  kexec_in E.
  (* the region is held: from here on the state is known by [probing] *)
  match type of E with _ ?st = _ => set (s3 := st) in E end.
  assert (P3 : probing pdev pd rg s 7 s3) by (repeat split; reflexivity).
  clearbody s3.
  destruct (Z.leb_spec (u32 (pd_ioremap pdev)) 0) as [Hio|Hio].
  { left. rewrite (err_map_mem_held _ (held s) s3 (probing_held _ _ _ _ _ _ P3)) in E.
    apply (probe_failed s _ _ [] _ _ E); [discriminate|exact (probing_unheld _ _ _ _ _ _ P3)]. }
  rewrite run_kbind, run_acquire in E. cbn [fst snd] in E.
  assert (P4 := probing_acquire _ _ _ _ 6 (ResIoMap (u32 (pd_ioremap pdev))) s3 P3).
  match type of E with _ ?st = _ => set (s4 := st) in *  end.
  specialize (P4 ltac:(cbn; rewrite (probing_ioaddr _ _ _ _ _ _ P3); reflexivity)).
  clearbody s4. clear s3 P3.
  destruct (pd_gpio_request_scl pdev =? 0); cbn [negb] in E.
  2:{ left. rewrite (err_gpio_scl_held _ (held s) s4 (probing_held _ _ _ _ _ _ P4)) in E.
      apply (probe_failed s _ _ [] _ _ E); [discriminate|exact (probing_unheld _ _ _ _ _ _ P4)]. }
  rewrite run_kbind, run_acquire in E. cbn [fst snd] in E.
  assert (P5 := probing_acquire _ _ _ _ 5 (ResGpio (gpio_scl pd)) s4 P4).
  match type of E with _ ?st = _ => set (s5 := st) in *  end.
  specialize (P5 ltac:(cbn; rewrite (probing_pdata _ _ _ _ _ _ P4); reflexivity)).
  clearbody s5. clear s4 P4.
  destruct (pd_gpio_request_sda pdev =? 0); cbn [negb] in E.
  2:{ left. rewrite (err_gpio_sda_held _ (held s) s5 (probing_held _ _ _ _ _ _ P5)) in E.
      apply (probe_failed s _ _ [] _ _ E); [discriminate|exact (probing_unheld _ _ _ _ _ _ P5)]. }
  rewrite run_kbind, run_acquire in E. cbn [fst snd] in E.
  assert (P6 := probing_acquire _ _ _ _ 4 (ResGpio (gpio_sda pd)) s5 P5).
  match type of E with _ ?st = _ => set (s6 := st) in *  end.
  specialize (P6 ltac:(cbn; rewrite (probing_pdata _ _ _ _ _ _ P5); reflexivity)).
  clearbody s6. clear s5 P5.
  cbv zeta in E. destruct (IS_ERR (pd_clk_get pdev)) eqn:Hclk.
  { left. rewrite (err_clk_get_held _ (held s) s6 (probing_held _ _ _ _ _ _ P6)) in E.
    apply (probe_failed s _ _ [] _ _ E);
      [apply PTR_ERR_not_zero; exact Hclk|exact (probing_unheld _ _ _ _ _ _ P6)]. }
  rewrite run_kbind, run_acquire in E. cbn [fst snd] in E.
  assert (P7 := probing_acquire _ _ _ _ 3 ResClk s6 P6 eq_refl).
  match type of E with _ ?st = _ => set (s7 := st) in *  end.
  clearbody s7. clear s6 P6.
  destruct (Z.eqb_spec (pd_clk_enable pdev) 0) as [Hen|Hen]; cbn [negb] in E.
  2:{ left. rewrite (err_clk_enable_held _ (held s) s7 (probing_held _ _ _ _ _ _ P7)) in E.
      apply (probe_failed s _ _ [] _ _ E); [exact Hen|exact (probing_unheld _ _ _ _ _ _ P7)]. }
  rewrite run_kbind, run_acquire in E. cbn [fst snd] in E.
  assert (P8 := probing_acquire _ _ _ _ 2 ResClkEnabled s7 P7 eq_refl).
  match type of E with _ ?st = _ => set (s8 := st) in *  end.
  clearbody s8. clear s7 P7.
  destruct (pd_gpio_configuration_func pdev); cbn [negb] in E.
  2:{ left. rewrite (err_cfg_gpio_held _ (held s) s8 (probing_held _ _ _ _ _ _ P8)) in E.
      apply (probe_failed s _ _ [] _ _ E); [discriminate|exact (probing_unheld _ _ _ _ _ _ P8)]. }
  (* the controller is configured *)
  rewrite run_kbind, run_on_dev in E. cbn [fst snd] in E.
  assert (P9 := probing_on_dev _ _ _ _ _ _ s8 P8
                  (emit_unchanged_dev EvGpioConfigurationFunc (dev s8))).
  fold gpio_configuration_func in P9.
  match type of E with _ ?st = _ => set (s9 := st) in *  end.
  clearbody s9. clear s8 P8.
  rewrite run_kbind, run_on_dev in E. cbn [fst snd] in E.
  assert (Pa := probing_on_dev _ _ _ _ _ _ s9 P9
                  (writel_unchanged_dev
                     (Z.lor I2C_CONFIG_IRQD (Z.shiftl 0xf I2C_CONFIG_SFW_SHIFT))
                     I2C_CONFIG (dev s9))).
  assert (Hca : reg_config
                  (snd (writel (Z.lor I2C_CONFIG_IRQD (Z.shiftl 0xf I2C_CONFIG_SFW_SHIFT))
                               I2C_CONFIG (dev s9))) = 0x9e00) by reflexivity.
  match type of E with _ ?st = _ => set (sa := st) in *  end.
  change (snd (writel _ I2C_CONFIG (dev s9))) with (dev sa) in Hca.
  clearbody sa. clear s9 P9.
  rewrite run_kbind, run_on_dev in E. cbn [fst snd] in E.
  destruct (probe_set_clock (speed pd) (dev sa) Hca) as [Hu Hcfg].
  cbv zeta in Hu, Hcfg.
  assert (Pb := probing_on_dev _ _ _ _ _ _ sa Pa Hu).
  assert (Hea := probing_env _ _ _ _ _ _ Pa).
  rewrite Hea in Hcfg. clear Hu Hca Hea.
  set (c := (if negb (speed pd =? 0) then ns9xxx_i2c_set_clock (speed pd)
             else ns9xxx_i2c_set_clock I2C_NORMALSPEED) (dev sa)) in *.
  clearbody c. destruct c as [ret m1]. cbn [fst snd] in *.
  match type of E with _ ?st = _ => set (sb := st) in *  end.
  assert (Hcb : reg_config (dev sb) = reg_config m1) by reflexivity.
  clearbody sb. clear sa Pa.
  destruct (Z.eqb_spec ret 0) as [Hret|Hret]; cbn [negb] in E.
  2:{ left. rewrite (err_cfg_gpio_held _ (held s) sb (probing_held _ _ _ _ _ _ Pb)) in E.
      apply (probe_failed s _ _ [] _ _ E); [exact Hret|exact (probing_unheld _ _ _ _ _ _ Pb)]. }
  specialize (Hcfg Hret). rewrite <- Hcb in Hcfg. clear Hcb m1.
  cbv zeta in E.
  destruct (Z.eqb_spec (pd_request_irq pdev) 0) as [Hrq|Hrq]; cbn [negb] in E.
  2:{ left. rewrite (err_cfg_gpio_held _ (held s) sb (probing_held _ _ _ _ _ _ Pb)) in E.
      apply (probe_failed s _ _ [] _ _ E); [discriminate|exact (probing_unheld _ _ _ _ _ _ Pb)]. }
  rewrite run_kbind, run_acquire in E. cbn [fst snd] in E.
  assert (Pc := probing_acquire _ _ _ _ 1 (ResIrq (pd_irq pdev)) sb Pb).
  match type of E with _ ?st = _ => set (sc := st) in *  end.
  specialize (Pc ltac:(cbn; rewrite (probing_irq _ _ _ _ _ _ Pb); reflexivity)).
  assert (Hcc : reg_config (dev sc) = reg_config (dev sb)) by reflexivity.
  rewrite <- Hcc in Hcfg. clearbody sc. clear sb Pb Hcc.
  (* Enable I2C interrupt now *)
  rewrite run_kbind, run_on_dev, !run_readl_config in E. cbn [fst snd] in E.
  rewrite run_kbind, run_on_dev, !run_writel_config in E. cbn [fst snd] in E.
  match type of E with _ ?st = _ => set (sd := st) in *  end.
  assert (Pd : probing pdev pd rg s 1 sd).
  { unfold sd.
    apply (probing_on_dev _ _ _ _ _ (snd (writel _ I2C_CONFIG _))).
    - apply (probing_on_dev _ _ _ _ _ (snd (readl I2C_CONFIG (dev sc))) sc Pc).
      apply readl_unchanged_dev.
    - apply writel_unchanged_dev. }
  assert (Hcd : reg_config (dev sd)
                = Z.land (reg_config (dev sc)) (Z.lnot I2C_CONFIG_IRQD)) by reflexivity.
  rewrite <- Hcd in Hcfg. clearbody sd. clear sc Pc Hcd.
  cbv zeta in E. destruct (Z.ltb_spec (pd_add_adapter pdev) 0) as [Hadd|Hadd].
  { left. rewrite (err_add_adap_held _ (held s) sd (probing_held _ _ _ _ _ _ Pd)) in E.
    apply (probe_failed s _ _ [] _ _ E); [lia|exact (probing_unheld _ _ _ _ _ _ Pd)]. }
  rewrite run_kbind, run_acquire in E. cbn [fst snd] in E. rewrite run_kret in E.
  assert (Pe := probing_acquire _ _ _ _ 0 ResAdapter sd Pd eq_refl).
  assert (Hce : reg_config (dev (set_held (ResAdapter :: held sd) sd))
                = reg_config (dev sd)) by reflexivity.
  rewrite <- Hce in Hcfg. clear Hce.
  injection E as <- <-.
  generalize dependent (set_held (ResAdapter :: held sd) sd).
  intros se Hcfg (Hh & Hu & Hm & Ha & Hd & He & Hp & Hi & Ht & Hb & Hs).
  right. split; [reflexivity|]. split; [exact Hh|]. split; [exact Hu|].
  split; [rewrite Hp; reflexivity|]. split; [exact Hi|]. split; [lia|].
  split; [rewrite Hm; reflexivity|]. split; [exact Ha|]. split; [lia|].
  split; [exact Ht|]. split; [exact Hb|]. split; [exact Hs|].
  split; [exact Hd|]. rewrite Hp. exact Hcfg.
Qed.
(** *** Probe and remove *)

(** X20.  A probe call that fails leaves nothing behind: whatever it had taken
    before the failing step (memory, the register region and its mapping,
    the two pins, the clock and its enable, the interrupt line) has been
    given back, latest first, and it released nothing that it did not
    hold.  This holds for every way the kernel can answer the requests. *)
Theorem probe_failure_releases_everything (pdev : platform_device) (s : system) :
  fst (ns9xxx_i2c_probe pdev s) <> 0 ->
  held (snd (ns9xxx_i2c_probe pdev s)) = held s /\
  released_unheld (snd (ns9xxx_i2c_probe pdev s)) = released_unheld s.
Proof.
  intros Hr. destruct (probe_outcome pdev s) as [(_ & Hh & Hu)|(H0 & _)].
  - split; assumption.
  - contradiction.
Qed.

Lemma probe_failure_releases_everything_witness :
  fst (ns9xxx_i2c_probe bad_speed_pdev (unbound clock_machine)) <> 0 /\
  held (snd (ns9xxx_i2c_probe bad_speed_pdev (unbound clock_machine))) = [] /\
  released_unheld (snd (ns9xxx_i2c_probe bad_speed_pdev (unbound clock_machine))) = [].
Proof.
  assert (Hr : fst (ns9xxx_i2c_probe bad_speed_pdev (unbound clock_machine)) <> 0)
    by (vm_compute; discriminate).
  split; [exact Hr|].
  exact (probe_failure_releases_everything bad_speed_pdev (unbound clock_machine) Hr).
Defined.

(** X21.  A probe call that returns 0 holds exactly the nine resources that the
    remove routine hands back, on top of what was held before: the adapter,
    the interrupt line, the enabled clock, the clock, both pins, the
    mapping, the register region and the device memory, named by what the
    device data now records.  The device data records the platform data, a
    positive interrupt number, the memory resource and a mapping that is
    not NULL, and it is the driver data of the platform device. *)
Theorem probe_success_holds_resources (pdev : platform_device) (s : system) :
  fst (ns9xxx_i2c_probe pdev s) = 0 ->
  let s' := snd (ns9xxx_i2c_probe pdev s) in
  held s' = acquired s' ++ held s /\
  released_unheld s' = released_unheld s /\
  pd_platform_data pdev = Some (pdata (dev s')) /\
  irq (dev s') = pd_irq pdev /\ 0 < irq (dev s') /\
  pd_mem pdev = Some (dd_mem s') /\
  dd_ioaddr s' = u32 (pd_ioremap pdev) /\ dd_ioaddr s' <> 0 /\
  drvdata s' = true.
Proof.
  intros Hr. cbv zeta.
  destruct (probe_outcome pdev s)
    as [(Hn & _)|(_ & Hh & Hu & Hp & Hi & Hi' & Hm & Ha & Ha' & _ & _ & _ & Hd & _)].
  - contradiction.
  - repeat (split; [assumption|]). assumption.
Qed.

Lemma probe_success_holds_resources_witness :
  fst (ns9xxx_i2c_probe good_pdev (unbound clock_machine)) = 0 /\
  held (snd (ns9xxx_i2c_probe good_pdev (unbound clock_machine)))
  = [ResAdapter; ResIrq 35; ResClkEnabled; ResClk; ResGpio 103; ResGpio 102;
     ResIoMap 0xf0050000; ResMemRegion 0x90050000 16; ResDevData].
Proof.
  assert (Hr : fst (ns9xxx_i2c_probe good_pdev (unbound clock_machine)) = 0)
    by (vm_compute; reflexivity).
  split; [exact Hr|].
  destruct (probe_success_holds_resources good_pdev (unbound clock_machine) Hr)
    as (Hh & _).
  rewrite Hh. vm_compute. reflexivity.
Defined.

(** X22.  A probe call that returns 0 leaves the adapter ready for transfers: the
    timeout is HZ / 10 ticks, there is no receive buffer, the completion
    state is Awaiting, and the configuration register has the interrupt
    enabled, the spike filter at 15 and the divider of the platform speed,
    100 kHz when the platform gives none.  Any other speed than 100 kHz or
    400 kHz makes the probe fail. *)
Theorem probe_success_configures (pdev : platform_device) (s : system) :
  fst (ns9xxx_i2c_probe pdev s) = 0 ->
  let s' := snd (ns9xxx_i2c_probe pdev s) in
  let rate := u32 (clk_rate (env (dev s))) in
  let delay := scl_delay (env (dev s)) in
  let speed := if speed (pdata (dev s')) =? 0 then I2C_NORMALSPEED
               else speed (pdata (dev s')) in
  adap_timeout (dev s') = Z.quot (HZ (env (dev s))) 10 /\
  buf (dev s') = NULL /\ state (dev s') = I2C_INT_AWAITING /\
  ((speed = I2C_NORMALSPEED /\
    reg_config (dev s')
    = Z.lor 0x1e00
        (Z.land (u32 (u32 (rate / (4 * I2C_NORMALSPEED) - 4) - delay) / 2) 0x1ff)) \/
   (speed = I2C_HIGHSPEED /\ CONFIG_MACH_CME9210JS (env (dev s)) = false /\
    reg_config (dev s')
    = Z.lor 0x5e00
        (Z.land (u32 (u32 (u32 (rate / (4 * I2C_HIGHSPEED) - 4) - delay) * 2) / 3)
                0x1ff))).
Proof.
  intros Hr. cbv zeta.
  destruct (probe_outcome pdev s)
    as [(Hn & _)|(_ & _ & _ & _ & _ & _ & _ & _ & _ & Ht & Hb & Hs & _ & Hc)].
  - contradiction.
  - split; [exact Ht|]. split; [exact Hb|]. split; [exact Hs|]. exact Hc.
Qed.

Lemma probe_success_configures_witness :
  fst (ns9xxx_i2c_probe good_pdev (unbound clock_machine)) = 0 /\
  adap_timeout (dev (snd (ns9xxx_i2c_probe good_pdev (unbound clock_machine)))) = 10 /\
  state (dev (snd (ns9xxx_i2c_probe good_pdev (unbound clock_machine))))
  = I2C_INT_AWAITING.
Proof.
  assert (Hr : fst (ns9xxx_i2c_probe good_pdev (unbound clock_machine)) = 0)
    by (vm_compute; reflexivity).
  split; [exact Hr|].
  destruct (probe_success_configures good_pdev (unbound clock_machine) Hr)
    as (Ht & _ & Hs & _).
  split; [exact Ht|exact Hs].
Defined.

(** X23.  Probe and remove are inverse on the resources: after a probe call that
    returned 0, the remove routine returns 0, finds each of the nine
    resources it releases among those held, and leaves exactly what was held
    before the probe; the device data and the controller are not touched by
    it. *)
Theorem probe_remove_round_trip (pdev : platform_device) (s : system) :
  fst (ns9xxx_i2c_probe pdev s) = 0 ->
  let s' := snd (ns9xxx_i2c_probe pdev s) in
  ns9xxx_i2c_remove s' = (0, set_held (held s) s') /\
  released_unheld (snd (ns9xxx_i2c_remove s')) = released_unheld s.
Proof.
  intros Hr. cbv zeta.
  destruct (probe_outcome pdev s) as [(Hn & _)|(_ & Hh & Hu & _)].
  - contradiction.
  - rewrite (remove_held (held s) _ Hh). split; [reflexivity|exact Hu].
Qed.

Lemma probe_remove_round_trip_witness :
  fst (ns9xxx_i2c_probe good_pdev (unbound clock_machine)) = 0 /\
  fst (ns9xxx_i2c_remove (snd (ns9xxx_i2c_probe good_pdev (unbound clock_machine)))) = 0 /\
  held (snd (ns9xxx_i2c_remove
               (snd (ns9xxx_i2c_probe good_pdev (unbound clock_machine))))) = [].
Proof.
  assert (Hr : fst (ns9xxx_i2c_probe good_pdev (unbound clock_machine)) = 0)
    by (vm_compute; reflexivity).
  split; [exact Hr|].
  destruct (probe_remove_round_trip good_pdev (unbound clock_machine) Hr) as (He & _).
  rewrite He. split; reflexivity.
Defined.
